(** * VC4 KMS: atomic check and commit of the display pipeline

    A shallow embedding of [drivers/gpu/drm/vc4/vc4_kms.c]: the three private
    state objects (CTM, HVS channels, load tracker), the checks run by
    [vc4_atomic_check], and the commit path [vc4_atomic_commit] /
    [vc4_atomic_complete_commit].

    C integers are values of [Z] with the wrap-around of their type written
    out; pointers to private states are addresses in an explicit heap, so
    that the copy made by [kmemdup] and the object it was copied from are
    different cells. *)

From Stdlib Require Import ZArith Lia Bool List.
From stdpp Require Import base list.
Import ListNotations.

Local Open Scope Z_scope.

(** ** Machine integers and kernel bit macros *)

Definition u16 (z : Z) : Z := z mod 2 ^ 16.
Definition u32 (z : Z) : Z := z mod 2 ^ 32.
Definition u64 (z : Z) : Z := z mod 2 ^ 64.

(** [BIT(n)], [BIT_ULL(n)]: [1 << n]. *)
Definition BIT (n : Z) : Z := Z.shiftl 1 n.
Definition BIT_ULL (n : Z) : Z := Z.shiftl 1 n.

(** [GENMASK(h, l)], [GENMASK_ULL(h, l)]: bits [l..h] set. *)
Definition GENMASK (h l : Z) : Z := Z.shiftl (Z.ones (h + 1 - l)) l.
Definition GENMASK_ULL (h l : Z) : Z := Z.shiftl (Z.ones (h + 1 - l)) l.

(** [ffs(x)]: one plus the index of the least significant set bit, 0 when
    there is none. *)
Fixpoint pos_ctz (p : positive) : Z :=
  match p with
  | xO q => 1 + pos_ctz q
  | _ => 0
  end.

Definition ffs (x : Z) : Z :=
  match x with
  | Zpos p => pos_ctz p + 1
  | _ => 0
  end.

(** errno values used by the file. *)
Definition EINTR : Z := 4.
Definition ENOMEM : Z := 12.
Definition EINVAL : Z := 22.
Definition ENOSPC : Z := 28.
Definition EDEADLK : Z := 35.

Definition SZ_512M : Z := 536870912.
Definition SZ_1G : Z := 1073741824.

Definition HVS_NUM_CHANNELS : Z := 3.

(** [VC4_HVS_CHANNEL_DISABLED] is [(unsigned int)-1]. *)
Definition VC4_HVS_CHANNEL_DISABLED : Z := u32 (-1).

(** ** S31.32 to S0.9 *)

(** Converts a DRM S31.32 value to the HW S0.9 format. *)
Definition vc4_ctm_s31_32_to_s0_9 (inp : Z) : Z :=
  (* Sign bit. *)
  let r := if Z.land inp (BIT_ULL 63) =? 0 then 0 else BIT 9 in
  if Z.land inp (GENMASK_ULL 62 32) >? 0 then
    (* We have zero integer bits so we can only saturate here. *)
    u16 (Z.lor r (GENMASK 8 0))
  else
    (* Otherwise take the 9 most important fractional bits. *)
    u16 (Z.lor r (Z.land (Z.shiftr inp 23) (GENMASK 8 0))).

(** [ARRAY_SIZE(ctm->matrix)]: [struct drm_color_ctm] holds [__u64 matrix[9]]. *)
Definition ARRAY_SIZE_matrix : nat := 9.

(** Conversion of an [unsigned int] to [int]. *)
Definition int_of_u32 (z : Z) : Z := if z <? 2 ^ 31 then z else z - 2 ^ 32.

(** ** Data model *)

(** [struct drm_color_ctm]: nine S31.32 sign-magnitude coefficients. *)
Record drm_color_ctm := { matrix : list Z }.

(** [struct drm_property_blob]: the object a CRTC state's [ctm] pointer
    refers to.  Two pointers are equal when they name the same blob. *)
Record drm_property_blob := {
  base_id : Z;
  data : drm_color_ctm
}.

Record vc4_ctm_state := {
  ctm : option drm_color_ctm;
  fifo : Z
}.

Record vc4_hvs_state := {
  unassigned_channels : Z;
  num_outputs : Z;
  fifo_load : Z;
  core_clock_rate : Z
}.

Record vc4_load_tracker_state := {
  hvs_load : Z;
  membus_load : Z
}.

(** A [struct drm_private_state] is the base of one of the three concrete
    states; [container_of] recovers the concrete one. *)
Inductive drm_private_state :=
| CtmState (s : vc4_ctm_state)
| HvsState (s : vc4_hvs_state)
| LoadState (s : vc4_load_tracker_state).

(** The three [struct drm_private_obj] of [struct vc4_dev]. *)
Inductive drm_private_obj := ctm_manager | load_tracker | hvs_channels.

(** The parts of [struct vc4_dev] the file reads.  [hvs5] stands for
    [vc4->hvs && vc4->hvs->hvs5]; [async_modeset] is the count of the
    semaphore; the three addresses are the [state] pointers of the private
    objects, the published versions. *)
Record vc4_dev := {
  firmware_kms : bool;
  load_tracker_enabled : bool;
  hvs5 : bool;
  async_modeset : nat;
  ctm_manager_state : nat;
  load_tracker_state : nat;
  hvs_channels_state : nat
}.

Definition obj_state (vc4 : vc4_dev) (obj : drm_private_obj) : nat :=
  match obj with
  | ctm_manager => ctm_manager_state vc4
  | load_tracker => load_tracker_state vc4
  | hvs_channels => hvs_channels_state vc4
  end.

(** [struct vc4_crtc_data], reached through [vc4_crtc->data]. *)
Record vc4_crtc := {
  hvs_available_channels : Z;
  hvs_output : Z
}.

(** [struct vc4_crtc_state] with the fields of its base
    [struct drm_crtc_state] that the file reads: [enable], [active], the
    [ctm] blob pointer ([crtc_ctm]) and whether [commit] is set. *)
Record vc4_crtc_state := {
  enable : bool;
  active : bool;
  crtc_ctm : option drm_property_blob;
  commit : bool;
  assigned_channel : Z;
  update_muxing : bool;
  feed_txp : bool;
  crtc_hvs_load : Z
}.

(** [struct vc4_plane_state] with [fb] and [crtc] of its base
    [struct drm_plane_state]. *)
Record vc4_plane_state := {
  fb : option Z;
  crtc : option nat;
  plane_membus_load : Z;
  plane_hvs_load : Z
}.

(** One used slot of [state->crtcs[]], [state->planes[]] and
    [state->private_objs[]]. *)
Record drm_crtcs_state := {
  ptr : vc4_crtc;
  old_state : vc4_crtc_state;
  new_state : vc4_crtc_state
}.

Record drm_planes_state := {
  old_plane_state : vc4_plane_state;
  new_plane_state : vc4_plane_state
}.

Record drm_private_objs_state := {
  obj_ptr : drm_private_obj;
  obj_old_state : nat;
  obj_new_state : nat
}.

(** [struct drm_atomic_state].  A slot of [crtcs] or [planes] whose [ptr] is
    NULL is [None].  [acquire_ctx] is what [drm_modeset_lock] answers for
    this transaction's acquire context: 0, or a negative errno. *)
Record drm_atomic_state := {
  crtcs : list (option drm_crtcs_state);
  planes : list (option drm_planes_state);
  private_objs : list drm_private_objs_state;
  acquire_ctx : Z
}.

(** ** Memory and the computation monad *)

(** Pointers to private states: NULL, an [ERR_PTR] carrying a negative
    errno, or the address of a cell. *)
Inductive pointer := NULL | ERR_PTR (e : Z) | Addr (a : nat).

Definition IS_ERR (p : pointer) : bool :=
  match p with ERR_PTR _ => true | _ => false end.

Definition PTR_ERR (p : pointer) : Z :=
  match p with ERR_PTR e => e | _ => 0 end.

Definition is_NULL (p : pointer) : bool :=
  match p with NULL => true | _ => false end.

(** What a check runs on: the cells holding private states, the number of
    allocations the slab will still grant (then [kmalloc] returns NULL), and
    the transaction being checked. *)
Record machine := {
  mem : list drm_private_state;
  slab : nat;
  txn : drm_atomic_state
}.

(** A call either returns a value and a machine, or does not return
    ([None]): it dereferenced a pointer that is no cell of the right type, or
    it never leaves a loop. *)
Definition M (A : Type) : Type := machine -> option (A * machine).

Definition ret {A} (a : A) : M A := fun m => Some (a, m).

Definition bind {A B} (c : M A) (f : A -> M B) : M B :=
  fun m => match c m with
           | Some (a, m') => f a m'
           | None => None
           end.

Definition oops {A} : M A := fun _ => None.

Declare Scope kms_scope.
Delimit Scope kms_scope with kms.
Notation "x <- c ;; k" := (bind c (fun x => k))
  (at level 100, c at next level, right associativity) : kms_scope.
Notation "c ;;; k" := (bind c (fun _ => k))
  (at level 100, right associativity) : kms_scope.
Local Open Scope kms_scope.

Definition get_state : M drm_atomic_state := fun m => Some (txn m, m).

Definition put_state (st : drm_atomic_state) : M unit :=
  fun m => Some (tt, {| mem := mem m; slab := slab m; txn := st |}).

Definition read (p : pointer) : M drm_private_state :=
  fun m => match p with
           | Addr a => match mem m !! a with
                       | Some v => Some (v, m)
                       | None => None
                       end
           | _ => None
           end.

Definition write (p : pointer) (v : drm_private_state) : M unit :=
  fun m => match p with
           | Addr a => match mem m !! a with
                       | Some _ =>
                           Some (tt, {| mem := <[a := v]> (mem m);
                                        slab := slab m; txn := txn m |})
                       | None => None
                       end
           | _ => None
           end.

(** [kmalloc]/[kzalloc]/[kmemdup] of one object initialised to [v]. *)
Definition kmalloc (v : drm_private_state) : M pointer :=
  fun m => match slab m with
           | O => Some (NULL, m)
           | S n => Some (Addr (length (mem m)),
                          {| mem := mem m ++ [v]; slab := n; txn := txn m |})
           end.

(** Field access after the [container_of] casts. *)
Definition load_ctm (p : pointer) : M vc4_ctm_state :=
  v <- read p ;; match v with CtmState s => ret s | _ => oops end.

Definition load_hvs (p : pointer) : M vc4_hvs_state :=
  v <- read p ;; match v with HvsState s => ret s | _ => oops end.

Definition load_load (p : pointer) : M vc4_load_tracker_state :=
  v <- read p ;; match v with LoadState s => ret s | _ => oops end.

Definition set_fifo (v : Z) (s : vc4_ctm_state) : vc4_ctm_state :=
  {| ctm := ctm s; fifo := v |}.

Definition set_ctm (c : option drm_color_ctm) (s : vc4_ctm_state) : vc4_ctm_state :=
  {| ctm := c; fifo := fifo s |}.

Definition set_unassigned_channels (v : Z) (s : vc4_hvs_state) : vc4_hvs_state :=
  {| unassigned_channels := v; num_outputs := num_outputs s;
     fifo_load := fifo_load s; core_clock_rate := core_clock_rate s |}.

Definition set_num_outputs (v : Z) (s : vc4_hvs_state) : vc4_hvs_state :=
  {| unassigned_channels := unassigned_channels s; num_outputs := v;
     fifo_load := fifo_load s; core_clock_rate := core_clock_rate s |}.

Definition set_fifo_load (v : Z) (s : vc4_hvs_state) : vc4_hvs_state :=
  {| unassigned_channels := unassigned_channels s; num_outputs := num_outputs s;
     fifo_load := v; core_clock_rate := core_clock_rate s |}.

Definition set_core_clock_rate (v : Z) (s : vc4_hvs_state) : vc4_hvs_state :=
  {| unassigned_channels := unassigned_channels s; num_outputs := num_outputs s;
     fifo_load := fifo_load s; core_clock_rate := v |}.

Definition set_hvs_load (v : Z) (s : vc4_load_tracker_state) : vc4_load_tracker_state :=
  {| hvs_load := v; membus_load := membus_load s |}.

Definition set_membus_load (v : Z) (s : vc4_load_tracker_state) : vc4_load_tracker_state :=
  {| hvs_load := hvs_load s; membus_load := v |}.

Definition set_update_muxing (v : bool) (s : vc4_crtc_state) : vc4_crtc_state :=
  {| enable := enable s; active := active s; crtc_ctm := crtc_ctm s;
     commit := commit s; assigned_channel := assigned_channel s;
     update_muxing := v; feed_txp := feed_txp s;
     crtc_hvs_load := crtc_hvs_load s |}.

Definition set_assigned_channel (v : Z) (s : vc4_crtc_state) : vc4_crtc_state :=
  {| enable := enable s; active := active s; crtc_ctm := crtc_ctm s;
     commit := commit s; assigned_channel := v;
     update_muxing := update_muxing s; feed_txp := feed_txp s;
     crtc_hvs_load := crtc_hvs_load s |}.

(** [p->field = v] for the three kinds of private state. *)
Definition modify_ctm (p : pointer) (f : vc4_ctm_state -> vc4_ctm_state) : M unit :=
  s <- load_ctm p ;; write p (CtmState (f s)).

Definition modify_hvs (p : pointer) (f : vc4_hvs_state -> vc4_hvs_state) : M unit :=
  s <- load_hvs p ;; write p (HvsState (f s)).

Definition modify_load (p : pointer)
    (f : vc4_load_tracker_state -> vc4_load_tracker_state) : M unit :=
  s <- load_load p ;; write p (LoadState (f s)).

(** A write to the new state of the CRTC in slot [i] of the transaction. *)
Definition modify_new_crtc_state (i : nat)
    (f : vc4_crtc_state -> vc4_crtc_state) : M unit :=
  st <- get_state ;;
  match crtcs st !! i with
  | Some (Some e) =>
      put_state {| crtcs := <[i := Some {| ptr := ptr e; old_state := old_state e;
                                            new_state := f (new_state e) |}]> (crtcs st);
                   planes := planes st;
                   private_objs := private_objs st;
                   acquire_ctx := acquire_ctx st |}
  | _ => oops
  end.

(** ** Duplication of the private states *)

(** [kmemdup] of one private state: NULL when the slab grants nothing,
    else a new cell holding what [src] holds. *)
Definition kmemdup (src : pointer) : M pointer :=
  fun m => match slab m with
           | O => Some (NULL, m)
           | S _ => (v <- read src ;; kmalloc v) m
           end.

Definition zero_ctm_state : vc4_ctm_state := {| ctm := None; fifo := 0 |}.

Definition zero_hvs_state : vc4_hvs_state :=
  {| unassigned_channels := 0; num_outputs := 0; fifo_load := 0;
     core_clock_rate := 0 |}.

Definition zero_load_tracker_state : vc4_load_tracker_state :=
  {| hvs_load := 0; membus_load := 0 |}.

Definition vc4_ctm_duplicate_state (vc4 : vc4_dev) : M pointer :=
  state <- kmemdup (Addr (obj_state vc4 ctm_manager)) ;;
  if is_NULL state then ret NULL else ret state.

Definition vc4_load_tracker_duplicate_state (vc4 : vc4_dev) : M pointer :=
  state <- kmemdup (Addr (obj_state vc4 load_tracker)) ;;
  if is_NULL state then ret NULL else ret state.

Definition vc4_hvs_channels_duplicate_state (vc4 : vc4_dev) : M pointer :=
  let old_state := Addr (obj_state vc4 hvs_channels) in
  state <- kmalloc (HvsState zero_hvs_state) ;;
  if is_NULL state then ret NULL else
  old <- load_hvs old_state ;;
  modify_hvs state (set_unassigned_channels (unassigned_channels old)) ;;;
  old <- load_hvs old_state ;;
  modify_hvs state (set_fifo_load (fifo_load old)) ;;;
  old <- load_hvs old_state ;;
  modify_hvs state (set_num_outputs (num_outputs old)) ;;;
  old <- load_hvs old_state ;;
  modify_hvs state (set_core_clock_rate (core_clock_rate old)) ;;;
  ret state.

(** [obj->funcs->atomic_duplicate_state(obj)], by the [funcs] tables the
    three [*_obj_init] functions register. *)
Definition atomic_duplicate_state (vc4 : vc4_dev) (obj : drm_private_obj) : M pointer :=
  match obj with
  | ctm_manager => vc4_ctm_duplicate_state vc4
  | load_tracker => vc4_load_tracker_duplicate_state vc4
  | hvs_channels => vc4_hvs_channels_duplicate_state vc4
  end.

(** ** The transaction framework *)

Definition drm_private_obj_eqb (a b : drm_private_obj) : bool :=
  match a, b with
  | ctm_manager, ctm_manager
  | load_tracker, load_tracker
  | hvs_channels, hvs_channels => true
  | _, _ => false
  end.

(** Modelled from the spec: [drm_modeset_lock] of the DRM core, which is
    outside this source tree; the spec has each step acquire the resource's
    modeset lock before it obtains its private copy.  The answer is the one
    the transaction's acquire context holds. *)
Definition drm_modeset_lock : M Z :=
  st <- get_state ;; ret (acquire_ctx st).

(** Modelled from the spec: the framework's read of a private copy the
    transaction already holds ([drm_atomic_get_new_private_obj_state] of the
    DRM core); NULL when the object is not part of the transaction. *)
Definition drm_atomic_get_new_private_obj_state (obj : drm_private_obj) : M pointer :=
  st <- get_state ;;
  match find (fun e => drm_private_obj_eqb (obj_ptr e) obj) (private_objs st) with
  | Some e => ret (Addr (obj_new_state e))
  | None => ret NULL
  end.

(** Modelled from the spec: the framework's obtain-private-copy operation
    ([drm_atomic_get_private_obj_state] of the DRM core).  A transaction that
    already holds a copy of the object gets that copy; otherwise the object
    is locked, duplicated by its [atomic_duplicate_state], and the copy is
    recorded in the transaction with the published state as its old state. *)
Definition drm_atomic_get_private_obj_state (vc4 : vc4_dev)
    (obj : drm_private_obj) : M pointer :=
  st <- get_state ;;
  match find (fun e => drm_private_obj_eqb (obj_ptr e) obj) (private_objs st) with
  | Some e => ret (Addr (obj_new_state e))
  | None =>
      r <- drm_modeset_lock ;;
      if negb (r =? 0) then ret (ERR_PTR r) else
      obj_state_ <- atomic_duplicate_state vc4 obj ;;
      match obj_state_ with
      | Addr a =>
          st <- get_state ;;
          put_state {| crtcs := crtcs st;
                       planes := planes st;
                       private_objs :=
                         private_objs st ++
                         [{| obj_ptr := obj; obj_old_state := obj_state vc4 obj;
                             obj_new_state := a |}];
                       acquire_ctx := acquire_ctx st |} ;;;
          ret (Addr a)
      | _ => ret (ERR_PTR (- ENOMEM))
      end
  end.

(** Control flow of a loop body: go on with the loop's local variables, or
    return from the enclosing function. *)
Inductive flow (A : Type) :=
| Continue (a : A)
| Return (r : Z).
Arguments Continue {A} a.
Arguments Return {A} r.

(** [for (i = i0; i < i0 + n; i++) body], for a body that leaves [i] alone. *)
Fixpoint for_index {A} (n i : nat) (a : A)
    (body : nat -> A -> M (flow A)) : M (flow A) :=
  match n with
  | O => ret (Continue a)
  | S n' =>
      f <- body i a ;;
      match f with
      | Continue a' => for_index n' (S i) a' body
      | Return r => ret (Return r)
      end
  end.

(** [for (; i < n; i++) body], for a body that may assign [i]: the body
    hands back the value [i] has when it ends.  [fuel] bounds the number of
    rounds; a loop that has not ended by then does not return. *)
Fixpoint for_index_var {A} (fuel n i : nat) (a : A)
    (body : nat -> A -> M (flow (A * nat))) : M (flow A) :=
  match fuel with
  | O => oops
  | S fuel' =>
      if (i <? n)%nat then
        f <- body i a ;;
        match f with
        | Continue (a', i') => for_index_var fuel' n (S i') a' body
        | Return r => ret (Return r)
        end
      else ret (Continue a)
  end.

(** The macro [for_each_oldnew_crtc_in_state(state, crtc, old, new, i)] of
    [drm/drm_atomic.h]: [i] runs over [0 .. num_crtc - 1] and the body is
    run for the slots of [state->crtcs[]] that are used. *)
Definition for_each_oldnew_crtc_in_state {A} (a : A)
    (body : nat -> drm_crtcs_state -> A -> M (flow A)) : M (flow A) :=
  st <- get_state ;;
  for_index (length (crtcs st)) 0 a
    (fun i a =>
       st <- get_state ;;
       match crtcs st !! i with
       | Some (Some e) => body i e a
       | _ => ret (Continue a)
       end).

(** The same macro for a body that assigns the index variable.  A run of the
    loop that ends visits increasing slots (an assignment can only move [i]
    to [ARRAY_SIZE(ctm->matrix)], see [vc4_ctm_atomic_check]), so
    [num_crtc + 1] rounds are enough for every run that ends. *)
Definition for_each_oldnew_crtc_in_state_var {A} (a : A)
    (body : nat -> drm_crtcs_state -> A -> M (flow (A * nat))) : M (flow A) :=
  st <- get_state ;;
  for_index_var (S (length (crtcs st))) (length (crtcs st)) 0 a
    (fun i a =>
       st <- get_state ;;
       match crtcs st !! i with
       | Some (Some e) => body i e a
       | _ => ret (Continue (a, i))
       end).

(** [for_each_oldnew_plane_in_state]. *)
Definition for_each_oldnew_plane_in_state {A} (a : A)
    (body : nat -> drm_planes_state -> A -> M (flow A)) : M (flow A) :=
  st <- get_state ;;
  for_index (length (planes st)) 0 a
    (fun i a =>
       st <- get_state ;;
       match planes st !! i with
       | Some (Some e) => body i e a
       | _ => ret (Continue a)
       end).

(** ** The checks of [vc4_kms.c] *)

Definition vc4_get_ctm_state (vc4 : vc4_dev) : M pointer :=
  r <- drm_modeset_lock ;;
  if negb (r =? 0) then ret (ERR_PTR r) else
  priv_state <- drm_atomic_get_private_obj_state vc4 ctm_manager ;;
  if IS_ERR priv_state then ret (ERR_PTR (PTR_ERR priv_state)) else
  ret priv_state.

Definition vc4_hvs_get_new_global_state : M pointer :=
  priv_state <- drm_atomic_get_new_private_obj_state hvs_channels ;;
  if IS_ERR priv_state then ret (ERR_PTR (PTR_ERR priv_state)) else
  ret priv_state.

Definition vc4_hvs_get_global_state (vc4 : vc4_dev) : M pointer :=
  priv_state <- drm_atomic_get_private_obj_state vc4 hvs_channels ;;
  if IS_ERR priv_state then ret (ERR_PTR (PTR_ERR priv_state)) else
  ret priv_state.

(** [new_crtc_state->ctm == old_crtc_state->ctm] on blob pointers. *)
Definition blob_ptr_eqb (a b : option drm_property_blob) : bool :=
  match a, b with
  | None, None => true
  | Some x, Some y => base_id x =? base_id y
  | _, _ => false
  end.

Definition is_set {A} (o : option A) : bool :=
  match o with Some _ => true | None => false end.

(** The loop over the nine scalars of a matrix.  It runs on the index
    variable [i] of the enclosing loop over the CRTCs: [i] is what it hands
    back when no scalar is refused. *)
Fixpoint ctm_scalars_loop (m : list Z) (n i : nat) : flow nat :=
  match n with
  | O => Continue i
  | S n' =>
      let val := default 0 (m !! i) in
      let val := Z.land val (u64 (Z.lnot (BIT_ULL 63))) in
      if val >? BIT_ULL 32 then Return (- EINVAL)
      else ctm_scalars_loop m n' (S i)
  end.

(** The body of the first loop of [vc4_ctm_atomic_check], for the CRTC in
    slot [i]; [ctm_state] is the function's local variable. *)
Definition ctm_release_crtc (vc4 : vc4_dev) (i : nat) (e : drm_crtcs_state)
    (ctm_state : pointer) : M (flow pointer) :=
  (* CTM is being disabled. *)
  if negb (is_set (crtc_ctm (new_state e))) && is_set (crtc_ctm (old_state e))
  then
    ctm_state <- vc4_get_ctm_state vc4 ;;
    if IS_ERR ctm_state then ret (Return (PTR_ERR ctm_state)) else
    modify_ctm ctm_state (set_fifo 0) ;;;
    ret (Continue ctm_state)
  else ret (Continue ctm_state).

(** The body of its second loop.  The loop over the scalars runs on the same
    index variable [i]: the body hands back the value it leaves in [i]. *)
Definition ctm_claim_crtc (vc4 : vc4_dev) (i : nat) (e : drm_crtcs_state)
    (ctm_state : pointer) : M (flow (pointer * nat)) :=
  if blob_ptr_eqb (crtc_ctm (new_state e)) (crtc_ctm (old_state e))
  then ret (Continue (ctm_state, i))
  else
    ctm_state <- (if is_NULL ctm_state
                  then vc4_get_ctm_state vc4
                  else ret ctm_state) ;;
    if IS_ERR ctm_state then ret (Return (PTR_ERR ctm_state)) else
    (* CTM is being enabled or the matrix changed. *)
    match crtc_ctm (new_state e) with
    | Some blob =>
        (* fifo is 1-based since 0 disables CTM. *)
        let fifo_ := int_of_u32 (u32 (assigned_channel (new_state e) + 1)) in
        (* Check userland isn't trying to turn on CTM for more than one
           CRTC at a time. *)
        s <- load_ctm ctm_state ;;
        if negb (fifo s =? 0) && negb (fifo s =? fifo_)
        then ret (Return (- EINVAL))
        else
          (* Check we can approximate the specified CTM. *)
          let ctm_ := data blob in
          match ctm_scalars_loop (matrix ctm_) ARRAY_SIZE_matrix 0 with
          | Return r => ret (Return r)
          | Continue i' =>
              modify_ctm ctm_state (set_fifo fifo_) ;;;
              modify_ctm ctm_state (set_ctm (Some ctm_)) ;;;
              ret (Continue (ctm_state, i'))
          end
    | None => ret (Continue (ctm_state, i))
    end.

(** Our CTM has some peculiar limitations: we can only enable it for one
    CRTC at a time and the HW only supports S0.9 scalars. *)
Definition vc4_ctm_atomic_check (vc4 : vc4_dev) : M Z :=
  f <- for_each_oldnew_crtc_in_state NULL (ctm_release_crtc vc4) ;;
  match f with
  | Return r => ret r
  | Continue ctm_state =>
      f <- for_each_oldnew_crtc_in_state_var ctm_state (ctm_claim_crtc vc4) ;;
      match f with
      | Return r => ret r
      | Continue _ => ret 0
      end
  end.

(** A plane is active when it has both a framebuffer and a CRTC. *)
Definition plane_active (s : vc4_plane_state) : bool :=
  is_set (fb s) && is_set (crtc s).

(** The body of the loop of [vc4_load_tracker_atomic_check]. *)
Definition load_tracker_plane (load_state : pointer) (i : nat)
    (e : drm_planes_state) (_ : unit) : M (flow unit) :=
  (if plane_active (old_plane_state e) then
     modify_load load_state
       (fun s => set_membus_load
                   (u64 (membus_load s - plane_membus_load (old_plane_state e))) s) ;;;
     modify_load load_state
       (fun s => set_hvs_load
                   (u64 (hvs_load s - plane_hvs_load (old_plane_state e))) s)
   else ret tt) ;;;
  (if plane_active (new_plane_state e) then
     modify_load load_state
       (fun s => set_membus_load
                   (u64 (membus_load s + plane_membus_load (new_plane_state e))) s) ;;;
     modify_load load_state
       (fun s => set_hvs_load
                   (u64 (hvs_load s + plane_hvs_load (new_plane_state e))) s)
   else ret tt) ;;;
  ret (Continue tt).

Definition vc4_load_tracker_atomic_check (vc4 : vc4_dev) : M Z :=
  priv_state <- drm_atomic_get_private_obj_state vc4 load_tracker ;;
  if IS_ERR priv_state then ret (PTR_ERR priv_state) else
  let load_state := priv_state in
  for_each_oldnew_plane_in_state tt (load_tracker_plane load_state) ;;;
  (* Don't check the load when the tracker is disabled. *)
  if negb (load_tracker_enabled vc4) then ret 0 else
  s <- load_load load_state ;;
  (* The absolute limit is 2Gbyte/sec, but let's take a margin to let
     the system work when other blocks are accessing the memory. *)
  if membus_load s >? SZ_1G + SZ_512M then ret (- ENOSPC) else
  (* HVS clock is supposed to run @ 250Mhz, let's take a margin and
     consider the maximum number of cycles is 240M. *)
  if hvs_load s >? 240000000 then ret (- ENOSPC) else
  ret 0.

(** The body of the loop of [vc4_pv_muxing_atomic_check]. *)
Definition pv_muxing_crtc (vc4 : vc4_dev) (hvs_new_state : pointer) (i : nat)
    (e : drm_crtcs_state) (_ : unit) : M (flow unit) :=
  if firmware_kms vc4 then ret (Continue tt) else
  (* Nothing to do here, let's skip it *)
  if Bool.eqb (enable (old_state e)) (enable (new_state e))
  then ret (Continue tt) else
  (* Muxing will need to be modified, mark it as such *)
  modify_new_crtc_state i (set_update_muxing true) ;;;
  (* If we're disabling our CRTC, we put back our channel *)
  if negb (enable (new_state e)) then
    modify_hvs hvs_new_state
      (fun s => set_unassigned_channels
                  (u32 (Z.lor (unassigned_channels s)
                          (BIT (assigned_channel (old_state e))))) s) ;;;
    modify_new_crtc_state i (set_assigned_channel VC4_HVS_CHANNEL_DISABLED) ;;;
    ret (Continue tt)
  else
    s <- load_hvs hvs_new_state ;;
    let matching_channels :=
      Z.land (unassigned_channels s) (hvs_available_channels (ptr e)) in
    if negb (matching_channels =? 0) then
      let channel := u32 (ffs matching_channels - 1) in
      modify_new_crtc_state i (set_assigned_channel channel) ;;;
      modify_hvs hvs_new_state
        (fun s => set_unassigned_channels
                    (u32 (Z.land (unassigned_channels s)
                            (Z.lnot (BIT channel)))) s) ;;;
      ret (Continue tt)
    else ret (Return (- EINVAL)).

Definition vc4_pv_muxing_atomic_check (vc4 : vc4_dev) : M Z :=
  hvs_new_state <- vc4_hvs_get_global_state vc4 ;;
  if is_NULL hvs_new_state then ret (- EINVAL) else
  f <- for_each_oldnew_crtc_in_state tt (pv_muxing_crtc vc4 hvs_new_state) ;;
  match f with
  | Return r => ret r
  | Continue _ => ret 0
  end.

Section Check.

(** The width of [unsigned long]: 32 on arm, 64 on arm64. *)
Variable BITS_PER_LONG : Z.

Definition ulong (z : Z) : Z := z mod 2 ^ BITS_PER_LONG.

(** The generic check of the DRM core, [drm_atomic_helper_check]: it reads
    and updates the transaction and answers 0 or a negative errno. *)
Variable drm_atomic_helper_check : drm_atomic_state -> Z * drm_atomic_state.

(** The body of the loop of [vc4_core_clock_atomic_check]. *)
Definition core_clock_crtc (hvs_new_state : pointer) (i : nat)
    (e : drm_crtcs_state) (_ : unit) : M (flow unit) :=
  (if active (old_state e) then
     modify_hvs hvs_new_state
       (fun s => set_num_outputs (u32 (num_outputs s - 1)) s) ;;;
     modify_hvs hvs_new_state
       (fun s => set_fifo_load
                   (ulong (fifo_load s - crtc_hvs_load (old_state e))) s)
   else ret tt) ;;;
  (if active (new_state e) then
     modify_hvs hvs_new_state
       (fun s => set_num_outputs (u32 (num_outputs s + 1)) s) ;;;
     modify_hvs hvs_new_state
       (fun s => set_fifo_load
                   (ulong (fifo_load s + crtc_hvs_load (new_state e))) s)
   else ret tt) ;;;
  ret (Continue tt).

Definition vc4_core_clock_atomic_check (vc4 : vc4_dev) : M Z :=
  priv_state <- drm_atomic_get_private_obj_state vc4 load_tracker ;;
  if IS_ERR priv_state then ret (PTR_ERR priv_state) else
  let load_state := priv_state in
  hvs_new_state <- vc4_hvs_get_global_state vc4 ;;
  if is_NULL hvs_new_state then ret (- EINVAL) else
  for_each_oldnew_crtc_in_state tt (core_clock_crtc hvs_new_state) ;;;
  s <- load_hvs hvs_new_state ;;
  l <- load_load load_state ;;
  let cob_rate := fifo_load s in
  let pixel_rate := ulong (hvs_load l) in
  let pixel_rate :=
    if num_outputs s >? 1 then ulong (pixel_rate * 40) / 100
    else ulong (pixel_rate * 60) / 100 in
  modify_hvs hvs_new_state (set_core_clock_rate (Z.max cob_rate pixel_rate)) ;;;
  ret 0.

(** The generic check as a step of the pipeline. *)
Definition generic_check : M Z :=
  st <- get_state ;;
  put_state (snd (drm_atomic_helper_check st)) ;;;
  ret (fst (drm_atomic_helper_check st)).

Definition vc4_atomic_check (vc4 : vc4_dev) : M Z :=
  r <- vc4_pv_muxing_atomic_check vc4 ;;
  if negb (r =? 0) then ret r else
  r <- vc4_ctm_atomic_check vc4 ;;
  if r <? 0 then ret r else
  r <- generic_check ;;
  if negb (r =? 0) then ret r else
  r <- vc4_load_tracker_atomic_check vc4 ;;
  if negb (r =? 0) then ret r else
  vc4_core_clock_atomic_check vc4.

End Check.

(** ** Creation of the private objects *)

Definition set_obj_state (obj : drm_private_obj) (a : nat) (vc4 : vc4_dev) : vc4_dev :=
  {| firmware_kms := firmware_kms vc4;
     load_tracker_enabled := load_tracker_enabled vc4;
     hvs5 := hvs5 vc4;
     async_modeset := async_modeset vc4;
     ctm_manager_state :=
       match obj with ctm_manager => a | _ => ctm_manager_state vc4 end;
     load_tracker_state :=
       match obj with load_tracker => a | _ => load_tracker_state vc4 end;
     hvs_channels_state :=
       match obj with hvs_channels => a | _ => hvs_channels_state vc4 end |}.

(** What the calls of [vc4_kms_load] that can fail answer during one load:
    [drm_vblank_init], and [drmm_add_action_or_reset] for each of the three
    objects (0 or a negative errno). *)
Record kms_load_env := {
  drm_vblank_init_ret : Z;
  drmm_add_action_or_reset_ret : drm_private_obj -> Z
}.

(** [drm_atomic_private_obj_init] makes [state] the object's published
    state; what [drmm_add_action_or_reset] answers is what the function
    returns. *)
Definition vc4_ctm_obj_init (env : kms_load_env) (vc4 : vc4_dev)
  : M (Z * vc4_dev) :=
  ctm_state <- kmalloc (CtmState zero_ctm_state) ;;
  match ctm_state with
  | Addr a =>
      ret (drmm_add_action_or_reset_ret env ctm_manager,
           set_obj_state ctm_manager a vc4)
  | _ => ret (- ENOMEM, vc4)
  end.

Definition vc4_load_tracker_obj_init (env : kms_load_env) (vc4 : vc4_dev)
  : M (Z * vc4_dev) :=
  load_state <- kmalloc (LoadState zero_load_tracker_state) ;;
  match load_state with
  | Addr a =>
      ret (drmm_add_action_or_reset_ret env load_tracker,
           set_obj_state load_tracker a vc4)
  | _ => ret (- ENOMEM, vc4)
  end.

Definition vc4_hvs_channels_obj_init (env : kms_load_env) (vc4 : vc4_dev)
  : M (Z * vc4_dev) :=
  state <- kmalloc (HvsState zero_hvs_state) ;;
  match state with
  | Addr a =>
      modify_hvs state
        (set_unassigned_channels (GENMASK (HVS_NUM_CHANNELS - 1) 0)) ;;;
      ret (drmm_add_action_or_reset_ret env hvs_channels,
           set_obj_state hvs_channels a vc4)
  | _ => ret (- ENOMEM, vc4)
  end.

(** [vc4_kms_load], without its writes to [dev->mode_config] and the other
    fields of [dev] that neither the checks nor the commit read: the load
    tracker switch, the semaphore, [drm_vblank_init] and the three
    objects. *)
Definition vc4_kms_load (is_vc5 : bool) (env : kms_load_env) (vc4 : vc4_dev)
  : M (Z * vc4_dev) :=
  let vc4 :=
    {| firmware_kms := firmware_kms vc4;
       load_tracker_enabled :=
         if negb is_vc5 then true else load_tracker_enabled vc4;
       hvs5 := hvs5 vc4;
       (* sema_init(&vc4->async_modeset, 1) *)
       async_modeset := 1;
       ctm_manager_state := ctm_manager_state vc4;
       load_tracker_state := load_tracker_state vc4;
       hvs_channels_state := hvs_channels_state vc4 |} in
  if drm_vblank_init_ret env <? 0 then ret (drm_vblank_init_ret env, vc4) else
  p <- vc4_ctm_obj_init env vc4 ;;
  if negb (fst p =? 0) then ret p else
  p <- vc4_load_tracker_obj_init env (snd p) ;;
  if negb (fst p =? 0) then ret p else
  p <- vc4_hvs_channels_obj_init env (snd p) ;;
  if negb (fst p =? 0) then ret p else
  ret (0, snd p).

(** ** The commit path *)

(** The calls of the commit path that matter to the order of a commit. *)
Inductive action :=
| down_async_modeset            (* down_interruptible() took the semaphore *)
| up_async_modeset              (* up(&vc4->async_modeset) *)
| setup_commit
| prepare_planes
| async_commit
| wait_for_fences (pre_swap : bool)
| swap_state
| state_get
| queue_work
| mask_underrun (channel : Z)
| clk_request_start_temporary
| clk_request_done_previous
| wait_for_dependencies
| commit_modeset_disables
| ctm_commit
| pv_muxing_commit
| commit_planes
| commit_modeset_enables
| fake_vblank
| commit_hw_done
| wait_for_flip_done
| cleanup_planes
| commit_cleanup_done
| clk_request_start_final
| clk_request_done_temporary
| state_put
| returns (r : Z).              (* the caller of vc4_atomic_commit gets r *)

(** What the calls that can fail answer during one commit. *)
Record commit_env := {
  setup_commit_ret : Z;
  down_interruptible_ret : Z;
  prepare_planes_ret : Z;
  wait_for_fences_ret : Z
}.

Definition has_private_obj (st : drm_atomic_state) (obj : drm_private_obj) : bool :=
  is_set (find (fun e => drm_private_obj_eqb (obj_ptr e) obj) (private_objs st)).

Definition underrun_masks (vc4 : vc4_dev) (st : drm_atomic_state) : list action :=
  flat_map
    (fun o => match o with
              | Some e =>
                  if negb (commit (new_state e)) || firmware_kms vc4 then []
                  else [mask_underrun (assigned_channel (new_state e))]
              | None => []
              end)
    (crtcs st).

(** The calls of [vc4_atomic_complete_commit] between its first and its last
    two statements: the hardware application. *)
Definition hardware_application (vc4 : vc4_dev) (st : drm_atomic_state)
  : list action :=
  underrun_masks vc4 st
  ++ (if hvs5 vc4
      then [clk_request_start_temporary; clk_request_done_previous] else [])
  ++ [wait_for_fences false; wait_for_dependencies;
      commit_modeset_disables; ctm_commit]
  ++ (if negb (firmware_kms vc4) then [pv_muxing_commit] else [])
  ++ [commit_planes; commit_modeset_enables; fake_vblank; commit_hw_done;
      wait_for_flip_done; cleanup_planes; commit_cleanup_done]
  ++ (if hvs5 vc4
      then [clk_request_start_final; clk_request_done_temporary] else []).

Definition vc4_atomic_complete_commit (vc4 : vc4_dev) (st : drm_atomic_state)
  : list action :=
  (* hvs_state = vc4_hvs_get_new_global_state(state);
     if (WARN_ON(!hvs_state)) return; *)
  if negb (has_private_obj st hvs_channels) then []
  else hardware_application vc4 st ++ [state_put; up_async_modeset].

(** [vc4_atomic_commit]: the calls it makes, in order.  With [nonblock] the
    caller returns after [queue_work] and the work item makes the calls of
    [vc4_atomic_complete_commit] afterwards. *)
Definition vc4_atomic_commit (vc4 : vc4_dev) (st : drm_atomic_state)
    (async_update nonblock : bool) (env : commit_env) : list action :=
  if async_update then
    if negb (down_interruptible_ret env =? 0)
    then [returns (down_interruptible_ret env)]
    else
      down_async_modeset ::
      prepare_planes ::
      (if negb (prepare_planes_ret env =? 0)
       then [up_async_modeset; returns (prepare_planes_ret env)]
       else [async_commit; cleanup_planes; up_async_modeset; returns 0])
  else
    setup_commit ::
    (if negb (setup_commit_ret env =? 0)
     then [returns (setup_commit_ret env)]
     else if negb (down_interruptible_ret env =? 0)
     then [returns (down_interruptible_ret env)]
     else
       down_async_modeset ::
       prepare_planes ::
       (if negb (prepare_planes_ret env =? 0)
        then [up_async_modeset; returns (prepare_planes_ret env)]
        else if negb nonblock && negb (wait_for_fences_ret env =? 0)
        then [wait_for_fences true; cleanup_planes; up_async_modeset;
              returns (wait_for_fences_ret env)]
        else
          (if negb nonblock then [wait_for_fences true] else [])
          ++ [swap_state; state_get]
          ++ (if nonblock
              then queue_work :: returns 0 :: vc4_atomic_complete_commit vc4 st
              else vc4_atomic_complete_commit vc4 st ++ [returns 0]))).

(** The calls of the fourteen steps of the hardware application. *)
Definition hw_step (a : action) : bool :=
  match a with
  | mask_underrun _
  | clk_request_start_temporary | clk_request_done_previous
  | wait_for_fences false | wait_for_dependencies
  | commit_modeset_disables
  | ctm_commit
  | pv_muxing_commit
  | commit_planes
  | commit_modeset_enables
  | fake_vblank
  | commit_hw_done
  | wait_for_flip_done
  | cleanup_planes
  | commit_cleanup_done
  | clk_request_start_final | clk_request_done_temporary => true
  | _ => false
  end.

(** *** Commits running side by side *)

(** A commit in progress: the calls it has made (latest first) and the calls
    it still has to make. *)
Record commit_thread := {
  made : list action;
  pending : list action
}.

(** The semaphore [async_modeset] and the commits in progress. *)
Record system := {
  sem : nat;
  threads : list commit_thread
}.

(** Commit [t] makes its next call.  [down_interruptible] goes through only
    when the semaphore's count is positive, and takes one; [up] gives one
    back.  [None]: [t] has no call left, or waits in [down_interruptible]. *)
Definition sched (s : system) (t : nat) : option system :=
  match threads s !! t with
  | Some {| made := d; pending := a :: rest |} =>
      let th := {| made := a :: d; pending := rest |} in
      match a with
      | down_async_modeset =>
          match sem s with
          | O => None
          | S n => Some {| sem := n; threads := <[t := th]> (threads s) |}
          end
      | up_async_modeset =>
          Some {| sem := S (sem s); threads := <[t := th]> (threads s) |}
      | _ => Some {| sem := sem s; threads := <[t := th]> (threads s) |}
      end
  | _ => None
  end.

Fixpoint run (s : system) (schedule : list nat) : option system :=
  match schedule with
  | [] => Some s
  | t :: ts => match sched s t with
               | Some s' => run s' ts
               | None => None
               end
  end.

Definition start (progs : list (list action)) : system :=
  {| sem := 1; threads := map (fun p => {| made := []; pending := p |}) progs |}.

Definition is_down (a : action) : bool :=
  match a with down_async_modeset => true | _ => false end.

Definition is_up (a : action) : bool :=
  match a with up_async_modeset => true | _ => false end.

(** The commit holds the semaphore: it took it and has not given it back. *)
Definition holds_gate (th : commit_thread) : bool :=
  existsb is_down (made th) && negb (existsb is_up (made th)).

(** The hardware application of the commit has begun and is not over. *)
Definition applying_hardware (th : commit_thread) : bool :=
  existsb hw_step (made th) && existsb hw_step (pending th).

(** ** The device and one atomic request *)

(** A device: its [struct vc4_dev], the cells of the private states, and the
    published state of every CRTC ([crtc->state]) and plane
    ([plane->state]), by index. *)
Record drm_device := {
  dev_private : vc4_dev;
  dev_mem : list drm_private_state;
  dev_crtcs : list (vc4_crtc * vc4_crtc_state);
  dev_planes : list vc4_plane_state
}.

(** What a client asks of one CRTC. *)
Record crtc_props := {
  prop_enable : bool;
  prop_active : bool;
  prop_ctm : option drm_property_blob
}.

(** One atomic request: per CRTC and per plane either nothing or the wanted
    values, and what the environment answers while it is handled. *)
Record drm_mode_atomic := {
  crtc_requests : list (option crtc_props);
  plane_requests : list (option vc4_plane_state);
  request_ctx : Z;
  request_slab : nat;
  request_async_update : bool;
  request_nonblock : bool;
  request_env : commit_env
}.

(** Modelled from the spec: the per-output transaction state of a CRTC that
    takes part in a transaction starts as a copy of the CRTC's current state
    ([vc4_crtc_duplicate_state] of [vc4_crtc.c], outside this source tree):
    the assigned channel is kept, the muxing flag starts cleared. *)
Definition vc4_crtc_duplicate_state (s : vc4_crtc_state) : vc4_crtc_state :=
  {| enable := enable s; active := active s; crtc_ctm := crtc_ctm s;
     commit := false; assigned_channel := assigned_channel s;
     update_muxing := false; feed_txp := feed_txp s;
     crtc_hvs_load := crtc_hvs_load s |}.

Definition apply_crtc_props (p : crtc_props) (s : vc4_crtc_state) : vc4_crtc_state :=
  {| enable := prop_enable p; active := prop_active p; crtc_ctm := prop_ctm p;
     commit := commit s; assigned_channel := assigned_channel s;
     update_muxing := update_muxing s; feed_txp := feed_txp s;
     crtc_hvs_load := crtc_hvs_load s |}.

(** Modelled from the spec: the framework's list of the outputs of a
    transaction with their old and new snapshots
    ([drm_atomic_get_crtc_state] of the DRM core). *)
Fixpoint get_crtc_states (cs : list (vc4_crtc * vc4_crtc_state))
    (req : list (option crtc_props)) : list (option drm_crtcs_state) :=
  match cs with
  | [] => []
  | (c, s) :: cs' =>
      match req with
      | Some p :: _ =>
          Some {| ptr := c; old_state := s;
                  new_state := apply_crtc_props p (vc4_crtc_duplicate_state s) |}
      | _ => None
      end :: get_crtc_states cs' (tail req)
  end.

Fixpoint get_plane_states (ps : list vc4_plane_state)
    (req : list (option vc4_plane_state)) : list (option drm_planes_state) :=
  match ps with
  | [] => []
  | s :: ps' =>
      match req with
      | Some n :: _ => Some {| old_plane_state := s; new_plane_state := n |}
      | _ => None
      end :: get_plane_states ps' (tail req)
  end.

Definition drm_atomic_state_init (dev : drm_device) (req : drm_mode_atomic)
  : drm_atomic_state :=
  {| crtcs := get_crtc_states (dev_crtcs dev) (crtc_requests req);
     planes := get_plane_states (dev_planes dev) (plane_requests req);
     private_objs := [];
     acquire_ctx := request_ctx req |}.

Fixpoint swap_crtcs (cs : list (vc4_crtc * vc4_crtc_state))
    (es : list (option drm_crtcs_state)) : list (vc4_crtc * vc4_crtc_state) :=
  match cs, es with
  | (c, s) :: cs', Some e :: es' => (c, new_state e) :: swap_crtcs cs' es'
  | (c, s) :: cs', None :: es' => (c, s) :: swap_crtcs cs' es'
  | _, _ => cs
  end.

Fixpoint swap_planes (ps : list vc4_plane_state)
    (es : list (option drm_planes_state)) : list vc4_plane_state :=
  match ps, es with
  | s :: ps', Some e :: es' => new_plane_state e :: swap_planes ps' es'
  | s :: ps', None :: es' => s :: swap_planes ps' es'
  | _, _ => ps
  end.

Definition swap_private_objs (vc4 : vc4_dev) (l : list drm_private_objs_state)
  : vc4_dev :=
  fold_left (fun v e => set_obj_state (obj_ptr e) (obj_new_state e) v) l vc4.

(** Modelled from the spec: the framework's publish operation
    ([drm_atomic_helper_swap_state] of the DRM core): the new state of every
    CRTC, plane and private object of the transaction becomes the current
    one. *)
Definition drm_atomic_helper_swap_state (dev : drm_device) (m : machine)
  : drm_device :=
  {| dev_private := swap_private_objs (dev_private dev) (private_objs (txn m));
     dev_mem := mem m;
     dev_crtcs := swap_crtcs (dev_crtcs dev) (crtcs (txn m));
     dev_planes := swap_planes (dev_planes dev) (planes (txn m)) |}.

Definition is_swap_state (a : action) : bool :=
  match a with swap_state => true | _ => false end.

Fixpoint returned (l : list action) : Z :=
  match l with
  | [] => 0
  | returns r :: _ => r
  | _ :: l' => returned l'
  end.

Section Ioctl.

Variable BITS_PER_LONG : Z.
Variable drm_atomic_helper_check : drm_atomic_state -> Z * drm_atomic_state.

(** Modelled from the spec: one request through the two-phase pipeline
    ([drm_mode_atomic_ioctl] of the DRM core).  The check runs on private
    copies; a refused transaction is dropped with its copies, an accepted one
    goes to [vc4_atomic_commit] and is published where that calls
    [drm_atomic_helper_swap_state].  [None]: the check does not return. *)
Definition drm_mode_atomic_ioctl (dev : drm_device) (req : drm_mode_atomic)
  : option (Z * drm_device) :=
  let m := {| mem := dev_mem dev; slab := request_slab req;
              txn := drm_atomic_state_init dev req |} in
  match vc4_atomic_check BITS_PER_LONG drm_atomic_helper_check (dev_private dev) m with
  | None => None
  | Some (r, m') =>
      if negb (r =? 0) then Some (r, dev)
      else
        let calls :=
          vc4_atomic_commit (dev_private dev) (txn m')
            (request_async_update req) (request_nonblock req) (request_env req) in
        if existsb is_swap_state calls
        then Some (returned calls, drm_atomic_helper_swap_state dev m')
        else Some (returned calls, dev)
  end.

(** A sequence of requests, one after the other. *)
Fixpoint drm_mode_atomic_ioctls (dev : drm_device) (reqs : list drm_mode_atomic)
  : option drm_device :=
  match reqs with
  | [] => Some dev
  | r :: rs =>
      match drm_mode_atomic_ioctl dev r with
      | Some (_, dev') => drm_mode_atomic_ioctls dev' rs
      | None => None
      end
  end.

End Ioctl.

(** ** The registers of the HVS *)

Definition u8 (z : Z) : Z := z mod 2 ^ 8.

(** The registers of the HVS that the file reads and writes. *)
Inductive hvs_reg :=
| SCALER_DISPCTRL | SCALER_DISPECTRL | SCALER_DISPEOLN | SCALER_DISPDITHER
| SCALER_OLEDOFFS | SCALER_OLEDCOEF0 | SCALER_OLEDCOEF1 | SCALER_OLEDCOEF2.

(** The fields of these registers that the file sets. *)
Inductive hvs_field :=
| SCALER_DISPCTRL_DSP3_MUX
| SCALER_DISPECTRL_DSP2_MUX
| SCALER_DISPEOLN_DSP4_MUX
| SCALER_DISPDITHER_DSP5_MUX
| SCALER_OLEDOFFS_DISPFIFO
| SCALER_OLEDCOEF2_R_TO_R | SCALER_OLEDCOEF2_R_TO_G | SCALER_OLEDCOEF2_R_TO_B
| SCALER_OLEDCOEF1_G_TO_R | SCALER_OLEDCOEF1_G_TO_G | SCALER_OLEDCOEF1_G_TO_B
| SCALER_OLEDCOEF0_B_TO_R | SCALER_OLEDCOEF0_B_TO_G | SCALER_OLEDCOEF0_B_TO_B.

Definition hvs_reg_eqb (a b : hvs_reg) : bool :=
  match a, b with
  | SCALER_DISPCTRL, SCALER_DISPCTRL
  | SCALER_DISPECTRL, SCALER_DISPECTRL
  | SCALER_DISPEOLN, SCALER_DISPEOLN
  | SCALER_DISPDITHER, SCALER_DISPDITHER
  | SCALER_OLEDOFFS, SCALER_OLEDOFFS
  | SCALER_OLEDCOEF0, SCALER_OLEDCOEF0
  | SCALER_OLEDCOEF1, SCALER_OLEDCOEF1
  | SCALER_OLEDCOEF2, SCALER_OLEDCOEF2 => true
  | _, _ => false
  end.

(** The contents of the registers. *)
Definition hvs_regs : Type := hvs_reg -> Z.

Definition HVS_READ (regs : hvs_regs) (r : hvs_reg) : Z := regs r.

Definition HVS_WRITE (regs : hvs_regs) (r : hvs_reg) (val : Z) : hvs_regs :=
  fun r' => if hvs_reg_eqb r' r then val else regs r'.

(** The macro [for_each_new_crtc_in_state(state, crtc, new, i)]: the body is
    run, in order, for the slots of [state->crtcs[]] that are used. *)
Definition for_each_new_crtc_in_state {A} (st : drm_atomic_state)
    (body : drm_crtcs_state -> A -> A) (a : A) : A :=
  fold_left (fun a o => match o with Some e => body e a | None => a end)
    (crtcs st) a.

Section Registers.

(** [vc4_regs.h], which places the fields in the registers, is not part of
    this tree: the mask of every field and the macro [VC4_SET_FIELD(value,
    field)], which gives the bits of a register that hold [value] in the
    field, are parameters. *)
Variable field_MASK : hvs_field -> Z.
Variable VC4_SET_FIELD : Z -> hvs_field -> Z.

Definition matrix_at (c : drm_color_ctm) (k : nat) : Z :=
  default 0 (matrix c !! k).

(** [vc4_ctm_commit]; [cells] holds the private states, of which it reads
    the published CTM state.  [None]: it reads through a pointer that is no
    CTM state, or through the NULL matrix pointer. *)
Definition vc4_ctm_commit (vc4 : vc4_dev) (cells : list drm_private_state)
    (regs : hvs_regs) : option hvs_regs :=
  match cells !! ctm_manager_state vc4 with
  | Some (CtmState ctm_state) =>
      let ctm_ := ctm ctm_state in
      if firmware_kms vc4 then Some regs else
      let coefs :=
        if negb (fifo ctm_state =? 0) then
          match ctm_ with
          | Some c =>
              let regs :=
                HVS_WRITE regs SCALER_OLEDCOEF2
                  (Z.lor
                     (Z.lor
                        (VC4_SET_FIELD (vc4_ctm_s31_32_to_s0_9 (matrix_at c 0))
                           SCALER_OLEDCOEF2_R_TO_R)
                        (VC4_SET_FIELD (vc4_ctm_s31_32_to_s0_9 (matrix_at c 3))
                           SCALER_OLEDCOEF2_R_TO_G))
                     (VC4_SET_FIELD (vc4_ctm_s31_32_to_s0_9 (matrix_at c 6))
                        SCALER_OLEDCOEF2_R_TO_B)) in
              let regs :=
                HVS_WRITE regs SCALER_OLEDCOEF1
                  (Z.lor
                     (Z.lor
                        (VC4_SET_FIELD (vc4_ctm_s31_32_to_s0_9 (matrix_at c 1))
                           SCALER_OLEDCOEF1_G_TO_R)
                        (VC4_SET_FIELD (vc4_ctm_s31_32_to_s0_9 (matrix_at c 4))
                           SCALER_OLEDCOEF1_G_TO_G))
                     (VC4_SET_FIELD (vc4_ctm_s31_32_to_s0_9 (matrix_at c 7))
                        SCALER_OLEDCOEF1_G_TO_B)) in
              Some
                (HVS_WRITE regs SCALER_OLEDCOEF0
                   (Z.lor
                      (Z.lor
                         (VC4_SET_FIELD (vc4_ctm_s31_32_to_s0_9 (matrix_at c 2))
                            SCALER_OLEDCOEF0_B_TO_R)
                         (VC4_SET_FIELD (vc4_ctm_s31_32_to_s0_9 (matrix_at c 5))
                            SCALER_OLEDCOEF0_B_TO_G))
                      (VC4_SET_FIELD (vc4_ctm_s31_32_to_s0_9 (matrix_at c 8))
                         SCALER_OLEDCOEF0_B_TO_B)))
          | None => None
          end
        else Some regs in
      match coefs with
      | Some regs =>
          Some (HVS_WRITE regs SCALER_OLEDOFFS
                  (VC4_SET_FIELD (fifo ctm_state) SCALER_OLEDOFFS_DISPFIFO))
      | None => None
      end
  | _ => None
  end.

(** The body of the loop of [vc4_hvs_pv_muxing_commit]. *)
Definition vc4_hvs_pv_muxing_crtc (e : drm_crtcs_state) (regs : hvs_regs)
  : hvs_regs :=
  let vc4_state := new_state e in
  if negb (active vc4_state) then regs else
  if negb (assigned_channel vc4_state =? 2) then regs else
  (* DSP3 is connected to FIFO2 unless the transposer is enabled. *)
  let dsp3_mux :=
    if feed_txp vc4_state then VC4_SET_FIELD 3 SCALER_DISPCTRL_DSP3_MUX
    else VC4_SET_FIELD 2 SCALER_DISPCTRL_DSP3_MUX in
  let dispctrl :=
    Z.land (HVS_READ regs SCALER_DISPCTRL)
      (u32 (Z.lnot (field_MASK SCALER_DISPCTRL_DSP3_MUX))) in
  HVS_WRITE regs SCALER_DISPCTRL (Z.lor dispctrl dsp3_mux).

Definition vc4_hvs_pv_muxing_commit (st : drm_atomic_state) (regs : hvs_regs)
  : hvs_regs :=
  for_each_new_crtc_in_state st vc4_hvs_pv_muxing_crtc regs.

(** One arm of the [switch] of [vc5_hvs_pv_muxing_commit]: the field [f] of
    the register [r] is set to [mux]. *)
Definition set_mux (r : hvs_reg) (f : hvs_field) (mux : Z) (regs : hvs_regs)
  : hvs_regs :=
  let reg := HVS_READ regs r in
  HVS_WRITE regs r
    (Z.lor (Z.land reg (u32 (Z.lnot (field_MASK f)))) (VC4_SET_FIELD mux f)).

(** The body of the loop of [vc5_hvs_pv_muxing_commit]; [mux] is an
    [unsigned char]. *)
Definition vc5_hvs_pv_muxing_crtc (e : drm_crtcs_state) (regs : hvs_regs)
  : hvs_regs :=
  let vc4_state := new_state e in
  if negb (update_muxing vc4_state) then regs else
  let mux_of_channel :=
    if assigned_channel vc4_state =? VC4_HVS_CHANNEL_DISABLED then 3
    else u8 (assigned_channel vc4_state) in
  match hvs_output (ptr e) with
  | 2 =>
      let mux := if assigned_channel vc4_state =? 2 then 0 else 1 in
      set_mux SCALER_DISPECTRL SCALER_DISPECTRL_DSP2_MUX mux regs
  | 3 => set_mux SCALER_DISPCTRL SCALER_DISPCTRL_DSP3_MUX mux_of_channel regs
  | 4 => set_mux SCALER_DISPEOLN SCALER_DISPEOLN_DSP4_MUX mux_of_channel regs
  | 5 => set_mux SCALER_DISPDITHER SCALER_DISPDITHER_DSP5_MUX mux_of_channel regs
  | _ => regs
  end.

Definition vc5_hvs_pv_muxing_commit (st : drm_atomic_state) (regs : hvs_regs)
  : hvs_regs :=
  for_each_new_crtc_in_state st vc5_hvs_pv_muxing_crtc regs.

(** What [vc4_atomic_complete_commit] does to the registers of the HVS by
    the code of this file: [vc4_ctm_commit], then the muxing of the
    generation at hand unless the firmware drives the display. *)
Definition commit_hvs (vc4 : vc4_dev) (cells : list drm_private_state)
    (st : drm_atomic_state) (regs : hvs_regs) : option hvs_regs :=
  match vc4_ctm_commit vc4 cells regs with
  | Some regs =>
      if negb (firmware_kms vc4) then
        if hvs5 vc4 then Some (vc5_hvs_pv_muxing_commit st regs)
        else Some (vc4_hvs_pv_muxing_commit st regs)
      else Some regs
  | None => None
  end.

(** The register that holds a mux field. *)
Definition mux_reg (f : hvs_field) : hvs_reg :=
  match f with
  | SCALER_DISPECTRL_DSP2_MUX => SCALER_DISPECTRL
  | SCALER_DISPEOLN_DSP4_MUX => SCALER_DISPEOLN
  | SCALER_DISPDITHER_DSP5_MUX => SCALER_DISPDITHER
  | _ => SCALER_DISPCTRL
  end.

End Registers.

(** * The vocabulary of the statements *)

(** ** Machines, transactions and runs *)

(** The machine [m] with other cells, another transaction; the transaction
    [st] with other CRTC slots; the slot [e] with another new state. *)
Definition with_mem (h : list drm_private_state) (m : machine) : machine :=
  {| mem := h; slab := slab m; txn := txn m |}.

Definition with_txn (st : drm_atomic_state) (m : machine) : machine :=
  {| mem := mem m; slab := slab m; txn := st |}.

Definition with_crtcs (l : list (option drm_crtcs_state)) (st : drm_atomic_state)
  : drm_atomic_state :=
  {| crtcs := l; planes := planes st; private_objs := private_objs st;
     acquire_ctx := acquire_ctx st |}.

Definition with_new_state (s : vc4_crtc_state) (e : drm_crtcs_state) : drm_crtcs_state :=
  {| ptr := ptr e; old_state := old_state e; new_state := s |}.

(** The transaction with one more private copy, and the copy it holds of an
    object. *)
Definition add_private_obj (e : drm_private_objs_state) (st : drm_atomic_state)
  : drm_atomic_state :=
  {| crtcs := crtcs st; planes := planes st;
     private_objs := private_objs st ++ [e]; acquire_ctx := acquire_ctx st |}.

Definition find_private_obj (st : drm_atomic_state) (obj : drm_private_obj)
  : option drm_private_objs_state :=
  find (fun e => drm_private_obj_eqb (obj_ptr e) obj) (private_objs st).

(** The object [obj] may be duplicated from the cell [v]. *)
Definition duplicable (obj : drm_private_obj) (v : drm_private_state) : Prop :=
  match obj, v with
  | hvs_channels, HvsState _ => True
  | hvs_channels, _ => False
  | _, _ => True
  end.

(** When [c] is called on a machine where [P] holds and returns, [Q] holds
    of what it returns and of the machine it leaves. *)
Definition hoare {A} (P : machine -> Prop) (c : M A)
    (Q : A -> machine -> Prop) : Prop :=
  forall m a m', P m -> c m = Some (a, m') -> Q a m'.

(** ** What a check adds up *)

(** The sum of [f] over the used slots of a list. *)
Fixpoint total {A} (f : A -> Z) (l : list (option A)) : Z :=
  match l with
  | [] => 0
  | Some x :: l' => f x + total f l'
  | None :: l' => total f l'
  end.

(** What a plane of the transaction adds to the counters: the load of its
    new state when that is active, less the load of its old state when that
    was active. *)
Definition plane_delta (load : vc4_plane_state -> Z) (e : drm_planes_state) : Z :=
  (if plane_active (new_plane_state e) then load (new_plane_state e) else 0)
  - (if plane_active (old_plane_state e) then load (old_plane_state e) else 0).

(** One round of the loop on the value of the load tracker state. *)
Definition load_tracker_round (e : drm_planes_state)
    (s : vc4_load_tracker_state) : vc4_load_tracker_state :=
  let s :=
    if plane_active (old_plane_state e) then
      set_hvs_load (u64 (hvs_load s - plane_hvs_load (old_plane_state e)))
        (set_membus_load
           (u64 (membus_load s - plane_membus_load (old_plane_state e))) s)
    else s in
  if plane_active (new_plane_state e) then
    set_hvs_load (u64 (hvs_load s + plane_hvs_load (new_plane_state e)))
      (set_membus_load
         (u64 (membus_load s + plane_membus_load (new_plane_state e))) s)
  else s.

(** What a CRTC of the transaction adds to the number of active outputs and
    to the FIFO load. *)
Definition active_delta (e : drm_crtcs_state) : Z :=
  (if active (new_state e) then 1 else 0) - (if active (old_state e) then 1 else 0).

Definition fifo_load_delta (e : drm_crtcs_state) : Z :=
  (if active (new_state e) then crtc_hvs_load (new_state e) else 0)
  - (if active (old_state e) then crtc_hvs_load (old_state e) else 0).

(** One round of the loop of [vc4_core_clock_atomic_check] on the value of
    the HVS state. *)
Definition core_clock_round (BITS_PER_LONG : Z) (e : drm_crtcs_state)
    (s : vc4_hvs_state) : vc4_hvs_state :=
  let s :=
    if active (old_state e) then
      set_fifo_load
        (ulong BITS_PER_LONG (fifo_load s - crtc_hvs_load (old_state e)))
        (set_num_outputs (u32 (num_outputs s - 1)) s)
    else s in
  if active (new_state e) then
    set_fifo_load
      (ulong BITS_PER_LONG (fifo_load s + crtc_hvs_load (new_state e)))
      (set_num_outputs (u32 (num_outputs s + 1)) s)
  else s.

(** ** Claims on the matrix unit *)

(** The CRTC gives up its matrix: it had one and has none in the new state. *)
Definition releases (e : drm_crtcs_state) : bool :=
  negb (is_set (crtc_ctm (new_state e))) && is_set (crtc_ctm (old_state e)).

(** The CRTC claims the matrix unit: its new state has a matrix, and not the
    blob of its old state. *)
Definition claims (e : drm_crtcs_state) : bool :=
  negb (blob_ptr_eqb (crtc_ctm (new_state e)) (crtc_ctm (old_state e)))
  && is_set (crtc_ctm (new_state e)).

(** The same of a slot of the transaction, used or not. *)
Definition slot_releases (o : option drm_crtcs_state) : bool :=
  match o with Some e => releases e | None => false end.

Definition slot_claims (o : option drm_crtcs_state) : bool :=
  match o with Some e => claims e | None => false end.

(** The slot number of a CRTC: its channel plus one, as an [int]. *)
Definition fifo_of (e : drm_crtcs_state) : Z :=
  int_of_u32 (u32 (assigned_channel (new_state e) + 1)).

(** A scalar is refused when, its sign bit cleared, it is above 1.0. *)
Definition scalar_refused (c : Z) : bool := Z.clearbit c 63 >? 2 ^ 32.

(** ** The published states during a check *)

Section PublishedStates.

Variable vc4 : vc4_dev.

(** The cells at the start of the check. *)
Variable h0 : list drm_private_state.

(** The published state of every object is a cell, it holds what it held at
    the start, and no copy held by the transaction is a published state. *)
Definition published_intact (m : machine) : Prop :=
  (forall obj, (obj_state vc4 obj < length h0)%nat) /\
  (forall obj, mem m !! obj_state vc4 obj = h0 !! obj_state vc4 obj) /\
  (forall e, e ∈ private_objs (txn m) ->
             forall obj, obj_new_state e <> obj_state vc4 obj).

(** The pointer is not the published state of an object. *)
Definition unpublished (p : pointer) : Prop :=
  forall obj, p <> Addr (obj_state vc4 obj).

(** The call [c] leaves the published states as they are; and the pointer
    it returns is not one of them. *)
Definition keeps {A} (c : M A) : Prop :=
  hoare published_intact c (fun _ m => published_intact m).

Definition keeps_ptr (c : M pointer) : Prop :=
  hoare published_intact c (fun p m => published_intact m /\ unpublished p).

(** In the CTM check the pointer to the private state is a local variable
    of the loops: NULL, an error, or a copy. *)
Definition intact_with (p : pointer) (m : machine) : Prop :=
  published_intact m /\ unpublished p.

End PublishedStates.

(** ** The commit gate *)

(** One call of [vc4_atomic_commit]. *)
Record commit_call := {
  call_dev : vc4_dev;
  call_state : drm_atomic_state;
  call_async_update : bool;
  call_nonblock : bool;
  call_env : commit_env
}.

(** The calls it makes, in order. *)
Definition calls_of (c : commit_call) : list action :=
  vc4_atomic_commit (call_dev c) (call_state c) (call_async_update c)
    (call_nonblock c) (call_env c).

(** Where a commit stands with the gate: 0 before it takes it, 1 while it
    holds it, 2 once it has given it back. *)
Definition gate_phase (made : list action) : nat :=
  if existsb is_up made then 2
  else if existsb is_down made then 1
  else 0.

(** The calls still to make fit the phase: the gate is taken at most once
    and from phase 0, given back only from phase 1, and the steps of the
    hardware application are made in phase 1. *)
Fixpoint gate_ok (ph : nat) (l : list action) : bool :=
  match l with
  | [] => true
  | a :: l' =>
      if is_down a then Nat.eqb ph 0 && gate_ok 1 l'
      else if is_up a then Nat.eqb ph 1 && gate_ok 2 l'
      else (if hw_step a then Nat.eqb ph 1 else true) && gate_ok ph l'
  end.

(** A commit in progress fits the gate: what it has left to do fits its
    phase, and it has not begun the hardware application before taking the
    gate. *)
Definition thread_ok (th : commit_thread) : Prop :=
  gate_ok (gate_phase (made th)) (pending th) = true /\
  (existsb hw_step (made th) = true -> gate_phase (made th) <> 0%nat).

(** The number of commits that hold the gate. *)
Fixpoint holders (l : list commit_thread) : nat :=
  match l with
  | [] => 0
  | th :: l' => (if holds_gate th then 1 else 0) + holders l'
  end.

(** Every commit fits the gate, and the permit is either in the semaphore or
    with the one commit that holds the gate. *)
Definition system_ok (s : system) : Prop :=
  (forall t th, threads s !! t = Some th -> thread_ok th) /\
  (sem s + holders (threads s) = 1)%nat.

(** ** The channels of the HVS *)

(** What the channel assignment looks at in a CRTC state. *)
Definition chan (s : vc4_crtc_state) : bool * Z :=
  (enable s, assigned_channel s).

(** The free channels [u] and the channels of the CRTCs [l] split the
    channels [0 .. HVS_NUM_CHANNELS - 1]: a CRTC that is off has no channel;
    one that is on has a channel that is not free, except under firmware KMS
    where no CRTC ever gets one; no two CRTCs that are on share a channel;
    and a channel that is not free is the channel of a CRTC that is on. *)
Definition chan_inv (fw : bool) (u : Z) (l : list (bool * Z)) : Prop :=
  0 <= u < 8 /\
  (forall i c, l !! i = Some (false, c) -> c = VC4_HVS_CHANNEL_DISABLED) /\
  (forall i c, l !! i = Some (true, c) ->
     if fw then c = VC4_HVS_CHANNEL_DISABLED
     else 0 <= c < 3 /\ Z.testbit u c = false) /\
  (forall i j c, i <> j -> l !! i = Some (true, c) -> l !! j = Some (true, c) ->
     c = VC4_HVS_CHANNEL_DISABLED) /\
  (forall c, 0 <= c < 3 -> Z.testbit u c = false ->
     exists i, l !! i = Some (true, c)) /\
  (fw = true -> u = 7).

(** While the muxing check walks the CRTCs, the slots before [i] have been
    handled and count with their new state, the others with the published
    one. *)
Definition view (i : nat) (es : list (option drm_crtcs_state)) (j : nat)
    (p : vc4_crtc * vc4_crtc_state) : bool * Z :=
  if (j <? i)%nat then
    match es !! j with
    | Some (Some e) => chan (new_state e)
    | _ => chan (snd p)
    end
  else chan (snd p).

(** The channels of all CRTCs of the device, as the check has them when it
    is at slot [i]. *)
Definition mixed (i : nat) (pub : list (vc4_crtc * vc4_crtc_state))
    (es : list (option drm_crtcs_state)) : list (bool * Z) :=
  imap (view i es) pub.

Section ChannelStates.

Variable vc4 : vc4_dev.

(** The published states of the CRTCs at the start of the check. *)
Variable pub : list (vc4_crtc * vc4_crtc_state).

(** The published state of every object and every copy the transaction
    holds is a cell. *)
Definition cells_valid (m : machine) : Prop :=
  (forall obj, (obj_state vc4 obj < length (mem m))%nat) /\
  (forall e, e ∈ private_objs (txn m) -> (obj_new_state e < length (mem m))%nat).

(** Every copy of the HVS state that the transaction holds splits the
    channels with the view [L]. *)
Definition hvs_copies_ok (L : list (bool * Z)) (m : machine) : Prop :=
  forall e, e ∈ private_objs (txn m) -> obj_ptr e = hvs_channels ->
    exists h, mem m !! obj_new_state e = Some (HvsState h) /\
              chan_inv (firmware_kms vc4) (unassigned_channels h) L.

(** The transaction holds a copy of the HVS state; or ([b = false]) it holds
    no copy at all and will not be granted one. *)
Definition hvs_held (b : bool) (m : machine) : Prop :=
  is_Some (find_private_obj (txn m) hvs_channels) \/
  (b = false /\ private_objs (txn m) = [] /\
   (acquire_ctx (txn m) <> 0 \/ slab m = O)).

(** What the checks that follow the muxing check keep: the copies of the HVS
    state split the channels with the view [L] of the CRTCs, and [L] is the
    view that a swap would publish. *)
Definition channels_ok (b : bool) (L : list (bool * Z)) (m : machine) : Prop :=
  cells_valid m /\ hvs_copies_ok L m /\ hvs_held b m /\
  mixed (length pub) pub (crtcs (txn m)) = L.

Section KeptChannels.

Variable b : bool.
Variable L : list (bool * Z).

(** The call [c] keeps the channels split. *)
Definition keeps_channels {A} (c : M A) : Prop :=
  hoare (channels_ok b L) c (fun _ m => channels_ok b L m).

End KeptChannels.

(** The slots from [i] on are as the framework made them: the old state is
    the published one and the new state has its channel. *)
Definition slots_fresh (i : nat) (m : machine) : Prop :=
  forall j e, (i <= j)%nat -> crtcs (txn m) !! j = Some (Some e) ->
    exists c s, pub !! j = Some (c, s) /\ chan (old_state e) = chan s /\
                assigned_channel (new_state e) = assigned_channel s.

(** A transaction as the check finds it. *)
Definition check_start (m : machine) : Prop :=
  (forall obj, (obj_state vc4 obj < length (mem m))%nat) /\
  private_objs (txn m) = [] /\
  length (crtcs (txn m)) = length pub /\
  slots_fresh 0 m /\
  exists h, mem m !! obj_state vc4 hvs_channels = Some (HvsState h) /\
            chan_inv (firmware_kms vc4) (unassigned_channels h)
              (map (fun p => chan (snd p)) pub).

(** While the muxing check is at slot [i], with its copy in the cell [p]. *)
Definition muxing_inv (p i : nat) (m : machine) : Prop :=
  cells_valid m /\
  (exists o, private_objs (txn m)
             = [{| obj_ptr := hvs_channels; obj_old_state := o;
                   obj_new_state := p |}]) /\
  length (crtcs (txn m)) = length pub /\
  slots_fresh i m /\
  exists h, mem m !! p = Some (HvsState h) /\
            chan_inv (firmware_kms vc4) (unassigned_channels h)
              (mixed i pub (crtcs (txn m))).

End ChannelStates.

(** What the generic check may change: neither the private copies nor the
    acquire context of the transaction, and of the CRTC states nothing the
    channel assignment looks at. *)
Definition helper_frame (helper : drm_atomic_state -> Z * drm_atomic_state)
  : Prop :=
  forall st,
    private_objs (snd (helper st)) = private_objs st /\
    acquire_ctx (snd (helper st)) = acquire_ctx st /\
    map (option_map (fun e => chan (new_state e))) (crtcs (snd (helper st)))
    = map (option_map (fun e => chan (new_state e))) (crtcs st).

(** The device keeps the channels split: the published state of every
    object is a cell, and the free channels of the published HVS state and
    the channels of the published CRTC states split the channels. *)
Definition dev_ok (dev : drm_device) : Prop :=
  (forall obj, (obj_state (dev_private dev) obj < length (dev_mem dev))%nat) /\
  exists h,
    dev_mem dev !! hvs_channels_state (dev_private dev) = Some (HvsState h) /\
    chan_inv (firmware_kms (dev_private dev)) (unassigned_channels h)
      (map (fun p => chan (snd p)) (dev_crtcs dev)).

(** The channel [c] is free in the HVS state [h]. *)
Definition channel_free (h : vc4_hvs_state) (c : Z) : Prop :=
  Z.testbit (unassigned_channels h) c = true.

(** The CRTC in slot [i] of the device is on and has the channel [c]. *)
Definition channel_of (dev : drm_device) (i : nat) (c : Z) : Prop :=
  exists crtc s, dev_crtcs dev !! i = Some (crtc, s) /\ enable s = true /\
                 assigned_channel s = c /\ c <> VC4_HVS_CHANNEL_DISABLED.

(** ** What a call touches *)

(** What a call may touch: the objects it may obtain a copy of, how it may
    change the cell of a private state, and how it may change the new state
    of a CRTC of the transaction. *)
Record footprint := {
  copies : drm_private_obj -> bool;
  cell_change : drm_private_state -> drm_private_state -> Prop;
  crtc_change : vc4_crtc_state -> vc4_crtc_state -> Prop
}.

(** The changes a footprint allows include no change, and follow one
    another. *)
Definition footprint_ok (fp : footprint) : Prop :=
  (forall v, cell_change fp v v) /\
  (forall v1 v2 v3, cell_change fp v1 v2 -> cell_change fp v2 v3 ->
                    cell_change fp v1 v3) /\
  (forall s, crtc_change fp s s) /\
  (forall s1 s2 s3, crtc_change fp s1 s2 -> crtc_change fp s2 s3 ->
                    crtc_change fp s1 s3).

(** A slot of [state->crtcs[]] before and after: it is used or not as
    before, for the same CRTC with the same old state. *)
Definition slot_change (R : vc4_crtc_state -> vc4_crtc_state -> Prop)
    (o o' : option (option drm_crtcs_state)) : Prop :=
  match o, o' with
  | Some (Some e), Some (Some e') =>
      ptr e' = ptr e /\ old_state e' = old_state e /\
      R (new_state e) (new_state e')
  | Some None, Some None => True
  | None, None => True
  | _, _ => False
  end.

(** The published state of every object is a cell. *)
Definition published_cells (vc4 : vc4_dev) (m : machine) : Prop :=
  forall obj, (obj_state vc4 obj < length (mem m))%nat.

Section Touches.

Variable vc4 : vc4_dev.
Variable fp : footprint.

(** The machine [m'] differs from [m] within the footprint: the planes and
    the acquire context of the transaction are the same; the CRTC slots are
    changed in their new state only, as allowed; no allocation is given
    back; the private copies of [m] are there, followed by copies of allowed
    objects that had none, each in a new cell that holds an allowed change
    of what the published state of its object held; and every cell holds an
    allowed change of what it held. *)
Definition touches (m m' : machine) : Prop :=
  planes (txn m') = planes (txn m) /\
  acquire_ctx (txn m') = acquire_ctx (txn m) /\
  (forall j, slot_change (crtc_change fp)
               (crtcs (txn m) !! j) (crtcs (txn m') !! j)) /\
  (slab m' <= slab m)%nat /\
  (exists l,
     private_objs (txn m') = private_objs (txn m) ++ l /\
     (NoDup (map obj_ptr (private_objs (txn m))) ->
      NoDup (map obj_ptr (private_objs (txn m')))) /\
     forall e, e ∈ l ->
       copies fp (obj_ptr e) = true /\
       (length (mem m) <= obj_new_state e)%nat /\
       exists v0 v, mem m !! obj_state vc4 (obj_ptr e) = Some v0 /\
                    mem m' !! obj_new_state e = Some v /\
                    cell_change fp v0 v) /\
  (forall q v, mem m !! q = Some v ->
     exists v', mem m' !! q = Some v' /\ cell_change fp v v').

(** A call stays within the footprint. *)
Definition within {A} (c : M A) : Prop :=
  forall m a m', published_cells vc4 m -> c m = Some (a, m') -> touches m m'.

End Touches.

(** *** The footprints of the checks *)

Definition same_obj (a : drm_private_obj) : drm_private_obj -> bool :=
  fun obj => drm_private_obj_eqb obj a.

(** The muxing check: a copy of the HVS state, of which it leaves the
    number of outputs, the FIFO load and the clock rate; of the new state of
    a CRTC it leaves all but [assigned_channel] and [update_muxing]. *)
Definition pv_muxing_footprint : footprint :=
  {| copies := same_obj hvs_channels;
     cell_change := fun v v' =>
       match v, v' with
       | HvsState h, HvsState h' =>
           num_outputs h' = num_outputs h /\ fifo_load h' = fifo_load h /\
           core_clock_rate h' = core_clock_rate h
       | _, _ => v' = v
       end;
     crtc_change := fun s s' =>
       enable s' = enable s /\ active s' = active s /\
       crtc_ctm s' = crtc_ctm s /\ commit s' = commit s /\
       feed_txp s' = feed_txp s /\ crtc_hvs_load s' = crtc_hvs_load s |}.

(** A matrix that the check admits: each of its nine scalars, the sign bit
    cleared, is at most 1.0. *)
Definition admitted (c : drm_color_ctm) : Prop :=
  forall k, (k < ARRAY_SIZE_matrix)%nat ->
    Z.land (default 0 (matrix c !! k)) (u64 (Z.lnot (BIT_ULL 63)))
    <= BIT_ULL 32.

(** A CTM state that [vc4_ctm_commit] can apply: when the matrix unit is
    given to a FIFO, there is a matrix, and one that the check admits. *)
Definition staged (s : vc4_ctm_state) : Prop :=
  fifo s <> 0 -> exists c, ctm s = Some c /\ admitted c.

(** The CTM check: a copy of the CTM state, which it leaves staged; no
    change to a CRTC. *)
Definition ctm_footprint : footprint :=
  {| copies := same_obj ctm_manager;
     cell_change := fun v v' =>
       match v, v' with
       | CtmState s, CtmState s' => staged s -> staged s'
       | _, _ => v' = v
       end;
     crtc_change := eq |}.

(** The load tracker check: a copy of the load tracker state. *)
Definition load_tracker_footprint : footprint :=
  {| copies := same_obj load_tracker;
     cell_change := fun v v' =>
       match v, v' with
       | LoadState _, LoadState _ => True
       | _, _ => v' = v
       end;
     crtc_change := eq |}.

(** The core clock check: copies of the load tracker and HVS states, the
    second of which keeps its free channels. *)
Definition core_clock_footprint : footprint :=
  {| copies := fun obj => same_obj load_tracker obj || same_obj hvs_channels obj;
     cell_change := fun v v' =>
       match v, v' with
       | HvsState h, HvsState h' =>
           unassigned_channels h' = unassigned_channels h
       | _, _ => v' = v
       end;
     crtc_change := eq |}.

(** ** What the published states add up *)

(** The sum of [f] over the planes that are active. *)
Fixpoint planes_load (f : vc4_plane_state -> Z) (ps : list vc4_plane_state) : Z :=
  match ps with
  | [] => 0
  | p :: ps' => (if plane_active p then f p else 0) + planes_load f ps'
  end.

(** The number of CRTCs that are active, and the sum of their HVS loads. *)
Fixpoint crtcs_active (cs : list (vc4_crtc * vc4_crtc_state)) : Z :=
  match cs with
  | [] => 0
  | c :: cs' => (if active (snd c) then 1 else 0) + crtcs_active cs'
  end.

Fixpoint crtcs_load (cs : list (vc4_crtc * vc4_crtc_state)) : Z :=
  match cs with
  | [] => 0
  | c :: cs' =>
      (if active (snd c) then crtc_hvs_load (snd c) else 0) + crtcs_load cs'
  end.

(** What the generic check leaves of a transaction: the private copies, the
    acquire context, and, slot by slot, the CRTCs and planes with their old
    states.  (It may change the new states.) *)
Definition helper_keeps (helper : drm_atomic_state -> Z * drm_atomic_state)
  : Prop :=
  forall st,
    private_objs (snd (helper st)) = private_objs st /\
    acquire_ctx (snd (helper st)) = acquire_ctx st /\
    map (option_map (fun e => (ptr e, old_state e))) (crtcs (snd (helper st)))
    = map (option_map (fun e => (ptr e, old_state e))) (crtcs st) /\
    map (option_map old_plane_state) (planes (snd (helper st)))
    = map (option_map old_plane_state) (planes st).

(** The published private states of a device agree with its published CRTC
    and plane states: the CTM state is staged; the load tracker holds the
    loads of the active planes, within the two limits when the load tracker
    is enabled; the HVS state holds the number of active CRTCs and their
    load, each up to what the counter was ahead by when the device was
    loaded; and the clock rate of the HVS state is the one the core clock
    check stores for the two published states. *)
Record counters := {
  ahead_hvs_load : Z;
  ahead_membus_load : Z;
  ahead_num_outputs : Z;
  ahead_fifo_load : Z
}.

(** The clock rate that [vc4_core_clock_atomic_check] stores for an HVS
    state and a load tracker state. *)
Definition core_clock (BITS_PER_LONG : Z) (h : vc4_hvs_state)
    (l : vc4_load_tracker_state) : Z :=
  let pixel_rate := ulong BITS_PER_LONG (hvs_load l) in
  Z.max (fifo_load h)
    (if num_outputs h >? 1 then ulong BITS_PER_LONG (pixel_rate * 40) / 100
     else ulong BITS_PER_LONG (pixel_rate * 60) / 100).

Definition dev_counted (BITS_PER_LONG : Z) (d : counters) (dev : drm_device)
  : Prop :=
  (exists c,
     dev_mem dev !! ctm_manager_state (dev_private dev) = Some (CtmState c) /\
     staged c) /\
  (exists l,
     dev_mem dev !! load_tracker_state (dev_private dev) = Some (LoadState l) /\
     hvs_load l
     = u64 (ahead_hvs_load d + planes_load plane_hvs_load (dev_planes dev)) /\
     membus_load l
     = u64 (ahead_membus_load d
            + planes_load plane_membus_load (dev_planes dev)) /\
     (load_tracker_enabled (dev_private dev) = true ->
      membus_load l <= SZ_1G + SZ_512M /\ hvs_load l <= 240000000)) /\
  (exists h,
     dev_mem dev !! hvs_channels_state (dev_private dev) = Some (HvsState h) /\
     num_outputs h = u32 (ahead_num_outputs d + crtcs_active (dev_crtcs dev)) /\
     fifo_load h
     = ulong BITS_PER_LONG (ahead_fifo_load d + crtcs_load (dev_crtcs dev))) /\
  (exists l h,
     dev_mem dev !! load_tracker_state (dev_private dev) = Some (LoadState l) /\
     dev_mem dev !! hvs_channels_state (dev_private dev) = Some (HvsState h) /\
     core_clock_rate h = core_clock BITS_PER_LONG h l).

(** The two checks that come before the generic check, together. *)
Definition pre_footprint : footprint :=
  {| copies := fun obj => same_obj hvs_channels obj || same_obj ctm_manager obj;
     cell_change := fun v v' =>
       match v, v' with
       | HvsState h, HvsState h' =>
           num_outputs h' = num_outputs h /\ fifo_load h' = fifo_load h /\
           core_clock_rate h' = core_clock_rate h
       | CtmState s, CtmState s' => staged s -> staged s'
       | _, _ => v' = v
       end;
     crtc_change := crtc_change pv_muxing_footprint |}.

(** The calls still to make give the gate back: a commit in phase [ph] of
    the gate that makes them does not end while it holds the gate. *)
Fixpoint gives_back (ph : nat) (l : list action) : bool :=
  match l with
  | [] => negb (Nat.eqb ph 1)
  | a :: l' =>
      if is_down a then gives_back 1 l'
      else if is_up a then gives_back 2 l'
      else gives_back ph l'
  end.

Definition is_queue_work (a : action) : bool :=
  match a with queue_work => true | _ => false end.

(** A slot of [state->crtcs[]] that the muxing check skips: it is unused,
    or its CRTC is neither switched on nor off. *)
Definition idle_slot (o : option drm_crtcs_state) : bool :=
  match o with
  | Some e => Bool.eqb (enable (old_state e)) (enable (new_state e))
  | None => true
  end.

(** ** The muxing check in the words of the specification *)



(** ** Concrete devices and requests *)

(** A BCM2711 before [vc4_kms_load], and the machine it is loaded on. *)
Definition ex_vc4_0 : vc4_dev :=
  {| firmware_kms := false; load_tracker_enabled := false; hvs5 := true;
     async_modeset := 0; ctm_manager_state := 0; load_tracker_state := 0;
     hvs_channels_state := 0 |}.

Definition ex_txn0 : drm_atomic_state :=
  {| crtcs := []; planes := []; private_objs := []; acquire_ctx := 0 |}.

Definition ex_boot : machine := {| mem := []; slab := 3; txn := ex_txn0 |}.

(** Every call of [vc4_kms_load] succeeds. *)
Definition ex_load_env : kms_load_env :=
  {| drm_vblank_init_ret := 0; drmm_add_action_or_reset_ret := fun _ => 0 |}.

(** What [vc4_kms_load] leaves. *)
Definition ex_vc4 : vc4_dev :=
  {| firmware_kms := false; load_tracker_enabled := true; hvs5 := true;
     async_modeset := 1; ctm_manager_state := 0; load_tracker_state := 1;
     hvs_channels_state := 2 |}.

Definition ex_cells : list drm_private_state :=
  [CtmState zero_ctm_state; LoadState zero_load_tracker_state;
   HvsState {| unassigned_channels := 7; num_outputs := 0; fifo_load := 0;
               core_clock_rate := 0 |}].

Definition ex_booted : machine :=
  {| mem := ex_cells; slab := 0; txn := ex_txn0 |}.

(** Two CRTCs: the first reaches channel 0 alone, the second all three. *)
Definition ex_pv0 : vc4_crtc :=
  {| hvs_available_channels := 1; hvs_output := 0 |}.

Definition ex_pv1 : vc4_crtc :=
  {| hvs_available_channels := 7; hvs_output := 1 |}.

Definition ex_off : vc4_crtc_state :=
  {| enable := false; active := false; crtc_ctm := None; commit := false;
     assigned_channel := VC4_HVS_CHANNEL_DISABLED; update_muxing := false;
     feed_txp := false; crtc_hvs_load := 0 |}.

Definition ex_dev0 : drm_device :=
  {| dev_private := ex_vc4; dev_mem := ex_cells;
     dev_crtcs := [(ex_pv0, ex_off); (ex_pv1, ex_off)]; dev_planes := [] |}.

(** A generic check that accepts and changes nothing. *)
Definition ex_helper (st : drm_atomic_state) : Z * drm_atomic_state := (0, st).

(** Every call of the commit path succeeds. *)
Definition ex_env : commit_env :=
  {| setup_commit_ret := 0; down_interruptible_ret := 0;
     prepare_planes_ret := 0; wait_for_fences_ret := 0 |}.

Definition ex_request (cs : list (option crtc_props)) : drm_mode_atomic :=
  {| crtc_requests := cs; plane_requests := []; request_ctx := 0;
     request_slab := 3; request_async_update := false;
     request_nonblock := false; request_env := ex_env |}.

Definition ex_on : crtc_props :=
  {| prop_enable := true; prop_active := true; prop_ctm := None |}.

Definition ex_with_ctm (b : option drm_property_blob) : crtc_props :=
  {| prop_enable := true; prop_active := true; prop_ctm := b |}.

(** The identity matrix, and a matrix with a coefficient of 2.0. *)
Definition ex_identity : drm_property_blob :=
  {| base_id := 41;
     data := {| matrix := [2 ^ 32; 0; 0; 0; 2 ^ 32; 0; 0; 0; 2 ^ 32] |} |}.

Definition ex_double : drm_property_blob :=
  {| base_id := 42;
     data := {| matrix := [2 ^ 33; 0; 0; 0; 2 ^ 32; 0; 0; 0; 2 ^ 32] |} |}.

Definition ex_on_both : drm_mode_atomic := ex_request [Some ex_on; Some ex_on].

Definition ex_claim0 : drm_mode_atomic :=
  ex_request [Some (ex_with_ctm (Some ex_identity)); None].

Definition ex_claim1 : drm_mode_atomic :=
  ex_request [None; Some (ex_with_ctm (Some ex_identity))].

Definition ex_claim1_double : drm_mode_atomic :=
  ex_request [None; Some (ex_with_ctm (Some ex_double))].

Definition ex_claim_both : drm_mode_atomic :=
  ex_request [Some (ex_with_ctm (Some ex_identity));
              Some (ex_with_ctm (Some ex_double))].

Definition ex_swap_ctm : drm_mode_atomic :=
  ex_request [Some (ex_with_ctm (Some ex_identity));
              Some (ex_with_ctm None)].

(** The device once both CRTCs are on. *)
Definition ex_dev1 : drm_device :=
  Eval vm_compute in
    default ex_dev0
      (drm_mode_atomic_ioctls 64 ex_helper ex_dev0 [ex_on_both]).

(** The device once the second CRTC has then taken the matrix unit. *)
Definition ex_dev2 : drm_device :=
  Eval vm_compute in
    default ex_dev1 (drm_mode_atomic_ioctls 64 ex_helper ex_dev1 [ex_claim1]).

(** The machine the check of a request starts on. *)
Definition ex_machine (dev : drm_device) (req : drm_mode_atomic) : machine :=
  {| mem := dev_mem dev; slab := request_slab req;
     txn := drm_atomic_state_init dev req |}.

(** The machine a call leaves. *)
Definition ex_after {A} (c : M A) (m : machine) : machine :=
  match c m with Some (_, m') => m' | None => m end.

(** The CRTC in a slot of the transaction. *)
Definition ex_slot (m : machine) (k : nat) : drm_crtcs_state :=
  match crtcs (txn m) !! k with
  | Some (Some e) => e
  | _ => {| ptr := ex_pv0; old_state := ex_off; new_state := ex_off |}
  end.

(** A plane that goes from unused to showing a framebuffer on CRTC 0. *)
Definition ex_plane_off : vc4_plane_state :=
  {| fb := None; crtc := None; plane_membus_load := 0; plane_hvs_load := 0 |}.

Definition ex_plane_on : vc4_plane_state :=
  {| fb := Some 1; crtc := Some 0%nat; plane_membus_load := 2 ^ 31;
     plane_hvs_load := 1000 |}.

Definition ex_planes : machine :=
  {| mem := ex_cells; slab := 3;
     txn := {| crtcs := [];
               planes := [Some {| old_plane_state := ex_plane_off;
                                  new_plane_state := ex_plane_on |}];
               private_objs := []; acquire_ctx := 0 |} |}.

(** A device whose load tracker holds an HVS load of 1000. *)
Definition ex_cells_loaded : list drm_private_state :=
  [CtmState zero_ctm_state;
   LoadState {| hvs_load := 1000; membus_load := 0 |};
   HvsState {| unassigned_channels := 7; num_outputs := 0; fifo_load := 0;
               core_clock_rate := 0 |}].

Definition ex_dev_loaded : drm_device :=
  {| dev_private := ex_vc4; dev_mem := ex_cells_loaded;
     dev_crtcs := [(ex_pv0, ex_off); (ex_pv1, ex_off)]; dev_planes := [] |}.

(** Two CRTCs that reach channel 0 alone. *)
Definition ex_dev_narrow : drm_device :=
  {| dev_private := ex_vc4; dev_mem := ex_cells;
     dev_crtcs := [(ex_pv0, ex_off); (ex_pv0, ex_off)]; dev_planes := [] |}.



(** A layout of the fields for the examples: a shift and a width by field,
    the mask and [VC4_SET_FIELD] made from them. *)
Definition ex_field_SHIFT (f : hvs_field) : Z :=
  match f with
  | SCALER_DISPCTRL_DSP3_MUX => 18
  | SCALER_DISPECTRL_DSP2_MUX => 31
  | SCALER_DISPEOLN_DSP4_MUX => 3
  | SCALER_DISPDITHER_DSP5_MUX => 30
  | SCALER_OLEDOFFS_DISPFIFO => 24
  | SCALER_OLEDCOEF2_R_TO_R | SCALER_OLEDCOEF1_G_TO_R
  | SCALER_OLEDCOEF0_B_TO_R => 0
  | SCALER_OLEDCOEF2_R_TO_G | SCALER_OLEDCOEF1_G_TO_G
  | SCALER_OLEDCOEF0_B_TO_G => 10
  | SCALER_OLEDCOEF2_R_TO_B | SCALER_OLEDCOEF1_G_TO_B
  | SCALER_OLEDCOEF0_B_TO_B => 20
  end.

Definition ex_field_WIDTH (f : hvs_field) : Z :=
  match f with
  | SCALER_DISPECTRL_DSP2_MUX => 1
  | SCALER_DISPCTRL_DSP3_MUX | SCALER_DISPEOLN_DSP4_MUX
  | SCALER_DISPDITHER_DSP5_MUX | SCALER_OLEDOFFS_DISPFIFO => 2
  | _ => 10
  end.

Definition ex_field_MASK (f : hvs_field) : Z :=
  GENMASK (ex_field_SHIFT f + ex_field_WIDTH f - 1) (ex_field_SHIFT f).

Definition ex_VC4_SET_FIELD (val : Z) (f : hvs_field) : Z :=
  Z.land (Z.shiftl val (ex_field_SHIFT f)) (ex_field_MASK f).

(** Registers that hold 0 but for [SCALER_DISPCTRL], whose bits are all
    set. *)
Definition ex_regs : hvs_regs :=
  fun r => match r with SCALER_DISPCTRL => 2 ^ 32 - 1 | _ => 0 end.

(** A transaction whose one CRTC, of HVS output 3, is active on channel 2
    with its muxing to update. *)
Definition ex_pv2 : vc4_crtc :=
  {| hvs_available_channels := 4; hvs_output := 3 |}.

Definition ex_on_channel_2 : vc4_crtc_state :=
  {| enable := true; active := true; crtc_ctm := None; commit := false;
     assigned_channel := 2; update_muxing := true; feed_txp := false;
     crtc_hvs_load := 0 |}.

Definition ex_txn_channel_2 : drm_atomic_state :=
  {| crtcs := [Some {| ptr := ex_pv2; old_state := ex_off;
                       new_state := ex_on_channel_2 |}];
     planes := []; private_objs := []; acquire_ctx := 0 |}.

(** A device with one plane, unused, and a request that shows a
    framebuffer on it. *)
Definition ex_plane_light : vc4_plane_state :=
  {| fb := Some 1; crtc := Some 0%nat; plane_membus_load := 2 ^ 20;
     plane_hvs_load := 1000 |}.

Definition ex_dev_plane : drm_device :=
  {| dev_private := ex_vc4; dev_mem := ex_cells;
     dev_crtcs := [(ex_pv0, ex_off); (ex_pv1, ex_off)];
     dev_planes := [ex_plane_off] |}.

Definition ex_show_plane : drm_mode_atomic :=
  {| crtc_requests := []; plane_requests := [Some ex_plane_light];
     request_ctx := 0; request_slab := 3; request_async_update := false;
     request_nonblock := false; request_env := ex_env |}.

Definition ex_dev_shown : drm_device :=
  Eval vm_compute in
    default ex_dev_plane
      (drm_mode_atomic_ioctls 64 ex_helper ex_dev_plane [ex_show_plane]).

(** The machine of a request when no memory is left. *)
Definition ex_no_memory : machine :=
  {| mem := ex_cells; slab := 0;
     txn := drm_atomic_state_init ex_dev0 ex_on_both |}.

(** Commits: of a transaction that holds a copy of the HVS state, blocking
    and not, and of a transaction that holds none. *)
Definition ex_txn_hvs : drm_atomic_state :=
  {| crtcs := []; planes := [];
     private_objs := [{| obj_ptr := hvs_channels; obj_old_state := 2;
                         obj_new_state := 3 |}];
     acquire_ctx := 0 |}.

Definition ex_commit (nonblock : bool) : commit_call :=
  {| call_dev := ex_vc4; call_state := ex_txn_hvs; call_async_update := false;
     call_nonblock := nonblock; call_env := ex_env |}.

Definition ex_commit_bare : commit_call :=
  {| call_dev := ex_vc4; call_state := ex_txn0; call_async_update := false;
     call_nonblock := false; call_env := ex_env |}.

(** The commit without a copy has made its seven calls; then the other
    commit makes its first call. *)
Definition ex_gate_kept : system :=
  Eval vm_compute in
    default (start [])
      (run (start (map calls_of [ex_commit_bare; ex_commit false]))
         [0; 0; 0; 0; 0; 0; 0]%nat).

Definition ex_gate_kept_thread : commit_thread :=
  Eval vm_compute in
    default {| made := []; pending := [] |} (threads ex_gate_kept !! 0%nat).

Definition ex_gate_kept_later : system :=
  Eval vm_compute in default (start []) (run ex_gate_kept [1%nat]).

(** The wait for the fences is interrupted. *)
Definition ex_env_interrupted : commit_env :=
  {| setup_commit_ret := 0; down_interruptible_ret := 0;
     prepare_planes_ret := 0; wait_for_fences_ret := - EINTR |}.

Definition ex_on_both_interrupted : drm_mode_atomic :=
  {| crtc_requests := [Some ex_on; Some ex_on]; plane_requests := [];
     request_ctx := 0; request_slab := 3; request_async_update := false;
     request_nonblock := false; request_env := ex_env_interrupted |}.

(** A device whose load tracker holds an HVS load of 100000000, under the
    limit of 240000000, and a request that switches the first CRTC on. *)
Definition ex_cells_heavy : list drm_private_state :=
  [CtmState zero_ctm_state;
   LoadState {| hvs_load := 100000000; membus_load := 0 |};
   HvsState {| unassigned_channels := 7; num_outputs := 0; fifo_load := 0;
               core_clock_rate := 0 |}].

Definition ex_dev_heavy : drm_device :=
  {| dev_private := ex_vc4; dev_mem := ex_cells_heavy;
     dev_crtcs := [(ex_pv0, ex_off); (ex_pv1, ex_off)]; dev_planes := [] |}.

Definition ex_on_first : drm_mode_atomic := ex_request [Some ex_on; None].

(** * Properties *)
(** ** Bit-level facts *)

Lemma land_BIT_testbit (x n : Z) :
  0 <= n -> (Z.land x (BIT n) =? 0) = negb (Z.testbit x n).
Proof.
  intros Hn. unfold BIT. rewrite Z.shiftl_1_l.
  destruct (Z.testbit x n) eqn:Hb; simpl.
  - apply Z.eqb_neq. intros H0.
    assert (Z.testbit (Z.land x (2 ^ n)) n = true) as Ht.
    { rewrite Z.land_spec, Hb, Z.pow2_bits_true by lia. reflexivity. }
    rewrite H0, Z.bits_0 in Ht. discriminate.
  - apply Z.eqb_eq. apply Z.bits_inj'. intros k Hk.
    rewrite Z.land_spec, Z.bits_0, Z.pow2_bits_eqb by lia.
    destruct (Z.eqb_spec n k) as [->|]; [rewrite Hb|]; auto using andb_false_r.
Qed.

Lemma GENMASK_testbit (h l k : Z) :
  0 <= l -> l <= h + 1 -> 0 <= k ->
  Z.testbit (GENMASK h l) k = (l <=? k) && (k <=? h).
Proof.
  intros Hl Hh Hk. unfold GENMASK.
  rewrite Z.shiftl_spec by lia.
  destruct (Z.leb_spec l k); simpl.
  - rewrite Z.testbit_ones_nonneg by lia.
    destruct (Z.leb_spec k h), (Z.ltb_spec (k - l) (h + 1 - l)); auto; lia.
  - apply Z.testbit_neg_r. lia.
Qed.

Lemma GENMASK_nonneg (h l : Z) : 0 <= l -> l <= h + 1 -> 0 <= GENMASK h l.
Proof.
  intros. unfold GENMASK. apply Z.shiftl_nonneg.
  rewrite Z.ones_equiv. pose proof (Z.pow_pos_nonneg 2 (h + 1 - l)). lia.
Qed.

Lemma land_GENMASK_pos (x h l : Z) :
  0 <= l -> l <= h + 1 ->
  (Z.land x (GENMASK h l) >? 0) = true <->
  exists k, l <= k <= h /\ Z.testbit x k = true.
Proof.
  intros Hl Hh.
  assert (0 <= Z.land x (GENMASK h l)) as Hnn.
  { apply Z.land_nonneg. right. now apply GENMASK_nonneg. }
  split.
  - intros Hgt. apply Z.gtb_lt in Hgt.
    destruct (Z.eq_dec (Z.land x (GENMASK h l)) 0) as [E|NE]; [lia|].
    assert (exists k, 0 <= k /\ Z.testbit (Z.land x (GENMASK h l)) k = true)
      as (k & Hk & Hb).
    { set (v := Z.land x (GENMASK h l)) in *.
      exists (Z.log2 v). split; [apply Z.log2_nonneg|].
      apply Z.bit_log2. lia. }
    rewrite Z.land_spec, GENMASK_testbit in Hb by lia.
    apply andb_true_iff in Hb as [Hx Hm].
    apply andb_true_iff in Hm as [H1 H2].
    exists k. split; [lia|assumption].
  - intros (k & Hk & Hb). apply Z.gtb_lt.
    destruct (Z.eq_dec (Z.land x (GENMASK h l)) 0) as [E|NE]; [|lia].
    assert (Z.testbit (Z.land x (GENMASK h l)) k = true) as Ht.
    { rewrite Z.land_spec, Hb, GENMASK_testbit by lia. simpl.
      apply andb_true_iff. split; apply Z.leb_le; lia. }
    rewrite E, Z.bits_0 in Ht. discriminate.
Qed.

Lemma bits_bound (v n : Z) :
  0 <= n -> 0 <= v -> (forall k, n <= k -> Z.testbit v k = false) -> v < 2 ^ n.
Proof.
  intros Hn Hv Hbits.
  destruct (Z.lt_ge_cases v (2 ^ n)) as [|Hge]; [assumption|].
  assert (0 < v) as Hpos by (pose proof (Z.pow_pos_nonneg 2 n); lia).
  apply Z.log2_le_pow2 in Hge; [|assumption].
  pose proof (Z.bit_log2 v Hpos) as Hb.
  rewrite Hbits in Hb; [discriminate|assumption].
Qed.

Lemma sign_bit_testbit (b : bool) (k : Z) :
  0 <= k -> Z.testbit (if b then 0 else BIT 9) k = negb b && (k =? 9).
Proof.
  intros Hk. destruct b; simpl.
  - apply Z.bits_0.
  - unfold BIT. rewrite Z.shiftl_1_l, Z.pow2_bits_eqb by lia.
    apply Z.eqb_sym.
Qed.

Lemma u16_small (v : Z) : 0 <= v < 2 ^ 10 -> u16 v = v.
Proof. intros. unfold u16. apply Z.mod_small. lia. Qed.

(** The bits of the S0.9 value before the store to [u16]. *)
Lemma s0_9_bits (inp low k : Z) :
  0 <= k ->
  Z.testbit
    (Z.lor (if Z.land inp (BIT_ULL 63) =? 0 then 0 else BIT 9)
           (Z.land low (GENMASK 8 0))) k
  = (k =? 9) && Z.testbit inp 63 || (k <=? 8) && Z.testbit low k.
Proof.
  intros Hk.
  rewrite Z.lor_spec, sign_bit_testbit, Z.land_spec, GENMASK_testbit by lia.
  unfold BIT_ULL. fold (BIT 63). rewrite land_BIT_testbit by lia.
  rewrite negb_involutive.
  replace (0 <=? k) with true by (symmetry; apply Z.leb_le; lia).
  generalize (Z.testbit inp 63), (Z.testbit low k), (k =? 9), (k <=? 8).
  intros [] [] [] []; reflexivity.
Qed.

Lemma s0_9_range (inp low : Z) :
  0 <= Z.lor (if Z.land inp (BIT_ULL 63) =? 0 then 0 else BIT 9)
             (Z.land low (GENMASK 8 0)) < 2 ^ 10.
Proof.
  assert (0 <= Z.lor (if Z.land inp (BIT_ULL 63) =? 0 then 0 else BIT 9)
                     (Z.land low (GENMASK 8 0))) as Hnn.
  { apply Z.lor_nonneg. split.
    - change (BIT 9) with 512. destruct (_ =? 0); lia.
    - apply Z.land_nonneg. right. apply GENMASK_nonneg; lia. }
  split; [assumption|].
  apply bits_bound; [lia|assumption|].
  intros k Hk. rewrite s0_9_bits by lia.
  replace (k =? 9) with false by (symmetry; apply Z.eqb_neq; lia).
  replace (k <=? 8) with false by (symmetry; apply Z.leb_gt; lia).
  reflexivity.
Qed.

(** C6. The conversion of a 64-bit S31.32 value to S0.9: bit 9 of the result
    is the sign bit (bit 63) of the input; the nine low bits are all ones
    when one of the integer bits 62..32 of the input is set, and otherwise
    they are the bits 31..23 of the input; the result fits in 10 bits. *)
Theorem vc4_ctm_s31_32_to_s0_9_bits (inp : Z) :
  Z.testbit (vc4_ctm_s31_32_to_s0_9 inp) 9 = Z.testbit inp 63 /\
  ((exists k, 32 <= k <= 62 /\ Z.testbit inp k = true) ->
   forall j, 0 <= j <= 8 -> Z.testbit (vc4_ctm_s31_32_to_s0_9 inp) j = true) /\
  ((forall k, 32 <= k <= 62 -> Z.testbit inp k = false) ->
   forall j, 0 <= j <= 8 ->
     Z.testbit (vc4_ctm_s31_32_to_s0_9 inp) j = Z.testbit inp (23 + j)) /\
  0 <= vc4_ctm_s31_32_to_s0_9 inp < 2 ^ 10.
Proof.
  unfold vc4_ctm_s31_32_to_s0_9, GENMASK_ULL.
  fold (GENMASK 62 32).
  destruct (Z.land inp (GENMASK 62 32) >? 0) eqn:Hsat.
  - (* saturation *)
    change (GENMASK 8 0) with (Z.land (GENMASK 8 0) (GENMASK 8 0)).
    rewrite u16_small by apply s0_9_range.
    repeat split.
    + rewrite s0_9_bits by lia.
      change (9 =? 9) with true. change (9 <=? 8) with false.
      destruct (Z.testbit inp 63); reflexivity.
    + intros _ j Hj. rewrite s0_9_bits, GENMASK_testbit by lia.
      replace (j <=? 8) with true by (symmetry; apply Z.leb_le; lia).
      replace (0 <=? j) with true by (symmetry; apply Z.leb_le; lia).
      apply orb_true_r.
    + intros Hnone. apply land_GENMASK_pos in Hsat as (k & Hk & Hb); [|lia..].
      rewrite Hnone in Hb by lia. discriminate.
    + apply s0_9_range.
    + apply s0_9_range.
  - (* the nine most significant fractional bits *)
    rewrite u16_small by apply s0_9_range.
    repeat split.
    + rewrite s0_9_bits by lia.
      change (9 =? 9) with true. change (9 <=? 8) with false.
      destruct (Z.testbit inp 63); reflexivity.
    + intros Hsome. apply land_GENMASK_pos in Hsome; [|lia..]. congruence.
    + intros _ j Hj. rewrite s0_9_bits by lia.
      replace (j =? 9) with false by (symmetry; apply Z.eqb_neq; lia).
      replace (j <=? 8) with true by (symmetry; apply Z.leb_le; lia).
      rewrite andb_false_l, andb_true_l, orb_false_l.
      rewrite Z.shiftr_spec by lia. f_equal. lia.
    + apply s0_9_range.
    + apply s0_9_range.
Qed.

Lemma testbit_high (x n k : Z) :
  0 <= x < 2 ^ n -> n <= k -> Z.testbit x k = false.
Proof.
  intros [H0 Hlt] Hk.
  destruct (Z.eq_dec x 0) as [->|]; [apply Z.bits_0|].
  apply Z.bits_above_log2; [assumption|].
  assert (Z.log2 x < n); [|lia].
  apply Z.log2_lt_pow2; lia.
Qed.

Lemma ffs_spec (x : Z) :
  0 < x ->
  0 <= ffs x - 1 /\
  Z.testbit x (ffs x - 1) = true /\
  forall j, 0 <= j < ffs x - 1 -> Z.testbit x j = false.
Proof.
  destruct x as [|p|p]; try lia. intros _. unfold ffs.
  replace (pos_ctz p + 1 - 1) with (pos_ctz p) by lia.
  induction p as [p IH|p IH|]; cbn [pos_ctz].
  - split; [lia|split; [reflexivity|intros; lia]].
  - destruct IH as (IH0 & IH1 & IH2).
    rewrite Pos2Z.inj_xO. split; [|split].
    + lia.
    + replace (1 + pos_ctz p) with (Z.succ (pos_ctz p)) by lia.
      rewrite Z.double_bits_succ. assumption.
    + intros j Hj. destruct (Z.eq_dec j 0) as [->|].
      * apply Z.testbit_even_0.
      * replace j with (Z.succ (j - 1)) by lia.
        rewrite Z.double_bits_succ. apply IH2. lia.
  - split; [lia|split; [reflexivity|intros; lia]].
Qed.

(** ** Running the monad *)

Lemma bind_Some {A B} (c : M A) (f : A -> M B) m a m' :
  c m = Some (a, m') -> bind c f m = f a m'.
Proof. intros H. unfold bind. now rewrite H. Qed.

Lemma bind_inv {A B} (c : M A) (f : A -> M B) m b m'' :
  bind c f m = Some (b, m'') ->
  exists a m', c m = Some (a, m') /\ f a m' = Some (b, m'').
Proof.
  unfold bind. destruct (c m) as [[a m']|]; [|discriminate].
  intros H. now exists a, m'.
Qed.

Lemma read_ok m a v :
  mem m !! a = Some v -> read (Addr a) m = Some (v, m).
Proof. intros H. unfold read. now rewrite H. Qed.

Lemma write_ok m a v0 v :
  mem m !! a = Some v0 ->
  write (Addr a) v m = Some (tt, with_mem (<[a := v]> (mem m)) m).
Proof. intros H. unfold write. now rewrite H. Qed.

Lemma load_hvs_ok m a s :
  mem m !! a = Some (HvsState s) -> load_hvs (Addr a) m = Some (s, m).
Proof. intros H. unfold load_hvs. now rewrite (bind_Some _ _ _ _ _ (read_ok _ _ _ H)). Qed.

Lemma load_ctm_ok m a s :
  mem m !! a = Some (CtmState s) -> load_ctm (Addr a) m = Some (s, m).
Proof. intros H. unfold load_ctm. now rewrite (bind_Some _ _ _ _ _ (read_ok _ _ _ H)). Qed.

Lemma load_load_ok m a s :
  mem m !! a = Some (LoadState s) -> load_load (Addr a) m = Some (s, m).
Proof. intros H. unfold load_load. now rewrite (bind_Some _ _ _ _ _ (read_ok _ _ _ H)). Qed.

Lemma modify_hvs_ok m a s f :
  mem m !! a = Some (HvsState s) ->
  modify_hvs (Addr a) f m = Some (tt, with_mem (<[a := HvsState (f s)]> (mem m)) m).
Proof.
  intros H. unfold modify_hvs.
  rewrite (bind_Some _ _ _ _ _ (load_hvs_ok _ _ _ H)).
  now apply write_ok with (v0 := HvsState s).
Qed.

Lemma modify_ctm_ok m a s f :
  mem m !! a = Some (CtmState s) ->
  modify_ctm (Addr a) f m = Some (tt, with_mem (<[a := CtmState (f s)]> (mem m)) m).
Proof.
  intros H. unfold modify_ctm.
  rewrite (bind_Some _ _ _ _ _ (load_ctm_ok _ _ _ H)).
  now apply write_ok with (v0 := CtmState s).
Qed.

Lemma modify_load_ok m a s f :
  mem m !! a = Some (LoadState s) ->
  modify_load (Addr a) f m = Some (tt, with_mem (<[a := LoadState (f s)]> (mem m)) m).
Proof.
  intros H. unfold modify_load.
  rewrite (bind_Some _ _ _ _ _ (load_load_ok _ _ _ H)).
  now apply write_ok with (v0 := LoadState s).
Qed.

Lemma modify_new_crtc_state_ok m i e f :
  crtcs (txn m) !! i = Some (Some e) ->
  modify_new_crtc_state i f m =
  Some (tt, with_txn (with_crtcs (<[i := Some (with_new_state (f (new_state e)) e)]>
                                    (crtcs (txn m))) (txn m)) m).
Proof.
  intros H. unfold modify_new_crtc_state, bind, get_state. now rewrite H.
Qed.

Lemma lookup_insert_same {A} (l : list A) i x y :
  l !! i = Some y -> <[i := x]> l !! i = Some x.
Proof.
  intros H. apply list_lookup_insert_eq. now apply lookup_lt_Some in H.
Qed.

Lemma u32_small (v : Z) : 0 <= v < 2 ^ 32 -> u32 v = v.
Proof. intros. unfold u32. now apply Z.mod_small. Qed.

Lemma BIT_testbit (n k : Z) : 0 <= n -> Z.testbit (BIT n) k = (k =? n).
Proof.
  intros Hn. unfold BIT. rewrite Z.shiftl_1_l.
  destruct (Z.le_gt_cases 0 k).
  - rewrite Z.pow2_bits_eqb by lia. apply Z.eqb_sym.
  - rewrite Z.testbit_neg_r by lia. symmetry. apply Z.eqb_neq. lia.
Qed.

Lemma BIT_nonneg (n : Z) : 0 <= n -> 0 <= BIT n.
Proof. intros. unfold BIT. rewrite Z.shiftl_1_l. apply Z.pow_nonneg. lia. Qed.

(** [unassigned_channels |= BIT(channel)] *)
Lemma put_back_channel (u c : Z) :
  0 <= u < 2 ^ 32 -> 0 <= c < 32 ->
  0 <= u32 (Z.lor u (BIT c)) < 2 ^ 32 /\
  forall k, Z.testbit (u32 (Z.lor u (BIT c))) k = Z.testbit u k || (k =? c).
Proof.
  intros Hu Hc.
  assert (0 <= Z.lor u (BIT c) < 2 ^ 32) as Hr.
  { assert (0 <= Z.lor u (BIT c)) as Hnn.
    { apply Z.lor_nonneg. split; [lia|apply BIT_nonneg; lia]. }
    split; [assumption|]. apply bits_bound; [lia|assumption|].
    intros k Hk. rewrite Z.lor_spec, BIT_testbit by lia.
    rewrite (testbit_high u 32 k) by lia.
    simpl. apply Z.eqb_neq. lia. }
  rewrite u32_small by assumption. split; [assumption|].
  intros k. now rewrite Z.lor_spec, BIT_testbit by lia.
Qed.

(** [unassigned_channels &= ~BIT(channel)] *)
Lemma take_channel (u c : Z) :
  0 <= u < 2 ^ 32 -> 0 <= c ->
  0 <= u32 (Z.land u (Z.lnot (BIT c))) < 2 ^ 32 /\
  forall k, Z.testbit (u32 (Z.land u (Z.lnot (BIT c)))) k
            = Z.testbit u k && negb (k =? c).
Proof.
  intros Hu Hc.
  assert (forall k, Z.testbit (Z.land u (Z.lnot (BIT c))) k
                    = Z.testbit u k && negb (k =? c)) as Hbits.
  { intros k. destruct (Z.le_gt_cases 0 k).
    - now rewrite Z.land_spec, Z.lnot_spec, BIT_testbit by lia.
    - now rewrite !Z.testbit_neg_r by lia. }
  assert (0 <= Z.land u (Z.lnot (BIT c)) < 2 ^ 32) as Hr.
  { assert (0 <= Z.land u (Z.lnot (BIT c))) as Hnn.
    { apply Z.land_nonneg. left. lia. }
    split; [assumption|]. apply bits_bound; [lia|assumption|].
    intros k Hk. rewrite Hbits, (testbit_high u 32 k) by lia. reflexivity. }
  rewrite u32_small by assumption. split; [assumption|apply Hbits].
Qed.

(** One round of the loop of the muxing check, bit by bit.  On a device that
    is not driven by the firmware, for the CRTC in slot [i] whose [enable]
    changes: when it is being disabled, its
    old channel is put back into [unassigned_channels] of the private HVS
    state at once, its [assigned_channel] becomes
    [VC4_HVS_CHANNEL_DISABLED] and [update_muxing] is set; when it is being
    enabled, the candidates are [unassigned_channels &
    hvs_available_channels], no candidate gives [-EINVAL], and otherwise the
    lowest candidate is assigned, taken out of [unassigned_channels], and
    [update_muxing] is set. *)
Theorem pv_muxing_crtc_spec (vc4 : vc4_dev) (p i : nat) (e : drm_crtcs_state)
    (m : machine) (s : vc4_hvs_state) :
  firmware_kms vc4 = false ->
  crtcs (txn m) !! i = Some (Some e) ->
  mem m !! p = Some (HvsState s) ->
  0 <= unassigned_channels s < 2 ^ 32 ->
  enable (old_state e) <> enable (new_state e) ->
  (enable (new_state e) = false ->
   0 <= assigned_channel (old_state e) < 32 ->
   exists m' s' e',
     pv_muxing_crtc vc4 (Addr p) i e tt m = Some (Continue tt, m') /\
     mem m' !! p = Some (HvsState s') /\
     (forall k, Z.testbit (unassigned_channels s') k
                = Z.testbit (unassigned_channels s) k
                  || (k =? assigned_channel (old_state e))) /\
     crtcs (txn m') !! i = Some (Some e') /\
     assigned_channel (new_state e') = VC4_HVS_CHANNEL_DISABLED /\
     update_muxing (new_state e') = true) /\
  (enable (new_state e) = true ->
   let candidate :=
     Z.land (unassigned_channels s) (hvs_available_channels (ptr e)) in
   (candidate = 0 ->
    exists m', pv_muxing_crtc vc4 (Addr p) i e tt m = Some (Return (- EINVAL), m')) /\
   (candidate <> 0 ->
    exists m' s' e' channel,
      pv_muxing_crtc vc4 (Addr p) i e tt m = Some (Continue tt, m') /\
      Z.testbit candidate channel = true /\
      (forall j, 0 <= j < channel -> Z.testbit candidate j = false) /\
      mem m' !! p = Some (HvsState s') /\
      (forall k, Z.testbit (unassigned_channels s') k
                 = Z.testbit (unassigned_channels s) k && negb (k =? channel)) /\
      crtcs (txn m') !! i = Some (Some e') /\
      assigned_channel (new_state e') = channel /\
      update_muxing (new_state e') = true)).
Proof.
  intros Hfw Hi Hp Hu Hchg.
  pose proof (modify_new_crtc_state_ok m i e (set_update_muxing true) Hi) as H1.
  set (m1 := with_txn _ m) in H1.
  assert (crtcs (txn m1) !! i
          = Some (Some (with_new_state (set_update_muxing true (new_state e)) e)))
    as Hi1 by (apply (lookup_insert_same _ _ _ _ Hi)).
  split.
  - (* disable *)
    intros Hoff Hch.
    destruct (put_back_channel _ _ Hu Hch) as [_ Hbits].
    pose proof (modify_hvs_ok m1 p s
      (fun s => set_unassigned_channels
                  (u32 (Z.lor (unassigned_channels s)
                          (BIT (assigned_channel (old_state e))))) s) Hp) as H2.
    set (m2 := with_mem _ m1) in H2.
    pose proof (modify_new_crtc_state_ok m2 i _
      (set_assigned_channel VC4_HVS_CHANNEL_DISABLED) Hi1) as H3.
    set (m3 := with_txn _ m2) in H3.
    exists m3. eexists. eexists. split; [|split; [|split; [|split; [|split]]]].
    + unfold pv_muxing_crtc. rewrite Hfw.
      destruct (Bool.eqb _ _) eqn:E; [apply eqb_prop in E; contradiction|].
      rewrite (bind_Some _ _ _ _ _ H1), Hoff. cbn [negb].
      rewrite (bind_Some _ _ _ _ _ H2), (bind_Some _ _ _ _ _ H3). reflexivity.
    + cbn. apply (lookup_insert_same _ _ _ _ Hp).
    + apply Hbits.
    + cbn. apply (lookup_insert_same _ _ _ _ Hi1).
    + reflexivity.
    + reflexivity.
  - (* enable *)
    intros Hon candidate.
    assert (load_hvs (Addr p) m1 = Some (s, m1)) as HL by (now apply load_hvs_ok).
    split.
    + intros Hnone. exists m1.
      unfold pv_muxing_crtc. rewrite Hfw.
      destruct (Bool.eqb _ _) eqn:E; [apply eqb_prop in E; contradiction|].
      rewrite (bind_Some _ _ _ _ _ H1), Hon. cbn [negb].
      rewrite (bind_Some _ _ _ _ _ HL). fold candidate. rewrite Hnone.
      reflexivity.
    + intros Hsome.
      assert (0 <= candidate) as Hnn by (apply Z.land_nonneg; left; lia).
      destruct (ffs_spec candidate) as (Hc0 & Hc1 & Hc2); [lia|].
      assert (ffs candidate - 1 < 32) as Hc32.
      { destruct (Z.lt_ge_cases (ffs candidate - 1) 32) as [|Hge]; [assumption|].
        pose proof (Z.land_spec (unassigned_channels s)
                      (hvs_available_channels (ptr e)) (ffs candidate - 1)) as Hl.
        fold candidate in Hl.
        rewrite Hc1, (testbit_high _ 32 _ Hu Hge) in Hl. discriminate. }
      assert (u32 (ffs candidate - 1) = ffs candidate - 1) as Hch
        by (apply u32_small; lia).
      destruct (take_channel _ _ Hu Hc0) as [_ Hbits].
      pose proof (modify_new_crtc_state_ok m1 i _
        (set_assigned_channel (u32 (ffs candidate - 1))) Hi1) as H2.
      set (m2 := with_txn _ m1) in H2.
      pose proof (modify_hvs_ok m2 p s
        (fun s => set_unassigned_channels
                    (u32 (Z.land (unassigned_channels s)
                            (Z.lnot (BIT (u32 (ffs candidate - 1)))))) s) Hp) as H3.
      set (m3 := with_mem _ m2) in H3.
      exists m3. eexists. eexists. exists (ffs candidate - 1).
      split; [|split; [|split; [|split; [|split; [|split; [|split]]]]]].
      * unfold pv_muxing_crtc. rewrite Hfw.
        destruct (Bool.eqb _ _) eqn:E; [apply eqb_prop in E; contradiction|].
        rewrite (bind_Some _ _ _ _ _ H1), Hon. cbn [negb].
        rewrite (bind_Some _ _ _ _ _ HL). fold candidate.
        destruct (Z.eqb_spec candidate 0) as [|_]; [contradiction|]. cbn [negb].
        rewrite (bind_Some _ _ _ _ _ H2), (bind_Some _ _ _ _ _ H3). reflexivity.
      * assumption.
      * assumption.
      * cbn. apply (lookup_insert_same _ _ _ _ Hp).
      * cbn [unassigned_channels set_unassigned_channels]. rewrite Hch. apply Hbits.
      * cbn. apply (lookup_insert_same _ _ _ _ Hi1).
      * cbn. apply Hch.
      * reflexivity.
Qed.

(** ** The private copy of an object *)

Lemma insert_last {A} (l : list A) (x y : A) :
  <[length l := y]> (l ++ [x]) = l ++ [y].
Proof.
  rewrite insert_app_r_alt by lia.
  now replace (length l - length l)%nat with O by lia.
Qed.

Lemma lookup_last {A} (l : list A) (x : A) : (l ++ [x]) !! length l = Some x.
Proof.
  rewrite lookup_app_r by lia.
  now replace (length l - length l)%nat with O by lia.
Qed.

Lemma atomic_duplicate_state_ok vc4 obj m n v :
  slab m = S n ->
  mem m !! obj_state vc4 obj = Some v ->
  duplicable obj v ->
  atomic_duplicate_state vc4 obj m
  = Some (Addr (length (mem m)),
          {| mem := mem m ++ [v]; slab := n; txn := txn m |}).
Proof.
  intros Hs Hv Hk.
  destruct obj; cbn [atomic_duplicate_state].
  - unfold vc4_ctm_duplicate_state, kmemdup, bind, read, kmalloc, ret.
    rewrite Hs, Hv. cbn. now rewrite Hs.
  - unfold vc4_load_tracker_duplicate_state, kmemdup, bind, read, kmalloc, ret.
    rewrite Hs, Hv. cbn. now rewrite Hs.
  - destruct v as [x|old|x]; try contradiction.
    assert (Hlt : (obj_state vc4 hvs_channels < length (mem m))%nat)
      by (now apply lookup_lt_Some in Hv).
    unfold vc4_hvs_channels_duplicate_state.
    unfold bind at 1. unfold kmalloc at 1. rewrite Hs. cbn [is_NULL].
    assert (forall x : vc4_hvs_state,
               load_hvs (Addr (obj_state vc4 hvs_channels))
                 {| mem := mem m ++ [HvsState x]; slab := n; txn := txn m |}
               = Some (old, {| mem := mem m ++ [HvsState x]; slab := n;
                               txn := txn m |})) as HL.
    { intros x. apply load_hvs_ok. cbn. now rewrite lookup_app_l. }
    assert (forall (x : vc4_hvs_state) f,
               modify_hvs (Addr (length (mem m))) f
                 {| mem := mem m ++ [HvsState x]; slab := n; txn := txn m |}
               = Some (tt, {| mem := mem m ++ [HvsState (f x)]; slab := n;
                              txn := txn m |})) as HM.
    { intros x f. erewrite modify_hvs_ok by (cbn; apply lookup_last).
      unfold with_mem. cbn. now rewrite insert_last. }
    rewrite (bind_Some _ _ _ _ _ (HL _)), (bind_Some _ _ _ _ _ (HM _ _)).
    rewrite (bind_Some _ _ _ _ _ (HL _)), (bind_Some _ _ _ _ _ (HM _ _)).
    rewrite (bind_Some _ _ _ _ _ (HL _)), (bind_Some _ _ _ _ _ (HM _ _)).
    rewrite (bind_Some _ _ _ _ _ (HL _)), (bind_Some _ _ _ _ _ (HM _ _)).
    unfold ret. now destruct old.
Qed.

Lemma atomic_duplicate_state_inv vc4 obj m p m' :
  (obj_state vc4 obj < length (mem m))%nat ->
  atomic_duplicate_state vc4 obj m = Some (p, m') ->
  (slab m = O /\ p = NULL /\ m' = m) \/
  (exists n v, slab m = S n /\ mem m !! obj_state vc4 obj = Some v /\
               duplicable obj v /\ p = Addr (length (mem m)) /\
               m' = {| mem := mem m ++ [v]; slab := n; txn := txn m |}).
Proof.
  intros Hlt.
  destruct (lookup_lt_is_Some_2 _ _ Hlt) as [v Hv].
  destruct (slab m) as [|n] eqn:Hs.
  - intros H. left.
    destruct obj; cbn [atomic_duplicate_state] in H;
      unfold vc4_ctm_duplicate_state, vc4_load_tracker_duplicate_state,
        vc4_hvs_channels_duplicate_state, kmemdup, bind, kmalloc, ret in H;
      rewrite Hs in H; cbn in H; now injection H as <- <-.
  - assert (duplicable obj v \/ ~ duplicable obj v) as [Hk|Hk]
      by (destruct obj, v; cbn; tauto).
    + rewrite (atomic_duplicate_state_ok _ _ _ _ _ Hs Hv Hk).
      intros [= <- <-]. right. now exists n, v.
    + destruct obj; try (now exfalso; apply Hk).
      cbn [atomic_duplicate_state]. unfold vc4_hvs_channels_duplicate_state.
      unfold bind at 1. unfold kmalloc at 1. rewrite Hs. cbn [is_NULL].
      unfold bind at 1; unfold load_hvs at 1; unfold bind at 1;
        unfold read at 1; cbn [mem].
      rewrite lookup_app_l, Hv by assumption.
      destruct v; try discriminate. now exfalso; apply Hk.
Qed.

Lemma get_held vc4 obj m e :
  find_private_obj (txn m) obj = Some e ->
  drm_atomic_get_private_obj_state vc4 obj m = Some (Addr (obj_new_state e), m).
Proof.
  unfold find_private_obj, drm_atomic_get_private_obj_state, bind, get_state.
  now intros ->.
Qed.

Lemma get_fresh vc4 obj m n v :
  find_private_obj (txn m) obj = None ->
  acquire_ctx (txn m) = 0 ->
  slab m = S n ->
  mem m !! obj_state vc4 obj = Some v ->
  duplicable obj v ->
  drm_atomic_get_private_obj_state vc4 obj m
  = Some (Addr (length (mem m)),
          {| mem := mem m ++ [v]; slab := n;
             txn := add_private_obj
                      {| obj_ptr := obj; obj_old_state := obj_state vc4 obj;
                         obj_new_state := length (mem m) |} (txn m) |}).
Proof.
  intros Hf Hc Hs Hv Hk.
  unfold find_private_obj in Hf.
  unfold drm_atomic_get_private_obj_state.
  unfold bind at 1. unfold get_state at 1. rewrite Hf.
  unfold bind at 1. unfold drm_modeset_lock, bind, get_state, ret.
  rewrite Hc. cbn [Z.eqb negb].
  now rewrite (atomic_duplicate_state_ok _ _ _ _ _ Hs Hv Hk).
Qed.

Lemma drm_atomic_get_private_obj_state_inv vc4 obj m p m' :
  (obj_state vc4 obj < length (mem m))%nat ->
  drm_atomic_get_private_obj_state vc4 obj m = Some (p, m') ->
  (exists e, find_private_obj (txn m) obj = Some e /\
             p = Addr (obj_new_state e) /\ m' = m) \/
  (find_private_obj (txn m) obj = None /\ m' = m /\
   ((acquire_ctx (txn m) <> 0 /\ p = ERR_PTR (acquire_ctx (txn m))) \/
    (acquire_ctx (txn m) = 0 /\ slab m = O /\ p = ERR_PTR (- ENOMEM)))) \/
  (find_private_obj (txn m) obj = None /\ acquire_ctx (txn m) = 0 /\
   exists n v, slab m = S n /\ mem m !! obj_state vc4 obj = Some v /\
               duplicable obj v /\ p = Addr (length (mem m)) /\
               m' = {| mem := mem m ++ [v]; slab := n;
                       txn := add_private_obj
                                {| obj_ptr := obj;
                                   obj_old_state := obj_state vc4 obj;
                                   obj_new_state := length (mem m) |} (txn m) |}).
Proof.
  intros Hlt.
  unfold drm_atomic_get_private_obj_state, find_private_obj.
  unfold bind at 1. unfold get_state at 1.
  destruct (find _ _) as [e|] eqn:Hf.
  - unfold ret. intros [= <- <-]. left. now exists e.
  - unfold bind at 1. unfold drm_modeset_lock, bind, get_state, ret.
    destruct (Z.eqb_spec (acquire_ctx (txn m)) 0) as [H0|H0]; cbn [negb].
    + destruct (atomic_duplicate_state vc4 obj m) as [[q mq]|] eqn:Hd;
        [|discriminate].
      apply atomic_duplicate_state_inv in Hd
        as [(Hs & -> & ->)|(n & v & Hs & Hv & Hk & -> & ->)]; [| |assumption].
      * intros [= <- <-]. right. left. repeat split; auto.
      * unfold put_state. cbn. intros [= <- <-]. right. right.
        repeat split; auto. now exists n, v.
    + intros [= <- <-]. right. left. repeat split; auto.
Qed.

(** ** What a call that returns has done *)

Lemma read_inv p m v m' :
  read p m = Some (v, m') ->
  m' = m /\ exists a, p = Addr a /\ mem m !! a = Some v.
Proof.
  unfold read. destruct p as [| |a]; try discriminate.
  destruct (mem m !! a) as [w|] eqn:E; [|discriminate].
  intros [= <- <-]. split; [reflexivity|]. now exists a.
Qed.

Lemma write_inv p v m u m' :
  write p v m = Some (u, m') ->
  exists a, p = Addr a /\ (a < length (mem m))%nat /\
            m' = with_mem (<[a := v]> (mem m)) m.
Proof.
  unfold write. destruct p as [| |a]; try discriminate.
  destruct (mem m !! a) as [w|] eqn:E; [|discriminate].
  intros [= <- <-]. exists a.
  split; [reflexivity|split; [now apply lookup_lt_Some in E|reflexivity]].
Qed.

Lemma kmalloc_inv v m p m' :
  kmalloc v m = Some (p, m') ->
  (slab m = O /\ p = NULL /\ m' = m) \/
  (exists n, slab m = S n /\ p = Addr (length (mem m)) /\
             m' = {| mem := mem m ++ [v]; slab := n; txn := txn m |}).
Proof.
  unfold kmalloc. destruct (slab m) as [|n].
  - intros [= <- <-]. now left.
  - intros [= <- <-]. right. now exists n.
Qed.

Lemma load_ctm_inv p m s m' :
  load_ctm p m = Some (s, m') ->
  m' = m /\ exists a, p = Addr a /\ mem m !! a = Some (CtmState s).
Proof.
  unfold load_ctm. intros H. apply bind_inv in H as (v & m1 & H1 & H2).
  apply read_inv in H1 as (-> & a & -> & Hv).
  destruct v; try discriminate. injection H2 as <- <-.
  split; [reflexivity|]. now exists a.
Qed.

Lemma load_hvs_inv p m s m' :
  load_hvs p m = Some (s, m') ->
  m' = m /\ exists a, p = Addr a /\ mem m !! a = Some (HvsState s).
Proof.
  unfold load_hvs. intros H. apply bind_inv in H as (v & m1 & H1 & H2).
  apply read_inv in H1 as (-> & a & -> & Hv).
  destruct v; try discriminate. injection H2 as <- <-.
  split; [reflexivity|]. now exists a.
Qed.

Lemma load_load_inv p m s m' :
  load_load p m = Some (s, m') ->
  m' = m /\ exists a, p = Addr a /\ mem m !! a = Some (LoadState s).
Proof.
  unfold load_load. intros H. apply bind_inv in H as (v & m1 & H1 & H2).
  apply read_inv in H1 as (-> & a & -> & Hv).
  destruct v; try discriminate. injection H2 as <- <-.
  split; [reflexivity|]. now exists a.
Qed.

Lemma modify_ctm_inv p f m u m' :
  modify_ctm p f m = Some (u, m') ->
  exists a s, p = Addr a /\ mem m !! a = Some (CtmState s) /\
              m' = with_mem (<[a := CtmState (f s)]> (mem m)) m.
Proof.
  unfold modify_ctm. intros H. apply bind_inv in H as (s & m1 & H1 & H2).
  apply load_ctm_inv in H1 as (-> & a & -> & Hs).
  exists a, s. rewrite (write_ok _ _ _ _ Hs) in H2. now injection H2 as <-.
Qed.

Lemma modify_hvs_inv p f m u m' :
  modify_hvs p f m = Some (u, m') ->
  exists a s, p = Addr a /\ mem m !! a = Some (HvsState s) /\
              m' = with_mem (<[a := HvsState (f s)]> (mem m)) m.
Proof.
  unfold modify_hvs. intros H. apply bind_inv in H as (s & m1 & H1 & H2).
  apply load_hvs_inv in H1 as (-> & a & -> & Hs).
  exists a, s. rewrite (write_ok _ _ _ _ Hs) in H2. now injection H2 as <-.
Qed.

Lemma modify_load_inv p f m u m' :
  modify_load p f m = Some (u, m') ->
  exists a s, p = Addr a /\ mem m !! a = Some (LoadState s) /\
              m' = with_mem (<[a := LoadState (f s)]> (mem m)) m.
Proof.
  unfold modify_load. intros H. apply bind_inv in H as (s & m1 & H1 & H2).
  apply load_load_inv in H1 as (-> & a & -> & Hs).
  exists a, s. rewrite (write_ok _ _ _ _ Hs) in H2. now injection H2 as <-.
Qed.

Lemma modify_new_crtc_state_inv i f m u m' :
  modify_new_crtc_state i f m = Some (u, m') ->
  exists e, crtcs (txn m) !! i = Some (Some e) /\
            m' = with_txn (with_crtcs
                             (<[i := Some (with_new_state (f (new_state e)) e)]>
                                (crtcs (txn m))) (txn m)) m.
Proof.
  unfold modify_new_crtc_state, bind, get_state.
  destruct (crtcs (txn m) !! i) as [[e|]|] eqn:E; try discriminate.
  unfold put_state. intros [= <-]. now exists e.
Qed.

(** *** Partial correctness *)

Lemma hoare_ret {A} (P : machine -> Prop) (a : A) :
  hoare P (ret a) (fun x m => x = a /\ P m).
Proof. intros m x m' HP [= <- <-]. now split. Qed.

Lemma hoare_bind {A B} (P : machine -> Prop) (Q : A -> machine -> Prop)
    (R : B -> machine -> Prop) (c : M A) (f : A -> M B) :
  hoare P c Q -> (forall a, hoare (Q a) (f a) R) -> hoare P (bind c f) R.
Proof.
  intros Hc Hf m b m'' HP H.
  apply bind_inv in H as (a & m' & H1 & H2).
  eapply Hf; [|exact H2]. eapply Hc; eassumption.
Qed.

Lemma hoare_weaken {A} (P P' : machine -> Prop) (Q Q' : A -> machine -> Prop)
    (c : M A) :
  hoare P c Q -> (forall m, P' m -> P m) -> (forall a m, Q a m -> Q' a m) ->
  hoare P' c Q'.
Proof. intros H HP HQ m a m' Hm Hc. apply HQ. eapply H; eauto. Qed.

(** A loop keeps what every round keeps. *)
Lemma hoare_for_index {A} (I : A -> machine -> Prop) (R : Z -> machine -> Prop)
    (body : nat -> A -> M (flow A)) (n : nat) :
  (forall i a, hoare (I a) (body i a)
                 (fun f m => match f with
                             | Continue a' => I a' m
                             | Return r => R r m
                             end)) ->
  forall i a, hoare (I a) (for_index n i a body)
                (fun f m => match f with
                            | Continue a' => I a' m
                            | Return r => R r m
                            end).
Proof.
  intros Hbody. induction n as [|n IH]; intros i a m f m' HI H;
    cbn [for_index] in H.
  - now injection H as <- <-.
  - apply bind_inv in H as (f1 & m1 & H1 & H2).
    pose proof (Hbody i a m f1 m1 HI H1) as Hf1.
    destruct f1 as [a1|r].
    + eapply IH; eassumption.
    + now injection H2 as <- <-.
Qed.

Lemma hoare_for_index_var {A} (I : A -> machine -> Prop) (R : Z -> machine -> Prop)
    (body : nat -> A -> M (flow (A * nat))) (n : nat) :
  (forall i a, hoare (I a) (body i a)
                 (fun f m => match f with
                             | Continue (a', _) => I a' m
                             | Return r => R r m
                             end)) ->
  forall fuel i a, hoare (I a) (for_index_var fuel n i a body)
                     (fun f m => match f with
                                 | Continue a' => I a' m
                                 | Return r => R r m
                                 end).
Proof.
  intros Hbody. induction fuel as [|fuel IH]; intros i a m f m' HI H;
    cbn [for_index_var] in H.
  - discriminate.
  - destruct (i <? n)%nat.
    + apply bind_inv in H as (f1 & m1 & H1 & H2).
      pose proof (Hbody i a m f1 m1 HI H1) as Hf1.
      destruct f1 as [[a1 i1]|r].
      * eapply IH; eassumption.
      * now injection H2 as <- <-.
    + now injection H as <- <-.
Qed.

(** A loop whose rounds all return. *)
Lemma for_index_total {A} (I : nat -> A -> machine -> Prop)
    (R : Z -> machine -> Prop) (body : nat -> A -> M (flow A)) (n : nat) :
  forall i a m,
    I i a m ->
    (forall j a m, (i <= j < i + n)%nat -> I j a m ->
       exists f m', body j a m = Some (f, m') /\
                    match f with
                    | Continue a' => I (S j) a' m'
                    | Return r => R r m'
                    end) ->
    exists f m', for_index n i a body m = Some (f, m') /\
                 match f with
                 | Continue a' => I (i + n)%nat a' m'
                 | Return r => R r m'
                 end.
Proof.
  induction n as [|n IH]; intros i a m HI Hbody; cbn [for_index].
  - exists (Continue a), m. split; [reflexivity|].
    now replace (i + 0)%nat with i by lia.
  - destruct (Hbody i a m) as (f1 & m1 & H1 & Hf1); [lia|assumption|].
    rewrite (bind_Some _ _ _ _ _ H1).
    destruct f1 as [a1|r].
    + destruct (IH (S i) a1 m1 Hf1) as (f & m' & H & Hf).
      { intros j a' m'' Hj. apply Hbody. lia. }
      exists f, m'. split; [assumption|].
      now replace (i + S n)%nat with (S i + n)%nat by lia.
    + now exists (Return r), m1.
Qed.

(** ** The load tracker *)

Lemma total_app {A} (f : A -> Z) (l1 l2 : list (option A)) :
  total f (l1 ++ l2) = total f l1 + total f l2.
Proof.
  induction l1 as [|[x|] l1 IH]; cbn [total app]; rewrite ?IH; lia.
Qed.

Lemma with_mem_with_mem h1 h2 m : with_mem h2 (with_mem h1 m) = with_mem h2 m.
Proof. reflexivity. Qed.

Lemma with_mem_id m : with_mem (mem m) m = m.
Proof. now destruct m. Qed.

Lemma load_tracker_plane_ok p i e m s :
  mem m !! p = Some (LoadState s) ->
  load_tracker_plane (Addr p) i e tt m
  = Some (Continue tt,
          with_mem (<[p := LoadState (load_tracker_round e s)]> (mem m)) m).
Proof.
  intros Hp. unfold load_tracker_plane, load_tracker_round.
  assert (forall s0 m0, mem m0 !! p = Some (LoadState s0) ->
          forall f g,
            (modify_load (Addr p) f ;;; modify_load (Addr p) g) m0
            = Some (tt, with_mem (<[p := LoadState (g (f s0))]> (mem m0)) m0))
    as Htwo.
  { intros s0 m0 H0 f g.
    rewrite (bind_Some _ _ _ _ _ (modify_load_ok _ _ _ f H0)).
    erewrite modify_load_ok by (cbn; apply (lookup_insert_same _ _ _ _ H0)).
    cbn. now rewrite list_insert_insert_eq. }
  destruct (plane_active (old_plane_state e)).
  - rewrite (bind_Some _ _ _ _ _ (Htwo _ _ Hp _ _)).
    destruct (plane_active (new_plane_state e)).
    + erewrite bind_Some
        by (apply Htwo; cbn; apply (lookup_insert_same _ _ _ _ Hp)).
      cbn. now rewrite list_insert_insert_eq.
    + reflexivity.
  - unfold bind at 1. unfold ret at 1.
    destruct (plane_active (new_plane_state e)).
    + now rewrite (bind_Some _ _ _ _ _ (Htwo _ _ Hp _ _)).
    + cbn. now rewrite (list_insert_id _ _ _ Hp), with_mem_id.
Qed.

Lemma u64_idemp (a : Z) : u64 (u64 a) = u64 a.
Proof. unfold u64. apply Z.mod_mod. lia. Qed.

Lemma u64_add_l (a b : Z) : u64 (u64 a + b) = u64 (a + b).
Proof. unfold u64. apply Zplus_mod_idemp_l. Qed.

Lemma u64_sub_l (a b : Z) : u64 (u64 a - b) = u64 (a - b).
Proof. unfold u64. apply Zminus_mod_idemp_l. Qed.

Lemma load_tracker_round_spec e s a b :
  hvs_load s = u64 a -> membus_load s = u64 b ->
  hvs_load (load_tracker_round e s) = u64 (a + plane_delta plane_hvs_load e) /\
  membus_load (load_tracker_round e s) = u64 (b + plane_delta plane_membus_load e).
Proof.
  intros Ha Hb. unfold load_tracker_round, plane_delta.
  destruct (plane_active (old_plane_state e)), (plane_active (new_plane_state e));
    cbn; rewrite ?Ha, ?Hb, ?u64_sub_l, ?u64_add_l; split; f_equal; lia.
Qed.

Lemma atomic_duplicate_state_txn vc4 obj m q mq :
  atomic_duplicate_state vc4 obj m = Some (q, mq) -> txn mq = txn m.
Proof.
  intros Hd. destruct obj; cbn [atomic_duplicate_state] in Hd.
  - unfold vc4_ctm_duplicate_state, kmemdup, bind, read, kmalloc, ret in Hd.
    destruct (slab m) eqn:Hs; cbn in Hd; [now injection Hd as <- <-|].
    destruct (mem m !! _); [|discriminate]. rewrite Hs in Hd. cbn in Hd.
    now injection Hd as <- <-.
  - unfold vc4_load_tracker_duplicate_state, kmemdup, bind, read, kmalloc, ret in Hd.
    destruct (slab m) eqn:Hs; cbn in Hd; [now injection Hd as <- <-|].
    destruct (mem m !! _); [|discriminate]. rewrite Hs in Hd. cbn in Hd.
    now injection Hd as <- <-.
  - unfold vc4_hvs_channels_duplicate_state in Hd.
    apply bind_inv in Hd as (q0 & m0 & Hk & Hd).
    apply kmalloc_inv in Hk as [(_ & -> & ->)|(n & _ & -> & ->)];
      cbn [is_NULL] in Hd; [now injection Hd as <- <-|].
    repeat (apply bind_inv in Hd as (? & ? & Hl & Hd);
            apply load_hvs_inv in Hl as (-> & _);
            apply bind_inv in Hd as (? & ? & Hm & Hd);
            apply modify_hvs_inv in Hm as (? & ? & _ & _ & ->)).
    now injection Hd as <- <-.
Qed.

Lemma get_private_obj_state_txn vc4 obj m p m' :
  drm_atomic_get_private_obj_state vc4 obj m = Some (p, m') ->
  crtcs (txn m') = crtcs (txn m) /\ planes (txn m') = planes (txn m) /\
  acquire_ctx (txn m') = acquire_ctx (txn m).
Proof.
  unfold drm_atomic_get_private_obj_state.
  unfold bind at 1. unfold get_state at 1.
  destruct (find _ _) as [e|].
  { now intros [= <- <-]. }
  unfold bind at 1. unfold drm_modeset_lock, bind, get_state, ret.
  destruct (negb _).
  { now intros [= <- <-]. }
  destruct (atomic_duplicate_state vc4 obj m) as [[q mq]|] eqn:Hd; [|discriminate].
  pose proof (atomic_duplicate_state_txn _ _ _ _ _ Hd) as Ht.
  destruct q; intros [= <- <-]; cbn; rewrite ?Ht; auto.
Qed.

Lemma u64_range (a : Z) : 0 <= a < 2 ^ 64 -> u64 a = a.
Proof. intros. unfold u64. now apply Z.mod_small. Qed.

Lemma load_tracker_loop p m s :
  mem m !! p = Some (LoadState s) ->
  0 <= hvs_load s < 2 ^ 64 -> 0 <= membus_load s < 2 ^ 64 ->
  exists m',
    for_each_oldnew_plane_in_state tt (load_tracker_plane (Addr p)) m
    = Some (Continue tt, m') /\
    txn m' = txn m /\
    mem m' !! p =
    Some (LoadState
            {| hvs_load :=
                 u64 (hvs_load s + total (plane_delta plane_hvs_load) (planes (txn m)));
               membus_load :=
                 u64 (membus_load s
                      + total (plane_delta plane_membus_load) (planes (txn m))) |}).
Proof.
  intros Hp Hh Hb. unfold for_each_oldnew_plane_in_state.
  unfold bind at 1. unfold get_state at 1.
  set (ps := planes (txn m)).
  destruct (for_index_total
    (fun j (_ : unit) m' =>
       txn m' = txn m /\
       exists s', mem m' !! p = Some (LoadState s') /\
         hvs_load s' = u64 (hvs_load s + total (plane_delta plane_hvs_load) (take j ps)) /\
         membus_load s'
         = u64 (membus_load s + total (plane_delta plane_membus_load) (take j ps)))
    (fun _ _ => False)
    (fun i a => st <- get_state ;;
                match planes st !! i with
                | Some (Some e) => load_tracker_plane (Addr p) i e a
                | _ => ret (Continue a)
                end)
    (length ps) 0 tt m) as (f & m' & Hrun & Hf).
  - split; [reflexivity|]. exists s. split; [assumption|].
    cbn. rewrite !Z.add_0_r, !u64_range by assumption. now split.
  - intros j [] mj Hj (Htx & s' & Hs' & Hh' & Hb').
    unfold bind at 1. unfold get_state at 1. rewrite Htx. fold ps.
    destruct (lookup_lt_is_Some_2 ps j) as [o Ho]; [lia|]. rewrite Ho.
    rewrite (take_S_r _ _ _ Ho), !total_app.
    destruct o as [e|].
    + rewrite (load_tracker_plane_ok _ _ _ _ _ Hs').
      eexists. eexists. split; [reflexivity|]. split; [assumption|].
      exists (load_tracker_round e s'). split.
      { cbn. apply (lookup_insert_same _ _ _ _ Hs'). }
      destruct (load_tracker_round_spec e s' _ _ Hh' Hb') as [-> ->].
      cbn [total]. split; f_equal; lia.
    + exists (Continue tt), mj. split; [reflexivity|]. split; [assumption|].
      exists s'. split; [assumption|]. cbn [total].
      rewrite !Z.add_0_r. now split.
  - destruct f as [[]|r]; [|contradiction].
    destruct Hf as (Htx & s' & Hs' & Hh' & Hb').
    exists m'. split; [assumption|]. split; [assumption|].
    rewrite Hs'. cbn [Nat.add] in Hh', Hb'.
    rewrite take_ge in Hh', Hb' by lia.
    destruct s' as [h b]. cbn in Hh', Hb'. now subst.
Qed.

(** C7. Once the private load tracker state is obtained, the check leaves in
    it the counters of the start, less the load of every plane that was
    active, plus the load of every plane that is active in the new state
    (a plane is active when it has a framebuffer and a CRTC), in 64-bit
    arithmetic.  With the load tracker disabled the check then answers 0;
    with it enabled it answers [-ENOSPC] exactly when the new [membus_load]
    exceeds [SZ_1G + SZ_512M] (1.5 * 2^30) or the new [hvs_load] exceeds
    240000000. *)
Theorem vc4_load_tracker_atomic_check_spec (vc4 : vc4_dev) (m m1 : machine)
    (p : nat) (s : vc4_load_tracker_state) :
  drm_atomic_get_private_obj_state vc4 load_tracker m = Some (Addr p, m1) ->
  mem m1 !! p = Some (LoadState s) ->
  0 <= hvs_load s < 2 ^ 64 ->
  0 <= membus_load s < 2 ^ 64 ->
  let hvs :=
    u64 (hvs_load s + total (plane_delta plane_hvs_load) (planes (txn m))) in
  let membus :=
    u64 (membus_load s + total (plane_delta plane_membus_load) (planes (txn m))) in
  SZ_1G + SZ_512M = 3 * 2 ^ 30 / 2 /\
  exists m',
    vc4_load_tracker_atomic_check vc4 m
    = Some (if load_tracker_enabled vc4
            then if (membus >? SZ_1G + SZ_512M) || (hvs >? 240000000)
                 then - ENOSPC else 0
            else 0, m') /\
    mem m' !! p = Some (LoadState {| hvs_load := hvs; membus_load := membus |}).
Proof.
  intros Hget Hp Hh Hb hvs membus. split; [reflexivity|].
  destruct (get_private_obj_state_txn _ _ _ _ _ Hget) as (_ & Hpl & _).
  destruct (load_tracker_loop p m1 s Hp Hh Hb) as (m' & Hloop & Htx & Hm').
  rewrite Hpl in Hm'. fold hvs membus in Hm'.
  exists m'. split; [|assumption].
  unfold vc4_load_tracker_atomic_check.
  rewrite (bind_Some _ _ _ _ _ Hget). cbn [IS_ERR].
  rewrite (bind_Some _ _ _ _ _ Hloop).
  destruct (load_tracker_enabled vc4); cbn [negb]; [|reflexivity].
  rewrite (bind_Some _ _ _ _ _ (load_load_ok _ _ _ Hm')).
  cbn [membus_load hvs_load].
  destruct (membus >? SZ_1G + SZ_512M); [reflexivity|].
  destruct (hvs >? 240000000); reflexivity.
Qed.

(** ** The core clock *)

Lemma vc4_hvs_get_global_state_Addr vc4 m a m' :
  vc4_hvs_get_global_state vc4 m = Some (Addr a, m') ->
  drm_atomic_get_private_obj_state vc4 hvs_channels m = Some (Addr a, m').
Proof.
  unfold vc4_hvs_get_global_state. intros H.
  apply bind_inv in H as (q & mq & Hq & H).
  destruct q; cbn in H; try discriminate.
  now injection H as <- <-.
Qed.

Lemma core_clock_crtc_ok BITS p i e m s :
  mem m !! p = Some (HvsState s) ->
  core_clock_crtc BITS (Addr p) i e tt m
  = Some (Continue tt,
          with_mem (<[p := HvsState (core_clock_round BITS e s)]> (mem m)) m).
Proof.
  intros Hp. unfold core_clock_crtc, core_clock_round.
  assert (forall s0 m0, mem m0 !! p = Some (HvsState s0) ->
          forall f g,
            (modify_hvs (Addr p) f ;;; modify_hvs (Addr p) g) m0
            = Some (tt, with_mem (<[p := HvsState (g (f s0))]> (mem m0)) m0))
    as Htwo.
  { intros s0 m0 H0 f g.
    rewrite (bind_Some _ _ _ _ _ (modify_hvs_ok _ _ _ f H0)).
    erewrite modify_hvs_ok by (cbn; apply (lookup_insert_same _ _ _ _ H0)).
    cbn. now rewrite list_insert_insert_eq. }
  destruct (active (old_state e)).
  - rewrite (bind_Some _ _ _ _ _ (Htwo _ _ Hp _ _)).
    destruct (active (new_state e)).
    + erewrite bind_Some
        by (apply Htwo; cbn; apply (lookup_insert_same _ _ _ _ Hp)).
      cbn. now rewrite list_insert_insert_eq.
    + reflexivity.
  - unfold bind at 1. unfold ret at 1.
    destruct (active (new_state e)).
    + now rewrite (bind_Some _ _ _ _ _ (Htwo _ _ Hp _ _)).
    + cbn. now rewrite (list_insert_id _ _ _ Hp), with_mem_id.
Qed.

Lemma u32_add_l (a b : Z) : u32 (u32 a + b) = u32 (a + b).
Proof. unfold u32. apply Zplus_mod_idemp_l. Qed.

Lemma u32_sub_l (a b : Z) : u32 (u32 a - b) = u32 (a - b).
Proof. unfold u32. apply Zminus_mod_idemp_l. Qed.

Lemma ulong_add_l (w a b : Z) : ulong w (ulong w a + b) = ulong w (a + b).
Proof. unfold ulong. apply Zplus_mod_idemp_l. Qed.

Lemma ulong_sub_l (w a b : Z) : ulong w (ulong w a - b) = ulong w (a - b).
Proof. unfold ulong. apply Zminus_mod_idemp_l. Qed.

Lemma ulong_range (w a : Z) : 0 <= a < 2 ^ w -> ulong w a = a.
Proof. intros. unfold ulong. now apply Z.mod_small. Qed.

Lemma core_clock_round_spec BITS e s a b :
  num_outputs s = u32 a -> fifo_load s = ulong BITS b ->
  unassigned_channels (core_clock_round BITS e s) = unassigned_channels s /\
  core_clock_rate (core_clock_round BITS e s) = core_clock_rate s /\
  num_outputs (core_clock_round BITS e s) = u32 (a + active_delta e) /\
  fifo_load (core_clock_round BITS e s) = ulong BITS (b + fifo_load_delta e).
Proof.
  intros Ha Hb. unfold core_clock_round, active_delta, fifo_load_delta.
  destruct (active (old_state e)), (active (new_state e));
    cbn; rewrite ?Ha, ?Hb, ?u32_sub_l, ?u32_add_l, ?ulong_sub_l, ?ulong_add_l;
    repeat split; f_equal; lia.
Qed.

Lemma core_clock_loop BITS p m s :
  mem m !! p = Some (HvsState s) ->
  0 <= num_outputs s < 2 ^ 32 -> 0 <= fifo_load s < 2 ^ BITS ->
  exists m',
    for_each_oldnew_crtc_in_state tt (core_clock_crtc BITS (Addr p)) m
    = Some (Continue tt, m') /\
    txn m' = txn m /\
    (forall q, q <> p -> mem m' !! q = mem m !! q) /\
    mem m' !! p =
    Some (HvsState
            {| unassigned_channels := unassigned_channels s;
               num_outputs := u32 (num_outputs s + total active_delta (crtcs (txn m)));
               fifo_load :=
                 ulong BITS (fifo_load s + total fifo_load_delta (crtcs (txn m)));
               core_clock_rate := core_clock_rate s |}).
Proof.
  intros Hp Hn Hf. unfold for_each_oldnew_crtc_in_state.
  unfold bind at 1. unfold get_state at 1.
  set (cs := crtcs (txn m)).
  destruct (for_index_total
    (fun j (_ : unit) m' =>
       txn m' = txn m /\
       (forall q, q <> p -> mem m' !! q = mem m !! q) /\
       exists s', mem m' !! p = Some (HvsState s') /\
         unassigned_channels s' = unassigned_channels s /\
         core_clock_rate s' = core_clock_rate s /\
         num_outputs s' = u32 (num_outputs s + total active_delta (take j cs)) /\
         fifo_load s' = ulong BITS (fifo_load s + total fifo_load_delta (take j cs)))
    (fun _ _ => False)
    (fun i a => st <- get_state ;;
                match crtcs st !! i with
                | Some (Some e) => core_clock_crtc BITS (Addr p) i e a
                | _ => ret (Continue a)
                end)
    (length cs) 0 tt m) as (f & m' & Hrun & Hpost).
  - split; [reflexivity|]. split; [reflexivity|]. exists s.
    split; [assumption|]. cbn.
    rewrite !Z.add_0_r, u32_small, ulong_range by assumption. auto.
  - intros j [] mj Hj (Htx & Hfr & s' & Hs' & Hu & Hc & Hn' & Hf').
    unfold bind at 1. unfold get_state at 1. rewrite Htx. fold cs.
    destruct (lookup_lt_is_Some_2 cs j) as [o Ho]; [lia|]. rewrite Ho.
    rewrite (take_S_r _ _ _ Ho), !total_app.
    destruct o as [e|].
    + rewrite (core_clock_crtc_ok _ _ _ _ _ _ Hs').
      eexists. eexists. split; [reflexivity|]. split; [assumption|].
      split.
      { intros q Hq. cbn. rewrite list_lookup_insert_ne by congruence.
        now apply Hfr. }
      exists (core_clock_round BITS e s'). split.
      { cbn. apply (lookup_insert_same _ _ _ _ Hs'). }
      destruct (core_clock_round_spec BITS e s' _ _ Hn' Hf')
        as (-> & -> & -> & ->).
      cbn [total]. repeat split; try assumption; f_equal; lia.
    + exists (Continue tt), mj. split; [reflexivity|]. split; [assumption|].
      split; [assumption|].
      exists s'. split; [assumption|]. cbn [total].
      rewrite !Z.add_0_r. auto.
  - destruct f as [[]|r]; [|contradiction].
    destruct Hpost as (Htx & Hfr & s' & Hs' & Hu & Hc & Hn' & Hf').
    exists m'. split; [assumption|]. split; [assumption|]. split; [assumption|].
    rewrite Hs'. cbn [Nat.add] in Hn', Hf'.
    rewrite take_ge in Hn', Hf' by lia.
    destruct s' as [u n fl c]. cbn in Hu, Hc, Hn', Hf'. now subst.
Qed.

(** What the core clock check stores.  Once the private load tracker and HVS
    states are obtained, the check
    answers 0.  It leaves in the HVS state the number of active outputs and
    the FIFO load after the transaction, and as [core_clock_rate] the maximum
    of that FIFO load and of the pixel rate term, which is [hvs_load * 40 /
    100] of the load tracker when more than one output is then active and
    [hvs_load * 60 / 100] otherwise, in [unsigned long] arithmetic. *)
Theorem vc4_core_clock_atomic_check_spec (BITS_PER_LONG : Z) (vc4 : vc4_dev)
    (m m1 m2 : machine) (pl ph : nat) (l : vc4_load_tracker_state)
    (h : vc4_hvs_state) :
  drm_atomic_get_private_obj_state vc4 load_tracker m = Some (Addr pl, m1) ->
  vc4_hvs_get_global_state vc4 m1 = Some (Addr ph, m2) ->
  mem m2 !! pl = Some (LoadState l) ->
  mem m2 !! ph = Some (HvsState h) ->
  0 <= num_outputs h < 2 ^ 32 ->
  0 <= fifo_load h < 2 ^ BITS_PER_LONG ->
  let outputs := u32 (num_outputs h + total active_delta (crtcs (txn m))) in
  let cob_rate :=
    ulong BITS_PER_LONG (fifo_load h + total fifo_load_delta (crtcs (txn m))) in
  let pixel_rate :=
    if outputs >? 1
    then ulong BITS_PER_LONG (ulong BITS_PER_LONG (hvs_load l) * 40) / 100
    else ulong BITS_PER_LONG (ulong BITS_PER_LONG (hvs_load l) * 60) / 100 in
  (0 <= hvs_load l -> hvs_load l * 60 < 2 ^ BITS_PER_LONG ->
   pixel_rate = if outputs >? 1 then hvs_load l * 40 / 100
                else hvs_load l * 60 / 100) /\
  exists m',
    vc4_core_clock_atomic_check BITS_PER_LONG vc4 m = Some (0, m') /\
    mem m' !! ph =
    Some (HvsState {| unassigned_channels := unassigned_channels h;
                      num_outputs := outputs;
                      fifo_load := cob_rate;
                      core_clock_rate := Z.max cob_rate pixel_rate |}).
Proof.
  intros Hgl Hgh Hl Hh Hn Hf outputs cob_rate pixel_rate. split.
  - intros H0 H60. unfold pixel_rate.
    rewrite (ulong_range _ (hvs_load l)) by lia.
    rewrite !ulong_range by lia. reflexivity.
  - assert (pl <> ph) as Hne by (intros ->; congruence).
    destruct (get_private_obj_state_txn _ _ _ _ _ Hgl) as (Hc1 & _).
    destruct (get_private_obj_state_txn _ _ _ _ _
                (vc4_hvs_get_global_state_Addr _ _ _ _ Hgh)) as (Hc2 & _).
    destruct (core_clock_loop BITS_PER_LONG ph m2 h Hh Hn Hf)
      as (m3 & Hloop & Htx & Hfr & Hm3).
    rewrite Hc2, Hc1 in Hm3. fold outputs cob_rate in Hm3.
    assert (mem m3 !! pl = Some (LoadState l)) as Hl3
      by (rewrite Hfr by assumption; assumption).
    eexists. split.
    + unfold vc4_core_clock_atomic_check.
      rewrite (bind_Some _ _ _ _ _ Hgl). cbn [IS_ERR].
      rewrite (bind_Some _ _ _ _ _ Hgh). cbn [is_NULL].
      rewrite (bind_Some _ _ _ _ _ Hloop).
      rewrite (bind_Some _ _ _ _ _ (load_hvs_ok _ _ _ Hm3)).
      rewrite (bind_Some _ _ _ _ _ (load_load_ok _ _ _ Hl3)).
      rewrite (bind_Some _ _ _ _ _ (modify_hvs_ok _ _ _ _ Hm3)).
      reflexivity.
    + cbn. rewrite (lookup_insert_same _ _ _ _ Hm3). reflexivity.
Qed.

(** ** The CTM check *)

Lemma changed_cases e :
  blob_ptr_eqb (crtc_ctm (new_state e)) (crtc_ctm (old_state e)) = false ->
  (releases e = true /\ crtc_ctm (new_state e) = None) \/
  (claims e = true /\ exists b, crtc_ctm (new_state e) = Some b).
Proof.
  unfold releases, claims. intros H. rewrite H.
  destruct (crtc_ctm (new_state e)) as [b|], (crtc_ctm (old_state e)) as [b'|];
    cbn in *; try discriminate.
  - right. split; [reflexivity|]. now exists b.
  - right. split; [reflexivity|]. now exists b.
  - left. now split.
Qed.

Lemma find_snoc_None {A} (f : A -> bool) (l : list A) (x : A) :
  find f l = None -> f x = true -> find f (l ++ [x]) = Some x.
Proof.
  induction l as [|y l IH]; cbn; intros Hn Hx.
  - now rewrite Hx.
  - destruct (f y); [discriminate|]. now apply IH.
Qed.

Lemma drm_private_obj_eqb_refl obj : drm_private_obj_eqb obj obj = true.
Proof. now destruct obj. Qed.

Lemma get_Addr_held vc4 obj m a m1 :
  drm_atomic_get_private_obj_state vc4 obj m = Some (Addr a, m1) ->
  exists e, find_private_obj (txn m1) obj = Some e /\ obj_new_state e = a.
Proof.
  unfold drm_atomic_get_private_obj_state, find_private_obj.
  unfold bind at 1. unfold get_state at 1.
  destruct (find _ (private_objs (txn m))) as [e|] eqn:Hf.
  { intros [= <- <-]. now exists e. }
  unfold bind at 1. unfold drm_modeset_lock, bind, get_state, ret.
  destruct (negb _); [discriminate|].
  destruct (atomic_duplicate_state vc4 obj m) as [[q mq]|] eqn:Hd; [|discriminate].
  destruct q as [| |b]; try discriminate.
  unfold put_state. intros [= <- <-]. cbn [txn private_objs].
  rewrite (atomic_duplicate_state_txn _ _ _ _ _ Hd).
  eexists. split.
  - apply find_snoc_None; [assumption|]. cbn. apply drm_private_obj_eqb_refl.
  - reflexivity.
Qed.

Lemma vc4_get_ctm_state_Addr vc4 m a m1 :
  vc4_get_ctm_state vc4 m = Some (Addr a, m1) ->
  drm_atomic_get_private_obj_state vc4 ctm_manager m = Some (Addr a, m1) /\
  acquire_ctx (txn m) = 0.
Proof.
  unfold vc4_get_ctm_state. unfold bind at 1.
  unfold drm_modeset_lock, bind, get_state, ret.
  destruct (Z.eqb_spec (acquire_ctx (txn m)) 0) as [H0|]; [|discriminate].
  cbn [negb].
  destruct (drm_atomic_get_private_obj_state vc4 ctm_manager m)
    as [[q mq]|]; [|discriminate].
  destruct q; cbn; try discriminate. intros [= <- <-]. now split.
Qed.

Lemma vc4_get_ctm_state_held vc4 m e :
  acquire_ctx (txn m) = 0 ->
  find_private_obj (txn m) ctm_manager = Some e ->
  vc4_get_ctm_state vc4 m = Some (Addr (obj_new_state e), m).
Proof.
  intros Hc Hf. unfold vc4_get_ctm_state. unfold bind at 1.
  unfold drm_modeset_lock, bind, get_state, ret. rewrite Hc. cbn [Z.eqb negb].
  now rewrite (get_held _ _ _ _ Hf).
Qed.

(** Once obtained, the CTM state stays at its address whatever is written
    to it. *)
Lemma vc4_get_ctm_state_again vc4 m a m1 h :
  vc4_get_ctm_state vc4 m = Some (Addr a, m1) ->
  vc4_get_ctm_state vc4 (with_mem h m1) = Some (Addr a, with_mem h m1).
Proof.
  intros H. apply vc4_get_ctm_state_Addr in H as [Hg Hc].
  destruct (get_Addr_held _ _ _ _ _ Hg) as (e & He & <-).
  apply vc4_get_ctm_state_held; [|assumption].
  cbn. destruct (get_private_obj_state_txn _ _ _ _ _ Hg) as (_ & _ & ->).
  assumption.
Qed.

Lemma existsb_take_S {A} (f : A -> bool) (l : list A) (j : nat) (x : A) :
  l !! j = Some x ->
  existsb f (take (S j) l) = existsb f (take j l) || f x.
Proof.
  intros H. rewrite (take_S_r _ _ _ H), existsb_app. cbn.
  now rewrite orb_false_r.
Qed.

Lemma ctm_scalars_loop_end (mx : list Z) (n i i' : nat) :
  ctm_scalars_loop mx n i = Continue i' -> i' = (i + n)%nat.
Proof.
  revert i. induction n as [|n IH]; intros i; cbn [ctm_scalars_loop].
  - intros [= <-]. lia.
  - destruct (_ >? _); [discriminate|]. intros H. apply IH in H. lia.
Qed.

Lemma for_index_var_skip {A} (body : nat -> A -> M (flow (A * nat)))
    (n : nat) (a : A) (m : machine) :
  forall d fuel i,
    (forall j, (i <= j < i + d)%nat ->
               (j < n)%nat /\ body j a m = Some (Continue (a, j), m)) ->
    for_index_var (d + fuel) n i a body m
    = for_index_var fuel n (i + d) a body m.
Proof.
  induction d as [|d IH]; intros fuel i Hskip.
  - now replace (i + 0)%nat with i by lia.
  - cbn [Nat.add for_index_var].
    destruct (Hskip i) as [Hlt Hb]; [lia|].
    apply Nat.ltb_lt in Hlt. rewrite Hlt.
    rewrite (bind_Some _ _ _ _ _ Hb).
    rewrite IH; [f_equal; lia|].
    intros j Hj. apply Hskip. lia.
Qed.

Section CtmCheck.

Variables (vc4 : vc4_dev) (m m1 : machine) (a : nat) (s0 : vc4_ctm_state).

Hypothesis Hget : vc4_get_ctm_state vc4 m = Some (Addr a, m1).
Hypothesis Hs0 : mem m1 !! a = Some (CtmState s0).

Let cs := crtcs (txn m).

(** The machine once the CTM state is obtained and its slot released. *)
Let m1z := with_mem (<[a := CtmState (set_fifo 0 s0)]> (mem m1)) m1.

Let rel := existsb slot_releases cs.

Lemma ctm_crtcs_m1 : crtcs (txn m1) = cs.
Proof.
  apply vc4_get_ctm_state_Addr in Hget as [Hg _].
  now destruct (get_private_obj_state_txn _ _ _ _ _ Hg) as (-> & _).
Qed.

Lemma ctm_crtcs_m1z : crtcs (txn m1z) = cs.
Proof. apply ctm_crtcs_m1. Qed.

Lemma ctm_get_m1z : vc4_get_ctm_state vc4 m1z = Some (Addr a, m1z).
Proof. apply (vc4_get_ctm_state_again _ _ _ _ _ Hget). Qed.

Lemma ctm_get_m1 : vc4_get_ctm_state vc4 m1 = Some (Addr a, m1).
Proof.
  pose proof (vc4_get_ctm_state_again _ _ _ _ (mem m1) Hget) as H.
  now rewrite with_mem_id in H.
Qed.

Lemma ctm_m1z_cell : mem m1z !! a = Some (CtmState (set_fifo 0 s0)).
Proof. cbn. apply (lookup_insert_same _ _ _ _ Hs0). Qed.

Lemma ctm_release_round_first i e :
  ctm_release_crtc vc4 i e NULL m
  = Some (if releases e then (Continue (Addr a), m1z) else (Continue NULL, m)).
Proof.
  unfold ctm_release_crtc. fold (releases e).
  destruct (releases e); [|reflexivity].
  rewrite (bind_Some _ _ _ _ _ Hget). cbn [IS_ERR].
  now rewrite (bind_Some _ _ _ _ _ (modify_ctm_ok _ _ _ _ Hs0)).
Qed.

Lemma ctm_release_round_next i e :
  ctm_release_crtc vc4 i e (Addr a) m1z = Some (Continue (Addr a), m1z).
Proof.
  unfold ctm_release_crtc. fold (releases e).
  destruct (releases e); [|reflexivity].
  rewrite (bind_Some _ _ _ _ _ ctm_get_m1z). cbn [IS_ERR].
  rewrite (bind_Some _ _ _ _ _ (modify_ctm_ok _ _ _ _ ctm_m1z_cell)).
  unfold ret. do 2 f_equal. unfold m1z. cbn.
  now rewrite list_insert_insert_eq.
Qed.

(** The first loop: the CTM state is obtained and its slot cleared when a
    CRTC of the transaction gives up its matrix, and nothing happens
    otherwise. *)
Lemma ctm_release_loop :
  for_each_oldnew_crtc_in_state NULL (ctm_release_crtc vc4) m
  = Some (if rel then (Continue (Addr a), m1z) else (Continue NULL, m)).
Proof.
  unfold for_each_oldnew_crtc_in_state.
  unfold bind at 1. unfold get_state at 1. fold cs.
  destruct (for_index_total
    (fun j p mj =>
       (p, mj) = if existsb slot_releases (take j cs)
                 then (Addr a, m1z) else (NULL, m))
    (fun _ _ => False)
    (fun i p => st <- get_state ;;
                match crtcs st !! i with
                | Some (Some e) => ctm_release_crtc vc4 i e p
                | _ => ret (Continue p)
                end)
    (length cs) 0 NULL m) as (f & m' & Hrun & Hpost).
  - reflexivity.
  - intros j p mj Hj HI.
    destruct (lookup_lt_is_Some_2 cs j) as [o Ho]; [lia|].
    rewrite (existsb_take_S _ _ _ _ Ho).
    unfold bind at 1. unfold get_state at 1.
    destruct (existsb slot_releases (take j cs)); injection HI as -> ->.
    + cbn [orb]. rewrite ctm_crtcs_m1z, Ho.
      destruct o as [e|].
      * rewrite ctm_release_round_next. now eexists; eexists.
      * now eexists; eexists.
    + cbn [orb]. fold cs. rewrite Ho.
      destruct o as [e|]; cbn [slot_releases].
      * rewrite ctm_release_round_first.
        destruct (releases e); now eexists; eexists.
      * now eexists; eexists.
  - rewrite Hrun. destruct f as [p|r]; [|contradiction].
    cbn [Nat.add] in Hpost. rewrite take_ge in Hpost by lia.
    fold rel in Hpost. destruct rel; injection Hpost as -> ->; reflexivity.
Qed.

(** The state of the CTM object when the second loop meets its first claim. *)
Let sB := if rel then set_fifo 0 s0 else s0.
Let mB := if rel then m1z else m1.

Lemma ctm_mB_cell : mem mB !! a = Some (CtmState sB).
Proof. unfold mB, sB. destruct rel; [apply ctm_m1z_cell|apply Hs0]. Qed.

Lemma ctm_crtcs_loop2 :
  crtcs (txn (if rel then m1z else m)) = cs.
Proof. destruct rel; [apply ctm_crtcs_m1z|reflexivity]. Qed.

(** A CRTC that claims nothing leaves everything as it is. *)
Lemma ctm_claim_round_idle j o :
  cs !! j = Some o ->
  slot_claims o = false ->
  (st <- get_state ;;
   match crtcs st !! j with
   | Some (Some e) => ctm_claim_crtc vc4 j e (if rel then Addr a else NULL)
   | _ => ret (Continue (if rel then Addr a else NULL, j))
   end) (if rel then m1z else m)
  = Some (Continue (if rel then Addr a else NULL, j), if rel then m1z else m).
Proof.
  intros Ho Hnc. unfold bind at 1. unfold get_state at 1.
  rewrite ctm_crtcs_loop2, Ho. destruct o as [e|]; [|reflexivity].
  unfold ctm_claim_crtc.
  destruct (blob_ptr_eqb _ _) eqn:Heq; [reflexivity|].
  destruct (changed_cases e Heq) as [[Hr Hn]|[Hc _]].
  - assert (rel = true) as Hrel.
    { unfold rel. apply existsb_exists. exists (Some e). split; [|assumption].
      apply list_elem_of_In. now apply list_elem_of_lookup_2 in Ho. }
    rewrite Hrel. cbn [is_NULL]. unfold bind at 1. unfold ret at 1.
    cbn [IS_ERR]. now rewrite Hn.
  - cbn in Hnc. congruence.
Qed.

(** The round of the first CRTC that claims the matrix unit. *)
Lemma ctm_claim_round_first k e b :
  cs !! k = Some (Some e) ->
  blob_ptr_eqb (crtc_ctm (new_state e)) (crtc_ctm (old_state e)) = false ->
  crtc_ctm (new_state e) = Some b ->
  (st <- get_state ;;
   match crtcs st !! k with
   | Some (Some e) => ctm_claim_crtc vc4 k e (if rel then Addr a else NULL)
   | _ => ret (Continue (if rel then Addr a else NULL, k))
   end) (if rel then m1z else m)
  = if negb (fifo sB =? 0) && negb (fifo sB =? fifo_of e)
    then Some (Return (- EINVAL), mB)
    else match ctm_scalars_loop (matrix (data b)) ARRAY_SIZE_matrix 0 with
         | Return r => Some (Return r, mB)
         | Continue i' =>
             Some (Continue (Addr a, i'),
                   with_mem (<[a := CtmState {| ctm := Some (data b);
                                                fifo := fifo_of e |}]> (mem mB)) mB)
         end.
Proof.
  intros Hk Hne Hb. unfold bind at 1. unfold get_state at 1.
  rewrite ctm_crtcs_loop2, Hk. unfold ctm_claim_crtc. rewrite Hne, Hb.
  assert ((if is_NULL (if rel then Addr a else NULL)
           then vc4_get_ctm_state vc4
           else ret (if rel then Addr a else NULL)) (if rel then m1z else m)
          = Some (Addr a, mB)) as Hens.
  { unfold mB. destruct rel; [reflexivity|apply Hget]. }
  rewrite (bind_Some _ _ _ _ _ Hens). cbn [IS_ERR].
  rewrite (bind_Some _ _ _ _ _ (load_ctm_ok _ _ _ ctm_mB_cell)).
  fold (fifo_of e).
  destruct (negb (fifo sB =? 0) && negb (fifo sB =? fifo_of e)); [reflexivity|].
  destruct (ctm_scalars_loop _ _ _) as [i'|r]; [|reflexivity].
  rewrite (bind_Some _ _ _ _ _ (modify_ctm_ok _ _ _ _ ctm_mB_cell)).
  erewrite bind_Some
    by (apply modify_ctm_ok; cbn; apply (lookup_insert_same _ _ _ _ ctm_mB_cell)).
  unfold ret. cbn. now rewrite list_insert_insert_eq.
Qed.

Lemma ctm_release_loop_flow :
  for_each_oldnew_crtc_in_state NULL (ctm_release_crtc vc4) m
  = Some (Continue (if rel then Addr a else NULL), if rel then m1z else m).
Proof. rewrite ctm_release_loop. now destruct rel. Qed.

(** The second loop on a transaction of at most ten CRTC slots whose first
    claim is at slot [k]: after that round the index is at ten, and the loop
    is over. *)
Lemma ctm_claim_loop k e b :
  (length cs <= 10)%nat ->
  cs !! k = Some (Some e) ->
  blob_ptr_eqb (crtc_ctm (new_state e)) (crtc_ctm (old_state e)) = false ->
  crtc_ctm (new_state e) = Some b ->
  (forall j o, (j < k)%nat -> cs !! j = Some o -> slot_claims o = false) ->
  for_each_oldnew_crtc_in_state_var (if rel then Addr a else NULL)
    (ctm_claim_crtc vc4) (if rel then m1z else m)
  = if negb (fifo sB =? 0) && negb (fifo sB =? fifo_of e)
    then Some (Return (- EINVAL), mB)
    else match ctm_scalars_loop (matrix (data b)) ARRAY_SIZE_matrix 0 with
         | Return r => Some (Return r, mB)
         | Continue _ =>
             Some (Continue (Addr a),
                   with_mem (<[a := CtmState {| ctm := Some (data b);
                                                fifo := fifo_of e |}]> (mem mB)) mB)
         end.
Proof.
  intros Hlen Hk Hne Hb Hfirst.
  assert (k < length cs)%nat as Hklt by (now apply lookup_lt_Some in Hk).
  unfold for_each_oldnew_crtc_in_state_var.
  unfold bind at 1. unfold get_state at 1. rewrite ctm_crtcs_loop2.
  replace (S (length cs)) with (k + (S (length cs - k)))%nat by lia.
  rewrite for_index_var_skip.
  2:{ intros j Hj. split; [lia|].
      destruct (lookup_lt_is_Some_2 cs j) as [o Ho]; [lia|].
      apply (ctm_claim_round_idle j o Ho). apply (Hfirst j o); [lia|assumption]. }
  cbn [Nat.add for_index_var].
  apply Nat.ltb_lt in Hklt. rewrite Hklt.
  unfold bind at 1. rewrite (ctm_claim_round_first k e b Hk Hne Hb).
  destruct (negb (fifo sB =? 0) && negb (fifo sB =? fifo_of e)); [reflexivity|].
  destruct (ctm_scalars_loop _ _ _) as [i'|r] eqn:Hsc; [|reflexivity].
  apply ctm_scalars_loop_end in Hsc. subst i'.
  apply Nat.ltb_lt in Hklt.
  destruct (length cs - k)%nat as [|fuel] eqn:Hfuel; [lia|].
  cbn [for_index_var].
  replace (S (0 + ARRAY_SIZE_matrix) <? length cs)%nat with false; [reflexivity|].
  symmetry. apply Nat.ltb_ge. unfold ARRAY_SIZE_matrix. lia.
Qed.

(** The whole check on such a transaction. *)
Lemma ctm_check_first_claim k e b :
  (length cs <= 10)%nat ->
  cs !! k = Some (Some e) ->
  blob_ptr_eqb (crtc_ctm (new_state e)) (crtc_ctm (old_state e)) = false ->
  crtc_ctm (new_state e) = Some b ->
  (forall j o, (j < k)%nat -> cs !! j = Some o -> slot_claims o = false) ->
  vc4_ctm_atomic_check vc4 m
  = if negb (fifo sB =? 0) && negb (fifo sB =? fifo_of e)
    then Some (- EINVAL, mB)
    else match ctm_scalars_loop (matrix (data b)) ARRAY_SIZE_matrix 0 with
         | Return r => Some (r, mB)
         | Continue _ =>
             Some (0, with_mem (<[a := CtmState {| ctm := Some (data b);
                                                   fifo := fifo_of e |}]> (mem mB)) mB)
         end.
Proof.
  intros Hlen Hk Hne Hb Hfirst.
  unfold vc4_ctm_atomic_check.
  rewrite (bind_Some _ _ _ _ _ ctm_release_loop_flow).
  unfold bind. rewrite (ctm_claim_loop k e b Hlen Hk Hne Hb Hfirst).
  destruct (negb (fifo sB =? 0) && negb (fifo sB =? fifo_of e)); [reflexivity|].
  destruct (ctm_scalars_loop _ _ _); reflexivity.
Qed.

End CtmCheck.

(** *** The scalars of a matrix *)

Lemma clear_sign_bit (c : Z) :
  0 <= c < 2 ^ 64 -> Z.land c (u64 (Z.lnot (BIT_ULL 63))) = Z.clearbit c 63.
Proof.
  intros Hc. change (u64 (Z.lnot (BIT_ULL 63))) with (Z.ones 63).
  apply Z.bits_inj'. intros k Hk.
  rewrite Z.land_spec, Z.clearbit_eqb, Z.testbit_ones_nonneg by lia.
  destruct (Z.ltb_spec k 63), (Z.eqb_spec 63 k); try lia; cbn;
    rewrite ?andb_true_r, ?andb_false_r; try reflexivity.
  symmetry. apply (testbit_high c 64); lia.
Qed.

Lemma ctm_scalars_loop_spec (mx : list Z) :
  (forall c, c ∈ mx -> 0 <= c < 2 ^ 64) ->
  forall n i, (i + n)%nat = length mx ->
    ctm_scalars_loop mx n i
    = if existsb scalar_refused (drop i mx) then Return (- EINVAL)
      else Continue (i + n)%nat.
Proof.
  intros Hmx. induction n as [|n IH]; intros i Hi; cbn [ctm_scalars_loop].
  - rewrite drop_ge by lia. cbn. f_equal. lia.
  - destruct (lookup_lt_is_Some_2 mx i) as [c Hc]; [lia|].
    rewrite Hc. cbn [default from_option id].
    rewrite (drop_S _ _ _ Hc). cbn [existsb].
    rewrite clear_sign_bit by (apply Hmx; now apply list_elem_of_lookup_2 in Hc).
    change (BIT_ULL 32) with (2 ^ 32). fold (scalar_refused c).
    destruct (scalar_refused c); cbn [orb]; [reflexivity|].
    rewrite IH by lia. destruct (existsb _ _); [reflexivity|].
    f_equal. lia.
Qed.

Lemma ctm_scalars_check (mx : list Z) :
  (forall c, c ∈ mx -> 0 <= c < 2 ^ 64) ->
  length mx = ARRAY_SIZE_matrix ->
  ctm_scalars_loop mx ARRAY_SIZE_matrix 0
  = if existsb scalar_refused mx then Return (- EINVAL)
    else Continue ARRAY_SIZE_matrix.
Proof.
  intros Hmx Hlen. now rewrite (ctm_scalars_loop_spec mx Hmx) by lia.
Qed.

Lemma slot_free_no_conflict (rel : bool) (s0 : vc4_ctm_state) (f : Z) :
  rel = true \/ fifo s0 = 0 \/ fifo s0 = f ->
  negb (fifo (if rel then set_fifo 0 s0 else s0) =? 0)
  && negb (fifo (if rel then set_fifo 0 s0 else s0) =? f) = false.
Proof.
  intros [-> | [H0 | H0]].
  - reflexivity.
  - destruct rel; [reflexivity|]. now rewrite H0.
  - destruct rel; [reflexivity|]. rewrite H0, Z.eqb_refl. apply andb_false_r.
Qed.

Lemma fifo_of_channel (e : drm_crtcs_state) :
  0 <= assigned_channel (new_state e) < 2 ^ 31 - 1 ->
  fifo_of e = assigned_channel (new_state e) + 1.
Proof.
  intros Hch. unfold fifo_of.
  rewrite u32_small by lia. unfold int_of_u32.
  destruct (Z.ltb_spec (assigned_channel (new_state e) + 1) (2 ^ 31)); lia.
Qed.

(** The first claim of a transaction finds the slot free and has a
    representable matrix. *)
Lemma ctm_first_claim_granted (vc4 : vc4_dev) (m m1 : machine) (a : nat)
    (s0 : vc4_ctm_state) (k : nat) (e : drm_crtcs_state) (b : drm_property_blob) :
  vc4_get_ctm_state vc4 m = Some (Addr a, m1) ->
  mem m1 !! a = Some (CtmState s0) ->
  (length (crtcs (txn m)) <= 10)%nat ->
  crtcs (txn m) !! k = Some (Some e) ->
  blob_ptr_eqb (crtc_ctm (new_state e)) (crtc_ctm (old_state e)) = false ->
  crtc_ctm (new_state e) = Some b ->
  (forall j o, (j < k)%nat -> crtcs (txn m) !! j = Some o -> slot_claims o = false) ->
  existsb slot_releases (crtcs (txn m)) = true \/ fifo s0 = 0 \/ fifo s0 = fifo_of e ->
  existsb scalar_refused (matrix (data b)) = false ->
  length (matrix (data b)) = ARRAY_SIZE_matrix ->
  (forall c, c ∈ matrix (data b) -> 0 <= c < 2 ^ 64) ->
  exists m',
    vc4_ctm_atomic_check vc4 m = Some (0, m') /\
    mem m' !! a = Some (CtmState {| ctm := Some (data b); fifo := fifo_of e |}).
Proof.
  intros Hget Hs0 Hlen Hk Hne Hb Hfirst Hfree Hrep Hmx Hu64.
  rewrite (ctm_check_first_claim vc4 m m1 a s0 Hget Hs0 k e b Hlen Hk Hne Hb Hfirst).
  rewrite (slot_free_no_conflict _ _ _ Hfree).
  rewrite (ctm_scalars_check _ Hu64 Hmx), Hrep.
  eexists. split; [reflexivity|]. cbn [mem with_mem].
  apply list_lookup_insert_eq.
  destruct (existsb slot_releases _); cbn [mem with_mem];
    rewrite ?length_insert; now apply lookup_lt_Some in Hs0.
Qed.

(** The scalars of the first claim of a transaction.  A scalar of a matrix
    is refused exactly when, with bit 63 cleared,
    it is above [2^32]: the loop over the nine scalars answers [-EINVAL]
    when one of them is, and lets the check go on when none is; the check of
    a transaction whose first claim finds the slot free answers [-EINVAL]
    when a scalar of the claimed matrix is refused and 0 when none is.  1.0
    ([2^32]) is not refused and converts to the saturated fraction [0x1ff];
    2.0 ([2^33]) is refused. *)
Theorem ctm_scalar_admission (vc4 : vc4_dev) (m m1 : machine) (a : nat)
    (s0 : vc4_ctm_state) (k : nat) (e : drm_crtcs_state) (b : drm_property_blob) :
  vc4_get_ctm_state vc4 m = Some (Addr a, m1) ->
  mem m1 !! a = Some (CtmState s0) ->
  (length (crtcs (txn m)) <= 10)%nat ->
  crtcs (txn m) !! k = Some (Some e) ->
  blob_ptr_eqb (crtc_ctm (new_state e)) (crtc_ctm (old_state e)) = false ->
  crtc_ctm (new_state e) = Some b ->
  (forall j o, (j < k)%nat -> crtcs (txn m) !! j = Some o -> slot_claims o = false) ->
  existsb slot_releases (crtcs (txn m)) = true \/ fifo s0 = 0 \/ fifo s0 = fifo_of e ->
  length (matrix (data b)) = ARRAY_SIZE_matrix ->
  (forall c, c ∈ matrix (data b) -> 0 <= c < 2 ^ 64) ->
  ctm_scalars_loop (matrix (data b)) ARRAY_SIZE_matrix 0
  = (if existsb scalar_refused (matrix (data b)) then Return (- EINVAL)
     else Continue ARRAY_SIZE_matrix) /\
  (exists m',
     vc4_ctm_atomic_check vc4 m
     = Some (if existsb scalar_refused (matrix (data b)) then - EINVAL else 0, m')) /\
  scalar_refused (2 ^ 32) = false /\
  vc4_ctm_s31_32_to_s0_9 (2 ^ 32) = GENMASK 8 0 /\
  scalar_refused (2 ^ 33) = true.
Proof.
  intros Hget Hs0 Hlen Hk Hne Hb Hfirst Hfree Hmx Hu64.
  pose proof (ctm_scalars_check _ Hu64 Hmx) as Hsc.
  split; [assumption|]. split; [|now vm_compute].
  rewrite (ctm_check_first_claim vc4 m m1 a s0 Hget Hs0 k e b Hlen Hk Hne Hb Hfirst).
  rewrite (slot_free_no_conflict _ _ _ Hfree).
  rewrite Hsc. destruct (existsb scalar_refused _); eexists; reflexivity.
Qed.

(** C1 (as amended). In a transaction of at most ten CRTC slots, let [e] be
    the first CRTC that claims the matrix unit.  If no CRTC of the
    transaction gives up its matrix and the slot of the CTM state is owned
    by another identity (it is neither 0 nor [e]'s channel plus one), the
    check answers [-EINVAL].  If [e] is the only CRTC that claims, its
    matrix is representable, and the slot is free for it (a CRTC of the
    transaction gives up its matrix, or the slot is 0 or [e]'s already), the
    check answers 0 and the slot of the private CTM state is [e]'s channel
    plus one. *)
Theorem ctm_claim_admission (vc4 : vc4_dev) (m m1 : machine) (a : nat)
    (s0 : vc4_ctm_state) (k : nat) (e : drm_crtcs_state) (b : drm_property_blob) :
  vc4_get_ctm_state vc4 m = Some (Addr a, m1) ->
  mem m1 !! a = Some (CtmState s0) ->
  (length (crtcs (txn m)) <= 10)%nat ->
  crtcs (txn m) !! k = Some (Some e) ->
  blob_ptr_eqb (crtc_ctm (new_state e)) (crtc_ctm (old_state e)) = false ->
  crtc_ctm (new_state e) = Some b ->
  (forall j o, (j < k)%nat -> crtcs (txn m) !! j = Some o -> slot_claims o = false) ->
  (existsb slot_releases (crtcs (txn m)) = false ->
   fifo s0 <> 0 -> fifo s0 <> fifo_of e ->
   vc4_ctm_atomic_check vc4 m = Some (- EINVAL, m1)) /\
  ((forall j o, j <> k -> crtcs (txn m) !! j = Some o -> slot_claims o = false) ->
   existsb slot_releases (crtcs (txn m)) = true \/ fifo s0 = 0 \/ fifo s0 = fifo_of e ->
   existsb scalar_refused (matrix (data b)) = false ->
   length (matrix (data b)) = ARRAY_SIZE_matrix ->
   (forall c, c ∈ matrix (data b) -> 0 <= c < 2 ^ 64) ->
   exists m',
     vc4_ctm_atomic_check vc4 m = Some (0, m') /\
     mem m' !! a = Some (CtmState {| ctm := Some (data b); fifo := fifo_of e |})) /\
  (0 <= assigned_channel (new_state e) < 2 ^ 31 - 1 ->
   fifo_of e = assigned_channel (new_state e) + 1).
Proof.
  intros Hget Hs0 Hlen Hk Hne Hb Hfirst.
  pose proof (ctm_check_first_claim vc4 m m1 a s0 Hget Hs0 k e b Hlen Hk Hne Hb Hfirst)
    as Hrun.
  split; [|split].
  - intros Hrel H0 H1. rewrite Hrun, Hrel.
    destruct (Z.eqb_spec (fifo s0) 0); [contradiction|].
    destruct (Z.eqb_spec (fifo s0) (fifo_of e)); [contradiction|].
    reflexivity.
  - intros _ Hfree Hrep Hmx Hu64.
    now apply (ctm_first_claim_granted vc4 m m1 a s0 k e b).
  - apply fifo_of_channel.
Qed.

(** C10. The first loop handles every CRTC that gives up its matrix before
    the second loop looks at any claim: in a transaction of at most ten CRTC
    slots in which a CRTC gives up its matrix and exactly one CRTC claims
    the unit with a representable matrix, the first loop leaves the slot of
    the private CTM state at 0, and the check answers 0 with the slot at the
    claiming CRTC's channel plus one, whichever of the two comes first. *)
Theorem ctm_release_then_claim (vc4 : vc4_dev) (m m1 : machine) (a : nat)
    (s0 : vc4_ctm_state) (d k : nat) (ed e : drm_crtcs_state)
    (b : drm_property_blob) :
  vc4_get_ctm_state vc4 m = Some (Addr a, m1) ->
  mem m1 !! a = Some (CtmState s0) ->
  (length (crtcs (txn m)) <= 10)%nat ->
  crtcs (txn m) !! d = Some (Some ed) ->
  releases ed = true ->
  crtcs (txn m) !! k = Some (Some e) ->
  blob_ptr_eqb (crtc_ctm (new_state e)) (crtc_ctm (old_state e)) = false ->
  crtc_ctm (new_state e) = Some b ->
  (forall j o, j <> k -> crtcs (txn m) !! j = Some o -> slot_claims o = false) ->
  existsb scalar_refused (matrix (data b)) = false ->
  length (matrix (data b)) = ARRAY_SIZE_matrix ->
  (forall c, c ∈ matrix (data b) -> 0 <= c < 2 ^ 64) ->
  for_each_oldnew_crtc_in_state NULL (ctm_release_crtc vc4) m
  = Some (Continue (Addr a),
          with_mem (<[a := CtmState (set_fifo 0 s0)]> (mem m1)) m1) /\
  exists m',
    vc4_ctm_atomic_check vc4 m = Some (0, m') /\
    mem m' !! a = Some (CtmState {| ctm := Some (data b); fifo := fifo_of e |}) /\
    (0 <= assigned_channel (new_state e) < 2 ^ 31 - 1 ->
     fifo_of e = assigned_channel (new_state e) + 1).
Proof.
  intros Hget Hs0 Hlen Hd Hrel Hk Hne Hb Honly Hrep Hmx Hu64.
  assert (existsb slot_releases (crtcs (txn m)) = true) as Hex.
  { apply existsb_exists. exists (Some ed). split; [|assumption].
    apply list_elem_of_In. now apply list_elem_of_lookup_2 in Hd. }
  split.
  - rewrite (ctm_release_loop vc4 m m1 a s0 Hget Hs0), Hex. reflexivity.
  - assert (forall j o, (j < k)%nat -> crtcs (txn m) !! j = Some o ->
                        slot_claims o = false) as Hfirst.
    { intros j o Hj. apply Honly. lia. }
    destruct (ctm_first_claim_granted vc4 m m1 a s0 k e b Hget Hs0 Hlen Hk Hne Hb
                Hfirst (or_introl Hex) Hrep Hmx Hu64) as (m' & Hrun & Hcell).
    exists m'. split; [assumption|]. split; [assumption|].
    apply fifo_of_channel.
Qed.

(** ** The published states during a check *)

Section Published.

Variable vc4 : vc4_dev.

(** The cells at the start of the check. *)
Variable h0 : list drm_private_state.

Local Abbreviation published_intact := (published_intact vc4 h0).
Local Abbreviation unpublished := (unpublished vc4).
Local Abbreviation keeps := (keeps vc4 h0).
Local Abbreviation keeps_ptr := (keeps_ptr vc4 h0).
Local Abbreviation intact_with := (intact_with vc4 h0).

Lemma published_valid m obj :
  published_intact m -> (obj_state vc4 obj < length (mem m))%nat.
Proof.
  intros (Hv & Hc & _). apply lookup_lt_is_Some. rewrite Hc.
  apply lookup_lt_is_Some. apply Hv.
Qed.

Lemma keeps_ret {A} (a : A) : keeps (ret a).
Proof. intros m x m' HI [= <- <-]. assumption. Qed.

Lemma keeps_bind {A B} (c : M A) (f : A -> M B) :
  keeps c -> (forall a, keeps (f a)) -> keeps (bind c f).
Proof. intros Hc Hf. eapply hoare_bind; [exact Hc|]. intros a. apply Hf. Qed.

Lemma keeps_bind_ptr {B} (c : M pointer) (f : pointer -> M B) :
  keeps_ptr c -> (forall p, unpublished p -> keeps (f p)) -> keeps (bind c f).
Proof.
  intros Hc Hf. eapply hoare_bind; [exact Hc|].
  intros p m b m' [HI Hp]. now apply Hf.
Qed.

Lemma keeps_get_state : keeps get_state.
Proof. intros m x m' HI [= <- <-]. assumption. Qed.

Lemma keeps_put_state st :
  hoare (fun m => published_intact m /\ private_objs st = private_objs (txn m))
    (put_state st) (fun _ m => published_intact m).
Proof.
  intros m x m' [(Hv & Hc & Hp) Hst] [= <- <-].
  split; [assumption|]. split; [assumption|]. cbn. now rewrite Hst.
Qed.

Lemma keeps_drm_modeset_lock : keeps drm_modeset_lock.
Proof. intros m x m' HI [= <- <-]. assumption. Qed.

Lemma keeps_load_ctm p : keeps (load_ctm p).
Proof. intros m x m' HI H. now apply load_ctm_inv in H as [-> _]. Qed.

Lemma keeps_load_hvs p : keeps (load_hvs p).
Proof. intros m x m' HI H. now apply load_hvs_inv in H as [-> _]. Qed.

Lemma keeps_load_load p : keeps (load_load p).
Proof. intros m x m' HI H. now apply load_load_inv in H as [-> _]. Qed.

Lemma intact_write m a v :
  published_intact m -> unpublished (Addr a) ->
  published_intact (with_mem (<[a := v]> (mem m)) m).
Proof.
  intros (Hv & Hc & Hp) Hu. split; [assumption|]. split; [|assumption].
  intros obj. cbn. rewrite list_lookup_insert_ne; [apply Hc|].
  intros E. apply (Hu obj). now rewrite E.
Qed.

Lemma keeps_modify_ctm p f : unpublished p -> keeps (modify_ctm p f).
Proof.
  intros Hu m x m' HI H.
  apply modify_ctm_inv in H as (a & s & -> & _ & ->). now apply intact_write.
Qed.

Lemma keeps_modify_hvs p f : unpublished p -> keeps (modify_hvs p f).
Proof.
  intros Hu m x m' HI H.
  apply modify_hvs_inv in H as (a & s & -> & _ & ->). now apply intact_write.
Qed.

Lemma keeps_modify_load p f : unpublished p -> keeps (modify_load p f).
Proof.
  intros Hu m x m' HI H.
  apply modify_load_inv in H as (a & s & -> & _ & ->). now apply intact_write.
Qed.

Lemma keeps_modify_new_crtc_state i f : keeps (modify_new_crtc_state i f).
Proof.
  intros m x m' HI H.
  apply modify_new_crtc_state_inv in H as (e & _ & ->). exact HI.
Qed.

Lemma find_private_obj_elem st obj e :
  find_private_obj st obj = Some e -> e ∈ private_objs st.
Proof.
  unfold find_private_obj. intros H. apply find_some in H as [H _].
  now apply list_elem_of_In.
Qed.

(** The copy a transaction obtains is never the published state. *)
Lemma keeps_get_private_obj_state obj :
  keeps_ptr (drm_atomic_get_private_obj_state vc4 obj).
Proof.
  intros m p m' HI H.
  apply drm_atomic_get_private_obj_state_inv in H
    as [(e & Hf & -> & ->) | [(Hf & -> & Hp) | (Hf & Hc & n & v & Hs & Hv & Hk & -> & ->)]];
    [| | |now apply published_valid].
  - split; [assumption|]. intros o [= E].
    destruct HI as (_ & _ & Hp). apply (Hp e (find_private_obj_elem _ _ _ Hf) o E).
  - split; [assumption|]. destruct Hp as [[_ ->]|(_ & _ & ->)]; discriminate.
  - assert (forall o, length (mem m) <> obj_state vc4 o) as Hfresh.
    { intros o. pose proof (published_valid m o HI). lia. }
    split.
    + destruct HI as (Hval & Hc' & Hp). split; [assumption|]. split.
      * intros o. cbn. rewrite lookup_app_l; [apply Hc'|].
        apply (published_valid m o). now split.
      * intros e. cbn. rewrite elem_of_app, list_elem_of_singleton.
        intros [He| ->]; [now apply Hp|]. cbn. apply Hfresh.
    + intros o [= E]. now apply (Hfresh o).
Qed.

Lemma keeps_vc4_get_ctm_state : keeps_ptr (vc4_get_ctm_state vc4).
Proof.
  unfold vc4_get_ctm_state. eapply hoare_bind; [apply keeps_drm_modeset_lock|].
  intros r. cbn beta. destruct (negb _).
  { intros m p m' HI [= <- <-]. split; [assumption|]. intros o. discriminate. }
  eapply hoare_bind; [apply keeps_get_private_obj_state|].
  intros p m q m' [HI Hp]. destruct (IS_ERR p); intros [= <- <-].
  - split; [assumption|]. intros o. discriminate.
  - now split.
Qed.

Lemma keeps_vc4_hvs_get_global_state : keeps_ptr (vc4_hvs_get_global_state vc4).
Proof.
  unfold vc4_hvs_get_global_state.
  eapply hoare_bind; [apply keeps_get_private_obj_state|].
  intros p m q m' [HI Hp]. destruct (IS_ERR p); intros [= <- <-].
  - split; [assumption|]. intros o. discriminate.
  - now split.
Qed.

Lemma keeps_for_index {A} (body : nat -> A -> M (flow A)) (n i : nat) (a : A) :
  (forall i a, keeps (body i a)) -> keeps (for_index n i a body).
Proof.
  intros Hbody m f m' HI Hrun.
  assert (forall i a,
             hoare published_intact (body i a)
               (fun f m => match f with
                           | Continue _ => published_intact m
                           | Return _ => published_intact m
                           end)) as H.
  { intros i0 a0 m0 f0 m0' HI0 Hb0.
    pose proof (Hbody i0 a0 m0 f0 m0' HI0 Hb0). now destruct f0. }
  pose proof (hoare_for_index (fun _ m => published_intact m)
                (fun _ m => published_intact m) body n H i a m f m' HI Hrun) as Hf.
  now destruct f.
Qed.

Lemma keeps_for_each_crtc {A} (a : A)
    (body : nat -> drm_crtcs_state -> A -> M (flow A)) :
  (forall i e a, keeps (body i e a)) ->
  keeps (for_each_oldnew_crtc_in_state a body).
Proof.
  intros Hbody. unfold for_each_oldnew_crtc_in_state.
  apply keeps_bind; [apply keeps_get_state|]. intros st.
  apply keeps_for_index. intros i x.
  apply keeps_bind; [apply keeps_get_state|]. intros st'.
  destruct (crtcs st' !! i) as [[e|]|]; auto using keeps_ret.
Qed.

Lemma keeps_for_each_plane {A} (a : A)
    (body : nat -> drm_planes_state -> A -> M (flow A)) :
  (forall i e a, keeps (body i e a)) ->
  keeps (for_each_oldnew_plane_in_state a body).
Proof.
  intros Hbody. unfold for_each_oldnew_plane_in_state.
  apply keeps_bind; [apply keeps_get_state|]. intros st.
  apply keeps_for_index. intros i x.
  apply keeps_bind; [apply keeps_get_state|]. intros st'.
  destruct (planes st' !! i) as [[e|]|]; auto using keeps_ret.
Qed.

Lemma keeps_pv_muxing_crtc p i e u :
  unpublished p -> keeps (pv_muxing_crtc vc4 p i e u).
Proof.
  intros Hp. unfold pv_muxing_crtc.
  destruct (firmware_kms vc4); [apply keeps_ret|].
  destruct (Bool.eqb _ _); [apply keeps_ret|].
  apply keeps_bind; [apply keeps_modify_new_crtc_state|]. intros _.
  destruct (negb (enable (new_state e))).
  - apply keeps_bind; [now apply keeps_modify_hvs|]. intros _.
    apply keeps_bind; [apply keeps_modify_new_crtc_state|]. intros _.
    apply keeps_ret.
  - apply keeps_bind; [apply keeps_load_hvs|]. intros s.
    cbn zeta. destruct (negb _); [|apply keeps_ret].
    apply keeps_bind; [apply keeps_modify_new_crtc_state|]. intros _.
    apply keeps_bind; [now apply keeps_modify_hvs|]. intros _.
    apply keeps_ret.
Qed.

Lemma keeps_vc4_pv_muxing_atomic_check : keeps (vc4_pv_muxing_atomic_check vc4).
Proof.
  unfold vc4_pv_muxing_atomic_check.
  apply keeps_bind_ptr; [apply keeps_vc4_hvs_get_global_state|].
  intros p Hp. destruct (is_NULL p); [apply keeps_ret|].
  apply keeps_bind.
  - apply keeps_for_each_crtc. intros i e u. now apply keeps_pv_muxing_crtc.
  - intros [x|r]; apply keeps_ret.
Qed.

Lemma keeps_load_tracker_plane p i e u :
  unpublished p -> keeps (load_tracker_plane p i e u).
Proof.
  intros Hp. unfold load_tracker_plane.
  apply keeps_bind.
  { destruct (plane_active _); [|apply keeps_ret].
    apply keeps_bind; [now apply keeps_modify_load|]. intros _.
    now apply keeps_modify_load. }
  intros _. apply keeps_bind.
  { destruct (plane_active _); [|apply keeps_ret].
    apply keeps_bind; [now apply keeps_modify_load|]. intros _.
    now apply keeps_modify_load. }
  intros _. apply keeps_ret.
Qed.

Lemma keeps_vc4_load_tracker_atomic_check :
  keeps (vc4_load_tracker_atomic_check vc4).
Proof.
  unfold vc4_load_tracker_atomic_check.
  apply keeps_bind_ptr; [apply keeps_get_private_obj_state|].
  intros p Hp. destruct (IS_ERR p); [apply keeps_ret|].
  apply keeps_bind.
  { apply keeps_for_each_plane. intros i e u. now apply keeps_load_tracker_plane. }
  intros _. destruct (negb _); [apply keeps_ret|].
  apply keeps_bind; [apply keeps_load_load|]. intros s.
  destruct (_ >? _); [apply keeps_ret|].
  destruct (_ >? _); apply keeps_ret.
Qed.

Lemma keeps_core_clock_crtc w p i e u :
  unpublished p -> keeps (core_clock_crtc w p i e u).
Proof.
  intros Hp. unfold core_clock_crtc.
  apply keeps_bind.
  { destruct (active _); [|apply keeps_ret].
    apply keeps_bind; [now apply keeps_modify_hvs|]. intros _.
    now apply keeps_modify_hvs. }
  intros _. apply keeps_bind.
  { destruct (active _); [|apply keeps_ret].
    apply keeps_bind; [now apply keeps_modify_hvs|]. intros _.
    now apply keeps_modify_hvs. }
  intros _. apply keeps_ret.
Qed.

Lemma keeps_vc4_core_clock_atomic_check w :
  keeps (vc4_core_clock_atomic_check w vc4).
Proof.
  unfold vc4_core_clock_atomic_check.
  apply keeps_bind_ptr; [apply keeps_get_private_obj_state|].
  intros pl Hpl. destruct (IS_ERR pl); [apply keeps_ret|].
  apply keeps_bind_ptr; [apply keeps_vc4_hvs_get_global_state|].
  intros ph Hph. destruct (is_NULL ph); [apply keeps_ret|].
  apply keeps_bind.
  { apply keeps_for_each_crtc. intros i e u. now apply keeps_core_clock_crtc. }
  intros _. apply keeps_bind; [apply keeps_load_hvs|]. intros s.
  apply keeps_bind; [apply keeps_load_load|]. intros l.
  apply keeps_bind; [now apply keeps_modify_hvs|]. intros _.
  apply keeps_ret.
Qed.

Lemma keeps_ctm_release_crtc i e p :
  hoare (intact_with p) (ctm_release_crtc vc4 i e p)
    (fun f m => match f with
                | Continue p' => intact_with p' m
                | Return _ => published_intact m
                end).
Proof.
  unfold ctm_release_crtc. destruct (_ && _).
  - intros m f m' [HI Hp] H.
    apply bind_inv in H as (q & mq & Hq & H).
    destruct (keeps_vc4_get_ctm_state _ _ _ HI Hq) as [HIq Huq].
    destruct (IS_ERR q).
    + now injection H as <- <-.
    + apply bind_inv in H as (x & mx & Hx & H).
      injection H as <- <-. split; [|assumption].
      apply (keeps_modify_ctm q _ Huq _ _ _ HIq Hx).
  - intros m f m' HI [= <- <-]. assumption.
Qed.

Lemma keeps_ctm_claim_crtc i e p :
  hoare (intact_with p) (ctm_claim_crtc vc4 i e p)
    (fun f m => match f with
                | Continue (p', _) => intact_with p' m
                | Return _ => published_intact m
                end).
Proof.
  unfold ctm_claim_crtc. destruct (blob_ptr_eqb _ _).
  { intros m f m' HI [= <- <-]. assumption. }
  intros m f m' [HI Hp] H.
  apply bind_inv in H as (q & mq & Hq & H).
  assert (published_intact mq /\ unpublished q) as [HIq Huq].
  { destruct (is_NULL p).
    - apply (keeps_vc4_get_ctm_state _ _ _ HI Hq).
    - now injection Hq as <- <-. }
  destruct (IS_ERR q); [now injection H as <- <-|].
  destruct (crtc_ctm (new_state e)) as [blob|].
  2:{ injection H as <- <-. now split. }
  apply bind_inv in H as (s & ms & Hs & H).
  apply load_ctm_inv in Hs as [-> _].
  destruct (_ && _); [now injection H as <- <-|].
  destruct (ctm_scalars_loop _ _ _) as [i'|r]; [|now injection H as <- <-].
  apply bind_inv in H as (x & mx & Hx & H).
  apply bind_inv in H as (y & my & Hy & H).
  injection H as <- <-. split; [|assumption].
  apply (keeps_modify_ctm q _ Huq _ _ _
           (keeps_modify_ctm q _ Huq _ _ _ HIq Hx) Hy).
Qed.

Lemma keeps_vc4_ctm_atomic_check : keeps (vc4_ctm_atomic_check vc4).
Proof.
  unfold vc4_ctm_atomic_check.
  eapply hoare_bind with
    (Q := fun f m => match f with
                     | Continue p' => intact_with p' m
                     | Return _ => published_intact m
                     end).
  - unfold for_each_oldnew_crtc_in_state.
    intros m f m' HI H. apply bind_inv in H as (st & m1 & [= <- <-] & H).
    refine (hoare_for_index intact_with (fun _ m => published_intact m) _ _ _
              0%nat NULL m f m' _ H).
    + intros i p m0 f0 m0' HI0 H0.
      apply bind_inv in H0 as (st' & m1 & [= <- <-] & H0).
      destruct (crtcs (txn m0) !! i) as [[e|]|].
      * apply (keeps_ctm_release_crtc i e p _ _ _ HI0 H0).
      * now injection H0 as <- <-.
      * now injection H0 as <- <-.
    + split; [assumption|]. intros o. discriminate.
  - intros [p|r]; [|intros m x m' HI [= <- <-]; assumption].
    eapply hoare_bind with
      (Q := fun f m => match f with
                       | Continue p' => intact_with p' m
                       | Return _ => published_intact m
                       end).
    + unfold for_each_oldnew_crtc_in_state_var.
      intros m f m' HI H. apply bind_inv in H as (st & m1 & [= <- <-] & H).
      refine (hoare_for_index_var intact_with (fun _ m => published_intact m) _ _ _
                _ 0%nat p m f m' HI H).
      intros i q m0 f0 m0' HI0 H0.
      apply bind_inv in H0 as (st' & m1 & [= <- <-] & H0).
      destruct (crtcs (txn m0) !! i) as [[e|]|].
      * apply (keeps_ctm_claim_crtc i e q _ _ _ HI0 H0).
      * now injection H0 as <- <-.
      * now injection H0 as <- <-.
    + intros [q|r] m x m' HI [= <- <-]; [apply HI|assumption].
Qed.

End Published.

Lemma keeps_generic_check vc4 h0
    (helper : drm_atomic_state -> Z * drm_atomic_state) :
  (forall st, private_objs (snd (helper st)) = private_objs st) ->
  keeps vc4 h0 (generic_check helper).
Proof.
  intros Hh m r m' HI H. unfold generic_check in H.
  apply bind_inv in H as (st & m1 & [= <- <-] & H).
  apply bind_inv in H as (x & m2 & H2 & [= <- <-]).
  apply (keeps_put_state vc4 h0 (snd (helper (txn m))) m x m2); [|assumption].
  split; [assumption|apply Hh].
Qed.

Lemma keeps_vc4_atomic_check vc4 h0 (w : Z)
    (helper : drm_atomic_state -> Z * drm_atomic_state) :
  (forall st, private_objs (snd (helper st)) = private_objs st) ->
  keeps vc4 h0 (vc4_atomic_check w helper vc4).
Proof.
  intros Hh. unfold vc4_atomic_check.
  apply keeps_bind; [apply keeps_vc4_pv_muxing_atomic_check|]. intros r1.
  destruct (negb _); [apply keeps_ret|].
  apply keeps_bind; [apply keeps_vc4_ctm_atomic_check|]. intros r2.
  destruct (_ <? _); [apply keeps_ret|].
  apply keeps_bind; [now apply keeps_generic_check|]. intros r3.
  destruct (negb _); [apply keeps_ret|].
  apply keeps_bind; [apply keeps_vc4_load_tracker_atomic_check|]. intros r4.
  destruct (negb _); [apply keeps_ret|].
  apply keeps_vc4_core_clock_atomic_check.
Qed.

(** C3. A check works on copies: where the generic check leaves the list of
    private copies alone, whatever [vc4_atomic_check] answers, the published
    CTM, load tracker and HVS states hold afterwards what they held before;
    a copy, when it is made, is a new cell that holds what the published
    state holds; and a request whose check answers an error leaves the
    device as it was. *)
Theorem rejected_check_keeps_published_state (BITS_PER_LONG : Z)
    (helper : drm_atomic_state -> Z * drm_atomic_state) :
  (forall st, private_objs (snd (helper st)) = private_objs st) ->
  (forall vc4 m r m',
     (forall obj, (obj_state vc4 obj < length (mem m))%nat) ->
     (forall e, e ∈ private_objs (txn m) ->
                forall obj, obj_new_state e <> obj_state vc4 obj) ->
     vc4_atomic_check BITS_PER_LONG helper vc4 m = Some (r, m') ->
     forall obj, mem m' !! obj_state vc4 obj = mem m !! obj_state vc4 obj) /\
  (forall vc4 obj m n v,
     find_private_obj (txn m) obj = None ->
     acquire_ctx (txn m) = 0 ->
     slab m = S n ->
     mem m !! obj_state vc4 obj = Some v ->
     duplicable obj v ->
     exists m',
       drm_atomic_get_private_obj_state vc4 obj m
       = Some (Addr (length (mem m)), m') /\
       mem m' !! length (mem m) = Some v /\
       mem m' !! obj_state vc4 obj = Some v) /\
  (forall dev req r m',
     vc4_atomic_check BITS_PER_LONG helper (dev_private dev)
       {| mem := dev_mem dev; slab := request_slab req;
          txn := drm_atomic_state_init dev req |} = Some (r, m') ->
     r <> 0 ->
     drm_mode_atomic_ioctl BITS_PER_LONG helper dev req = Some (r, dev)).
Proof.
  intros Hh. split; [|split].
  - intros vc4 m r m' Hv Hp Hrun obj.
    assert (published_intact vc4 (mem m) m) as HI
      by (split; [assumption|split; [reflexivity|assumption]]).
    destruct (keeps_vc4_atomic_check vc4 (mem m) BITS_PER_LONG helper Hh
                m r m' HI Hrun) as (_ & Hc & _).
    apply Hc.
  - intros vc4 obj m n v Hf Hc Hs Hv Hk.
    eexists. split; [now apply (get_fresh vc4 obj m n v)|].
    cbn [mem]. split; [apply lookup_last|].
    rewrite lookup_app_l; [assumption|]. now apply lookup_lt_Some in Hv.
  - intros dev req r m' Hrun Hr.
    unfold drm_mode_atomic_ioctl. rewrite Hrun.
    destruct (Z.eqb_spec r 0); [contradiction|]. reflexivity.
Qed.

(** ** The commit gate *)

Lemma holds_gate_phase th : holds_gate th = Nat.eqb (gate_phase (made th)) 1.
Proof.
  unfold holds_gate, gate_phase.
  destruct (existsb is_up _), (existsb is_down _); reflexivity.
Qed.

Lemma holders_insert l t th th' :
  l !! t = Some th ->
  (holders (<[t := th']> l) + (if holds_gate th then 1 else 0)
   = holders l + (if holds_gate th' then 1 else 0))%nat.
Proof.
  revert t. induction l as [|x l IH]; intros [|t] H; try discriminate.
  - injection H as ->.
    change (<[0%nat := th']> (th :: l)) with (th' :: l). cbn [holders]. lia.
  - change (<[S t := th']> (x :: l)) with (x :: <[t := th']> l).
    cbn [holders]. specialize (IH t H). lia.
Qed.

Lemma holders_two l i j thi thj :
  i <> j -> l !! i = Some thi -> l !! j = Some thj ->
  holds_gate thi = true -> holds_gate thj = true -> (2 <= holders l)%nat.
Proof.
  revert i j. induction l as [|x l IH]; intros i j Hne Hi Hj Hhi Hhj.
  - discriminate.
  - assert (forall k th, l !! k = Some th -> holds_gate th = true ->
                         (1 <= holders l)%nat) as Hone.
    { clear. induction l as [|y l IH]; intros [|k] th H Hh; try discriminate.
      - injection H as ->. cbn [holders]. rewrite Hh. lia.
      - cbn [holders]. specialize (IH k th H Hh). lia. }
    cbn [holders].
    destruct i as [|i], j as [|j]; try congruence.
    + injection Hi as ->. rewrite Hhi. specialize (Hone j thj Hj Hhj). lia.
    + injection Hj as ->. rewrite Hhj. specialize (Hone i thi Hi Hhi). lia.
    + assert (i <> j) as Hij by congruence.
      specialize (IH i j Hij Hi Hj Hhi Hhj). lia.
Qed.

Lemma thread_step d a rest :
  thread_ok {| made := d; pending := a :: rest |} ->
  thread_ok {| made := a :: d; pending := rest |} /\
  (is_down a = true -> gate_phase d = 0%nat /\ gate_phase (a :: d) = 1%nat) /\
  (is_up a = true -> gate_phase d = 1%nat /\ gate_phase (a :: d) = 2%nat) /\
  (is_down a = false -> is_up a = false -> gate_phase (a :: d) = gate_phase d).
Proof.
  intros [Hok Hhw]. cbn [made pending] in *. cbn [gate_ok] in Hok.
  unfold thread_ok, gate_phase in *. cbn [made pending existsb].
  destruct a; try (match goal with b : bool |- _ => destruct b end);
    cbn [is_down is_up hw_step orb] in *;
    destruct (existsb is_up d), (existsb is_down d), (existsb hw_step d);
    cbn in *;
    repeat split; try discriminate; try congruence; try lia; auto;
    try (intros _; lia).
Qed.

Lemma sched_ok s t s' : system_ok s -> sched s t = Some s' -> system_ok s'.
Proof.
  intros [Hth Hsem] H. unfold sched in H.
  destruct (threads s !! t) as [[d [|a rest]]|] eqn:Ht; try discriminate.
  destruct (thread_step d a rest (Hth t _ Ht)) as (Hnew & Hdown & Hup & Hother).
  pose proof (holders_insert (threads s) t _ {| made := a :: d; pending := rest |} Ht)
    as Hcount.
  rewrite !holds_gate_phase in Hcount. cbn [made] in Hcount.
  assert (forall k x,
             <[t := {| made := a :: d; pending := rest |}]> (threads s) !! k = Some x ->
             thread_ok x) as Hall.
  { intros k x Hk. destruct (Nat.eq_dec t k) as [<-|Hne].
    - rewrite (lookup_insert_same _ _ _ _ Ht) in Hk. now injection Hk as <-.
    - rewrite list_lookup_insert_ne in Hk by assumption. now apply (Hth k). }
  destruct (is_down a) eqn:Ed; [|destruct (is_up a) eqn:Eu].
  - destruct (Hdown eq_refl) as [E0 E1]. rewrite E0, E1 in Hcount. cbn in Hcount.
    destruct a; try discriminate.
    destruct (sem s) as [|n] eqn:Hs; [discriminate|].
    injection H as <-. split; [assumption|]. cbn [sem threads]. lia.
  - destruct (Hup eq_refl) as [E0 E1]. rewrite E0, E1 in Hcount. cbn in Hcount.
    destruct a; try discriminate.
    injection H as <-. split; [assumption|]. cbn [sem threads]. lia.
  - rewrite (Hother eq_refl eq_refl) in Hcount.
    assert (s' = {| sem := sem s;
                    threads := <[t := {| made := a :: d; pending := rest |}]>
                                 (threads s) |}) as ->.
    { destruct a; try discriminate; now injection H as <-. }
    split; [assumption|]. cbn [sem threads]. lia.
Qed.

Lemma run_ok schedule : forall s s',
  system_ok s -> run s schedule = Some s' -> system_ok s'.
Proof.
  induction schedule as [|t ts IH]; intros s s' Hs H; cbn in H.
  - now injection H as <-.
  - destruct (sched s t) as [s1|] eqn:E; [|discriminate].
    apply (IH s1 s'); [|assumption]. now apply (sched_ok s t).
Qed.

Lemma gate_ok_hw_steps (l1 l2 : list action) :
  forallb hw_step l1 = true -> gate_ok 1 (l1 ++ l2) = gate_ok 1 l2.
Proof.
  induction l1 as [|a l1 IH]; cbn [app forallb gate_ok]; [reflexivity|].
  intros H. apply andb_prop in H as [Ha Hl].
  rewrite Ha. destruct a; try discriminate; cbn; now apply IH.
Qed.

Lemma underrun_masks_hw vc4 st : forallb hw_step (underrun_masks vc4 st) = true.
Proof.
  unfold underrun_masks. induction (crtcs st) as [|[e|] l IH]; cbn; auto.
  destruct (_ || _); cbn; assumption.
Qed.

Lemma hardware_application_hw vc4 st :
  forallb hw_step (hardware_application vc4 st) = true.
Proof.
  unfold hardware_application. rewrite forallb_app, underrun_masks_hw.
  destruct (hvs5 vc4), (firmware_kms vc4); reflexivity.
Qed.

Lemma vc4_atomic_complete_commit_gate vc4 st (l : list action) :
  gate_ok 2 l = true ->
  gate_ok 1 (vc4_atomic_complete_commit vc4 st ++ l) = gate_ok 1 l
  \/ gate_ok 1 (vc4_atomic_complete_commit vc4 st ++ l) = true.
Proof.
  intros Hl. unfold vc4_atomic_complete_commit.
  destruct (negb _); [now left|]. right.
  rewrite <- app_assoc, gate_ok_hw_steps by apply hardware_application_hw.
  cbn. assumption.
Qed.

Lemma calls_gate_ok (c : commit_call) : gate_ok 0 (calls_of c) = true.
Proof.
  unfold calls_of, vc4_atomic_commit.
  destruct (call_async_update c).
  { destruct (negb (down_interruptible_ret _ =? 0)); [reflexivity|].
    destruct (negb (prepare_planes_ret _ =? 0)); reflexivity. }
  destruct (negb (setup_commit_ret _ =? 0)); [reflexivity|].
  destruct (negb (down_interruptible_ret _ =? 0)); [reflexivity|].
  destruct (negb (prepare_planes_ret _ =? 0)); [reflexivity|].
  destruct (call_nonblock c); cbn [negb andb].
  - cbn -[vc4_atomic_complete_commit].
    rewrite <- (app_nil_r (vc4_atomic_complete_commit _ _)).
    destruct (vc4_atomic_complete_commit_gate (call_dev c) (call_state c) [])
      as [-> | ->]; reflexivity.
  - destruct (negb (wait_for_fences_ret _ =? 0)); [reflexivity|].
    cbn -[vc4_atomic_complete_commit].
    destruct (vc4_atomic_complete_commit_gate (call_dev c) (call_state c)
                [returns 0]) as [-> | ->]; reflexivity.
Qed.

Lemma start_ok (cs : list commit_call) : system_ok (start (map calls_of cs)).
Proof.
  split.
  - intros t th Ht. unfold start in Ht. cbn [threads] in Ht.
    rewrite !list_lookup_fmap in Ht.
    destruct (cs !! t) as [c|]; [|discriminate].
    injection Ht as <-. split; [apply calls_gate_ok|discriminate].
  - cbn [start sem threads]. induction cs as [|c cs IH]; cbn in *; lia.
Qed.

Lemma gate_ok_done (l : list action) :
  existsb hw_step l = true -> gate_ok 2 l = false.
Proof.
  induction l as [|a l IH]; cbn [existsb gate_ok]; [discriminate|].
  intros H. destruct (is_down a); [reflexivity|].
  destruct (is_up a); [reflexivity|].
  destruct (hw_step a); [reflexivity|]. cbn in H. now rewrite IH.
Qed.

Lemma applying_holds th :
  thread_ok th -> applying_hardware th = true -> holds_gate th = true.
Proof.
  intros [Hok Hhw] Happ. unfold applying_hardware in Happ.
  apply andb_prop in Happ as [Hm Hp]. specialize (Hhw Hm).
  rewrite holds_gate_phase. apply Nat.eqb_eq.
  assert (gate_phase (made th) <> 2%nat) as H2.
  { intros E. rewrite E, (gate_ok_done _ Hp) in Hok. discriminate. }
  unfold gate_phase in *.
  destruct (existsb is_up (made th)), (existsb is_down (made th)); congruence.
Qed.

Lemma obj_init_async_modeset env (init : vc4_dev -> M (Z * vc4_dev)) :
  (init = vc4_ctm_obj_init env \/ init = vc4_load_tracker_obj_init env
   \/ init = vc4_hvs_channels_obj_init env) ->
  forall vc4 m p m', init vc4 m = Some (p, m') ->
                     async_modeset (snd p) = async_modeset vc4.
Proof.
  intros [-> | [-> | ->]] vc4 m p m' H;
    unfold vc4_ctm_obj_init, vc4_load_tracker_obj_init,
      vc4_hvs_channels_obj_init in H;
    apply bind_inv in H as (q & mq & _ & H);
    destruct q; try (now injection H as <- <-).
  apply bind_inv in H as (x & mx & _ & H). now injection H as <- <-.
Qed.

Lemma vc4_kms_load_async_modeset is_vc5 env vc4 m p m' :
  vc4_kms_load is_vc5 env vc4 m = Some (p, m') -> async_modeset (snd p) = 1%nat.
Proof.
  unfold vc4_kms_load. intros H.
  destruct (drm_vblank_init_ret env <? 0); [now injection H as <- <-|].
  apply bind_inv in H as (p1 & m1 & H1 & H).
  apply (obj_init_async_modeset env _ (or_introl eq_refl)) in H1. cbn in H1.
  destruct (negb _); [now injection H as <- <-|].
  apply bind_inv in H as (p2 & m2 & H2 & H).
  apply (obj_init_async_modeset env _ (or_intror (or_introl eq_refl))) in H2.
  destruct (negb _); [injection H as <- <-; congruence|].
  apply bind_inv in H as (p3 & m3 & H3 & H).
  apply (obj_init_async_modeset env _ (or_intror (or_intror eq_refl))) in H3.
  destruct (negb _); injection H as <- <-; cbn; congruence.
Qed.

(** ** The channels of the HVS *)

Lemma lookup_insert_cases {A} (l : list A) (i j : nat) (x y : A) :
  <[i := x]> l !! j = Some y ->
  (i = j /\ y = x) \/ (i <> j /\ l !! j = Some y).
Proof.
  destruct (Nat.eq_dec i j) as [<-|Hne].
  - intros H. left. split; [reflexivity|].
    destruct (lt_dec i (length l)).
    + rewrite list_lookup_insert_eq in H by assumption. congruence.
    + rewrite list_insert_ge in H by lia.
      apply lookup_lt_Some in H. lia.
  - rewrite list_lookup_insert_ne by assumption. now right.
Qed.

Lemma chan_inv_same fw u l i b c :
  chan_inv fw u l -> l !! i = Some (b, c) -> chan_inv fw u (<[i := (b, c)]> l).
Proof. intros H Hi. now rewrite list_insert_id. Qed.

(** Under firmware KMS a CRTC goes on or off without a channel. *)
Lemma chan_inv_firmware u l i b b' c :
  chan_inv true u l -> l !! i = Some (b, c) ->
  chan_inv true u (<[i := (b', c)]> l).
Proof.
  intros (Hu & Hoff & Hon & Huniq & Hcov & Hfw) Hi.
  assert (c = VC4_HVS_CHANNEL_DISABLED) as ->.
  { destruct b; [apply (Hon i _ Hi)|apply (Hoff i _ Hi)]. }
  assert (forall j x, <[i := (b', VC4_HVS_CHANNEL_DISABLED)]> l !! j = Some x ->
                      snd x = VC4_HVS_CHANNEL_DISABLED) as Hall.
  { intros j [bx cx] Hj. apply lookup_insert_cases in Hj as [[_ [= _ ->]]|[_ Hj]].
    - reflexivity.
    - destruct bx; [apply (Hon j _ Hj)|apply (Hoff j _ Hj)]. }
  split; [assumption|]. split; [|split; [|split; [|split]]].
  - intros j cx Hj. apply (Hall j _ Hj).
  - intros j cx Hj. apply (Hall j _ Hj).
  - intros j k cx _ Hj _. apply (Hall j _ Hj).
  - intros cx Hc Hbit. rewrite (Hfw eq_refl) in Hbit.
    assert (cx = 0 \/ cx = 1 \/ cx = 2) as [-> | [-> | ->]] by lia; discriminate.
  - assumption.
Qed.

(** A CRTC goes off: its channel is free again. *)
Lemma chan_inv_disable u l i c :
  chan_inv false u l -> l !! i = Some (true, c) ->
  chan_inv false (u32 (Z.lor u (BIT c)))
    (<[i := (false, VC4_HVS_CHANNEL_DISABLED)]> l).
Proof.
  intros (Hu & Hoff & Hon & Huniq & Hcov & Hfw) Hi.
  destruct (Hon i c Hi) as [Hc Hbit].
  destruct (put_back_channel u c) as [Hr Hbits]; [lia|lia|].
  assert (c <> VC4_HVS_CHANNEL_DISABLED) as Hcd by (vm_compute; lia).
  split; [|split; [|split; [|split; [|split]]]].
  - split; [lia|]. apply (bits_bound _ 3); [lia|lia|].
    intros k Hk. rewrite Hbits, (testbit_high u 3 k) by lia.
    apply Z.eqb_neq. lia.
  - intros j cx Hj. apply lookup_insert_cases in Hj as [[_ [= ->]]|[_ Hj]].
    + reflexivity.
    + apply (Hoff j _ Hj).
  - intros j cx Hj. apply lookup_insert_cases in Hj as [[_ [=]]|[Hne Hj]].
    destruct (Hon j cx Hj) as [Hcx Hbx]. split; [assumption|].
    rewrite Hbits, Hbx. apply Z.eqb_neq. intros ->.
    apply Hcd. apply (Huniq i j c Hne Hi Hj).
  - intros j k cx Hne Hj Hk.
    apply lookup_insert_cases in Hj as [[_ [=]]|[_ Hj]].
    apply lookup_insert_cases in Hk as [[_ [=]]|[_ Hk]].
    apply (Huniq j k cx Hne Hj Hk).
  - intros cx Hcx Hbx. rewrite Hbits in Hbx.
    apply orb_false_elim in Hbx as [Hbx Hne]. apply Z.eqb_neq in Hne.
    destruct (Hcov cx Hcx Hbx) as [j Hj]. exists j.
    rewrite list_lookup_insert_ne; [assumption|]. intros <-. congruence.
  - discriminate.
Qed.

(** A CRTC goes on with a channel that was free. *)
Lemma chan_inv_enable u l i c0 c :
  chan_inv false u l -> l !! i = Some (false, c0) ->
  0 <= c -> Z.testbit u c = true ->
  chan_inv false (u32 (Z.land u (Z.lnot (BIT c)))) (<[i := (true, c)]> l).
Proof.
  intros (Hu & Hoff & Hon & Huniq & Hcov & Hfw) Hi Hc Hbit.
  assert (c < 3) as Hc3.
  { destruct (Z.lt_ge_cases c 3); [assumption|].
    rewrite (testbit_high u 3 c) in Hbit by lia. discriminate. }
  destruct (take_channel u c) as [Hr Hbits]; [lia|lia|].
  split; [|split; [|split; [|split; [|split]]]].
  - split; [lia|]. apply (bits_bound _ 3); [lia|lia|].
    intros k Hk. rewrite Hbits, (testbit_high u 3 k) by lia. reflexivity.
  - intros j cx Hj. apply lookup_insert_cases in Hj as [[_ [=]]|[_ Hj]].
    apply (Hoff j _ Hj).
  - intros j cx Hj. apply lookup_insert_cases in Hj as [[_ [= ->]]|[_ Hj]].
    + split; [lia|]. rewrite Hbits, Z.eqb_refl. apply andb_false_r.
    + destruct (Hon j cx Hj) as [Hcx Hbx]. split; [assumption|].
      rewrite Hbits, Hbx. reflexivity.
  - intros j k cx Hne Hj Hk.
    apply lookup_insert_cases in Hj as [[Hej Hcj]|[Hnj Hj]];
      apply lookup_insert_cases in Hk as [[Hek Hck]|[Hnk Hk]].
    + congruence.
    + injection Hcj as ->. destruct (Hon k c Hk) as [_ Hbx]. congruence.
    + injection Hck as ->. destruct (Hon j c Hj) as [_ Hbx]. congruence.
    + apply (Huniq j k cx Hne Hj Hk).
  - intros cx Hcx Hbx. rewrite Hbits in Hbx.
    destruct (Z.eqb_spec cx c) as [->|Hne].
    + exists i. apply list_lookup_insert_eq. now apply lookup_lt_Some in Hi.
    + cbn in Hbx. rewrite andb_true_r in Hbx.
      destruct (Hcov cx Hcx Hbx) as [j Hj]. exists j.
      rewrite list_lookup_insert_ne; [assumption|]. intros <-. congruence.
  - discriminate.
Qed.

(** *** The channels a check sees *)

Lemma mixed_lookup i pub es j :
  mixed i pub es !! j = view i es j <$> pub !! j.
Proof. apply list_lookup_imap. Qed.

Lemma mixed_length i pub es : length (mixed i pub es) = length pub.
Proof. apply length_imap. Qed.

Lemma mixed_0 pub es : mixed 0 pub es = map (fun p => chan (snd p)) pub.
Proof.
  apply list_eq. intros j. rewrite mixed_lookup, list_lookup_fmap.
  now destruct (pub !! j).
Qed.

Lemma mixed_step i pub es es' p :
  (forall j, (j < i)%nat -> es' !! j = es !! j) ->
  pub !! i = Some p ->
  mixed (S i) pub es'
  = <[i := match es' !! i with
           | Some (Some e) => chan (new_state e)
           | _ => chan (snd p)
           end]> (mixed i pub es).
Proof.
  intros Hes Hp. apply list_eq. intros j.
  destruct (Nat.eq_dec i j) as [<-|Hne].
  - rewrite list_lookup_insert_eq
      by (rewrite mixed_length; now apply lookup_lt_Some in Hp).
    rewrite mixed_lookup, Hp. cbn. unfold view.
    now rewrite (proj2 (Nat.ltb_lt i (S i))) by lia.
  - rewrite list_lookup_insert_ne by assumption.
    rewrite !mixed_lookup. destruct (pub !! j) as [q|]; [|reflexivity].
    cbn. f_equal. unfold view.
    destruct (Nat.ltb_spec j (S i)), (Nat.ltb_spec j i); try lia.
    + now rewrite Hes.
    + reflexivity.
Qed.

(** The view depends on the new states through [chan] alone. *)
Lemma mixed_ext i pub es es' :
  map (option_map (fun e => chan (new_state e))) es'
  = map (option_map (fun e => chan (new_state e))) es ->
  mixed i pub es' = mixed i pub es.
Proof.
  intros H. apply list_eq. intros j. rewrite !mixed_lookup.
  destruct (pub !! j) as [q|]; [|reflexivity]. cbn. f_equal. unfold view.
  destruct (j <? i)%nat; [|reflexivity].
  assert (map (option_map (fun e => chan (new_state e))) es' !! j
          = map (option_map (fun e => chan (new_state e))) es !! j) as Hj
    by now rewrite H.
  rewrite !list_lookup_fmap in Hj.
  destruct (es' !! j) as [[e'|]|], (es !! j) as [[e|]|];
    cbn in Hj; congruence.
Qed.

Lemma swap_crtcs_lookup cs es j :
  swap_crtcs cs es !! j
  = match cs !! j with
    | Some (c, s) =>
        Some (c, match es !! j with Some (Some e) => new_state e | _ => s end)
    | None => None
    end.
Proof.
  revert es j. induction cs as [|[c s] cs IH]; intros es j.
  - now destruct es.
  - destruct es as [|[e|] es]; cbn [swap_crtcs].
    + rewrite lookup_nil. now destruct (_ !! j) as [[c' s']|].
    + destruct j as [|j]; [reflexivity|]. cbn. apply IH.
    + destruct j as [|j]; [reflexivity|]. cbn. apply IH.
Qed.

(** Once every slot has been handled the view is the state that a swap
    publishes. *)
Lemma mixed_all pub es :
  mixed (length pub) pub es
  = map (fun p => chan (snd p)) (swap_crtcs pub es).
Proof.
  apply list_eq. intros j.
  rewrite mixed_lookup, list_lookup_fmap, swap_crtcs_lookup.
  destruct (pub !! j) as [[c s]|] eqn:E; [|reflexivity].
  cbn. unfold view. apply lookup_lt_Some in E.
  rewrite (proj2 (Nat.ltb_lt _ _) E).
  now destruct (es !! j) as [[e|]|].
Qed.

(** The private objects that a swap publishes. *)
Lemma swap_private_objs_firmware_kms l vc4 :
  firmware_kms (swap_private_objs vc4 l) = firmware_kms vc4.
Proof.
  unfold swap_private_objs. revert vc4.
  induction l as [|e l IH]; intros vc4; [reflexivity|].
  cbn [fold_left]. now rewrite IH.
Qed.

Lemma drm_private_obj_eqb_eq (a b : drm_private_obj) :
  (drm_private_obj_eqb a b = true) <-> (a = b).
Proof. destruct a, b; cbn; split; congruence. Qed.

Lemma swap_private_objs_other l vc4 obj :
  find (fun e => drm_private_obj_eqb (obj_ptr e) obj) l = None ->
  obj_state (swap_private_objs vc4 l) obj = obj_state vc4 obj.
Proof.
  unfold swap_private_objs. revert vc4.
  induction l as [|x l IH]; intros vc4 Hf; [reflexivity|].
  cbn [fold_left find] in *.
  destruct (drm_private_obj_eqb (obj_ptr x) obj) eqn:Ex; [discriminate|].
  rewrite (IH _ Hf). destruct (obj_ptr x), obj; cbn in *; congruence.
Qed.

Lemma swap_private_objs_held l vc4 obj e :
  find (fun e => drm_private_obj_eqb (obj_ptr e) obj) l = Some e ->
  exists e', e' ∈ l /\ obj_ptr e' = obj /\
             obj_state (swap_private_objs vc4 l) obj = obj_new_state e'.
Proof.
  revert vc4 e. induction l as [|x l IH]; intros vc4 e Hf; [discriminate|].
  destruct (find (fun e => drm_private_obj_eqb (obj_ptr e) obj) l)
    as [e1|] eqn:Hl.
  - destruct (IH (set_obj_state (obj_ptr x) (obj_new_state x) vc4) e1 eq_refl)
      as (e' & He' & Hp & H).
    exists e'. split; [now right|]. now split.
  - cbn [find] in Hf. rewrite Hl in Hf.
    destruct (drm_private_obj_eqb (obj_ptr x) obj) eqn:Ex; [|discriminate].
    apply drm_private_obj_eqb_eq in Ex.
    exists x. split; [left|]. split; [assumption|].
    change (swap_private_objs vc4 (x :: l))
      with (swap_private_objs (set_obj_state (obj_ptr x) (obj_new_state x) vc4) l).
    rewrite (swap_private_objs_other _ _ _ Hl).
    rewrite Ex. now destruct obj.
Qed.

Lemma swap_private_objs_valid l vc4 obj (n : nat) :
  (obj_state vc4 obj < n)%nat ->
  (forall e, e ∈ l -> (obj_new_state e < n)%nat) ->
  (obj_state (swap_private_objs vc4 l) obj < n)%nat.
Proof.
  intros Hv Hl.
  destruct (find (fun e => drm_private_obj_eqb (obj_ptr e) obj) l)
    as [e|] eqn:Hf.
  - destruct (swap_private_objs_held l vc4 obj e Hf) as (e' & He' & _ & ->).
    now apply Hl.
  - now rewrite swap_private_objs_other.
Qed.

(** A loop whose invariant follows the index. *)
Lemma hoare_for_index_at {A} (I : nat -> A -> machine -> Prop)
    (R : Z -> machine -> Prop) (body : nat -> A -> M (flow A)) (n : nat) :
  forall i a,
    (forall j a, (i <= j < i + n)%nat ->
       hoare (I j a) (body j a)
         (fun f m => match f with
                     | Continue a' => I (S j) a' m
                     | Return r => R r m
                     end)) ->
    hoare (I i a) (for_index n i a body)
      (fun f m => match f with
                  | Continue a' => I (i + n)%nat a' m
                  | Return r => R r m
                  end).
Proof.
  induction n as [|n IH]; intros i a Hbody m f m' HI H; cbn [for_index] in H.
  - injection H as <- <-. now rewrite Nat.add_0_r.
  - apply bind_inv in H as (f1 & m1 & H1 & H2).
    assert (i <= i < i + S n)%nat as Hi by lia.
    pose proof (Hbody i a Hi m f1 m1 HI H1) as Hf1.
    destruct f1 as [a1|r].
    + replace (i + S n)%nat with (S i + n)%nat by lia.
      refine (IH (S i) a1 _ m1 f m' Hf1 H2).
      intros j a' Hj. apply Hbody. lia.
    + now injection H2 as <- <-.
Qed.

Lemma find_app_Some {A} (f : A -> bool) (l l' : list A) (x : A) :
  find f l = Some x -> find f (l ++ l') = Some x.
Proof.
  induction l as [|y l IH]; cbn; [discriminate|].
  destruct (f y); [trivial|apply IH].
Qed.

Section Channels.

Variable vc4 : vc4_dev.

(** The published states of the CRTCs at the start of the check. *)
Variable pub : list (vc4_crtc * vc4_crtc_state).

Local Abbreviation cells_valid := (cells_valid vc4).
Local Abbreviation hvs_copies_ok := (hvs_copies_ok vc4).
Local Abbreviation channels_ok := (channels_ok vc4 pub).
Local Abbreviation slots_fresh := (slots_fresh pub).
Local Abbreviation check_start := (check_start vc4 pub).
Local Abbreviation muxing_inv := (muxing_inv vc4 pub).

Lemma hvs_held_true b m :
  hvs_held b m -> private_objs (txn m) <> [] -> hvs_held true m.
Proof. intros [H|(_ & H & _)] Hne; [now left|contradiction]. Qed.

Section Keeps.

Variable b : bool.
Variable L : list (bool * Z).

Local Abbreviation kc := (keeps_channels vc4 pub b L).

Lemma kc_ret {A} (a : A) : kc (ret a).
Proof. intros m x m' HI [= <- <-]. assumption. Qed.

Lemma kc_bind {A B} (c : M A) (f : A -> M B) :
  kc c -> (forall a, kc (f a)) -> kc (bind c f).
Proof. intros Hc Hf. eapply hoare_bind; [exact Hc|]. intros a. apply Hf. Qed.

Lemma kc_get_state : kc get_state.
Proof. intros m x m' HI [= <- <-]. assumption. Qed.

Lemma kc_drm_modeset_lock : kc drm_modeset_lock.
Proof. intros m x m' HI [= <- <-]. assumption. Qed.

Lemma kc_load_ctm p : kc (load_ctm p).
Proof. intros m x m' HI H. now apply load_ctm_inv in H as [-> _]. Qed.

Lemma kc_load_hvs p : kc (load_hvs p).
Proof. intros m x m' HI H. now apply load_hvs_inv in H as [-> _]. Qed.

Lemma kc_load_load p : kc (load_load p).
Proof. intros m x m' HI H. now apply load_load_inv in H as [-> _]. Qed.

(** A write that leaves the free channels of an HVS state alone. *)
Lemma channels_ok_write m a v :
  channels_ok b L m ->
  (forall h, mem m !! a = Some (HvsState h) ->
             exists h', v = HvsState h' /\
                        unassigned_channels h' = unassigned_channels h) ->
  channels_ok b L (with_mem (<[a := v]> (mem m)) m).
Proof.
  intros ([Hv He] & Hc & Hh & Hm) Hw.
  split; [|split; [|split]].
  - split; [intros obj|intros e Hin]; cbn; rewrite length_insert; auto.
  - intros e Hin Hp. destruct (Hc e Hin Hp) as (h & Hcell & Hinv). cbn.
    destruct (Nat.eq_dec a (obj_new_state e)) as [->|Hne].
    + destruct (Hw h Hcell) as (h' & -> & Hu). exists h'.
      split; [|now rewrite Hu].
      apply list_lookup_insert_eq. now apply lookup_lt_Some in Hcell.
    + exists h. split; [|assumption]. now rewrite list_lookup_insert_ne.
  - exact Hh.
  - exact Hm.
Qed.

Lemma kc_modify_ctm p f : kc (modify_ctm p f).
Proof.
  intros m x m' HI H. apply modify_ctm_inv in H as (a & s & -> & Hs & ->).
  apply channels_ok_write; [assumption|]. intros h Hh. congruence.
Qed.

Lemma kc_modify_load p f : kc (modify_load p f).
Proof.
  intros m x m' HI H. apply modify_load_inv in H as (a & s & -> & Hs & ->).
  apply channels_ok_write; [assumption|]. intros h Hh. congruence.
Qed.

Lemma kc_modify_hvs p f :
  (forall s, unassigned_channels (f s) = unassigned_channels s) ->
  kc (modify_hvs p f).
Proof.
  intros Hf m x m' HI H. apply modify_hvs_inv in H as (a & s & -> & Hs & ->).
  apply channels_ok_write; [assumption|]. intros h Hh.
  exists (f s). split; [reflexivity|]. rewrite Hf. congruence.
Qed.

Lemma kc_put_state st :
  hoare (fun m => channels_ok b L m /\
                  private_objs st = private_objs (txn m) /\
                  acquire_ctx st = acquire_ctx (txn m) /\
                  mixed (length pub) pub (crtcs st) = L)
    (put_state st) (fun _ m => channels_ok b L m).
Proof.
  intros m x m' (([Hv He] & Hc & Hh & Hm) & Hp & Ha & Hst) [= <- <-].
  split; [|split; [|split]].
  - split; [exact Hv|]. cbn. now rewrite Hp.
  - intros e. cbn. rewrite Hp. apply Hc.
  - unfold hvs_held, find_private_obj in *. cbn. now rewrite Hp, Ha.
  - exact Hst.
Qed.

(** Obtaining a copy: a copy that is granted leaves the transaction with a
    copy of the HVS state; a refusal carries a nonzero error. *)
Lemma kc_get_private_obj_state obj :
  hoare (channels_ok b L) (drm_atomic_get_private_obj_state vc4 obj)
    (fun p m => channels_ok b L m /\
                (IS_ERR p = false -> channels_ok true L m) /\
                (IS_ERR p = true -> PTR_ERR p <> 0)).
Proof.
  intros m p m' HI H. pose proof HI as ([Hv He] & Hc & Hh & Hm).
  apply drm_atomic_get_private_obj_state_inv in H
    as [(e & Hf & -> & ->) | [(Hf & -> & Hp) | (Hf & Hctx & n & v & Hs & Hcell & Hk & -> & ->)]];
    [| | |apply Hv].
  - split; [assumption|]. split; [|discriminate]. intros _.
    split; [now split|]. split; [assumption|]. split; [|assumption].
    apply (hvs_held_true b); [assumption|].
    apply find_private_obj_elem in Hf. intros E. rewrite E in Hf.
    now apply elem_of_nil in Hf.
  - split; [assumption|].
    destruct Hp as [[Hne ->]|(_ & _ & ->)]; (split; [discriminate|]); intros _.
    + exact Hne.
    + discriminate.
  - assert (is_Some (find_private_obj (txn m) hvs_channels)) as Hheld.
    { destruct Hh as [Hh|(_ & _ & [Hx|Hx])]; [assumption|contradiction|].
      rewrite Hs in Hx. discriminate. }
    assert (obj <> hvs_channels) as Hobj.
    { intros ->. rewrite Hf in Hheld. now destruct Hheld. }
    assert (forall b', channels_ok b' L
              {| mem := mem m ++ [v]; slab := n;
                 txn := add_private_obj
                          {| obj_ptr := obj; obj_old_state := obj_state vc4 obj;
                             obj_new_state := length (mem m) |} (txn m) |}) as Hall.
    { intros b'. split; [|split; [|split]].
      - split.
        + intros o. cbn. rewrite length_app. cbn. pose proof (Hv o). lia.
        + intros e. cbn. rewrite elem_of_app, list_elem_of_singleton, length_app.
          cbn. intros [Hin| ->]; [pose proof (He e Hin); lia|cbn; lia].
      - intros e. cbn. rewrite elem_of_app, list_elem_of_singleton.
        intros [Hin| ->] Hp; [|now cbn in Hp].
        destruct (Hc e Hin Hp) as (h & Hcell' & Hinv). exists h.
        split; [|assumption]. rewrite lookup_app_l; [assumption|].
        now apply He.
      - left. unfold find_private_obj in *. cbn.
        destruct Hheld as [e0 He0]. rewrite (find_app_Some _ _ _ _ He0).
        now exists e0.
      - exact Hm. }
    split; [apply Hall|]. split; [intros _; apply Hall|discriminate].
Qed.

Lemma kc_get obj : kc (drm_atomic_get_private_obj_state vc4 obj).
Proof.
  intros m p m' HI H. now apply (kc_get_private_obj_state obj m p m' HI H).
Qed.

Lemma kc_for_index {A} (body : nat -> A -> M (flow A)) (n i : nat) (a : A) :
  (forall i a, kc (body i a)) -> kc (for_index n i a body).
Proof.
  intros Hbody m f m' HI Hrun.
  assert (forall i a,
             hoare (channels_ok b L) (body i a)
               (fun f m => match f with
                           | Continue _ => channels_ok b L m
                           | Return _ => channels_ok b L m
                           end)) as H.
  { intros i0 a0 m0 f0 m0' HI0 Hb0.
    pose proof (Hbody i0 a0 m0 f0 m0' HI0 Hb0). now destruct f0. }
  pose proof (hoare_for_index (fun _ m => channels_ok b L m)
                (fun _ m => channels_ok b L m) body n H i a m f m' HI Hrun) as Hf.
  now destruct f.
Qed.

Lemma kc_for_index_var {A} (body : nat -> A -> M (flow (A * nat)))
    (fuel n i : nat) (a : A) :
  (forall i a, kc (body i a)) -> kc (for_index_var fuel n i a body).
Proof.
  intros Hbody m f m' HI Hrun.
  assert (forall i a,
             hoare (channels_ok b L) (body i a)
               (fun f m => match f with
                           | Continue (_, _) => channels_ok b L m
                           | Return _ => channels_ok b L m
                           end)) as H.
  { intros i0 a0 m0 f0 m0' HI0 Hb0.
    pose proof (Hbody i0 a0 m0 f0 m0' HI0 Hb0). now destruct f0 as [[? ?]|]. }
  pose proof (hoare_for_index_var (fun _ m => channels_ok b L m)
                (fun _ m => channels_ok b L m) body n H fuel i a m f m' HI Hrun)
    as Hf.
  now destruct f.
Qed.

(** One step of a proof that a check keeps the channels. *)
Ltac kc_step :=
  first
    [ apply kc_ret | apply kc_get_state | apply kc_drm_modeset_lock
    | apply kc_load_ctm | apply kc_load_hvs | apply kc_load_load
    | apply kc_modify_ctm | apply kc_modify_load
    | (apply kc_modify_hvs; intros; reflexivity)
    | apply kc_get
    | (apply kc_for_index; intros ? ?)
    | (apply kc_for_index_var; intros ? ?)
    | (apply kc_bind; [|intros ?])
    | match goal with
      | |- kc (if ?c then _ else _) => destruct c
      | |- kc (match ?c with _ => _ end) => destruct c
      end ].

Lemma kc_vc4_get_ctm_state : kc (vc4_get_ctm_state vc4).
Proof. unfold vc4_get_ctm_state. repeat kc_step. Qed.

Lemma kc_vc4_hvs_get_global_state : kc (vc4_hvs_get_global_state vc4).
Proof. unfold vc4_hvs_get_global_state. repeat kc_step. Qed.

Lemma kc_for_each_crtc {A} (a : A)
    (body : nat -> drm_crtcs_state -> A -> M (flow A)) :
  (forall i e a, kc (body i e a)) -> kc (for_each_oldnew_crtc_in_state a body).
Proof.
  intros Hbody. unfold for_each_oldnew_crtc_in_state. repeat kc_step.
  apply Hbody.
Qed.

Lemma kc_for_each_crtc_var {A} (a : A)
    (body : nat -> drm_crtcs_state -> A -> M (flow (A * nat))) :
  (forall i e a, kc (body i e a)) ->
  kc (for_each_oldnew_crtc_in_state_var a body).
Proof.
  intros Hbody. unfold for_each_oldnew_crtc_in_state_var. repeat kc_step.
  apply Hbody.
Qed.

Lemma kc_for_each_plane {A} (a : A)
    (body : nat -> drm_planes_state -> A -> M (flow A)) :
  (forall i e a, kc (body i e a)) -> kc (for_each_oldnew_plane_in_state a body).
Proof.
  intros Hbody. unfold for_each_oldnew_plane_in_state. repeat kc_step.
  apply Hbody.
Qed.

Lemma kc_ctm_release_crtc i e p : kc (ctm_release_crtc vc4 i e p).
Proof.
  unfold ctm_release_crtc. repeat kc_step; apply kc_vc4_get_ctm_state.
Qed.

Lemma kc_ctm_claim_crtc i e p : kc (ctm_claim_crtc vc4 i e p).
Proof.
  unfold ctm_claim_crtc. destruct (blob_ptr_eqb _ _); [apply kc_ret|].
  apply kc_bind.
  { destruct (is_NULL p); [apply kc_vc4_get_ctm_state|apply kc_ret]. }
  intros q. destruct (IS_ERR q); [apply kc_ret|].
  destruct (crtc_ctm (new_state e)) as [blob|]; [|apply kc_ret].
  apply kc_bind; [apply kc_load_ctm|]. intros s.
  destruct (_ && _); [apply kc_ret|].
  destruct (ctm_scalars_loop _ _ _); repeat kc_step.
Qed.

Lemma kc_vc4_ctm_atomic_check : kc (vc4_ctm_atomic_check vc4).
Proof.
  unfold vc4_ctm_atomic_check.
  apply kc_bind; [apply kc_for_each_crtc, kc_ctm_release_crtc|].
  intros [p|r]; [|apply kc_ret].
  apply kc_bind; [apply kc_for_each_crtc_var, kc_ctm_claim_crtc|].
  intros [q|r]; apply kc_ret.
Qed.

Lemma kc_load_tracker_plane p i e u : kc (load_tracker_plane p i e u).
Proof. unfold load_tracker_plane. repeat kc_step. Qed.

Lemma kc_core_clock_crtc w p i e u : kc (core_clock_crtc w p i e u).
Proof. unfold core_clock_crtc. repeat kc_step. Qed.

Lemma kc_vc4_core_clock_atomic_check w :
  kc (vc4_core_clock_atomic_check w vc4).
Proof.
  unfold vc4_core_clock_atomic_check.
  apply kc_bind; [apply kc_get|]. intros pl.
  destruct (IS_ERR pl); [apply kc_ret|].
  apply kc_bind; [apply kc_vc4_hvs_get_global_state|]. intros ph.
  destruct (is_NULL ph); [apply kc_ret|].
  apply kc_bind; [apply kc_for_each_crtc; intros; apply kc_core_clock_crtc|].
  intros _. repeat kc_step.
Qed.

Lemma kc_generic_check helper :
  helper_frame helper -> kc (generic_check helper).
Proof.
  intros Hh m r m' HI H. unfold generic_check in H.
  apply bind_inv in H as (st & m1 & [= <- <-] & H).
  apply bind_inv in H as (x & m2 & H2 & [= <- <-]).
  destruct (Hh (txn m)) as (Hp & Ha & Hc).
  apply (kc_put_state (snd (helper (txn m))) m x m2); [|assumption].
  split; [assumption|]. split; [assumption|]. split; [assumption|].
  rewrite (mixed_ext _ _ _ _ Hc). apply HI.
Qed.

(** Once the load tracker check has been granted its copy, what follows
    keeps the channels. *)
Lemma kc_load_tracker_granted m p m1 r m' :
  drm_atomic_get_private_obj_state vc4 load_tracker m = Some (p, m1) ->
  IS_ERR p = false ->
  channels_ok b L m1 ->
  vc4_load_tracker_atomic_check vc4 m = Some (r, m') ->
  channels_ok b L m'.
Proof.
  intros Hget Herr HI H. unfold vc4_load_tracker_atomic_check in H.
  rewrite (bind_Some _ _ _ _ _ Hget), Herr in H. revert H.
  match goal with
  | |- ?c m1 = _ -> _ => assert (kc c) as Hk
  end.
  { apply kc_bind;
      [apply kc_for_each_plane; intros; apply kc_load_tracker_plane|].
    intros _. repeat kc_step. }
  intros H. apply (Hk m1 r m' HI H).
Qed.

End Keeps.

(** The load tracker check answers 0 only to a transaction that has been
    granted copies. *)
Lemma load_tracker_accepts b L :
  hoare (channels_ok b L) (vc4_load_tracker_atomic_check vc4)
    (fun r m => r = 0 -> channels_ok true L m).
Proof.
  intros m r m' HI H. pose proof H as H0.
  unfold vc4_load_tracker_atomic_check in H.
  apply bind_inv in H as (p & m1 & Hp & H).
  destruct (kc_get_private_obj_state b L _ _ _ _ HI Hp) as (_ & Ht & He).
  destruct (IS_ERR p) eqn:Ep.
  - injection H as <- <-. intros E. now apply He in E.
  - intros _. apply (kc_load_tracker_granted true L m p m1 r m' Hp Ep); auto.
Qed.

(** *** The muxing check *)

Lemma mixed_at i es c s :
  pub !! i = Some (c, s) -> mixed i pub es !! i = Some (chan s).
Proof.
  intros H. rewrite mixed_lookup, H. cbn. unfold view.
  now rewrite Nat.ltb_irrefl.
Qed.

(** The check moves on to the next slot. *)
Lemma muxing_inv_next p i m m' e e' h' :
  muxing_inv p i m ->
  crtcs (txn m) !! i = Some (Some e) ->
  length (mem m') = length (mem m) ->
  private_objs (txn m') = private_objs (txn m) ->
  crtcs (txn m') = <[i := Some e']> (crtcs (txn m)) ->
  mem m' !! p = Some (HvsState h') ->
  chan_inv (firmware_kms vc4) (unassigned_channels h')
    (<[i := chan (new_state e')]> (mixed i pub (crtcs (txn m)))) ->
  muxing_inv p (S i) m'.
Proof.
  intros ([Hv He] & Hpo & Hlen & Hold & _) Hi Hmem Hpriv Hcs Hcell Hinv.
  destruct (Hold i e (le_n i) Hi) as (c & s & Hpub & _).
  split; [|split; [|split; [|split]]].
  - split; [intros obj|intros x]; rewrite ?Hpriv, Hmem; auto.
  - now rewrite Hpriv.
  - now rewrite Hcs, length_insert.
  - intros j x Hj Hx. rewrite Hcs, list_lookup_insert_ne in Hx by lia.
    apply (Hold j x); [lia|assumption].
  - exists h'. split; [assumption|].
    rewrite (mixed_step i pub (crtcs (txn m)) (crtcs (txn m')) (c, s)).
    + rewrite Hcs, (lookup_insert_same _ _ _ _ Hi). exact Hinv.
    + intros j Hj. rewrite Hcs. apply list_lookup_insert_ne. lia.
    + assumption.
Qed.

(** A slot that is not part of the transaction. *)
Lemma muxing_inv_skip p i m :
  muxing_inv p i m -> (i < length pub)%nat ->
  (forall e, crtcs (txn m) !! i <> Some (Some e)) ->
  muxing_inv p (S i) m.
Proof.
  intros (Hcv & Hpo & Hlen & Hold & h & Hcell & Hinv) Hi Hnone.
  destruct (lookup_lt_is_Some_2 _ _ Hi) as [[c s] Hpub].
  split; [assumption|]. split; [assumption|]. split; [assumption|]. split.
  - intros j x Hj Hx. apply (Hold j x); [lia|assumption].
  - exists h. split; [assumption|].
    rewrite (mixed_step i pub (crtcs (txn m)) (crtcs (txn m)) (c, s));
      [|reflexivity|assumption].
    replace (match crtcs (txn m) !! i with
             | Some (Some e) => chan (new_state e)
             | _ => chan (snd (c, s))
             end) with (chan s).
    + rewrite list_insert_id; [assumption|]. now apply (mixed_at _ _ c).
    + destruct (crtcs (txn m) !! i) as [[e|]|] eqn:E; [|reflexivity..].
      now destruct (Hnone e).
Qed.

(** One round of the loop of the muxing check keeps the split of the
    channels, or refuses the transaction. *)
Lemma muxing_round p i e u :
  hoare (fun m => muxing_inv p i m /\ crtcs (txn m) !! i = Some (Some e))
    (pv_muxing_crtc vc4 (Addr p) i e u)
    (fun f m => match f with
                | Continue _ => muxing_inv p (S i) m
                | Return r => r <> 0
                end).
Proof.
  intros m f m' [HI Hi] H.
  pose proof HI as (Hcv & Hpo & Hlen & Hold & h & Hcell & Hinv).
  destruct (Hold i e (le_n i) Hi) as (c & s & Hpub & Hchan & Hnew).
  injection Hchan as Hen Hch.
  pose proof (mixed_at i (crtcs (txn m)) c s Hpub) as Hat.
  unfold chan in Hat.
  unfold pv_muxing_crtc in H.
  destruct (firmware_kms vc4) eqn:Hfw.
  { injection H as <- <-.
    apply (muxing_inv_next p i m m e e h HI Hi eq_refl eq_refl);
      [symmetry; now apply list_insert_id|assumption|].
    rewrite Hfw. unfold chan. rewrite Hnew.
    now apply (chan_inv_firmware _ _ _ (enable s)). }
  destruct (Bool.eqb _ _) eqn:Eeq.
  { apply eqb_prop in Eeq. injection H as <- <-.
    apply (muxing_inv_next p i m m e e h HI Hi eq_refl eq_refl);
      [symmetry; now apply list_insert_id|assumption|].
    rewrite Hfw. unfold chan. rewrite <- Eeq, Hnew, Hen.
    now rewrite list_insert_id. }
  apply eqb_false_iff in Eeq.
  apply bind_inv in H as (x1 & m1 & H1 & H).
  rewrite (modify_new_crtc_state_ok m i e _ Hi) in H1. injection H1 as <- <-.
  set (e1 := with_new_state (set_update_muxing true (new_state e)) e) in *.
  set (m1 := with_txn _ m) in *.
  assert (crtcs (txn m1) !! i = Some (Some e1)) as Hi1
    by apply (lookup_insert_same _ _ _ _ Hi).
  destruct Hinv as (Hu & Hinv').
  pose proof (conj Hu Hinv' : chan_inv false _ _) as Hinv.
  destruct (enable (new_state e)) eqn:Hnewen; cbn [negb] in H.
  - (* the CRTC goes on *)
    assert (enable s = false) as Hoff
      by (destruct (enable s), (enable (old_state e)); congruence).
    apply bind_inv in H as (s0 & m2 & H2 & H).
    rewrite (load_hvs_ok m1 p h Hcell) in H2. injection H2 as <- <-.
    cbn zeta in H.
    set (candidate := Z.land (unassigned_channels h)
                        (hvs_available_channels (ptr e))) in *.
    destruct (Z.eqb_spec candidate 0) as [E0|E0]; cbn [negb] in H.
    { injection H as <- <-. discriminate. }
    assert (0 <= candidate) as Hnn by (apply Z.land_nonneg; left; lia).
    destruct (ffs_spec candidate) as (Hc0 & Hc1 & _); [lia|].
    pose proof (Z.land_spec (unassigned_channels h)
                  (hvs_available_channels (ptr e)) (ffs candidate - 1)) as Hl.
    fold candidate in Hl. rewrite Hc1 in Hl. symmetry in Hl.
    apply andb_true_iff in Hl as [Hbit _].
    assert (ffs candidate - 1 < 3) as Hc3.
    { destruct (Z.lt_ge_cases (ffs candidate - 1) 3) as [|Hge]; [assumption|].
      rewrite (testbit_high _ 3 _) in Hbit by lia. discriminate. }
    assert (u32 (ffs candidate - 1) = ffs candidate - 1) as Hu32
      by (apply u32_small; lia).
    rewrite Hu32 in H.
    apply bind_inv in H as (x2 & m2 & H2 & H).
    rewrite (modify_new_crtc_state_ok m1 i e1 _ Hi1) in H2.
    injection H2 as <- <-.
    apply bind_inv in H as (x3 & m3 & H3 & H).
    match type of H3 with
    | modify_hvs _ ?f ?mm = _ => rewrite (modify_hvs_ok mm p h f Hcell) in H3
    end.
    injection H3 as <- <-. injection H as <- <-.
    eapply (muxing_inv_next p i m _ e _ _ HI Hi).
    + cbn. apply length_insert.
    + reflexivity.
    + cbn. apply list_insert_insert_eq.
    + cbn. apply (lookup_insert_same _ _ _ _ Hcell).
    + rewrite Hfw. unfold chan. cbn. rewrite Hnewen.
      apply (chan_inv_enable _ _ _ (assigned_channel s));
        [assumption|now rewrite Hat, Hoff|lia|assumption].
  - (* the CRTC goes off *)
    assert (enable s = true) as Hon
      by (destruct (enable s), (enable (old_state e)); congruence).
    apply bind_inv in H as (x2 & m2 & H2 & H).
    match type of H2 with
    | modify_hvs _ ?f ?mm = _ => rewrite (modify_hvs_ok mm p h f Hcell) in H2
    end.
    injection H2 as <- <-.
    apply bind_inv in H as (x3 & m3 & H3 & H).
    match type of H3 with
    | modify_new_crtc_state _ ?f ?mm = _ =>
        rewrite (modify_new_crtc_state_ok mm i e1 f Hi1) in H3
    end.
    injection H3 as <- <-. injection H as <- <-.
    eapply (muxing_inv_next p i m _ e _ _ HI Hi).
    + cbn. apply length_insert.
    + reflexivity.
    + cbn. apply list_insert_insert_eq.
    + cbn. apply (lookup_insert_same _ _ _ _ Hcell).
    + rewrite Hfw. unfold chan. cbn. rewrite ?Hnewen, ?Hch.
      apply chan_inv_disable; [assumption|now rewrite Hat, Hon].
Qed.

(** Without a copy of the HVS state the loop of the muxing check ends only
    when no CRTC needs a channel touched, and then it changes nothing. *)
Lemma muxing_round_refused x i e u m :
  hoare (fun m' => m' = m) (pv_muxing_crtc vc4 (ERR_PTR x) i e u)
    (fun f m' => match f with
                 | Continue _ => m' = m
                 | Return r => r <> 0
                 end).
Proof.
  intros m0 f m' -> H. unfold pv_muxing_crtc in H.
  destruct (firmware_kms vc4); [now injection H as <- <-|].
  destruct (Bool.eqb _ _); [now injection H as <- <-|].
  apply bind_inv in H as (x1 & m1 & H1 & H).
  destruct (negb _).
  - apply bind_inv in H as (x2 & m2 & H2 & H).
    apply modify_hvs_inv in H2 as (a & s & Ha & _). discriminate.
  - apply bind_inv in H as (x2 & m2 & H2 & H).
    apply load_hvs_inv in H2 as (_ & a & Ha & _). discriminate.
Qed.

(** The muxing check answers 0 with the channels split as they should be. *)
Lemma muxing_check_accepts :
  hoare check_start (vc4_pv_muxing_atomic_check vc4)
    (fun r m => r = 0 -> exists L, channels_ok false L m).
Proof.
  intros m r m' (Hv & Hpriv & Hlen & Hold & h & Hcell & Hinv) H.
  unfold vc4_pv_muxing_atomic_check in H.
  apply bind_inv in H as (q & m1 & Hq & H).
  unfold vc4_hvs_get_global_state in Hq.
  apply bind_inv in Hq as (p0 & m0 & Hget & Hq).
  apply drm_atomic_get_private_obj_state_inv in Hget
    as [(e & Hf & -> & ->) | [(Hf & -> & Hp) | (Hf & Hctx & n & v & Hs & Hcell' & Hk & -> & ->)]];
    [| | |apply Hv].
  - unfold find_private_obj in Hf. rewrite Hpriv in Hf. discriminate.
  - assert (exists x, q = ERR_PTR x /\ m1 = m) as (x & -> & ->).
    { destruct Hp as [[_ ->]|(_ & _ & ->)]; cbn in Hq;
        injection Hq as <- <-; eauto. }
    cbn [is_NULL] in H. apply bind_inv in H as (f & m2 & Hloop & H).
    unfold for_each_oldnew_crtc_in_state in Hloop.
    apply bind_inv in Hloop as (st & m3 & [= <- <-] & Hloop).
    pose proof (hoare_for_index (fun _ m' => m' = m) (fun r _ => r <> 0)
                  (fun i a =>
                     st <- get_state ;;
                     match crtcs st !! i with
                     | Some (Some e) => pv_muxing_crtc vc4 (ERR_PTR x) i e a
                     | _ => ret (Continue a)
                     end) (length (crtcs (txn m)))) as Hfor.
    assert (match f with Continue _ => m2 = m | Return r0 => r0 <> 0 end) as Hf2.
    { refine (Hfor _ 0%nat tt m f m2 eq_refl Hloop).
      intros i a mi fi mi' -> Hb.
      apply bind_inv in Hb as (st & mj & [= <- <-] & Hb).
      destruct (crtcs (txn m) !! i) as [[e|]|].
      - apply (muxing_round_refused x i e a m m fi mi' eq_refl Hb).
      - now injection Hb as <- <-.
      - now injection Hb as <- <-. }
    destruct f as [[]|r0]; injection H as <- <-; [|contradiction].
    subst m2. intros _. exists (mixed (length pub) pub (crtcs (txn m))).
    split; [|split; [|split]].
    + split; [exact Hv|]. intros e. rewrite Hpriv. intros He.
      now apply elem_of_nil in He.
    + intros e. rewrite Hpriv. intros He. now apply elem_of_nil in He.
    + right. split; [reflexivity|]. split; [assumption|].
      destruct Hp as [[Hne _]|(_ & Hs & _)]; [now left|now right].
    + reflexivity.
  - cbn [IS_ERR] in Hq. injection Hq as <- <-. cbn [is_NULL] in H.
    rewrite Hcell in Hcell'. injection Hcell' as <-.
    set (p := length (mem m)) in *.
    set (m1 := {| mem := mem m ++ [HvsState h]; slab := n;
                  txn := add_private_obj _ (txn m) |}) in *.
    assert (muxing_inv p 0 m1) as HI.
    { split; [|split; [|split; [|split]]].
      - split.
        + intros o. cbn. rewrite length_app. cbn. pose proof (Hv o). lia.
        + intros e. cbn. rewrite Hpriv. cbn.
          rewrite list_elem_of_singleton. intros ->. cbn.
          rewrite length_app. cbn. unfold p. lia.
      - eexists. cbn. rewrite Hpriv. reflexivity.
      - exact Hlen.
      - exact Hold.
      - exists h. split; [apply lookup_last|]. now rewrite mixed_0. }
    apply bind_inv in H as (f & m2 & Hloop & H).
    unfold for_each_oldnew_crtc_in_state in Hloop.
    apply bind_inv in Hloop as (st & m3 & [= <- <-] & Hloop).
    pose proof (hoare_for_index_at (fun i _ m' => muxing_inv p i m')
                  (fun r _ => r <> 0)
                  (fun i a =>
                     st <- get_state ;;
                     match crtcs st !! i with
                     | Some (Some e) => pv_muxing_crtc vc4 (Addr p) i e a
                     | _ => ret (Continue a)
                     end) (length (crtcs (txn m1))) 0%nat tt) as Hfor.
    assert (match f with
            | Continue _ => muxing_inv p (0 + length (crtcs (txn m1))) m2
            | Return r0 => r0 <> 0
            end) as Hf2.
    { refine (Hfor _ m1 f m2 HI Hloop).
      intros i a Hi mi fi mi' HIi Hb.
      apply bind_inv in Hb as (st & mj & [= <- <-] & Hb).
      destruct (crtcs (txn mi) !! i) as [[e|]|] eqn:Ei.
      - apply (muxing_round p i e a mi fi mi' (conj HIi Ei) Hb).
      - injection Hb as <- <-. apply muxing_inv_skip; [assumption| |congruence].
        cbn in Hi. lia.
      - injection Hb as <- <-. apply muxing_inv_skip; [assumption| |congruence].
        cbn in Hi. lia. }
    destruct f as [[]|r0]; injection H as <- <-; [|contradiction].
    intros _. exists (mixed (length pub) pub (crtcs (txn m2))).
    cbn in Hf2. rewrite Hlen in Hf2.
    destruct Hf2 as (Hcv & [o Hpo] & Hlen2 & _ & h2 & Hcell2 & Hinv2).
    split; [assumption|]. split; [|split; [|reflexivity]].
    + intros e. rewrite Hpo, list_elem_of_singleton. intros -> _.
      exists h2. now split.
    + left. unfold find_private_obj. rewrite Hpo. cbn. eauto.
Qed.

End Channels.

(** An accepted check leaves the copy of the HVS state that will be
    published splitting the channels with the CRTC states that will be
    published. *)
Lemma check_accepts vc4 pub (w : Z)
    (helper : drm_atomic_state -> Z * drm_atomic_state) :
  helper_frame helper ->
  hoare (check_start vc4 pub) (vc4_atomic_check w helper vc4)
    (fun r m => r = 0 -> exists L, channels_ok vc4 pub true L m).
Proof.
  intros Hh m r m' HS H. unfold vc4_atomic_check in H.
  apply bind_inv in H as (r1 & m1 & H1 & H).
  destruct (Z.eqb_spec r1 0) as [->|Hr1]; cbn [negb] in H;
    [|injection H as <- <-; intros; contradiction].
  destruct (muxing_check_accepts vc4 pub m 0 m1 HS H1 eq_refl) as [L HK1].
  apply bind_inv in H as (r2 & m2 & H2 & H).
  pose proof (kc_vc4_ctm_atomic_check vc4 pub false L m1 r2 m2 HK1 H2) as HK2.
  destruct (Z.ltb_spec r2 0) as [Hr2|Hr2];
    [injection H as <- <-; intros; lia|].
  apply bind_inv in H as (r3 & m3 & H3 & H).
  pose proof (kc_generic_check vc4 pub false L helper Hh m2 r3 m3 HK2 H3) as HK3.
  destruct (Z.eqb_spec r3 0) as [->|Hr3]; cbn [negb] in H;
    [|injection H as <- <-; intros; contradiction].
  apply bind_inv in H as (r4 & m4 & H4 & H).
  pose proof (load_tracker_accepts vc4 pub false L m3 r4 m4 HK3 H4) as HK4.
  destruct (Z.eqb_spec r4 0) as [->|Hr4]; cbn [negb] in H;
    [|injection H as <- <-; intros; contradiction].
  intros _. exists L.
  apply (kc_vc4_core_clock_atomic_check vc4 pub true L w m4 r m' (HK4 eq_refl) H).
Qed.

Lemma swap_state_ok dev m L :
  channels_ok (dev_private dev) (dev_crtcs dev) true L m ->
  dev_ok (drm_atomic_helper_swap_state dev m).
Proof.
  intros ([Hv He] & Hc & Hh & Hm).
  destruct Hh as [[e Hf]|(Hb & _)]; [|discriminate].
  destruct (swap_private_objs_held _ (dev_private dev) _ _ Hf)
    as (e' & He' & Hp & Hst).
  destruct (Hc e' He' Hp) as (h & Hcell & Hinv).
  split.
  - intros obj. cbn. now apply swap_private_objs_valid.
  - exists h. cbn [drm_atomic_helper_swap_state dev_private dev_mem dev_crtcs].
    change (hvs_channels_state ?v) with (obj_state v hvs_channels).
    rewrite Hst, swap_private_objs_firmware_kms, <- mixed_all, Hm.
    now split.
Qed.

Lemma get_crtc_states_length cs req :
  length (get_crtc_states cs req) = length cs.
Proof.
  revert req. induction cs as [|[c s] cs IH]; intros req; [reflexivity|].
  cbn. now rewrite IH.
Qed.

Lemma get_crtc_states_lookup cs req j e :
  get_crtc_states cs req !! j = Some (Some e) ->
  exists c s, cs !! j = Some (c, s) /\ old_state e = s /\
              assigned_channel (new_state e) = assigned_channel s.
Proof.
  revert req j. induction cs as [|[c s] cs IH]; intros req j H; [discriminate|].
  destruct j as [|j].
  - cbn in H. exists c, s. split; [reflexivity|].
    destruct req as [|[p|] req]; try discriminate.
    injection H as <-. now split.
  - cbn in H. apply (IH _ _ H).
Qed.

Lemma check_start_ok dev req :
  dev_ok dev ->
  check_start (dev_private dev) (dev_crtcs dev)
    {| mem := dev_mem dev; slab := request_slab req;
       txn := drm_atomic_state_init dev req |}.
Proof.
  intros (Hv & h & Hcell & Hinv).
  split; [exact Hv|]. split; [reflexivity|]. split; [|split].
  - cbn. apply get_crtc_states_length.
  - intros j e _ He. cbn in He.
    apply get_crtc_states_lookup in He as (c & s & Hp & <- & Hch).
    exists c, (old_state e). now split.
  - exists h. now split.
Qed.

Lemma drm_mode_atomic_ioctl_ok (w : Z) helper dev req r dev' :
  helper_frame helper -> dev_ok dev ->
  drm_mode_atomic_ioctl w helper dev req = Some (r, dev') -> dev_ok dev'.
Proof.
  intros Hh Hok H. unfold drm_mode_atomic_ioctl in H.
  destruct (vc4_atomic_check _ _ _ _) as [[r0 m']|] eqn:Hc; [|discriminate].
  destruct (Z.eqb_spec r0 0) as [->|Hr0]; cbn [negb] in H;
    [|now injection H as <- <-].
  destruct (existsb _ _); injection H as <- <-; [|assumption].
  destruct (check_accepts _ _ w helper Hh _ _ _ (check_start_ok dev req Hok) Hc
              eq_refl) as [L HK].
  apply (swap_state_ok dev m' L HK).
Qed.

Lemma drm_mode_atomic_ioctls_ok (w : Z) helper reqs dev dev' :
  helper_frame helper -> dev_ok dev ->
  drm_mode_atomic_ioctls w helper dev reqs = Some dev' -> dev_ok dev'.
Proof.
  intros Hh. revert dev. induction reqs as [|req reqs IH]; intros dev Hok H.
  - now injection H as <-.
  - cbn in H.
    destruct (drm_mode_atomic_ioctl w helper dev req) as [[r dev1]|] eqn:E;
      [|discriminate].
    apply (IH dev1); [|assumption].
    apply (drm_mode_atomic_ioctl_ok w helper dev req r dev1 Hh Hok E).
Qed.

(** *** The device that [vc4_kms_load] leaves *)

Lemma vc4_ctm_obj_init_inv env vc4 m p m' :
  vc4_ctm_obj_init env vc4 m = Some (p, m') ->
  fst p <> 0 \/
  (p = (0, set_obj_state ctm_manager (length (mem m)) vc4) /\
   mem m' = mem m ++ [CtmState zero_ctm_state]).
Proof.
  unfold vc4_ctm_obj_init. intros H.
  apply bind_inv in H as (q & mq & Hq & H).
  apply kmalloc_inv in Hq as [(_ & -> & ->)|(n & _ & -> & ->)];
    injection H as <- <-; [now left|].
  cbn [fst]. destruct (Z.eq_dec (drmm_add_action_or_reset_ret env ctm_manager) 0)
    as [->|]; [now right|now left].
Qed.

Lemma vc4_load_tracker_obj_init_inv env vc4 m p m' :
  vc4_load_tracker_obj_init env vc4 m = Some (p, m') ->
  fst p <> 0 \/
  (p = (0, set_obj_state load_tracker (length (mem m)) vc4) /\
   mem m' = mem m ++ [LoadState zero_load_tracker_state]).
Proof.
  unfold vc4_load_tracker_obj_init. intros H.
  apply bind_inv in H as (q & mq & Hq & H).
  apply kmalloc_inv in Hq as [(_ & -> & ->)|(n & _ & -> & ->)];
    injection H as <- <-; [now left|].
  cbn [fst]. destruct (Z.eq_dec (drmm_add_action_or_reset_ret env load_tracker) 0)
    as [->|]; [now right|now left].
Qed.

Lemma vc4_hvs_channels_obj_init_inv env vc4 m p m' :
  vc4_hvs_channels_obj_init env vc4 m = Some (p, m') ->
  fst p <> 0 \/
  (p = (0, set_obj_state hvs_channels (length (mem m)) vc4) /\
   mem m' = mem m ++ [HvsState (set_unassigned_channels
                                  (GENMASK (HVS_NUM_CHANNELS - 1) 0)
                                  zero_hvs_state)]).
Proof.
  unfold vc4_hvs_channels_obj_init. intros H.
  apply bind_inv in H as (q & mq & Hq & H).
  apply kmalloc_inv in Hq as [(_ & -> & ->)|(n & _ & -> & ->)].
  - injection H as <- <-. now left.
  - apply bind_inv in H as (x & mx & Hx & H). injection H as <- <-.
    cbn [fst].
    destruct (Z.eq_dec (drmm_add_action_or_reset_ret env hvs_channels) 0)
      as [->|]; [|now left].
    right. split; [reflexivity|].
    erewrite modify_hvs_ok in Hx by (cbn; apply lookup_last).
    injection Hx as <- <-. cbn [mem with_mem]. apply insert_last.
Qed.

Lemma vc4_kms_load_ok is_vc5 env vc4_0 m0 vc4 m1 crtcs0 planes0 :
  vc4_kms_load is_vc5 env vc4_0 m0 = Some ((0, vc4), m1) ->
  Forall (fun p => enable (snd p) = false /\
                   assigned_channel (snd p) = VC4_HVS_CHANNEL_DISABLED) crtcs0 ->
  dev_ok {| dev_private := vc4; dev_mem := mem m1; dev_crtcs := crtcs0;
            dev_planes := planes0 |}.
Proof.
  unfold vc4_kms_load. intros H Hoff.
  destruct (Z.ltb_spec (drm_vblank_init_ret env) 0) as [Hneg|_];
    [injection H as H _; lia|].
  apply bind_inv in H as (p1 & ma & H1 & H).
  apply vc4_ctm_obj_init_inv in H1 as [H1|[-> Ha]].
  { destruct (Z.eqb_spec (fst p1) 0); [contradiction|].
    injection H as -> _. now cbn in H1. }
  cbn [fst snd Z.eqb negb] in H.
  apply bind_inv in H as (p2 & mb & H2 & H).
  apply vc4_load_tracker_obj_init_inv in H2 as [H2|[-> Hb]].
  { destruct (Z.eqb_spec (fst p2) 0); [contradiction|].
    injection H as -> _. now cbn in H2. }
  cbn [fst snd Z.eqb negb] in H.
  apply bind_inv in H as (p3 & mc & H3 & H).
  apply vc4_hvs_channels_obj_init_inv in H3 as [H3|[-> Hc]].
  { destruct (Z.eqb_spec (fst p3) 0); [contradiction|].
    injection H as -> _. now cbn in H3. }
  cbn [fst snd Z.eqb negb] in H. injection H as <- <-.
  rewrite Hb, Ha in Hc. cbn [mem] in Ha, Hb, Hc.
  split.
  - intros obj. cbn [dev_private dev_mem]. rewrite Hc.
    destruct obj; cbn; rewrite ?Hb, ?Ha, ?length_app; cbn; lia.
  - eexists. cbn [dev_private dev_mem dev_crtcs]. split.
    + rewrite Hc. cbn. rewrite Hb, Ha. apply lookup_last.
    + change (unassigned_channels _) with 7.
      split; [lia|]. split; [|split; [|split; [|split]]].
      * intros i c Hi. rewrite list_lookup_fmap in Hi.
        destruct (crtcs0 !! i) as [q|] eqn:E; [|discriminate].
        injection Hi as _ <-.
        apply (proj2 (proj1 (Forall_lookup _ _) Hoff i q E)).
      * intros i c Hi. rewrite list_lookup_fmap in Hi.
        destruct (crtcs0 !! i) as [q|] eqn:E; [|discriminate].
        injection Hi as Hen _.
        pose proof (proj1 (proj1 (Forall_lookup _ _) Hoff i q E)). congruence.
      * intros i j c _ Hi _. rewrite list_lookup_fmap in Hi.
        destruct (crtcs0 !! i) as [q|] eqn:E; [|discriminate].
        injection Hi as Hen _.
        pose proof (proj1 (proj1 (Forall_lookup _ _) Hoff i q E)). congruence.
      * intros c Hc3 Hbit.
        assert (c = 0 \/ c = 1 \/ c = 2) as [-> | [-> | ->]] by lia;
          discriminate.
      * reflexivity.
Qed.

(** C4. From the device that [vc4_kms_load] leaves, with every CRTC off and
    without a channel, and whatever requests follow: in the published state
    no channel is both free and the channel of a CRTC that is on; the
    channels that are free or the channel of a CRTC that is on are exactly
    [0 .. HVS_NUM_CHANNELS - 1]; no channel is the channel of two CRTCs; and
    unless the firmware drives the display every CRTC that is on has a
    channel. *)
Theorem hvs_channels_partition (BITS_PER_LONG : Z)
    (helper : drm_atomic_state -> Z * drm_atomic_state)
    (is_vc5 : bool) (env : kms_load_env) (vc4_0 vc4 : vc4_dev)
    (m0 m1 : machine)
    (crtcs0 : list (vc4_crtc * vc4_crtc_state))
    (planes0 : list vc4_plane_state)
    (reqs : list drm_mode_atomic) (dev : drm_device) :
  helper_frame helper ->
  vc4_kms_load is_vc5 env vc4_0 m0 = Some ((0, vc4), m1) ->
  Forall (fun p => enable (snd p) = false /\
                   assigned_channel (snd p) = VC4_HVS_CHANNEL_DISABLED) crtcs0 ->
  drm_mode_atomic_ioctls BITS_PER_LONG helper
    {| dev_private := vc4; dev_mem := mem m1; dev_crtcs := crtcs0;
       dev_planes := planes0 |} reqs = Some dev ->
  exists h,
    dev_mem dev !! hvs_channels_state (dev_private dev) = Some (HvsState h) /\
    (forall c i, channel_free h c -> ~ channel_of dev i c) /\
    (forall c, 0 <= c < HVS_NUM_CHANNELS <->
               (channel_free h c \/ exists i, channel_of dev i c)) /\
    (forall c i j, channel_of dev i c -> channel_of dev j c -> i = j) /\
    (firmware_kms (dev_private dev) = false ->
     forall i crtc s, dev_crtcs dev !! i = Some (crtc, s) -> enable s = true ->
                      0 <= assigned_channel s < HVS_NUM_CHANNELS).
Proof.
  intros Hh Hload Hoff0 Hrun.
  pose proof (vc4_kms_load_ok _ _ _ _ _ _ crtcs0 planes0 Hload Hoff0) as Hok0.
  destruct (drm_mode_atomic_ioctls_ok _ _ _ _ _ Hh Hok0 Hrun)
    as (_ & h & Hcell & Hu & Hoff & Hon & Huniq & Hcov & Hfw).
  assert (forall i crtc s,
             dev_crtcs dev !! i = Some (crtc, s) ->
             map (fun p => chan (snd p)) (dev_crtcs dev) !! i
             = Some (enable s, assigned_channel s)) as Hmap.
  { intros i crtc s Hi. now rewrite list_lookup_fmap, Hi. }
  change HVS_NUM_CHANNELS with 3.
  exists h. split; [assumption|]. split; [|split; [|split]].
  - intros c i Hfree (crtc & s & Hi & Hen & Hch & Hne).
    apply Hmap in Hi. rewrite Hen, Hch in Hi. apply Hon in Hi.
    unfold channel_free in Hfree.
    destruct (firmware_kms (dev_private dev)); [contradiction|].
    destruct Hi as [_ Hi]. congruence.
  - intros c. split.
    + intros Hc. unfold channel_free.
      destruct (Z.testbit (unassigned_channels h) c) eqn:Hbit; [now left|].
      right. destruct (Hcov c Hc Hbit) as [i Hi]. exists i.
      rewrite list_lookup_fmap in Hi.
      destruct (dev_crtcs dev !! i) as [[crtc s]|] eqn:E; [|discriminate].
      injection Hi as Hen Hch. exists crtc, s.
      split; [assumption|]. split; [assumption|]. split; [assumption|].
      vm_compute. lia.
    + intros [Hfree|(i & crtc & s & Hi & Hen & Hch & Hne)].
      * unfold channel_free in Hfree.
        destruct (Z.lt_ge_cases c 0) as [Hneg|Hpos].
        { rewrite Z.testbit_neg_r in Hfree by assumption. discriminate. }
        destruct (Z.lt_ge_cases c 3) as [|Hge]; [lia|].
        rewrite (testbit_high _ 3 _) in Hfree by lia. discriminate.
      * apply Hmap in Hi. rewrite Hen, Hch in Hi. apply Hon in Hi.
        destruct (firmware_kms (dev_private dev)); [contradiction|].
        apply Hi.
  - intros c i j (ci & si & Hi & Heni & Hchi & Hne) (cj & sj & Hj & Henj & Hchj & _).
    destruct (Nat.eq_dec i j) as [|Hij]; [assumption|]. exfalso. apply Hne.
    apply Hmap in Hi, Hj. rewrite Heni, Hchi in Hi. rewrite Henj, Hchj in Hj.
    apply (Huniq i j c Hij Hi Hj).
  - intros Hnfw i crtc s Hi Hen.
    apply Hmap in Hi. rewrite Hen in Hi. apply Hon in Hi.
    rewrite Hnfw in Hi. apply Hi.
Qed.

(** ** The order of a commit *)

(** A transaction that the check accepts holds a copy of the HVS state. *)
Lemma accepted_check_holds_hvs (w : Z) helper dev req m' :
  helper_frame helper -> dev_ok dev ->
  vc4_atomic_check w helper (dev_private dev)
    {| mem := dev_mem dev; slab := request_slab req;
       txn := drm_atomic_state_init dev req |} = Some (0, m') ->
  has_private_obj (txn m') hvs_channels = true.
Proof.
  intros Hh Hok Hc.
  destruct (check_accepts _ _ w helper Hh _ _ _ (check_start_ok dev req Hok) Hc
              eq_refl) as (L & _ & _ & Hheld & _).
  destruct Hheld as [[e He]|(Hb & _)]; [|discriminate].
  unfold has_private_obj. unfold find_private_obj in He. now rewrite He.
Qed.

(** C9. [vc4_kms_load] gives the semaphore one permit.  On the full path,
    when every call succeeds, [vc4_atomic_commit] takes the semaphore before
    [drm_atomic_helper_swap_state] and the last call of
    [vc4_atomic_complete_commit] gives it back, after every step of the
    hardware application, whether the commit blocks or the steps run from
    the work queue; on a BCM2711 without firmware KMS these are the fourteen
    steps in their order.  A transaction that [vc4_atomic_check] accepts on
    a device reached from [vc4_kms_load] holds its copy of the HVS state, so
    that [vc4_atomic_complete_commit] goes past its first test.  Hence,
    however the calls of any commits
    interleave, a commit that is applying hardware holds the semaphore and
    two commits never hold it together: no commit begins its hardware
    application while that of another is under way. *)
Theorem commit_gate_order :
  (forall is_vc5 env vc4 m p m',
     vc4_kms_load is_vc5 env vc4 m = Some (p, m') ->
     async_modeset (snd p) = 1%nat) /\
  (forall vc4 st nonblock env,
     setup_commit_ret env = 0 -> down_interruptible_ret env = 0 ->
     prepare_planes_ret env = 0 -> wait_for_fences_ret env = 0 ->
     has_private_obj st hvs_channels = true ->
     vc4_atomic_commit vc4 st false nonblock env
     = [setup_commit; down_async_modeset; prepare_planes]
       ++ (if nonblock then [] else [wait_for_fences true])
       ++ [swap_state; state_get]
       ++ (if nonblock then [queue_work; returns 0] else [])
       ++ hardware_application vc4 st
       ++ [state_put; up_async_modeset]
       ++ (if nonblock then [] else [returns 0])) /\
  (forall w helper is_vc5 env vc4_0 vc4 m0 m1 crtcs0 planes0 reqs dev req m',
     helper_frame helper ->
     vc4_kms_load is_vc5 env vc4_0 m0 = Some ((0, vc4), m1) ->
     Forall (fun p => enable (snd p) = false /\
                      assigned_channel (snd p) = VC4_HVS_CHANNEL_DISABLED)
       crtcs0 ->
     drm_mode_atomic_ioctls w helper
       {| dev_private := vc4; dev_mem := mem m1; dev_crtcs := crtcs0;
          dev_planes := planes0 |} reqs = Some dev ->
     vc4_atomic_check w helper (dev_private dev)
       {| mem := dev_mem dev; slab := request_slab req;
          txn := drm_atomic_state_init dev req |} = Some (0, m') ->
     has_private_obj (txn m') hvs_channels = true) /\
  (forall vc4 st, forallb hw_step (hardware_application vc4 st) = true) /\
  (forall vc4 st,
     hvs5 vc4 = true -> firmware_kms vc4 = false ->
     hardware_application vc4 st
     = underrun_masks vc4 st
       ++ [clk_request_start_temporary; clk_request_done_previous;
           wait_for_fences false; wait_for_dependencies;
           commit_modeset_disables;
           ctm_commit;
           pv_muxing_commit;
           commit_planes;
           commit_modeset_enables;
           fake_vblank;
           commit_hw_done;
           wait_for_flip_done;
           cleanup_planes;
           commit_cleanup_done;
           clk_request_start_final; clk_request_done_temporary]) /\
  (forall (cs : list commit_call) (schedule : list nat) (s : system),
     run (start (map calls_of cs)) schedule = Some s ->
     (forall t th, threads s !! t = Some th ->
                   applying_hardware th = true -> holds_gate th = true) /\
     (forall i j thi thj,
        i <> j -> threads s !! i = Some thi -> threads s !! j = Some thj ->
        ~ (holds_gate thi = true /\ holds_gate thj = true)) /\
     (forall i j thi thj,
        i <> j -> threads s !! i = Some thi -> threads s !! j = Some thj ->
        ~ (applying_hardware thi = true /\ applying_hardware thj = true))).
Proof.
  split; [exact vc4_kms_load_async_modeset|].
  split.
  { intros vc4 st nonblock env H1 H2 H3 H4 Hhvs.
    unfold vc4_atomic_commit, vc4_atomic_complete_commit.
    rewrite Hhvs, H1, H2, H3, H4.
    destruct nonblock; cbn; rewrite <- ?app_assoc; reflexivity. }
  split.
  { intros w helper is_vc5 env vc4_0 vc4 m0 m1 crtcs0 planes0 reqs dev req m'
      Hh Hload Hoff Hrun Hcheck.
    apply (accepted_check_holds_hvs w helper dev req m' Hh); [|assumption].
    refine (drm_mode_atomic_ioctls_ok w helper reqs _ dev Hh _ Hrun).
    now apply (vc4_kms_load_ok is_vc5 env vc4_0 m0). }
  split; [exact hardware_application_hw|].
  split.
  { intros vc4 st H5 Hfw. unfold hardware_application.
    now rewrite H5, Hfw. }
  intros cs schedule s Hrun.
  destruct (run_ok schedule _ _ (start_ok cs) Hrun) as [Hth Hsem].
  assert (forall i j thi thj,
             i <> j -> threads s !! i = Some thi -> threads s !! j = Some thj ->
             ~ (holds_gate thi = true /\ holds_gate thj = true)) as Hexcl.
  { intros i j thi thj Hne Hi Hj [Hhi Hhj].
    pose proof (holders_two _ _ _ _ _ Hne Hi Hj Hhi Hhj). lia. }
  split; [|split].
  - intros t th Ht. apply applying_holds. now apply (Hth t).
  - exact Hexcl.
  - intros i j thi thj Hne Hi Hj [Hai Haj].
    apply (Hexcl i j thi thj Hne Hi Hj). split.
    + apply applying_holds; [now apply (Hth i)|assumption].
    + apply applying_holds; [now apply (Hth j)|assumption].
Qed.

(** ** The muxing check, output by output *)






(** * Further properties of the code *)

(** ** The value of an S0.9 scalar *)

(** A sign-magnitude value: the sign in bit 63 over a magnitude below
    [2^63]. *)
Lemma sign_magnitude_bits (s a k : Z) :
  0 <= s <= 1 -> 0 <= a < 2 ^ 63 -> 0 <= k ->
  Z.testbit (s * 2 ^ 63 + a) k
  = if k <? 63 then Z.testbit a k else (k =? 63) && (s =? 1).
Proof.
  intros Hs Ha Hk.
  assert (Z.land (s * 2 ^ 63) a = 0) as Hdis.
  { apply Z.bits_inj'. intros j Hj. rewrite Z.land_spec, Z.bits_0.
    destruct (Z.ltb_spec j 63).
    - rewrite Z.mul_pow2_bits_low by lia. reflexivity.
    - rewrite (testbit_high a 63 j) by lia. apply andb_false_r. }
  rewrite (Z.add_nocarry_lxor _ _ Hdis), Z.lxor_spec.
  destruct (Z.ltb_spec k 63).
  - rewrite Z.mul_pow2_bits_low by lia. reflexivity.
  - rewrite (testbit_high a 63 k), xorb_false_r by lia.
    replace k with (63 + (k - 63)) at 1 by lia.
    rewrite Z.mul_pow2_bits_add by lia.
    destruct (Z.eqb_spec k 63) as [->|Hne].
    + replace (63 - 63) with 0 by lia.
      assert (s = 0 \/ s = 1) as [-> | ->] by lia; reflexivity.
    + assert (s = 0 \/ s = 1) as [-> | ->] by lia.
      * apply Z.bits_0.
      * apply (testbit_high 1 1); lia.
Qed.

Lemma s0_9_sign (s a : Z) :
  0 <= s <= 1 -> 0 <= a < 2 ^ 63 ->
  (if Z.land (s * 2 ^ 63 + a) (BIT_ULL 63) =? 0 then 0 else BIT 9) = s * 2 ^ 9.
Proof.
  intros Hs Ha. unfold BIT_ULL. fold (BIT 63).
  rewrite land_BIT_testbit, sign_magnitude_bits by lia.
  change (63 <? 63) with false. change (63 =? 63) with true.
  assert (s = 0 \/ s = 1) as [-> | ->] by lia; reflexivity.
Qed.

Lemma s0_9_saturates (s a : Z) :
  0 <= s <= 1 -> 0 <= a < 2 ^ 63 ->
  (Z.land (s * 2 ^ 63 + a) (GENMASK_ULL 62 32) >? 0) = (2 ^ 32 <=? a).
Proof.
  intros Hs Ha. unfold GENMASK_ULL. fold (GENMASK 62 32).
  destruct (Z.leb_spec (2 ^ 32) a) as [Hge|Hlt].
  - apply land_GENMASK_pos; [lia..|].
    exists (Z.log2 a).
    assert (32 <= Z.log2 a) by (apply Z.log2_le_pow2; lia).
    assert (Z.log2 a < 63) by (apply Z.log2_lt_pow2; lia).
    split; [lia|].
    rewrite sign_magnitude_bits by lia.
    replace (Z.log2 a <? 63) with true by (symmetry; apply Z.ltb_lt; lia).
    apply Z.bit_log2. lia.
  - destruct (Z.land _ _ >? 0) eqn:E; [|reflexivity].
    apply land_GENMASK_pos in E as (k & Hk & Hb); [|lia..].
    rewrite sign_magnitude_bits in Hb by lia.
    replace (k <? 63) with true in Hb by (symmetry; apply Z.ltb_lt; lia).
    rewrite (testbit_high a 32 k) in Hb by lia. discriminate.
Qed.

Lemma lor_sign_fraction (s q : Z) :
  0 <= s <= 1 -> 0 <= q < 2 ^ 9 -> Z.lor (s * 2 ^ 9) q = s * 2 ^ 9 + q.
Proof.
  intros Hs Hq.
  assert (Z.land (s * 2 ^ 9) q = 0) as Hdis.
  { apply Z.bits_inj'. intros j Hj. rewrite Z.land_spec, Z.bits_0.
    destruct (Z.ltb_spec j 9).
    - rewrite Z.mul_pow2_bits_low by lia. reflexivity.
    - rewrite (testbit_high q 9 j) by lia. apply andb_false_r. }
  pose proof (Z.add_lor_land (s * 2 ^ 9) q) as H. rewrite Hdis in H. lia.
Qed.

(** The conversion in arithmetic: the sign is kept, and the magnitude is cut
    to nine fractional bits, [511] standing for every magnitude from 1.0
    on. *)
Lemma s0_9_arith (s a : Z) :
  0 <= s <= 1 -> 0 <= a < 2 ^ 63 ->
  vc4_ctm_s31_32_to_s0_9 (s * 2 ^ 63 + a)
  = s * 2 ^ 9 + Z.min (2 ^ 9 - 1) (a / 2 ^ 23).
Proof.
  intros Hs Ha. unfold vc4_ctm_s31_32_to_s0_9.
  rewrite s0_9_sign, s0_9_saturates by assumption.
  change (GENMASK 8 0) with (Z.ones 9).
  destruct (Z.leb_spec (2 ^ 32) a) as [Hge|Hlt].
  - assert (2 ^ 9 <= a / 2 ^ 23).
    { apply Z.div_le_lower_bound; lia. }
    rewrite Z.min_l by lia.
    rewrite lor_sign_fraction by (rewrite ?Z.ones_equiv; lia).
    rewrite Z.ones_equiv. apply u16_small. lia.
  - assert (0 <= a / 2 ^ 23 < 2 ^ 9).
    { split; [apply Z.div_pos; lia|apply Z.div_lt_upper_bound; lia]. }
    rewrite Z.min_r by lia.
    assert (Z.land (Z.shiftr (s * 2 ^ 63 + a) 23) (Z.ones 9) = a / 2 ^ 23) as ->.
    { rewrite Z.land_ones, Z.shiftr_div_pow2 by lia.
      replace (s * 2 ^ 63 + a) with (a + s * 2 ^ 40 * 2 ^ 23) by lia.
      rewrite Z.div_add by lia.
      replace (s * 2 ^ 40) with (s * 2 ^ 31 * 2 ^ 9) by lia.
      rewrite Z.mod_add by lia. apply Z.mod_small. lia. }
    rewrite lor_sign_fraction by lia.
    apply u16_small. lia.
Qed.

(** X1. Every value of the hardware format is the conversion of the S31.32
    value with the same sign and the same nine fractional bits: the
    conversion of [s * 2^63 + f * 2^23] is [s * 2^9 + f]. *)
Theorem s0_9_round_trip (s f : Z) :
  0 <= s <= 1 -> 0 <= f < 2 ^ 9 ->
  vc4_ctm_s31_32_to_s0_9 (s * 2 ^ 63 + f * 2 ^ 23) = s * 2 ^ 9 + f.
Proof.
  intros Hs Hf. rewrite s0_9_arith by lia.
  rewrite Z.div_mul by lia. lia.
Qed.

(** X2. On magnitudes the conversion is monotone and never rounds up: the
    result, read as a multiple of [2^-9], is at most the magnitude, and
    below 1.0 it is less than [2^-9] under it. *)
Theorem s0_9_truncates (s a b : Z) :
  0 <= s <= 1 -> 0 <= a <= b -> b < 2 ^ 63 ->
  let r := vc4_ctm_s31_32_to_s0_9 (s * 2 ^ 63 + a) - s * 2 ^ 9 in
  vc4_ctm_s31_32_to_s0_9 (s * 2 ^ 63 + a)
  <= vc4_ctm_s31_32_to_s0_9 (s * 2 ^ 63 + b) /\
  0 <= r < 2 ^ 9 /\
  r * 2 ^ 23 <= a /\
  (a < 2 ^ 32 -> a < (r + 1) * 2 ^ 23).
Proof.
  intros Hs Hab Hb r. subst r.
  rewrite !s0_9_arith by lia.
  assert (0 <= a / 2 ^ 23) by (apply Z.div_pos; lia).
  assert (a / 2 ^ 23 <= b / 2 ^ 23) by (apply Z.div_le_mono; lia).
  pose proof (Z.mul_div_le a (2 ^ 23)).
  pose proof (Z.mod_pos_bound a (2 ^ 23)).
  pose proof (Z.div_mod a (2 ^ 23)).
  split; [lia|]. split; [lia|]. split; [lia|].
  intros Hlt.
  assert (a / 2 ^ 23 < 2 ^ 9) by (apply Z.div_lt_upper_bound; lia).
  lia.
Qed.

Lemma clearbit_sign_magnitude (s a : Z) :
  0 <= s <= 1 -> 0 <= a < 2 ^ 63 -> Z.clearbit (s * 2 ^ 63 + a) 63 = a.
Proof.
  intros Hs Ha. apply Z.bits_inj'. intros k Hk.
  rewrite Z.clearbit_eqb, sign_magnitude_bits by lia.
  destruct (Z.ltb_spec k 63).
  - replace (63 =? k) with false by (symmetry; apply Z.eqb_neq; lia).
    apply andb_true_r.
  - rewrite (testbit_high a 63 k) by lia.
    destruct (Z.eqb_spec k 63) as [->|]; [apply andb_false_r|reflexivity].
Qed.

(** X3. A matrix that the check admits is written with its signs and with
    magnitudes that are at most [2^-9] (that is [2^23] in S31.32) under the
    ones asked for. *)
Theorem admitted_scalars_convert_closely (mx : list Z) (i : nat) (c : Z) :
  (forall c, c ∈ mx -> 0 <= c < 2 ^ 64) ->
  length mx = ARRAY_SIZE_matrix ->
  ctm_scalars_loop mx ARRAY_SIZE_matrix 0 = Continue i ->
  c ∈ mx ->
  let r := vc4_ctm_s31_32_to_s0_9 c in
  0 <= r < 2 ^ 10 /\
  Z.testbit r 9 = Z.testbit c 63 /\
  0 <= Z.clearbit c 63 - (r mod 2 ^ 9) * 2 ^ 23 <= 2 ^ 23.
Proof.
  intros Hmx Hlen Hloop Hc r.
  rewrite (ctm_scalars_check mx Hmx Hlen) in Hloop.
  destruct (existsb scalar_refused mx) eqn:Hex; [discriminate|].
  assert (scalar_refused c = false) as Hok.
  { destruct (scalar_refused c) eqn:E; [|reflexivity].
    assert (existsb scalar_refused mx = true); [|congruence].
    apply existsb_exists. exists c. split; [|assumption].
    now apply list_elem_of_In. }
  unfold scalar_refused in Hok.
  pose proof (Hmx c Hc) as Hr.
  set (s := c / 2 ^ 63). set (a := c mod 2 ^ 63).
  assert (c = s * 2 ^ 63 + a) as Ec.
  { unfold s, a. pose proof (Z.div_mod c (2 ^ 63)). lia. }
  assert (0 <= s <= 1) as Hs.
  { unfold s. split; [apply Z.div_pos; lia|].
    assert (c / 2 ^ 63 < 2); [|lia]. apply Z.div_lt_upper_bound; lia. }
  assert (0 <= a < 2 ^ 63) as Ha by (apply Z.mod_pos_bound; lia).
  clearbody s a. subst c r.
  rewrite clearbit_sign_magnitude in * by assumption.
  assert (a <= 2 ^ 32) as Hle.
  { destruct (Z.gtb_spec a (2 ^ 32)); [discriminate|lia]. }
  rewrite s0_9_arith, sign_magnitude_bits by lia.
  change (63 <? 63) with false. change (63 =? 63) with true.
  assert (0 <= a / 2 ^ 23) by (apply Z.div_pos; lia).
  pose proof (Z.mul_div_le a (2 ^ 23)).
  pose proof (Z.mod_pos_bound a (2 ^ 23)).
  pose proof (Z.div_mod a (2 ^ 23)).
  set (q := Z.min (2 ^ 9 - 1) (a / 2 ^ 23)) in *.
  assert (0 <= q < 2 ^ 9) as Hq by (unfold q; lia).
  split; [lia|]. split.
  - rewrite <- lor_sign_fraction, Z.lor_spec by lia.
    change (Z.testbit (s * 2 ^ 9) 9) with (Z.testbit (s * 2 ^ 9) (9 + 0)).
    change (Z.testbit q 9) with (Z.testbit q (9 + 0)).
    rewrite (testbit_high q 9 (9 + 0)), orb_false_r by lia.
    rewrite Z.mul_pow2_bits_add by lia.
    assert (s = 0 \/ s = 1) as [-> | ->] by lia; reflexivity.
  - replace (s * 2 ^ 9 + q) with (q + s * 2 ^ 9) by lia.
    rewrite Z.mod_add, Z.mod_small by lia.
    destruct (Z.lt_ge_cases a (2 ^ 32)) as [Hlt|Hge].
    + assert (a / 2 ^ 23 < 2 ^ 9) by (apply Z.div_lt_upper_bound; lia).
      unfold q. lia.
    + assert (a = 2 ^ 32) as -> by lia. vm_compute. split; discriminate.
Qed.

(** ** What a call touches *)

Lemma slot_change_refl (R : vc4_crtc_state -> vc4_crtc_state -> Prop) o :
  (forall s, R s s) -> slot_change R o o.
Proof. intros HR. destruct o as [[e|]|]; cbn; auto. Qed.

Lemma slot_change_trans (R : vc4_crtc_state -> vc4_crtc_state -> Prop) o1 o2 o3 :
  (forall s1 s2 s3, R s1 s2 -> R s2 s3 -> R s1 s3) ->
  slot_change R o1 o2 -> slot_change R o2 o3 -> slot_change R o1 o3.
Proof.
  intros HR. destruct o1 as [[e1|]|], o2 as [[e2|]|], o3 as [[e3|]|]; cbn;
    try tauto.
  intros (Hp & Ho & Hn) (Hp' & Ho' & Hn').
  split; [congruence|]. split; [congruence|]. eauto.
Qed.

Lemma slot_change_impl (R R' : vc4_crtc_state -> vc4_crtc_state -> Prop) o o' :
  (forall s s', R s s' -> R' s s') -> slot_change R o o' -> slot_change R' o o'.
Proof.
  intros HR. destruct o as [[e|]|], o' as [[e'|]|]; cbn; try tauto.
  intros (Hp & Ho & Hn). auto.
Qed.

Lemma touches_valid vc4 fp m m' :
  touches vc4 fp m m' -> published_cells vc4 m -> published_cells vc4 m'.
Proof.
  intros (_ & _ & _ & _ & _ & Hc) Hv obj.
  destruct (lookup_lt_is_Some_2 _ _ (Hv obj)) as [v Hcell].
  destruct (Hc _ _ Hcell) as (v' & Hcell' & _).
  now apply lookup_lt_Some in Hcell'.
Qed.

Lemma touches_length vc4 fp m m' :
  touches vc4 fp m m' -> (length (mem m) <= length (mem m'))%nat.
Proof.
  intros (_ & _ & _ & _ & _ & Hc).
  destruct (length (mem m)) as [|n] eqn:E; [lia|].
  destruct (lookup_lt_is_Some_2 (mem m) n) as [v Hcell]; [lia|].
  destruct (Hc _ _ Hcell) as (v' & Hcell' & _).
  apply lookup_lt_Some in Hcell'. lia.
Qed.

Section TouchesLemmas.

Variable vc4 : vc4_dev.
Variable fp : footprint.
Hypothesis Hfp : footprint_ok fp.

Local Abbreviation touches := (touches vc4 fp).
Local Abbreviation within := (within vc4 fp).

Lemma touches_refl m : touches m m.
Proof.
  destruct Hfp as (Hr & _ & Hcr & _).
  split; [reflexivity|]. split; [reflexivity|]. split.
  { intros j. now apply slot_change_refl. }
  split; [lia|]. split.
  - exists []. rewrite app_nil_r. split; [reflexivity|]. split; [trivial|].
    intros e He. now apply elem_of_nil in He.
  - intros q v Hq. exists v. split; [assumption|apply Hr].
Qed.

Lemma touches_trans m1 m2 m3 :
  published_cells vc4 m1 -> touches m1 m2 -> touches m2 m3 -> touches m1 m3.
Proof.
  intros Hv H12 H23. pose proof (touches_length _ _ _ _ H12) as Hlen.
  destruct Hfp as (Hr & Ht & Hcr & Hct).
  destruct H12 as (Hp & Ha & Hc & Hs & (l & Hl & Hnd & Hnew) & Hcell).
  destruct H23 as (Hp' & Ha' & Hc' & Hs' & (l' & Hl' & Hnd' & Hnew') & Hcell').
  split; [congruence|]. split; [congruence|]. split.
  { intros j. apply (slot_change_trans _ _ (crtcs (txn m2) !! j)); auto. }
  split; [lia|]. split.
  - exists (l ++ l'). split; [rewrite Hl', Hl; apply eq_sym, app_assoc|].
    split; [auto|].
    intros e He. apply elem_of_app in He as [He|He].
    + destruct (Hnew e He) as (Hk & Hge & v0 & v & H0 & H1 & HR).
      split; [assumption|]. split; [assumption|].
      destruct (Hcell' _ _ H1) as (v' & H1' & HR').
      exists v0, v'. split; [assumption|]. split; [assumption|]. eauto.
    + destruct (Hnew' e He) as (Hk & Hge & v0 & v & H0 & H1 & HR).
      split; [assumption|]. split; [lia|].
      destruct (lookup_lt_is_Some_2 _ _ (Hv (obj_ptr e))) as [u Hu].
      destruct (Hcell _ _ Hu) as (u' & Hu' & HRu).
      rewrite Hu' in H0. injection H0 as <-.
      exists u, v. split; [assumption|]. split; [assumption|]. eauto.
  - intros q v Hq. destruct (Hcell _ _ Hq) as (v' & Hq' & HR).
    destruct (Hcell' _ _ Hq') as (v'' & Hq'' & HR').
    exists v''. split; [assumption|]. eauto.
Qed.

Lemma within_ret {A} (a : A) : within (ret a).
Proof. intros m x m' _ [= <- <-]. apply touches_refl. Qed.

Lemma within_bind {A B} (c : M A) (f : A -> M B) :
  within c -> (forall a, within (f a)) -> within (bind c f).
Proof.
  intros Hc Hf m b m' Hv H. apply bind_inv in H as (a & m1 & H1 & H2).
  pose proof (Hc _ _ _ Hv H1) as T1.
  apply (touches_trans m m1 m'); [assumption|assumption|].
  apply (Hf a m1 b m'); [|assumption].
  now apply (touches_valid _ _ _ _ T1).
Qed.

Lemma within_get_state : within get_state.
Proof. intros m x m' _ [= <- <-]. apply touches_refl. Qed.

Lemma within_drm_modeset_lock : within drm_modeset_lock.
Proof. intros m x m' _ [= <- <-]. apply touches_refl. Qed.

Lemma within_load_ctm p : within (load_ctm p).
Proof. intros m x m' _ H. apply load_ctm_inv in H as [-> _]. apply touches_refl. Qed.

Lemma within_load_hvs p : within (load_hvs p).
Proof. intros m x m' _ H. apply load_hvs_inv in H as [-> _]. apply touches_refl. Qed.

Lemma within_load_load p : within (load_load p).
Proof. intros m x m' _ H. apply load_load_inv in H as [-> _]. apply touches_refl. Qed.

(** A write to a cell. *)
Lemma touches_write m a v v' :
  mem m !! a = Some v -> cell_change fp v v' ->
  touches m (with_mem (<[a := v']> (mem m)) m).
Proof.
  intros Hcell HR. destruct Hfp as (Hr & _ & Hcr & _).
  split; [reflexivity|]. split; [reflexivity|]. split.
  { intros j. now apply slot_change_refl. }
  split; [cbn; lia|]. split.
  - exists []. cbn. rewrite app_nil_r. split; [reflexivity|]. split; [trivial|].
    intros e He. now apply elem_of_nil in He.
  - intros q u Hq. cbn. destruct (Nat.eq_dec q a) as [->|Hne].
    + exists v'. split; [apply (lookup_insert_same _ _ _ _ Hcell)|].
      congruence.
    + exists u. split; [now rewrite list_lookup_insert_ne|apply Hr].
Qed.

Lemma within_modify_ctm p f :
  (forall s, cell_change fp (CtmState s) (CtmState (f s))) ->
  within (modify_ctm p f).
Proof.
  intros Hf m x m' _ H. apply modify_ctm_inv in H as (a & s & -> & Hs & ->).
  now apply (touches_write m a (CtmState s)).
Qed.

Lemma within_modify_hvs p f :
  (forall s, cell_change fp (HvsState s) (HvsState (f s))) ->
  within (modify_hvs p f).
Proof.
  intros Hf m x m' _ H. apply modify_hvs_inv in H as (a & s & -> & Hs & ->).
  now apply (touches_write m a (HvsState s)).
Qed.

Lemma within_modify_load p f :
  (forall s, cell_change fp (LoadState s) (LoadState (f s))) ->
  within (modify_load p f).
Proof.
  intros Hf m x m' _ H. apply modify_load_inv in H as (a & s & -> & Hs & ->).
  now apply (touches_write m a (LoadState s)).
Qed.

Lemma within_modify_new_crtc_state i f :
  (forall s, crtc_change fp s (f s)) -> within (modify_new_crtc_state i f).
Proof.
  intros Hf m x m' _ H. apply modify_new_crtc_state_inv in H as (e & He & ->).
  destruct Hfp as (Hr & _ & Hcr & _).
  split; [reflexivity|]. split; [reflexivity|]. split.
  { intros j. cbn. destruct (Nat.eq_dec j i) as [->|Hne].
    - rewrite He, (lookup_insert_same _ _ _ _ He). cbn. auto.
    - rewrite list_lookup_insert_ne by congruence. now apply slot_change_refl. }
  split; [cbn; lia|]. split.
  - exists []. cbn. rewrite app_nil_r. split; [reflexivity|]. split; [trivial|].
    intros e0 He0. now apply elem_of_nil in He0.
  - intros q v Hq. exists v. split; [assumption|apply Hr].
Qed.

Lemma find_None_not_elem (l : list drm_private_objs_state) obj :
  find (fun e => drm_private_obj_eqb (obj_ptr e) obj) l = None ->
  obj ∉ map obj_ptr l.
Proof.
  induction l as [|e l IH]; cbn; intros H Hin.
  - now apply elem_of_nil in Hin.
  - destruct (drm_private_obj_eqb (obj_ptr e) obj) eqn:E; [discriminate|].
    apply elem_of_cons in Hin as [->|Hin]; [|now apply IH].
    now rewrite drm_private_obj_eqb_refl in E.
Qed.

(** Obtaining the copy of an object that the footprint allows. *)
Lemma within_get obj :
  copies fp obj = true -> within (drm_atomic_get_private_obj_state vc4 obj).
Proof.
  intros Hk m p m' Hv H. destruct Hfp as (Hr & _ & Hcr & _).
  apply drm_atomic_get_private_obj_state_inv in H
    as [(e & Hf & -> & ->) | [(Hf & -> & Hp) | (Hf & Hctx & n & v & Hs & Hcell & _ & -> & ->)]];
    [apply touches_refl|apply touches_refl| |apply Hv].
  split; [reflexivity|]. split; [reflexivity|]. split.
  { intros j. now apply slot_change_refl. }
  split; [cbn; lia|]. split.
  - eexists. split; [reflexivity|]. cbn. split.
    + intros Hnd. rewrite map_app. cbn. apply NoDup_app.
      split; [assumption|]. split; [|apply NoDup_singleton].
      intros x Hx Hx'. apply list_elem_of_singleton in Hx'. subst x.
      now apply (find_None_not_elem _ _ Hf).
    + intros e He. apply list_elem_of_singleton in He. subst e. cbn.
      split; [assumption|]. split; [lia|].
      exists v, v. split; [assumption|]. split; [apply lookup_last|apply Hr].
  - intros q u Hq. exists u. cbn. split; [|apply Hr].
    rewrite lookup_app_l; [assumption|]. now apply lookup_lt_Some in Hq.
Qed.

Lemma within_for_index {A} (body : nat -> A -> M (flow A)) (n i : nat) (a : A) :
  (forall i a, within (body i a)) -> within (for_index n i a body).
Proof.
  intros Hbody. revert i a.
  induction n as [|n IH]; intros i a; cbn [for_index]; [apply within_ret|].
  apply within_bind; [apply Hbody|]. intros [a'|r]; [apply IH|apply within_ret].
Qed.

Lemma within_for_index_var {A} (body : nat -> A -> M (flow (A * nat)))
    (fuel n i : nat) (a : A) :
  (forall i a, within (body i a)) -> within (for_index_var fuel n i a body).
Proof.
  intros Hbody. revert i a.
  induction fuel as [|fuel IH]; intros i a; cbn [for_index_var].
  - intros m x m' _ H. discriminate.
  - destruct (i <? n)%nat; [|apply within_ret].
    apply within_bind; [apply Hbody|].
    intros [[a' i']|r]; [apply IH|apply within_ret].
Qed.

Lemma within_for_each_crtc {A} (a : A)
    (body : nat -> drm_crtcs_state -> A -> M (flow A)) :
  (forall i e a, within (body i e a)) ->
  within (for_each_oldnew_crtc_in_state a body).
Proof.
  intros Hbody. unfold for_each_oldnew_crtc_in_state.
  apply within_bind; [apply within_get_state|]. intros st.
  apply within_for_index. intros i a'.
  apply within_bind; [apply within_get_state|]. intros st'.
  destruct (crtcs st' !! i) as [[e|]|]; [apply Hbody|apply within_ret..].
Qed.

Lemma within_for_each_crtc_var {A} (a : A)
    (body : nat -> drm_crtcs_state -> A -> M (flow (A * nat))) :
  (forall i e a, within (body i e a)) ->
  within (for_each_oldnew_crtc_in_state_var a body).
Proof.
  intros Hbody. unfold for_each_oldnew_crtc_in_state_var.
  apply within_bind; [apply within_get_state|]. intros st.
  apply within_for_index_var. intros i a'.
  apply within_bind; [apply within_get_state|]. intros st'.
  destruct (crtcs st' !! i) as [[e|]|]; [apply Hbody|apply within_ret..].
Qed.

Lemma within_for_each_plane {A} (a : A)
    (body : nat -> drm_planes_state -> A -> M (flow A)) :
  (forall i e a, within (body i e a)) ->
  within (for_each_oldnew_plane_in_state a body).
Proof.
  intros Hbody. unfold for_each_oldnew_plane_in_state.
  apply within_bind; [apply within_get_state|]. intros st.
  apply within_for_index. intros i a'.
  apply within_bind; [apply within_get_state|]. intros st'.
  destruct (planes st' !! i) as [[e|]|]; [apply Hbody|apply within_ret..].
Qed.

Lemma within_vc4_get_ctm_state :
  copies fp ctm_manager = true -> within (vc4_get_ctm_state vc4).
Proof.
  intros Hk. unfold vc4_get_ctm_state.
  apply within_bind; [apply within_drm_modeset_lock|]. intros r.
  destruct (negb _); [apply within_ret|].
  apply within_bind; [now apply within_get|]. intros p.
  destruct (IS_ERR p); apply within_ret.
Qed.

Lemma within_vc4_hvs_get_global_state :
  copies fp hvs_channels = true -> within (vc4_hvs_get_global_state vc4).
Proof.
  intros Hk. unfold vc4_hvs_get_global_state.
  apply within_bind; [now apply within_get|]. intros p.
  destruct (IS_ERR p); apply within_ret.
Qed.

End TouchesLemmas.

(** A footprint that allows more. *)
Lemma touches_weaken vc4 (fp fp' : footprint) m m' :
  (forall obj, copies fp obj = true -> copies fp' obj = true) ->
  (forall v v', cell_change fp v v' -> cell_change fp' v v') ->
  (forall s s', crtc_change fp s s' -> crtc_change fp' s s') ->
  touches vc4 fp m m' -> touches vc4 fp' m m'.
Proof.
  intros Hk HR HC (Hp & Ha & Hc & Hs & (l & Hl & Hnd & Hnew) & Hcell).
  split; [assumption|]. split; [assumption|]. split.
  { intros j. apply (slot_change_impl _ _ _ _ HC), Hc. }
  split; [assumption|]. split.
  - exists l. split; [assumption|]. split; [assumption|].
    intros e He. destruct (Hnew e He) as (Hke & Hge & v0 & v & H0 & H1 & HR0).
    split; [auto|]. split; [assumption|]. exists v0, v. auto.
  - intros q v Hq. destruct (Hcell q v Hq) as (v' & Hq' & HR0).
    exists v'. auto.
Qed.

(** *** The footprints of the checks *)

Lemma pv_muxing_footprint_ok : footprint_ok pv_muxing_footprint.
Proof.
  split; [|split; [|split]]; cbn.
  - intros [s|h|s]; auto.
  - intros [s1|h1|s1] [s2|h2|s2] [s3|h3|s3]; intuition congruence.
  - intros s. tauto.
  - intros s1 s2 s3. intuition congruence.
Qed.

Lemma ctm_footprint_ok : footprint_ok ctm_footprint.
Proof.
  split; [|split; [|split]]; cbn.
  - intros [s|h|s]; auto.
  - intros [s1|h1|s1] [s2|h2|s2] [s3|h3|s3]; intuition congruence.
  - reflexivity.
  - intros s1 s2 s3. congruence.
Qed.

Lemma load_tracker_footprint_ok : footprint_ok load_tracker_footprint.
Proof.
  split; [|split; [|split]]; cbn.
  - intros [s|h|s]; auto.
  - intros [s1|h1|s1] [s2|h2|s2] [s3|h3|s3]; intuition congruence.
  - reflexivity.
  - intros s1 s2 s3. congruence.
Qed.

Lemma core_clock_footprint_ok : footprint_ok core_clock_footprint.
Proof.
  split; [|split; [|split]]; cbn.
  - intros [s|h|s]; auto.
  - intros [s1|h1|s1] [s2|h2|s2] [s3|h3|s3]; intuition congruence.
  - reflexivity.
  - intros s1 s2 s3. congruence.
Qed.

Lemma within_pv_muxing_crtc vc4 p i e u :
  within vc4 pv_muxing_footprint (pv_muxing_crtc vc4 p i e u).
Proof.
  pose proof pv_muxing_footprint_ok as Hok.
  unfold pv_muxing_crtc.
  destruct (firmware_kms vc4); [now apply within_ret|].
  destruct (Bool.eqb _ _); [now apply within_ret|].
  apply within_bind; [assumption| |].
  { apply within_modify_new_crtc_state; [assumption|]. intros s. cbn. tauto. }
  intros _. destruct (negb _).
  - apply within_bind; [assumption| |].
    { apply within_modify_hvs; [assumption|]. intros s. cbn. tauto. }
    intros _. apply within_bind; [assumption| |].
    { apply within_modify_new_crtc_state; [assumption|]. intros s. cbn. tauto. }
    intros _. now apply within_ret.
  - apply within_bind; [assumption|now apply within_load_hvs|].
    intros s. destruct (negb _); [|now apply within_ret].
    apply within_bind; [assumption| |].
    { apply within_modify_new_crtc_state; [assumption|]. intros s'. cbn. tauto. }
    intros _. apply within_bind; [assumption| |].
    { apply within_modify_hvs; [assumption|]. intros s'. cbn. tauto. }
    intros _. now apply within_ret.
Qed.

Lemma within_vc4_pv_muxing_atomic_check vc4 :
  within vc4 pv_muxing_footprint (vc4_pv_muxing_atomic_check vc4).
Proof.
  pose proof pv_muxing_footprint_ok as Hok.
  unfold vc4_pv_muxing_atomic_check.
  apply within_bind; [assumption| |].
  { now apply within_vc4_hvs_get_global_state. }
  intros p. destruct (is_NULL p); [now apply within_ret|].
  apply within_bind; [assumption| |].
  { apply within_for_each_crtc; [assumption|]. intros i e a.
    apply within_pv_muxing_crtc. }
  intros [a|r]; now apply within_ret.
Qed.

Lemma ctm_scalars_loop_admitted (mx : list Z) (n i i' : nat) :
  ctm_scalars_loop mx n i = Continue i' ->
  forall k, (i <= k < i + n)%nat ->
    Z.land (default 0 (mx !! k)) (u64 (Z.lnot (BIT_ULL 63))) <= BIT_ULL 32.
Proof.
  revert i. induction n as [|n IH]; intros i H k Hk; [lia|].
  cbn [ctm_scalars_loop] in H.
  destruct (Z.gtb_spec (Z.land (default 0 (mx !! i)) (u64 (Z.lnot (BIT_ULL 63))))
              (BIT_ULL 32)) as [|Hle]; [discriminate|].
  destruct (Nat.eq_dec k i) as [->|Hne]; [assumption|].
  apply (IH (S i) H). lia.
Qed.

Lemma within_ctm_release_crtc vc4 i e p :
  within vc4 ctm_footprint (ctm_release_crtc vc4 i e p).
Proof.
  pose proof ctm_footprint_ok as Hok.
  unfold ctm_release_crtc. destruct (_ && _); [|now apply within_ret].
  apply within_bind; [assumption|now apply within_vc4_get_ctm_state|].
  intros q. destruct (IS_ERR q); [now apply within_ret|].
  apply within_bind; [assumption| |intros _; now apply within_ret].
  apply within_modify_ctm; [assumption|].
  intros s _ Hne. now cbn in Hne.
Qed.

Lemma within_ctm_claim_crtc vc4 i e p :
  within vc4 ctm_footprint (ctm_claim_crtc vc4 i e p).
Proof.
  pose proof ctm_footprint_ok as Hok.
  unfold ctm_claim_crtc. destruct (blob_ptr_eqb _ _); [now apply within_ret|].
  apply within_bind; [assumption| |].
  { destruct (is_NULL p);
      [now apply within_vc4_get_ctm_state|now apply within_ret]. }
  intros q. destruct (IS_ERR q); [now apply within_ret|].
  destruct (crtc_ctm (new_state e)) as [blob|]; [|now apply within_ret].
  apply within_bind; [assumption|now apply within_load_ctm|]. intros s.
  destruct (_ && _); [now apply within_ret|].
  destruct (ctm_scalars_loop _ _ _) as [i'|r] eqn:Hloop; [|now apply within_ret].
  intros m x m' Hv H.
  apply bind_inv in H as (u1 & m1 & H1 & H).
  apply bind_inv in H as (u2 & m2 & H2 & H). injection H as _ <-.
  apply modify_ctm_inv in H1 as (a & s1 & -> & Hs1 & ->).
  apply modify_ctm_inv in H2 as (a' & s2 & [= <-] & Hs2 & ->).
  cbn [mem with_mem] in Hs2.
  rewrite (lookup_insert_same _ _ _ _ Hs1) in Hs2. injection Hs2 as <-.
  cbn [mem with_mem]. rewrite list_insert_insert_eq.
  change (touches vc4 ctm_footprint m
            (with_mem (<[a := CtmState (set_ctm (Some (data blob))
                                          (set_fifo
                                             (int_of_u32
                                                (u32 (assigned_channel (new_state e) + 1)))
                                             s1))]> (mem m)) m)).
  apply (touches_write vc4 ctm_footprint Hok m a (CtmState s1)); [assumption|].
  intros _ _. exists (data blob). split; [reflexivity|].
  intros k Hk. apply (ctm_scalars_loop_admitted _ _ _ _ Hloop). lia.
Qed.

Lemma within_vc4_ctm_atomic_check vc4 :
  within vc4 ctm_footprint (vc4_ctm_atomic_check vc4).
Proof.
  pose proof ctm_footprint_ok as Hok.
  unfold vc4_ctm_atomic_check.
  apply within_bind; [assumption| |].
  { apply within_for_each_crtc; [assumption|]. intros i e a.
    apply within_ctm_release_crtc. }
  intros [p|r]; [|now apply within_ret].
  apply within_bind; [assumption| |].
  { apply within_for_each_crtc_var; [assumption|]. intros i e a.
    apply within_ctm_claim_crtc. }
  intros [q|r]; now apply within_ret.
Qed.

Lemma within_vc4_load_tracker_atomic_check vc4 :
  within vc4 load_tracker_footprint (vc4_load_tracker_atomic_check vc4).
Proof.
  pose proof load_tracker_footprint_ok as Hok.
  assert (forall p f, within vc4 load_tracker_footprint (modify_load p f)) as Hm.
  { intros p f. apply within_modify_load; [assumption|]. intros s. exact I. }
  unfold vc4_load_tracker_atomic_check.
  apply within_bind; [assumption|now apply within_get|]. intros p.
  destruct (IS_ERR p); [now apply within_ret|].
  apply within_bind; [assumption| |].
  { apply within_for_each_plane; [assumption|]. intros i e a.
    unfold load_tracker_plane.
    apply within_bind; [assumption| |].
    { destruct (plane_active _); [|now apply within_ret].
      apply within_bind; [assumption|apply Hm|intros _; apply Hm]. }
    intros _. apply within_bind; [assumption| |intros _; now apply within_ret].
    destruct (plane_active _); [|now apply within_ret].
    apply within_bind; [assumption|apply Hm|intros _; apply Hm]. }
  intros _. destruct (negb _); [now apply within_ret|].
  apply within_bind; [assumption|now apply within_load_load|]. intros s.
  destruct (_ >? _); [now apply within_ret|].
  destruct (_ >? _); now apply within_ret.
Qed.

Lemma within_vc4_core_clock_atomic_check (w : Z) vc4 :
  within vc4 core_clock_footprint (vc4_core_clock_atomic_check w vc4).
Proof.
  pose proof core_clock_footprint_ok as Hok.
  assert (forall p f,
             (forall s, unassigned_channels (f s) = unassigned_channels s) ->
             within vc4 core_clock_footprint (modify_hvs p f)) as Hm.
  { intros p f Hf. apply within_modify_hvs; [assumption|]. intros s. apply Hf. }
  unfold vc4_core_clock_atomic_check.
  apply within_bind; [assumption|now apply within_get|]. intros pl.
  destruct (IS_ERR pl); [now apply within_ret|].
  apply within_bind; [assumption|now apply within_vc4_hvs_get_global_state|].
  intros ph. destruct (is_NULL ph); [now apply within_ret|].
  apply within_bind; [assumption| |].
  { apply within_for_each_crtc; [assumption|]. intros i e a.
    unfold core_clock_crtc.
    apply within_bind; [assumption| |].
    { destruct (active _); [|now apply within_ret].
      apply within_bind; [assumption|now apply Hm|intros _; now apply Hm]. }
    intros _. apply within_bind; [assumption| |intros _; now apply within_ret].
    destruct (active _); [|now apply within_ret].
    apply within_bind; [assumption|now apply Hm|intros _; now apply Hm]. }
  intros _.
  apply within_bind; [assumption|now apply within_load_hvs|]. intros s.
  apply within_bind; [assumption|now apply within_load_load|]. intros l.
  apply within_bind; [assumption|now apply Hm|intros _; now apply within_ret].
Qed.

(** ** What the published states add up *)

Lemma total_unused {A} (f : A -> Z) (l : list (option A)) :
  (forall j e, l !! j <> Some (Some e)) -> total f l = 0.
Proof.
  induction l as [|[x|] l IH]; intros H; cbn [total]; [reflexivity| |].
  - exfalso. apply (H 0%nat x). reflexivity.
  - apply IH. intros j e. apply (H (S j) e).
Qed.

Lemma planes_load_swap (f : vc4_plane_state -> Z) ps es :
  (forall j e, es !! j = Some (Some e) -> ps !! j = Some (old_plane_state e)) ->
  planes_load f (swap_planes ps es)
  = planes_load f ps + total (plane_delta f) es.
Proof.
  revert es. induction ps as [|p ps IH]; intros es H.
  - cbn. rewrite total_unused; [reflexivity|].
    intros j e He. apply H in He. discriminate.
  - destruct es as [|[e|] es]; cbn [swap_planes planes_load total].
    + lia.
    + rewrite IH by (intros j e' He'; apply (H (S j) e' He')).
      pose proof (H 0%nat e eq_refl) as H0. injection H0 as ->.
      unfold plane_delta. lia.
    + rewrite IH by (intros j e' He'; apply (H (S j) e' He')). lia.
Qed.

Lemma crtcs_active_swap cs es :
  (forall j e, es !! j = Some (Some e) ->
     exists c, cs !! j = Some (c, old_state e)) ->
  crtcs_active (swap_crtcs cs es) = crtcs_active cs + total active_delta es /\
  crtcs_load (swap_crtcs cs es) = crtcs_load cs + total fifo_load_delta es.
Proof.
  revert es. induction cs as [|[c s] cs IH]; intros es H.
  - cbn. rewrite !total_unused; [split; reflexivity| |];
      intros j e He; apply H in He as [c Hc]; discriminate.
  - destruct es as [|[e|] es];
      cbn [swap_crtcs crtcs_active crtcs_load total snd].
    + split; lia.
    + destruct (IH es) as [-> ->].
      { intros j e' He'. apply (H (S j) e' He'). }
      destruct (H 0%nat e eq_refl) as [c0 H0]. injection H0 as _ ->.
      unfold active_delta, fifo_load_delta. split; lia.
    + destruct (IH es) as [-> ->]; [|split; lia].
      intros j e' He'. apply (H (S j) e' He').
Qed.

Lemma get_plane_states_lookup ps req j e :
  get_plane_states ps req !! j = Some (Some e) ->
  ps !! j = Some (old_plane_state e).
Proof.
  revert req j. induction ps as [|p ps IH]; intros req j H; [discriminate|].
  destruct j as [|j].
  - cbn in H. destruct req as [|[n|] req]; try discriminate.
    now injection H as <-.
  - cbn in H. apply (IH _ _ H).
Qed.

Lemma map_option_lookup {A B} (f : A -> B) (l l' : list (option A)) j x' :
  map (option_map f) l' = map (option_map f) l ->
  l' !! j = Some (Some x') ->
  exists x, l !! j = Some (Some x) /\ f x = f x'.
Proof.
  intros Hmap Hj.
  assert (map (option_map f) l !! j = Some (Some (f x'))) as H.
  { rewrite <- Hmap, list_lookup_fmap, Hj. reflexivity. }
  rewrite list_lookup_fmap in H.
  destruct (l !! j) as [[x|]|]; try discriminate.
  injection H as H. now exists x.
Qed.

Lemma slot_change_eq_lists (l l' : list (option drm_crtcs_state)) :
  (forall j, slot_change eq (l !! j) (l' !! j)) -> l' = l.
Proof.
  intros H. apply list_eq. intros j. specialize (H j).
  destruct (l !! j) as [[e|]|], (l' !! j) as [[e'|]|]; cbn in H;
    try contradiction; try reflexivity.
  destruct H as (Hp & Ho & Hn). destruct e, e'. cbn in *. congruence.
Qed.

Lemma NoDup_obj_ptr (l : list drm_private_objs_state) e e' :
  NoDup (map obj_ptr l) -> e ∈ l -> e' ∈ l -> obj_ptr e = obj_ptr e' -> e = e'.
Proof.
  induction l as [|x l IH]; cbn; intros Hnd He He' Hp.
  - now apply elem_of_nil in He.
  - apply NoDup_cons in Hnd as [Hx Hnd].
    apply elem_of_cons in He as [->|He], He' as [->|He']; auto.
    + exfalso. apply Hx. rewrite Hp. apply list_elem_of_fmap. now exists e'.
    + exfalso. apply Hx. rewrite <- Hp. apply list_elem_of_fmap. now exists e.
Qed.

Lemma find_private_obj_ptr st obj e :
  find_private_obj st obj = Some e -> obj_ptr e = obj.
Proof.
  unfold find_private_obj. intros H. apply find_some in H as [_ H].
  now apply drm_private_obj_eqb_eq.
Qed.

Lemma find_private_obj_None st obj :
  (forall e, e ∈ private_objs st -> obj_ptr e <> obj) ->
  find_private_obj st obj = None.
Proof.
  intros H. unfold find_private_obj.
  destruct (find _ _) as [e|] eqn:E; [|reflexivity].
  pose proof (find_private_obj_elem _ _ _ E) as Hin.
  apply find_some in E as [_ E]. apply drm_private_obj_eqb_eq in E.
  now apply H in Hin.
Qed.

(** Where the swap leaves the state pointer of an object of which the
    transaction holds the copy [e]. *)
Lemma swap_private_objs_copy vc4 (l : list drm_private_objs_state) e :
  NoDup (map obj_ptr l) -> e ∈ l ->
  obj_state (swap_private_objs vc4 l) (obj_ptr e) = obj_new_state e.
Proof.
  intros Hnd He.
  destruct (find (fun x => drm_private_obj_eqb (obj_ptr x) (obj_ptr e)) l)
    as [e0|] eqn:Hf.
  - destruct (swap_private_objs_held _ vc4 _ _ Hf) as (e' & He' & Hp & ->).
    f_equal. now apply (NoDup_obj_ptr l).
  - exfalso. apply (find_None_not_elem _ _ Hf).
    apply list_elem_of_fmap. now exists e.
Qed.

Lemma swap_private_objs_enabled vc4 (l : list drm_private_objs_state) :
  load_tracker_enabled (swap_private_objs vc4 l) = load_tracker_enabled vc4.
Proof.
  unfold swap_private_objs. revert vc4.
  induction l as [|e l IH]; intros vc4; [reflexivity|].
  cbn [fold_left]. now rewrite IH.
Qed.

(** *** The load tracker check, run forward *)

Lemma load_tracker_accepted vc4 m m' (l0 : vc4_load_tracker_state) :
  published_cells vc4 m ->
  find_private_obj (txn m) load_tracker = None ->
  mem m !! obj_state vc4 load_tracker = Some (LoadState l0) ->
  0 <= hvs_load l0 < 2 ^ 64 -> 0 <= membus_load l0 < 2 ^ 64 ->
  vc4_load_tracker_atomic_check vc4 m = Some (0, m') ->
  exists e,
    obj_ptr e = load_tracker /\
    txn m' = add_private_obj e (txn m) /\
    mem m' !! obj_new_state e
    = Some (LoadState
              {| hvs_load :=
                   u64 (hvs_load l0
                        + total (plane_delta plane_hvs_load) (planes (txn m)));
                 membus_load :=
                   u64 (membus_load l0
                        + total (plane_delta plane_membus_load)
                            (planes (txn m))) |}) /\
    (load_tracker_enabled vc4 = true ->
     u64 (membus_load l0 + total (plane_delta plane_membus_load) (planes (txn m)))
     <= SZ_1G + SZ_512M /\
     u64 (hvs_load l0 + total (plane_delta plane_hvs_load) (planes (txn m)))
     <= 240000000).
Proof.
  intros Hv Hnone Hcell Hr1 Hr2 H. unfold vc4_load_tracker_atomic_check in H.
  apply bind_inv in H as (p & m1 & Hget & H).
  apply drm_atomic_get_private_obj_state_inv in Hget
    as [(e & Hf & -> & ->) | [(Hf & -> & Hp) | (Hf & Hctx & n & v & Hs & Hv0 & _ & -> & ->)]];
    [congruence| | |apply Hv].
  { destruct Hp as [[Hne ->]|(_ & _ & ->)]; cbn [IS_ERR PTR_ERR] in H;
      unfold ret in H; injection H as H0 _; [congruence|discriminate]. }
  rewrite Hcell in Hv0. injection Hv0 as <-. cbn [IS_ERR] in H.
  set (e := {| obj_ptr := load_tracker; obj_old_state := obj_state vc4 load_tracker;
               obj_new_state := length (mem m) |}) in *.
  set (m1 := {| mem := mem m ++ [LoadState l0]; slab := n;
                txn := add_private_obj e (txn m) |}) in *.
  assert (mem m1 !! length (mem m) = Some (LoadState l0)) as Hc1
    by apply lookup_last.
  destruct (load_tracker_loop _ m1 l0 Hc1 Hr1 Hr2) as (m2 & Hloop & Htx & Hc2).
  rewrite (bind_Some _ _ _ _ _ Hloop) in H.
  exists e. split; [reflexivity|].
  destruct (load_tracker_enabled vc4); cbn [negb] in H.
  - rewrite (bind_Some _ _ _ _ _ (load_load_ok _ _ _ Hc2)) in H.
    cbn [membus_load hvs_load] in H.
    match type of H with
    | context [if ?c then _ else _] => destruct c eqn:E1
    end;
      [unfold ret in H; assert (- ENOSPC = 0) as H0 by congruence; discriminate H0|].
    match type of H with
    | context [if ?c then _ else _] => destruct c eqn:E2
    end;
      [unfold ret in H; assert (- ENOSPC = 0) as H0 by congruence; discriminate H0|].
    assert (m' = m2) as -> by (unfold ret in H; congruence).
    rewrite Z.gtb_ltb in E1, E2. apply Z.ltb_ge in E1, E2.
    split; [exact Htx|]. split; [exact Hc2|]. intros _. split; assumption.
  - assert (m' = m2) as -> by (unfold ret in H; congruence).
    split; [exact Htx|]. split; [exact Hc2|]. discriminate.
Qed.

(** *** The core clock check, run forward *)

Lemma core_clock_accepted (w : Z) vc4 m m' r el l (N F : Z) :
  0 <= w ->
  published_cells vc4 m ->
  find_private_obj (txn m) load_tracker = Some el ->
  mem m !! obj_new_state el = Some (LoadState l) ->
  (exists h, mem m !! obj_state vc4 hvs_channels = Some (HvsState h) /\
             num_outputs h = u32 N /\ fifo_load h = ulong w F) ->
  (forall e, e ∈ private_objs (txn m) -> obj_ptr e = hvs_channels ->
     exists h, mem m !! obj_new_state e = Some (HvsState h) /\
               num_outputs h = u32 N /\ fifo_load h = ulong w F) ->
  vc4_core_clock_atomic_check w vc4 m = Some (r, m') ->
  exists e h,
    e ∈ private_objs (txn m') /\ obj_ptr e = hvs_channels /\
    mem m' !! obj_new_state e = Some (HvsState h) /\
    num_outputs h = u32 (N + total active_delta (crtcs (txn m))) /\
    fifo_load h = ulong w (F + total fifo_load_delta (crtcs (txn m))) /\
    core_clock_rate h = core_clock w h l /\
    mem m' !! obj_new_state el = Some (LoadState l).
Proof.
  intros Hw Hv Hel Hl (hp & Hhp & HpN & HpF) Hcopies H.
  unfold vc4_core_clock_atomic_check in H.
  rewrite (bind_Some _ _ _ _ _ (get_held vc4 _ _ _ Hel)) in H.
  cbn [IS_ERR] in H.
  apply bind_inv in H as (ph & m1 & Hgh & H).
  assert (exists e h,
             ph = Addr (obj_new_state e) /\
             e ∈ private_objs (txn m1) /\ obj_ptr e = hvs_channels /\
             crtcs (txn m1) = crtcs (txn m) /\
             mem m1 !! obj_new_state e = Some (HvsState h) /\
             mem m1 !! obj_new_state el = Some (LoadState l) /\
             num_outputs h = u32 N /\ fifo_load h = ulong w F)
    as (e & h & -> & He & Hpe & Hcr & Hh & Hl1 & HN & HF).
  { unfold vc4_hvs_get_global_state in Hgh.
    apply bind_inv in Hgh as (q & mq & Hq & Hgh).
    apply drm_atomic_get_private_obj_state_inv in Hq
      as [(e & Hf & -> & ->) | [(Hf & -> & Hp) | (Hf & Hctx & n & v & Hs & Hv0 & _ & -> & ->)]];
      [| | |apply Hv].
    - cbn in Hgh. injection Hgh as <- <-.
      pose proof (find_private_obj_elem _ _ _ Hf) as Hin.
      pose proof (find_private_obj_ptr _ _ _ Hf) as Hp.
      destruct (Hcopies e Hin Hp) as (h & Hh & HN & HF).
      exists e, h. repeat split; eauto.
    - exfalso.
      assert (exists err, ph = ERR_PTR err) as [err ->].
      { destruct Hp as [[_ ->]|(_ & _ & ->)]; cbn in Hgh;
          injection Hgh as <- _; eauto. }
      cbn [is_NULL] in H.
      apply bind_inv in H as (f & m2 & _ & H).
      apply bind_inv in H as (s & m3 & Hs & _).
      apply load_hvs_inv in Hs as (_ & a & Ha & _). discriminate.
    - cbn in Hgh. injection Hgh as <- <-.
      rewrite Hhp in Hv0. injection Hv0 as <-.
      exists {| obj_ptr := hvs_channels; obj_old_state := obj_state vc4 hvs_channels;
                obj_new_state := length (mem m) |}, hp.
      split; [reflexivity|]. cbn.
      split; [apply elem_of_app; right; apply list_elem_of_singleton; reflexivity|].
      split; [reflexivity|]. split; [reflexivity|].
      split; [apply lookup_last|]. split; [|now split].
      rewrite lookup_app_l; [assumption|].
      now apply lookup_lt_Some in Hl. }
  cbn [is_NULL] in H.
  assert (0 <= num_outputs h < 2 ^ 32) as HrN.
  { rewrite HN. unfold u32. apply Z.mod_pos_bound. lia. }
  assert (0 <= fifo_load h < 2 ^ w) as HrF.
  { rewrite HF. unfold ulong. apply Z.mod_pos_bound.
    apply Z.pow_pos_nonneg; lia. }
  destruct (core_clock_loop w _ m1 h Hh HrN HrF) as (m2 & Hloop & Htx & Hfr & Hc2).
  rewrite (bind_Some _ _ _ _ _ Hloop) in H.
  rewrite (bind_Some _ _ _ _ _ (load_hvs_ok _ _ _ Hc2)) in H.
  assert (obj_new_state el <> obj_new_state e) as Hne.
  { intros E. rewrite E in Hl1. congruence. }
  assert (mem m2 !! obj_new_state el = Some (LoadState l)) as Hl2.
  { rewrite Hfr by assumption. assumption. }
  rewrite (bind_Some _ _ _ _ _ (load_load_ok _ _ _ Hl2)) in H.
  rewrite (bind_Some _ _ _ _ _ (modify_hvs_ok _ _ _ _ Hc2)) in H.
  injection H as _ <-.
  eexists e, _. cbn [txn mem with_mem].
  split; [now rewrite Htx|]. split; [assumption|].
  split; [apply (lookup_insert_same _ _ _ _ Hc2)|].
  unfold core_clock.
  cbn [num_outputs fifo_load core_clock_rate set_core_clock_rate].
  split; [rewrite HN, u32_add_l, Hcr; reflexivity|].
  split; [rewrite HF, ulong_add_l, Hcr; reflexivity|].
  split; [reflexivity|].
  rewrite list_lookup_insert_ne by congruence. exact Hl2.
Qed.

(** *** An accepted check *)

Lemma pre_footprint_ok : footprint_ok pre_footprint.
Proof.
  split; [|split; [|split]]; cbn.
  - intros [s|h|s]; auto.
  - intros [s1|h1|s1] [s2|h2|s2] [s3|h3|s3]; intuition congruence.
  - intros s. tauto.
  - intros s1 s2 s3. intuition congruence.
Qed.

Lemma pre_checks_touch vc4 m r1 m1 r2 m2 :
  published_cells vc4 m ->
  vc4_pv_muxing_atomic_check vc4 m = Some (r1, m1) ->
  vc4_ctm_atomic_check vc4 m1 = Some (r2, m2) ->
  touches vc4 pre_footprint m m2.
Proof.
  intros Hv H1 H2.
  pose proof (within_vc4_pv_muxing_atomic_check vc4 m r1 m1 Hv H1) as T1.
  pose proof (touches_valid _ _ _ _ T1 Hv) as Hv1.
  pose proof (within_vc4_ctm_atomic_check vc4 m1 r2 m2 Hv1 H2) as T2.
  apply (touches_trans vc4 pre_footprint pre_footprint_ok m m1 m2 Hv).
  - apply (touches_weaken vc4 pv_muxing_footprint); [| | |exact T1].
    + intros obj Hk. cbn in *. now rewrite Hk.
    + intros [s|h|s] [s'|h'|s']; cbn; try congruence. intros [= ->]. auto.
    + auto.
  - apply (touches_weaken vc4 ctm_footprint); [| | |exact T2].
    + intros obj Hk. cbn in *. rewrite Hk. apply orb_true_r.
    + intros [s|h|s] [s'|h'|s']; cbn; try congruence; auto.
      intros [= ->]. repeat split.
    + cbn. intros s s' ->. tauto.
Qed.

Lemma generic_check_inv helper m r m' :
  generic_check helper m = Some (r, m') ->
  r = fst (helper (txn m)) /\
  m' = {| mem := mem m; slab := slab m; txn := snd (helper (txn m)) |}.
Proof.
  unfold generic_check, bind, get_state, put_state, ret.
  intros [= <- <-]. split; reflexivity.
Qed.

(** An accepted check leaves copies that, once published, agree with the
    CRTC and plane states published with them. *)
Lemma accepted_check_counted (w : Z) d helper dev req m' :
  0 <= w -> helper_keeps helper -> dev_counted w d dev ->
  vc4_atomic_check w helper (dev_private dev)
    {| mem := dev_mem dev; slab := request_slab req;
       txn := drm_atomic_state_init dev req |} = Some (0, m') ->
  dev_counted w d (drm_atomic_helper_swap_state dev m').
Proof.
  intros Hw Hh ((c0 & Hc0 & Hst0) & (l0 & Hl0 & Hlh & Hlm & _) & (h0 & Hh0 & HhN & HhF) & _) H.
  set (vc4 := dev_private dev) in *.
  set (m0 := {| mem := dev_mem dev; slab := request_slab req;
                txn := drm_atomic_state_init dev req |}) in *.
  change (ctm_manager_state vc4) with (obj_state vc4 ctm_manager) in Hc0.
  change (load_tracker_state vc4) with (obj_state vc4 load_tracker) in Hl0.
  change (hvs_channels_state vc4) with (obj_state vc4 hvs_channels) in Hh0.
  assert (published_cells vc4 m0) as Hv0.
  { intros [| |]; cbn [mem m0]; eapply lookup_lt_Some; eassumption. }
  unfold vc4_atomic_check in H.
  apply bind_inv in H as (r1 & m1 & H1 & H).
  destruct (Z.eqb_spec r1 0) as [->|Hr1]; cbn [negb] in H;
    [|now injection H].
  apply bind_inv in H as (r2 & m2 & H2 & H).
  destruct (Z.ltb_spec r2 0) as [Hr2|Hr2]; [injection H as E _; lia|].
  apply bind_inv in H as (r3 & m3 & H3 & H).
  destruct (Z.eqb_spec r3 0) as [->|Hr3]; cbn [negb] in H; [|now injection H].
  apply bind_inv in H as (r4 & m4 & H4 & H5).
  destruct (Z.eqb_spec r4 0) as [->|Hr4]; cbn [negb] in H5; [|now injection H5].
  (* the two first checks *)
  pose proof (pre_checks_touch vc4 m0 0 m1 r2 m2 Hv0 H1 H2) as T12.
  pose proof (touches_valid _ _ _ _ T12 Hv0) as Hv2.
  destruct T12 as (Hpl2 & Hctx2 & Hslots2 & _ & (l & Hl & Hnd2 & Hnew2) & Hcells2).
  cbn [m0 txn drm_atomic_state_init private_objs app] in Hl, Hnd2.
  specialize (Hnd2 (NoDup_nil_2 (A := drm_private_obj))). rewrite Hl in Hnd2.
  (* the generic check *)
  apply generic_check_inv in H3 as (_ & ->).
  destruct (Hh (txn m2)) as (Hhp & Hha & Hhc & Hhpl).
  set (m3 := {| mem := mem m2; slab := slab m2; txn := snd (helper (txn m2)) |}) in *.
  assert (published_cells vc4 m3) as Hv3 by exact Hv2.
  assert (private_objs (txn m3) = l) as Hl3 by (cbn; congruence).
  assert (find_private_obj (txn m3) load_tracker = None) as Hnone3.
  { apply find_private_obj_None. intros e He. rewrite Hl3 in He.
    destruct (Hnew2 e He) as (Hk & _). cbn in Hk.
    intros E. rewrite E in Hk. discriminate. }
  assert (mem m3 !! obj_state vc4 load_tracker = Some (LoadState l0)) as Hl03.
  { destruct (Hcells2 _ _ Hl0) as (v' & Hv' & HR). cbn in HR.
    destruct v'; try discriminate. injection HR as ->. exact Hv'. }
  (* the load tracker check *)
  assert (0 <= hvs_load l0 < 2 ^ 64) as Hrh.
  { rewrite Hlh. unfold u64. apply Z.mod_pos_bound. lia. }
  assert (0 <= membus_load l0 < 2 ^ 64) as Hrm.
  { rewrite Hlm. unfold u64. apply Z.mod_pos_bound. lia. }
  destruct (load_tracker_accepted vc4 m3 m4 l0 Hv3 Hnone3 Hl03 Hrh Hrm H4)
    as (el & Hpel & Htx4 & Hcell4 & Hlim4).
  pose proof (within_vc4_load_tracker_atomic_check vc4 m3 0 m4 Hv3 H4) as T4.
  pose proof (touches_valid _ _ _ _ T4 Hv3) as Hv4.
  destruct T4 as (_ & _ & _ & _ & (l4 & Hl4 & Hnd4 & _) & Hcells4).
  rewrite Hl3 in Hnd4. specialize (Hnd4 Hnd2).
  assert (private_objs (txn m4) = l ++ [el]) as Hobjs4.
  { rewrite Htx4. change (private_objs (txn m3) ++ [el] = l ++ [el]).
    now rewrite Hl3. }
  assert (find_private_obj (txn m4) load_tracker = Some el) as Hel4.
  { unfold find_private_obj. rewrite Hobjs4. apply find_snoc_None.
    - rewrite <- Hl3. exact Hnone3.
    - rewrite Hpel. reflexivity. }
  (* the cells of the HVS state *)
  assert (forall q h, mem m0 !! q = Some (HvsState h) ->
            exists h', mem m4 !! q = Some (HvsState h') /\
                       num_outputs h' = num_outputs h /\
                       fifo_load h' = fifo_load h) as Hhvs04.
  { intros q h Hq. destruct (Hcells2 _ _ Hq) as (v2 & Hq2 & HR2).
    destruct v2 as [|h2|]; cbn in HR2; try discriminate.
    destruct (Hcells4 _ _ Hq2) as (v4 & Hq4 & HR4).
    cbn in HR4. subst v4. exists h2. tauto. }
  assert (forall e, e ∈ l -> obj_ptr e = hvs_channels ->
            exists h, mem m4 !! obj_new_state e = Some (HvsState h) /\
                      num_outputs h = num_outputs h0 /\
                      fifo_load h = fifo_load h0) as Hcopies4.
  { intros e He Hp. destruct (Hnew2 e He) as (_ & _ & v0 & v & Hq0 & Hq2 & HR).
    rewrite Hp in Hq0. cbn [m0 mem] in Hq0. rewrite Hh0 in Hq0.
    injection Hq0 as <-.
    destruct v as [|h2|]; cbn in HR; try discriminate.
    destruct (Hcells4 _ _ Hq2) as (v4 & Hq4 & HR4).
    cbn in HR4. subst v4. exists h2. tauto. }
  (* the core clock check *)
  destruct (core_clock_accepted w vc4 m4 m' 0 el _
              (ahead_num_outputs d + crtcs_active (dev_crtcs dev))
              (ahead_fifo_load d + crtcs_load (dev_crtcs dev))
              Hw Hv4 Hel4 Hcell4)
    as (eh & h5 & Hin5 & Hpeh & Hcell5 & HN5 & HF5 & HC5 & Hload5);
    [| |exact H5|].
  { destruct (Hhvs04 _ _ Hh0) as (h' & Hq & HN & HF).
    exists h'. split; [exact Hq|]. split; congruence. }
  { intros e He Hp. rewrite Hobjs4 in He.
    apply elem_of_app in He as [He|He].
    - destruct (Hcopies4 e He Hp) as (h & Hq & HN & HF).
      exists h. split; [exact Hq|]. split; congruence.
    - apply list_elem_of_singleton in He. subst e. congruence. }
  pose proof (within_vc4_core_clock_atomic_check w vc4 m4 0 m' Hv4 H5) as T5.
  destruct T5 as (Hpl5 & _ & Hslots5 & _ & (l5 & Hl5 & Hnd5 & Hnew5) & Hcells5).
  specialize (Hnd5 ltac:(now rewrite Hobjs4 in Hnd4 |- *)).
  apply slot_change_eq_lists in Hslots5.
  assert (el ∈ private_objs (txn m')) as Hinl.
  { rewrite Hl5, Hobjs4. apply elem_of_app. left. apply elem_of_app. right.
    now apply list_elem_of_singleton. }
  assert (crtcs (txn m4) = crtcs (txn m3)) as Hcr4 by now rewrite Htx4.
  assert (planes (txn m4) = planes (txn m3)) as Hpl4 by now rewrite Htx4.
  (* a CTM cell of the start stays staged *)
  assert (forall q s, mem m0 !! q = Some (CtmState s) -> staged s ->
            exists s', mem m' !! q = Some (CtmState s') /\ staged s') as Hctm.
  { intros q s Hq Hs. destruct (Hcells2 _ _ Hq) as (v2 & Hq2 & HR2).
    destruct v2 as [s2| |]; cbn in HR2; try discriminate.
    destruct (Hcells4 _ _ Hq2) as (v4 & Hq4 & HR4). cbn in HR4. subst v4.
    destruct (Hcells5 _ _ Hq4) as (v5 & Hq5 & HR5). cbn in HR5. subst v5.
    exists s2. auto. }
  unfold dev_counted.
  cbn [drm_atomic_helper_swap_state dev_private dev_mem dev_crtcs dev_planes].
  fold vc4.
  change (ctm_manager_state ?v) with (obj_state v ctm_manager).
  change (load_tracker_state ?v) with (obj_state v load_tracker).
  change (hvs_channels_state ?v) with (obj_state v hvs_channels).
  split; [|split; [|split]].
  - (* the CTM state *)
    destruct (find (fun x => drm_private_obj_eqb (obj_ptr x) ctm_manager)
                (private_objs (txn m'))) as [e0|] eqn:Hf.
    + destruct (swap_private_objs_held _ vc4 _ _ Hf) as (e' & He' & Hp & ->).
      rewrite Hl5, Hobjs4 in He'.
      apply elem_of_app in He' as [He'|He'];
        [apply elem_of_app in He' as [He'|He']|].
      * destruct (Hnew2 e' He') as (_ & _ & v0 & v & Hq0 & Hq2 & HR).
        rewrite Hp in Hq0. cbn [m0 mem] in Hq0. rewrite Hc0 in Hq0.
        injection Hq0 as <-.
        destruct v as [s2| |]; cbn in HR; try discriminate.
        destruct (Hcells4 _ _ Hq2) as (v4 & Hq4 & HR4). cbn in HR4. subst v4.
        destruct (Hcells5 _ _ Hq4) as (v5 & Hq5 & HR5). cbn in HR5. subst v5.
        exists s2. auto.
      * apply list_elem_of_singleton in He'. subst e'.
        rewrite Hp in Hpel. discriminate.
      * destruct (Hnew5 e' He') as (Hk & _). rewrite Hp in Hk. discriminate.
    + rewrite (swap_private_objs_other _ vc4 _ Hf).
      apply (Hctm _ _ Hc0 Hst0).
  - (* the load tracker state *)
    rewrite <- Hpel, (swap_private_objs_copy vc4 _ el Hnd5 Hinl).
    destruct (Hcells5 _ _ Hcell4) as (v5 & Hq5 & HR5). cbn in HR5. subst v5.
    eexists. split; [exact Hq5|]. cbn [hvs_load membus_load].
    rewrite swap_private_objs_enabled.
    refine ((fun H => conj (proj1 H) (conj (proj2 H) Hlim4)) _).
    rewrite Hpl5, Hpl4.
    assert (forall j e, planes (txn m3) !! j = Some (Some e) ->
              dev_planes dev !! j = Some (old_plane_state e)) as Hold.
    { intros j e He.
      destruct (map_option_lookup old_plane_state _ _ j e Hhpl He)
        as (x & Hx & <-).
      rewrite Hpl2 in Hx. now apply get_plane_states_lookup in Hx. }
    rewrite !(planes_load_swap _ _ _ Hold), Hlh, Hlm, !u64_add_l.
    split; apply (f_equal u64); unfold m3; cbn [txn]; lia.
  - (* the HVS state *)
    rewrite <- Hpeh, (swap_private_objs_copy vc4 _ eh Hnd5 Hin5).
    exists h5. split; [exact Hcell5|].
    rewrite Hslots5, Hcr4.
    assert (forall j e, crtcs (txn m3) !! j = Some (Some e) ->
              exists c, dev_crtcs dev !! j = Some (c, old_state e)) as Hold.
    { intros j e He.
      destruct (map_option_lookup (fun e => (ptr e, old_state e)) _ _ j e Hhc He)
        as (x & Hx & [= _ <-]).
      specialize (Hslots2 j). rewrite Hx in Hslots2.
      destruct (crtcs (txn m0) !! j) as [[y|]|] eqn:Hy;
        cbn in Hslots2; try contradiction.
      destruct Hslots2 as (_ & -> & _).
      apply get_crtc_states_lookup in Hy as (c & s0 & Hc & <- & _).
      now exists c. }
    destruct (crtcs_active_swap _ _ Hold) as [-> ->].
    rewrite HN5, HF5, Hcr4.
    split; [apply (f_equal u32)|apply (f_equal (ulong w))];
      unfold m3; cbn [txn]; lia.
  - (* the clock rate *)
    eexists _, h5. rewrite <- Hpel, <- Hpeh.
    rewrite (swap_private_objs_copy vc4 _ el Hnd5 Hinl),
      (swap_private_objs_copy vc4 _ eh Hnd5 Hin5).
    split; [exact Hload5|]. split; [exact Hcell5|exact HC5].
Qed.

(** *** From one request to the next *)

Lemma drm_mode_atomic_ioctl_counted (w : Z) d helper dev req r dev' :
  0 <= w -> helper_keeps helper -> dev_counted w d dev ->
  drm_mode_atomic_ioctl w helper dev req = Some (r, dev') ->
  dev_counted w d dev'.
Proof.
  intros Hw Hh Hok H. unfold drm_mode_atomic_ioctl in H.
  destruct (vc4_atomic_check _ _ _ _) as [[r0 m']|] eqn:Hc; [|discriminate].
  destruct (Z.eqb_spec r0 0) as [->|Hr0]; cbn [negb] in H;
    [|now injection H as <- <-].
  destruct (existsb _ _); injection H as <- <-; [|assumption].
  apply (accepted_check_counted w d helper dev req m' Hw Hh Hok Hc).
Qed.

Lemma drm_mode_atomic_ioctls_counted (w : Z) d helper reqs dev dev' :
  0 <= w -> helper_keeps helper -> dev_counted w d dev ->
  drm_mode_atomic_ioctls w helper dev reqs = Some dev' ->
  dev_counted w d dev'.
Proof.
  intros Hw Hh. revert dev. induction reqs as [|req reqs IH]; intros dev Hok H.
  - now injection H as <-.
  - cbn in H.
    destruct (drm_mode_atomic_ioctl w helper dev req) as [[r dev1]|] eqn:E;
      [|discriminate].
    apply (IH dev1); [|assumption].
    apply (drm_mode_atomic_ioctl_counted w d helper dev req r dev1 Hw Hh Hok E).
Qed.

(** *** The cells that [vc4_kms_load] leaves *)

Lemma vc4_kms_load_cells is_vc5 env vc4_0 m0 vc4 m1 :
  vc4_kms_load is_vc5 env vc4_0 m0 = Some ((0, vc4), m1) ->
  mem m1
  = mem m0 ++ [CtmState zero_ctm_state; LoadState zero_load_tracker_state;
               HvsState (set_unassigned_channels
                           (GENMASK (HVS_NUM_CHANNELS - 1) 0) zero_hvs_state)] /\
  ctm_manager_state vc4 = length (mem m0) /\
  load_tracker_state vc4 = S (length (mem m0)) /\
  hvs_channels_state vc4 = S (S (length (mem m0))).
Proof.
  unfold vc4_kms_load. intros H.
  destruct (Z.ltb_spec (drm_vblank_init_ret env) 0) as [Hneg|_];
    [injection H as H _; lia|].
  apply bind_inv in H as (p1 & ma & H1 & H).
  apply vc4_ctm_obj_init_inv in H1 as [H1|[-> Ha]].
  { destruct (Z.eqb_spec (fst p1) 0); [contradiction|].
    injection H as -> _. now cbn in H1. }
  cbn [fst snd Z.eqb negb] in H.
  apply bind_inv in H as (p2 & mb & H2 & H).
  apply vc4_load_tracker_obj_init_inv in H2 as [H2|[-> Hb]].
  { destruct (Z.eqb_spec (fst p2) 0); [contradiction|].
    injection H as -> _. now cbn in H2. }
  cbn [fst snd Z.eqb negb] in H.
  apply bind_inv in H as (p3 & mc & H3 & H).
  apply vc4_hvs_channels_obj_init_inv in H3 as [H3|[-> Hc]].
  { destruct (Z.eqb_spec (fst p3) 0); [contradiction|].
    injection H as -> _. now cbn in H3. }
  cbn [fst snd Z.eqb negb] in H. injection H as <- <-.
  cbn [ctm_manager_state load_tracker_state hvs_channels_state set_obj_state].
  rewrite Hc, Hb, Ha, !length_app. cbn [length].
  split; [now rewrite <- !app_assoc|]. repeat split; lia.
Qed.

Lemma planes_load_unused f ps :
  Forall (fun p => plane_active p = false) ps -> planes_load f ps = 0.
Proof.
  induction 1 as [|p ps Hp _ IH]; cbn [planes_load]; [reflexivity|].
  now rewrite Hp, IH.
Qed.

Lemma crtcs_inactive cs :
  Forall (fun p : vc4_crtc * vc4_crtc_state => active (snd p) = false) cs ->
  crtcs_active cs = 0 /\ crtcs_load cs = 0.
Proof.
  induction 1 as [|c cs Hc _ [IH1 IH2]]; cbn [crtcs_active crtcs_load];
    [split; reflexivity|].
  now rewrite Hc, IH1, IH2.
Qed.

Lemma vc4_kms_load_counted (w : Z) is_vc5 env vc4_0 m0 vc4 m1 crtcs0 planes0 :
  vc4_kms_load is_vc5 env vc4_0 m0 = Some ((0, vc4), m1) ->
  dev_counted w
    {| ahead_hvs_load := - planes_load plane_hvs_load planes0;
       ahead_membus_load := - planes_load plane_membus_load planes0;
       ahead_num_outputs := - crtcs_active crtcs0;
       ahead_fifo_load := - crtcs_load crtcs0 |}
    {| dev_private := vc4; dev_mem := mem m1; dev_crtcs := crtcs0;
       dev_planes := planes0 |}.
Proof.
  intros H. apply vc4_kms_load_cells in H as (Hm & Hc & Hl & Hh).
  unfold dev_counted.
  cbn [dev_private dev_mem dev_crtcs dev_planes ahead_hvs_load
         ahead_membus_load ahead_num_outputs ahead_fifo_load].
  rewrite Hm, Hc, Hl, Hh.
  split; [|split; [|split]].
  - exists zero_ctm_state. split.
    + rewrite lookup_app_r by lia.
      now replace (length (mem m0) - length (mem m0))%nat with O by lia.
    + intros Hne. now cbn in Hne.
  - exists zero_load_tracker_state. split.
    + rewrite lookup_app_r by lia.
      now replace (S (length (mem m0)) - length (mem m0))%nat with 1%nat by lia.
    + cbn [hvs_load membus_load zero_load_tracker_state].
      rewrite !Z.add_opp_diag_l. split; [reflexivity|].
      split; [reflexivity|]. intros _. split; discriminate.
  - eexists. split.
    + rewrite lookup_app_r by lia.
      now replace (S (S (length (mem m0))) - length (mem m0))%nat
        with 2%nat by lia.
    + cbn [num_outputs fifo_load set_unassigned_channels zero_hvs_state].
      rewrite !Z.add_opp_diag_l. split; [reflexivity|].
      unfold ulong. symmetry. apply Zmod_0_l.
  - eexists _, _. split; [|split].
    + rewrite lookup_app_r by lia.
      now replace (S (length (mem m0)) - length (mem m0))%nat with 1%nat by lia.
    + rewrite lookup_app_r by lia.
      now replace (S (S (length (mem m0))) - length (mem m0))%nat
        with 2%nat by lia.
    + unfold core_clock, ulong.
      cbn [num_outputs fifo_load core_clock_rate hvs_load
             set_unassigned_channels zero_hvs_state zero_load_tracker_state].
      rewrite Zmod_0_l. cbn [Z.mul]. rewrite Zmod_0_l. reflexivity.
Qed.

(** ** The registers of the HVS *)

Lemma for_each_new_crtc_inv {A} (P : A -> Prop) st
    (body : drm_crtcs_state -> A -> A) (a : A) :
  P a ->
  (forall e a, Some e ∈ crtcs st -> P a -> P (body e a)) ->
  P (for_each_new_crtc_in_state st body a).
Proof.
  unfold for_each_new_crtc_in_state. generalize (crtcs st) as l.
  intros l. revert a. induction l as [|o l IH]; intros a Ha Hbody; [exact Ha|].
  cbn [fold_left]. apply IH.
  - destruct o as [e|]; [|exact Ha]. apply Hbody; [|exact Ha].
    apply elem_of_cons. now left.
  - intros e a' He. apply Hbody. apply elem_of_cons. now right.
Qed.

Lemma HVS_WRITE_other regs r val r' :
  r' <> r -> HVS_WRITE regs r val r' = regs r'.
Proof.
  intros Hne. unfold HVS_WRITE.
  destruct r', r; cbn; try reflexivity; now exfalso.
Qed.

Lemma HVS_WRITE_same regs r val : HVS_WRITE regs r val r = val.
Proof. unfold HVS_WRITE. now destruct r. Qed.

(** A bit outside the mask of a field keeps its value when the field is
    set. *)
Lemma set_field_bit (mask reg x k : Z) :
  0 <= k < 32 -> Z.testbit mask k = false -> Z.testbit x k = false ->
  Z.testbit (Z.lor (Z.land reg (u32 (Z.lnot mask))) x) k = Z.testbit reg k.
Proof.
  intros Hk Hm Hx. rewrite Z.lor_spec, Z.land_spec, Hx, orb_false_r.
  unfold u32. rewrite Z.mod_pow2_bits_low, Z.lnot_spec, Hm by lia.
  apply andb_true_r.
Qed.

Section RegisterLemmas.

Variable field_MASK : hvs_field -> Z.
Variable VC4_SET_FIELD : Z -> hvs_field -> Z.

(** The bits that [VC4_SET_FIELD] gives lie in the mask of the field. *)
Hypothesis VC4_SET_FIELD_mask :
  forall val f k, Z.testbit (field_MASK f) k = false ->
                  Z.testbit (VC4_SET_FIELD val f) k = false.

Lemma set_mux_other r f mux regs r' :
  r' <> r -> set_mux field_MASK VC4_SET_FIELD r f mux regs r' = regs r'.
Proof. intros Hne. unfold set_mux. now apply HVS_WRITE_other. Qed.

Lemma set_mux_bit r f mux regs k :
  0 <= k < 32 -> Z.testbit (field_MASK f) k = false ->
  Z.testbit (set_mux field_MASK VC4_SET_FIELD r f mux regs r) k
  = Z.testbit (regs r) k.
Proof.
  intros Hk Hm. unfold set_mux, HVS_READ. rewrite HVS_WRITE_same.
  apply set_field_bit; auto.
Qed.

(** X4. [vc4_hvs_pv_muxing_commit] writes to no register but
    [SCALER_DISPCTRL], of which it leaves every bit outside the field
    [DSP3_MUX]; and it writes nothing when no CRTC of the transaction is
    active on channel 2. *)
Theorem vc4_hvs_pv_muxing_commit_frame (st : drm_atomic_state) (regs : hvs_regs) :
  let regs' := vc4_hvs_pv_muxing_commit field_MASK VC4_SET_FIELD st regs in
  (forall r, r <> SCALER_DISPCTRL -> regs' r = regs r) /\
  (forall k, 0 <= k < 32 ->
     Z.testbit (field_MASK SCALER_DISPCTRL_DSP3_MUX) k = false ->
     Z.testbit (regs' SCALER_DISPCTRL) k = Z.testbit (regs SCALER_DISPCTRL) k) /\
  ((forall e, Some e ∈ crtcs st ->
      active (new_state e) = false \/ assigned_channel (new_state e) <> 2) ->
   forall r, regs' r = regs r).
Proof.
  cbv zeta. unfold vc4_hvs_pv_muxing_commit. split; [|split].
  - intros r Hr.
    apply (for_each_new_crtc_inv (fun x => x r = regs r)); [reflexivity|].
    intros e a _ Ha. unfold vc4_hvs_pv_muxing_crtc.
    destruct (negb _); [exact Ha|]. destruct (negb _); [exact Ha|].
    now rewrite HVS_WRITE_other.
  - intros k Hk Hm.
    apply (for_each_new_crtc_inv
             (fun x => Z.testbit (x SCALER_DISPCTRL) k
                       = Z.testbit (regs SCALER_DISPCTRL) k)); [reflexivity|].
    intros e a _ Ha. unfold vc4_hvs_pv_muxing_crtc.
    destruct (negb _); [exact Ha|]. destruct (negb _); [exact Ha|].
    rewrite HVS_WRITE_same. unfold HVS_READ. rewrite <- Ha.
    destruct (feed_txp _); apply set_field_bit; auto.
  - intros Hidle r.
    apply (for_each_new_crtc_inv (fun x => x r = regs r)); [reflexivity|].
    intros e a He Ha. unfold vc4_hvs_pv_muxing_crtc.
    destruct (Hidle e He) as [Hoff|Hch].
    + now rewrite Hoff.
    + destruct (negb (active _)); [exact Ha|].
      destruct (Z.eqb_spec (assigned_channel (new_state e)) 2);
        [contradiction|exact Ha].
Qed.

Lemma vc5_hvs_pv_muxing_crtc_frame e regs :
  (forall r, r = SCALER_OLEDOFFS \/ r = SCALER_OLEDCOEF0 \/
             r = SCALER_OLEDCOEF1 \/ r = SCALER_OLEDCOEF2 ->
     vc5_hvs_pv_muxing_crtc field_MASK VC4_SET_FIELD e regs r = regs r) /\
  (forall f k,
     f = SCALER_DISPCTRL_DSP3_MUX \/ f = SCALER_DISPECTRL_DSP2_MUX \/
     f = SCALER_DISPEOLN_DSP4_MUX \/ f = SCALER_DISPDITHER_DSP5_MUX ->
     0 <= k < 32 -> Z.testbit (field_MASK f) k = false ->
     Z.testbit (vc5_hvs_pv_muxing_crtc field_MASK VC4_SET_FIELD e regs (mux_reg f)) k
     = Z.testbit (regs (mux_reg f)) k).
Proof.
  unfold vc5_hvs_pv_muxing_crtc.
  destruct (negb _); [split; reflexivity|].
  assert (forall r f mux,
             r = mux_reg f ->
             (forall r', r' = SCALER_OLEDOFFS \/ r' = SCALER_OLEDCOEF0 \/
                         r' = SCALER_OLEDCOEF1 \/ r' = SCALER_OLEDCOEF2 ->
                         r' <> r) ->
             (f = SCALER_DISPCTRL_DSP3_MUX \/ f = SCALER_DISPECTRL_DSP2_MUX \/
              f = SCALER_DISPEOLN_DSP4_MUX \/ f = SCALER_DISPDITHER_DSP5_MUX) ->
             (forall r', r' = SCALER_OLEDOFFS \/ r' = SCALER_OLEDCOEF0 \/
                         r' = SCALER_OLEDCOEF1 \/ r' = SCALER_OLEDCOEF2 ->
                set_mux field_MASK VC4_SET_FIELD r f mux regs r' = regs r') /\
             (forall f' k,
                f' = SCALER_DISPCTRL_DSP3_MUX \/ f' = SCALER_DISPECTRL_DSP2_MUX \/
                f' = SCALER_DISPEOLN_DSP4_MUX \/ f' = SCALER_DISPDITHER_DSP5_MUX ->
                0 <= k < 32 -> Z.testbit (field_MASK f') k = false ->
                Z.testbit (set_mux field_MASK VC4_SET_FIELD r f mux regs (mux_reg f')) k
                = Z.testbit (regs (mux_reg f')) k)) as Harm.
  { intros r f mux -> Hother Hf. split.
    - intros r' Hr'. apply set_mux_other. now apply Hother.
    - intros f' k Hf' Hk Hm.
      assert (f' = f \/ mux_reg f' <> mux_reg f) as [->|Hne].
      { destruct Hf as [-> | [-> | [-> | ->]]], Hf' as [-> | [-> | [-> | ->]]];
          (now left) || (right; discriminate). }
      + now apply set_mux_bit.
      + f_equal. now apply set_mux_other. }
  destruct (hvs_output (ptr e)) as [|p|p]; try (split; reflexivity).
  repeat match goal with
         | p : positive |- _ => destruct p as [p|p|]; try (split; reflexivity)
         end;
    (apply Harm;
     [reflexivity
     |intros r' [-> | [-> | [-> | ->]]]; discriminate
     |auto]).
Qed.

(** X5. [vc5_hvs_pv_muxing_commit] leaves the registers of the matrix unit,
    and of the four registers that hold a mux field every bit outside that
    field; and it writes nothing when no CRTC of the transaction has
    [update_muxing] set. *)
Theorem vc5_hvs_pv_muxing_commit_frame (st : drm_atomic_state) (regs : hvs_regs) :
  let regs' := vc5_hvs_pv_muxing_commit field_MASK VC4_SET_FIELD st regs in
  (forall r, r = SCALER_OLEDOFFS \/ r = SCALER_OLEDCOEF0 \/
             r = SCALER_OLEDCOEF1 \/ r = SCALER_OLEDCOEF2 -> regs' r = regs r) /\
  (forall f k,
     f = SCALER_DISPCTRL_DSP3_MUX \/ f = SCALER_DISPECTRL_DSP2_MUX \/
     f = SCALER_DISPEOLN_DSP4_MUX \/ f = SCALER_DISPDITHER_DSP5_MUX ->
     0 <= k < 32 -> Z.testbit (field_MASK f) k = false ->
     Z.testbit (regs' (mux_reg f)) k = Z.testbit (regs (mux_reg f)) k) /\
  ((forall e, Some e ∈ crtcs st -> update_muxing (new_state e) = false) ->
   forall r, regs' r = regs r).
Proof.
  cbv zeta. unfold vc5_hvs_pv_muxing_commit. split; [|split].
  - intros r Hr.
    apply (for_each_new_crtc_inv (fun x => x r = regs r)); [reflexivity|].
    intros e a _ <-. now apply vc5_hvs_pv_muxing_crtc_frame.
  - intros f k Hf Hk Hm.
    apply (for_each_new_crtc_inv
             (fun x => Z.testbit (x (mux_reg f)) k
                       = Z.testbit (regs (mux_reg f)) k)); [reflexivity|].
    intros e a _ <-. now apply vc5_hvs_pv_muxing_crtc_frame.
  - intros Hidle r.
    apply (for_each_new_crtc_inv (fun x => x r = regs r)); [reflexivity|].
    intros e a He Ha. unfold vc5_hvs_pv_muxing_crtc.
    now rewrite (Hidle e He).
Qed.

End RegisterLemmas.

(** ** The published states, request after request *)

(** X6. From the device that [vc4_kms_load] leaves, with no plane active, and
    whatever requests follow: the published load tracker state holds, in
    64-bit arithmetic, the sum of the HVS loads and the sum of the memory
    bus loads of the planes that are active in the published state. *)
Theorem load_tracker_counts_active_planes (BITS_PER_LONG : Z)
    (helper : drm_atomic_state -> Z * drm_atomic_state)
    (is_vc5 : bool) (env : kms_load_env) (vc4_0 vc4 : vc4_dev)
    (m0 m1 : machine)
    (crtcs0 : list (vc4_crtc * vc4_crtc_state))
    (planes0 : list vc4_plane_state)
    (reqs : list drm_mode_atomic) (dev : drm_device) :
  0 <= BITS_PER_LONG ->
  helper_keeps helper ->
  vc4_kms_load is_vc5 env vc4_0 m0 = Some ((0, vc4), m1) ->
  Forall (fun p => plane_active p = false) planes0 ->
  drm_mode_atomic_ioctls BITS_PER_LONG helper
    {| dev_private := vc4; dev_mem := mem m1; dev_crtcs := crtcs0;
       dev_planes := planes0 |} reqs = Some dev ->
  exists l,
    dev_mem dev !! load_tracker_state (dev_private dev) = Some (LoadState l) /\
    hvs_load l = u64 (planes_load plane_hvs_load (dev_planes dev)) /\
    membus_load l = u64 (planes_load plane_membus_load (dev_planes dev)).
Proof.
  intros Hw Hh Hload Hoff Hrun.
  pose proof (vc4_kms_load_counted BITS_PER_LONG _ _ _ _ _ _ crtcs0 planes0 Hload)
    as Hok0.
  destruct (drm_mode_atomic_ioctls_counted _ _ _ _ _ _ Hw Hh Hok0 Hrun)
    as (_ & (l & Hcell & Hh1 & Hm1 & _) & _).
  cbn [ahead_hvs_load ahead_membus_load] in Hh1, Hm1.
  rewrite !planes_load_unused in Hh1, Hm1 by assumption.
  exists l. split; [assumption|]. split; assumption.
Qed.

(** X7. From the device that [vc4_kms_load] leaves, with no CRTC active, and
    whatever requests follow: the published HVS state holds the number of
    CRTCs that are active in the published state, as an [unsigned int], and
    the sum of their HVS loads, as an [unsigned long]. *)
Theorem hvs_state_counts_active_crtcs (BITS_PER_LONG : Z)
    (helper : drm_atomic_state -> Z * drm_atomic_state)
    (is_vc5 : bool) (env : kms_load_env) (vc4_0 vc4 : vc4_dev)
    (m0 m1 : machine)
    (crtcs0 : list (vc4_crtc * vc4_crtc_state))
    (planes0 : list vc4_plane_state)
    (reqs : list drm_mode_atomic) (dev : drm_device) :
  0 <= BITS_PER_LONG ->
  helper_keeps helper ->
  vc4_kms_load is_vc5 env vc4_0 m0 = Some ((0, vc4), m1) ->
  Forall (fun p => active (snd p) = false) crtcs0 ->
  drm_mode_atomic_ioctls BITS_PER_LONG helper
    {| dev_private := vc4; dev_mem := mem m1; dev_crtcs := crtcs0;
       dev_planes := planes0 |} reqs = Some dev ->
  exists h,
    dev_mem dev !! hvs_channels_state (dev_private dev) = Some (HvsState h) /\
    num_outputs h = u32 (crtcs_active (dev_crtcs dev)) /\
    fifo_load h = ulong BITS_PER_LONG (crtcs_load (dev_crtcs dev)).
Proof.
  intros Hw Hh Hload Hoff Hrun.
  pose proof (vc4_kms_load_counted BITS_PER_LONG _ _ _ _ _ _ crtcs0 planes0 Hload)
    as Hok0.
  destruct (drm_mode_atomic_ioctls_counted _ _ _ _ _ _ Hw Hh Hok0 Hrun)
    as (_ & _ & (h & Hcell & HN & HF) & _).
  cbn [ahead_num_outputs ahead_fifo_load] in HN, HF.
  destruct (crtcs_inactive crtcs0 Hoff) as [E1 E2].
  rewrite E1 in HN. rewrite E2 in HF.
  exists h. split; [assumption|]. split; assumption.
Qed.

Lemma obj_init_load_tracker_enabled env (init : vc4_dev -> M (Z * vc4_dev)) :
  (init = vc4_ctm_obj_init env \/ init = vc4_load_tracker_obj_init env
   \/ init = vc4_hvs_channels_obj_init env) ->
  forall vc4 m p m', init vc4 m = Some (p, m') ->
                     load_tracker_enabled (snd p) = load_tracker_enabled vc4.
Proof.
  intros [-> | [-> | ->]] vc4 m p m' H;
    unfold vc4_ctm_obj_init, vc4_load_tracker_obj_init,
      vc4_hvs_channels_obj_init in H;
    apply bind_inv in H as (q & mq & _ & H);
    destruct q; try (now injection H as <- <-).
  apply bind_inv in H as (x & mx & _ & H). now injection H as <- <-.
Qed.

Lemma vc4_kms_load_tracker_enabled env vc4 m p m' :
  vc4_kms_load false env vc4 m = Some (p, m') ->
  load_tracker_enabled (snd p) = true.
Proof.
  unfold vc4_kms_load. intros H.
  destruct (drm_vblank_init_ret env <? 0); [now injection H as <- <-|].
  apply bind_inv in H as (p1 & m1 & H1 & H).
  apply (obj_init_load_tracker_enabled env _ (or_introl eq_refl)) in H1.
  cbn in H1.
  destruct (negb _); [now injection H as <- <-|].
  apply bind_inv in H as (p2 & m2 & H2 & H).
  apply (obj_init_load_tracker_enabled env _ (or_intror (or_introl eq_refl)))
    in H2.
  destruct (negb _); [injection H as <- <-; congruence|].
  apply bind_inv in H as (p3 & m3 & H3 & H).
  apply (obj_init_load_tracker_enabled env _ (or_intror (or_intror eq_refl)))
    in H3.
  destruct (negb _); injection H as <- <-; cbn; congruence.
Qed.

Lemma drm_mode_atomic_ioctls_load_tracker_enabled (w : Z) helper reqs :
  forall dev dev',
    drm_mode_atomic_ioctls w helper dev reqs = Some dev' ->
    load_tracker_enabled (dev_private dev')
    = load_tracker_enabled (dev_private dev).
Proof.
  induction reqs as [|req reqs IH]; intros dev dev' H.
  - now injection H as <-.
  - cbn in H.
    destruct (drm_mode_atomic_ioctl w helper dev req) as [[r dev1]|] eqn:E;
      [|discriminate].
    rewrite (IH dev1 dev' H). unfold drm_mode_atomic_ioctl in E.
    destruct (vc4_atomic_check _ _ _ _) as [[r0 m']|]; [|discriminate].
    destruct (negb _); [now injection E as _ <-|].
    destruct (existsb _ _); injection E as _ <-; [|reflexivity].
    apply swap_private_objs_enabled.
Qed.

(** X8. On a device that [vc4_kms_load] has loaded as a VC4 (not a VC5), with
    no plane active, and whatever requests follow: the memory bus load of
    the planes that are active in the published state, summed in 64-bit
    arithmetic, is at most [SZ_1G + SZ_512M], and their HVS load at most
    240000000. *)
Theorem published_load_within_limits (BITS_PER_LONG : Z)
    (helper : drm_atomic_state -> Z * drm_atomic_state)
    (env : kms_load_env) (vc4_0 vc4 : vc4_dev)
    (m0 m1 : machine)
    (crtcs0 : list (vc4_crtc * vc4_crtc_state))
    (planes0 : list vc4_plane_state)
    (reqs : list drm_mode_atomic) (dev : drm_device) :
  0 <= BITS_PER_LONG ->
  helper_keeps helper ->
  vc4_kms_load false env vc4_0 m0 = Some ((0, vc4), m1) ->
  Forall (fun p => plane_active p = false) planes0 ->
  drm_mode_atomic_ioctls BITS_PER_LONG helper
    {| dev_private := vc4; dev_mem := mem m1; dev_crtcs := crtcs0;
       dev_planes := planes0 |} reqs = Some dev ->
  u64 (planes_load plane_membus_load (dev_planes dev)) <= SZ_1G + SZ_512M /\
  u64 (planes_load plane_hvs_load (dev_planes dev)) <= 240000000.
Proof.
  intros Hw Hh Hload Hoff Hrun.
  pose proof (vc4_kms_load_counted BITS_PER_LONG _ _ _ _ _ _ crtcs0 planes0 Hload)
    as Hok0.
  destruct (drm_mode_atomic_ioctls_counted _ _ _ _ _ _ Hw Hh Hok0 Hrun)
    as (_ & (l & Hcell & Hh1 & Hm1 & Hlim) & _).
  cbn [ahead_hvs_load ahead_membus_load] in Hh1, Hm1.
  rewrite !planes_load_unused in Hh1, Hm1 by assumption.
  destruct Hlim as [L1 L2].
  { rewrite (drm_mode_atomic_ioctls_load_tracker_enabled _ _ _ _ _ Hrun).
    apply (vc4_kms_load_tracker_enabled env vc4_0 m0 (0, vc4) m1 Hload). }
  rewrite Hm1 in L1. rewrite Hh1 in L2. split; [exact L1|exact L2].
Qed.

(** X9. From the device that [vc4_kms_load] leaves, and whatever requests
    follow: the clock rate of the published HVS state is the one
    [vc4_core_clock_atomic_check] stores for the published HVS and load
    tracker states, the maximum of the FIFO load and of 40 % (more than one
    output) or 60 % of the HVS load, in [unsigned long] arithmetic. *)
Theorem published_core_clock_rate (BITS_PER_LONG : Z)
    (helper : drm_atomic_state -> Z * drm_atomic_state)
    (is_vc5 : bool) (env : kms_load_env) (vc4_0 vc4 : vc4_dev)
    (m0 m1 : machine)
    (crtcs0 : list (vc4_crtc * vc4_crtc_state))
    (planes0 : list vc4_plane_state)
    (reqs : list drm_mode_atomic) (dev : drm_device) :
  0 <= BITS_PER_LONG ->
  helper_keeps helper ->
  vc4_kms_load is_vc5 env vc4_0 m0 = Some ((0, vc4), m1) ->
  drm_mode_atomic_ioctls BITS_PER_LONG helper
    {| dev_private := vc4; dev_mem := mem m1; dev_crtcs := crtcs0;
       dev_planes := planes0 |} reqs = Some dev ->
  exists l h,
    dev_mem dev !! load_tracker_state (dev_private dev) = Some (LoadState l) /\
    dev_mem dev !! hvs_channels_state (dev_private dev) = Some (HvsState h) /\
    core_clock_rate h
    = Z.max (fifo_load h)
        (if num_outputs h >? 1
         then ulong BITS_PER_LONG (ulong BITS_PER_LONG (hvs_load l) * 40) / 100
         else ulong BITS_PER_LONG (ulong BITS_PER_LONG (hvs_load l) * 60) / 100).
Proof.
  intros Hw Hh Hload Hrun.
  pose proof (vc4_kms_load_counted BITS_PER_LONG _ _ _ _ _ _ crtcs0 planes0 Hload)
    as Hok0.
  destruct (drm_mode_atomic_ioctls_counted _ _ _ _ _ _ Hw Hh Hok0 Hrun)
    as (_ & _ & _ & (l & h & Hl & Hcell & Hrate)).
  exists l, h. split; [exact Hl|]. split; [exact Hcell|exact Hrate].
Qed.

(** X10. From the device that [vc4_kms_load] leaves, and whatever requests
    follow, [vc4_ctm_commit] returns: when the published CTM state gives the
    matrix unit to a FIFO it has a matrix, and every scalar of that matrix
    has passed the check ([val & ~BIT_ULL(63)] is at most [BIT_ULL(32)]). *)
Theorem vc4_ctm_commit_returns (BITS_PER_LONG : Z)
    (helper : drm_atomic_state -> Z * drm_atomic_state)
    (is_vc5 : bool) (env : kms_load_env) (vc4_0 vc4 : vc4_dev)
    (m0 m1 : machine)
    (crtcs0 : list (vc4_crtc * vc4_crtc_state))
    (planes0 : list vc4_plane_state)
    (reqs : list drm_mode_atomic) (dev : drm_device)
    (VC4_SET_FIELD : Z -> hvs_field -> Z) (regs : hvs_regs) :
  0 <= BITS_PER_LONG ->
  helper_keeps helper ->
  vc4_kms_load is_vc5 env vc4_0 m0 = Some ((0, vc4), m1) ->
  drm_mode_atomic_ioctls BITS_PER_LONG helper
    {| dev_private := vc4; dev_mem := mem m1; dev_crtcs := crtcs0;
       dev_planes := planes0 |} reqs = Some dev ->
  exists c regs',
    dev_mem dev !! ctm_manager_state (dev_private dev) = Some (CtmState c) /\
    (fifo c <> 0 -> exists mx, ctm c = Some mx /\ admitted mx) /\
    vc4_ctm_commit VC4_SET_FIELD (dev_private dev) (dev_mem dev) regs
    = Some regs'.
Proof.
  intros Hw Hh Hload Hrun.
  pose proof (vc4_kms_load_counted BITS_PER_LONG _ _ _ _ _ _ crtcs0 planes0 Hload)
    as Hok0.
  destruct (drm_mode_atomic_ioctls_counted _ _ _ _ _ _ Hw Hh Hok0 Hrun)
    as ((c & Hcell & Hst) & _ & _).
  exists c. unfold vc4_ctm_commit. rewrite Hcell.
  destruct (firmware_kms (dev_private dev)).
  { eexists. split; [reflexivity|]. split; [exact Hst|reflexivity]. }
  destruct (Z.eqb_spec (fifo c) 0) as [E|E]; cbn [negb].
  { eexists. split; [reflexivity|]. split; [exact Hst|reflexivity]. }
  destruct (Hst E) as (mx & Hmx & Hadm). rewrite Hmx.
  eexists. split; [reflexivity|]. split; [|reflexivity].
  intros _. exists mx. now split.
Qed.

(** ** Commits that end *)

Lemma gives_back_hw_steps (ph : nat) (l1 l2 : list action) :
  forallb hw_step l1 = true -> gives_back ph (l1 ++ l2) = gives_back ph l2.
Proof.
  induction l1 as [|a l1 IH]; cbn [app forallb gives_back]; [reflexivity|].
  intros H. apply andb_prop in H as [Ha Hl].
  destruct a; try discriminate; cbn; now apply IH.
Qed.

Lemma calls_give_back (c : commit_call) :
  call_async_update c || has_private_obj (call_state c) hvs_channels = true ->
  gives_back 0 (calls_of c) = true.
Proof.
  intros Hh. unfold calls_of, vc4_atomic_commit, vc4_atomic_complete_commit.
  destruct (call_async_update c).
  { destruct (negb (down_interruptible_ret _ =? 0)); [reflexivity|].
    destruct (negb (prepare_planes_ret _ =? 0)); reflexivity. }
  cbn [orb] in Hh. rewrite Hh. cbn [negb].
  destruct (negb (setup_commit_ret _ =? 0)); [reflexivity|].
  destruct (negb (down_interruptible_ret _ =? 0)); [reflexivity|].
  destruct (negb (prepare_planes_ret _ =? 0)); [reflexivity|].
  destruct (call_nonblock c); cbn [negb andb].
  - cbn -[hardware_application].
    now rewrite gives_back_hw_steps by apply hardware_application_hw.
  - destruct (negb (wait_for_fences_ret _ =? 0)); [reflexivity|].
    cbn -[hardware_application].
    rewrite <- app_assoc.
    now rewrite gives_back_hw_steps by apply hardware_application_hw.
Qed.

Lemma gives_back_step d a rest :
  thread_ok {| made := d; pending := a :: rest |} ->
  gives_back (gate_phase d) (a :: rest) = true ->
  gives_back (gate_phase (a :: d)) rest = true.
Proof.
  intros Hok H.
  destruct (thread_step d a rest Hok) as (_ & Hdown & Hup & Hother).
  cbn [gives_back] in H.
  destruct (is_down a) eqn:Ed; [|destruct (is_up a) eqn:Eu].
  - destruct (Hdown eq_refl) as [_ ->]. assumption.
  - destruct (Hup eq_refl) as [_ ->]. assumption.
  - now rewrite (Hother eq_refl eq_refl).
Qed.

Lemma sched_inv s t s' :
  sched s t = Some s' ->
  exists d a rest,
    threads s !! t = Some {| made := d; pending := a :: rest |} /\
    threads s' = <[t := {| made := a :: d; pending := rest |}]> (threads s).
Proof.
  unfold sched. intros H.
  destruct (threads s !! t) as [[d [|a rest]]|] eqn:Ht; try discriminate.
  exists d, a, rest. split; [reflexivity|].
  destruct a; try (now injection H as <-);
    destruct (sem s); try discriminate; now injection H as <-.
Qed.

Lemma sched_gives_back s t s' :
  system_ok s ->
  (forall k th, threads s !! k = Some th ->
                gives_back (gate_phase (made th)) (pending th) = true) ->
  sched s t = Some s' ->
  forall k th, threads s' !! k = Some th ->
               gives_back (gate_phase (made th)) (pending th) = true.
Proof.
  intros [Hok _] Hall H k th Hk.
  apply sched_inv in H as (d & a & rest & Ht & Hs'). rewrite Hs' in Hk.
  apply lookup_insert_cases in Hk as [[_ ->]|[_ Hk]]; [|now apply (Hall k)].
  cbn [made pending].
  apply gives_back_step; [apply (Hok t _ Ht)|apply (Hall t _ Ht)].
Qed.

Lemma run_gives_back schedule : forall s s',
  system_ok s ->
  (forall k th, threads s !! k = Some th ->
                gives_back (gate_phase (made th)) (pending th) = true) ->
  run s schedule = Some s' ->
  forall k th, threads s' !! k = Some th ->
               gives_back (gate_phase (made th)) (pending th) = true.
Proof.
  induction schedule as [|t ts IH]; intros s s' Hs Hall H; cbn in H.
  - now injection H as <-.
  - destruct (sched s t) as [s1|] eqn:E; [|discriminate].
    apply (IH s1 s'); [now apply (sched_ok s t)| |assumption].
    now apply (sched_gives_back s t).
Qed.

Lemma pending_or_done (l : list commit_thread) :
  (forall t th, l !! t = Some th -> pending th = []) \/
  (exists t d a rest, l !! t = Some {| made := d; pending := a :: rest |}).
Proof.
  induction l as [|[d [|a rest]] l IH].
  - left. intros t th H. discriminate.
  - destruct IH as [IH|(t & d' & a & rest & H)].
    + left. intros [|t] th H; [now injection H as <-|now apply (IH t)].
    + right. now exists (S t), d', a, rest.
  - right. now exists 0%nat, d, a, rest.
Qed.

Lemma holders_none (l : list commit_thread) :
  (forall t th, l !! t = Some th -> holds_gate th = false) -> holders l = 0%nat.
Proof.
  induction l as [|x l IH]; intros H; [reflexivity|].
  cbn [holders]. rewrite (H 0%nat x eq_refl), IH; [reflexivity|].
  intros t th Ht. apply (H (S t) th Ht).
Qed.

Lemma holders_some (l : list commit_thread) :
  (1 <= holders l)%nat -> exists t th, l !! t = Some th /\ holds_gate th = true.
Proof.
  induction l as [|x l IH]; cbn [holders]; [lia|].
  destruct (holds_gate x) eqn:E.
  - intros _. now exists 0%nat, x.
  - intros H. destruct IH as (t & th & Ht & Hh); [lia|]. now exists (S t), th.
Qed.

Lemma holders_only (l : list commit_thread) t th :
  l !! t = Some th -> holds_gate th = true -> (holders l <= 1)%nat ->
  forall k x, l !! k = Some x -> holds_gate x = true -> k = t.
Proof.
  intros Ht Hh Hle k x Hk Hx. destruct (Nat.eq_dec k t) as [|Hne]; [assumption|].
  pose proof (holders_two l k t x th Hne Hk Ht Hx Hh). lia.
Qed.

Lemma sched_not_down s t d a rest :
  threads s !! t = Some {| made := d; pending := a :: rest |} ->
  is_down a = false \/ sem s <> 0%nat ->
  exists s', sched s t = Some s'.
Proof.
  intros Ht H. unfold sched. rewrite Ht.
  destruct a; try (eexists; reflexivity).
  destruct H as [H|H]; [discriminate|].
  destruct (sem s); [contradiction|]. eexists; reflexivity.
Qed.

(** X11. Commits that are async updates or whose transactions hold a copy of
    the HVS state never block one another for good: in every state their
    interleavings reach, either every commit has made all its calls and the
    semaphore counts 1 again, or some commit can make its next call. *)
Theorem commits_never_deadlock (cs : list commit_call) (schedule : list nat)
    (s : system) :
  (forall c, c ∈ cs ->
     call_async_update c || has_private_obj (call_state c) hvs_channels
     = true) ->
  run (start (map calls_of cs)) schedule = Some s ->
  ((forall t th, threads s !! t = Some th -> pending th = []) /\ sem s = 1%nat)
  \/ (exists t s', sched s t = Some s').
Proof.
  intros Hcs Hrun.
  pose proof (run_ok schedule _ _ (start_ok cs) Hrun) as Hok.
  assert (forall k th, threads s !! k = Some th ->
            gives_back (gate_phase (made th)) (pending th) = true) as Hgb.
  { apply (run_gives_back schedule _ s (start_ok cs)); [|assumption].
    intros k th Hk. unfold start in Hk. cbn [threads] in Hk.
    rewrite !list_lookup_fmap in Hk.
    destruct (cs !! k) as [c|] eqn:Ec; [|discriminate].
    injection Hk as <-. cbn [made pending gate_phase existsb].
    apply calls_give_back, Hcs. now apply list_elem_of_lookup_2 in Ec. }
  destruct Hok as [Hth Hsem].
  destruct (pending_or_done (threads s)) as [Hdone|(t & d & a & rest & Ht)].
  - left. split; [assumption|].
    rewrite holders_none in Hsem; [lia|].
    intros t th Ht. specialize (Hgb t th Ht). rewrite (Hdone t th Ht) in Hgb.
    cbn in Hgb. rewrite holds_gate_phase. now destruct (Nat.eqb _ 1).
  - right. destruct (sem s) as [|n] eqn:Es.
    + destruct (holders_some (threads s)) as (t' & th' & Ht' & Hh'); [lia|].
      rewrite holds_gate_phase in Hh'. apply Nat.eqb_eq in Hh'.
      pose proof (Hgb t' th' Ht') as Hg. destruct (Hth t' th' Ht') as [Hp _].
      rewrite Hh' in Hg, Hp.
      destruct th' as [d' [|a' rest']]; [discriminate|].
      exists t'. apply (sched_not_down s t' d' a' rest' Ht'). left.
      cbn in Hp. now destruct (is_down a').
    + exists t. apply (sched_not_down s t d a rest Ht). right. lia.
Qed.

(** ** A commit without its HVS copy *)

Lemma sched_program s t s' (progs : list (list action)) :
  (forall k p, progs !! k = Some p ->
     exists th, threads s !! k = Some th /\ rev (made th) ++ pending th = p) ->
  sched s t = Some s' ->
  forall k p, progs !! k = Some p ->
    exists th, threads s' !! k = Some th /\ rev (made th) ++ pending th = p.
Proof.
  intros Hall H k p Hk.
  apply sched_inv in H as (d & a & rest & Ht & Hs'). rewrite Hs'.
  destruct (Hall k p Hk) as (th & Hth & Hp).
  destruct (Nat.eq_dec t k) as [<-|Hne].
  - rewrite (lookup_insert_same _ _ _ _ Ht). eexists. split; [reflexivity|].
    rewrite Ht in Hth. injection Hth as <-. cbn [made pending rev] in *.
    now rewrite <- app_assoc.
  - rewrite list_lookup_insert_ne by assumption. now exists th.
Qed.

Lemma run_program schedule (progs : list (list action)) : forall s s',
  (forall k p, progs !! k = Some p ->
     exists th, threads s !! k = Some th /\ rev (made th) ++ pending th = p) ->
  run s schedule = Some s' ->
  forall k p, progs !! k = Some p ->
    exists th, threads s' !! k = Some th /\ rev (made th) ++ pending th = p.
Proof.
  induction schedule as [|t ts IH]; intros s s' Hall H; cbn in H.
  - now injection H as <-.
  - destruct (sched s t) as [s1|] eqn:E; [|discriminate].
    apply (IH s1 s'); [|assumption]. now apply (sched_program s t).
Qed.

Lemma start_program (progs : list (list action)) k p :
  progs !! k = Some p ->
  exists th, threads (start progs) !! k = Some th /\
             rev (made th) ++ pending th = p.
Proof.
  intros Hk. unfold start. cbn [threads]. rewrite list_lookup_fmap, Hk.
  eexists. split; reflexivity.
Qed.

Lemma sched_done s t s' k th :
  sched s t = Some s' -> threads s !! k = Some th -> pending th = [] ->
  threads s' !! k = Some th.
Proof.
  intros H Hk Hp. apply sched_inv in H as (d & a & rest & Ht & ->).
  rewrite list_lookup_insert_ne; [assumption|].
  intros <-. rewrite Ht in Hk. injection Hk as <-. discriminate.
Qed.

Lemma run_done schedule : forall s s' k th,
  run s schedule = Some s' -> threads s !! k = Some th -> pending th = [] ->
  threads s' !! k = Some th.
Proof.
  induction schedule as [|t ts IH]; intros s s' k th H Hk Hp; cbn in H.
  - now injection H as <-.
  - destruct (sched s t) as [s1|] eqn:E; [|discriminate].
    apply (IH s1 s' k th H); [|assumption]. now apply (sched_done s t).
Qed.

Lemma existsb_rev' {A} (f : A -> bool) (l : list A) :
  existsb f (rev l) = existsb f l.
Proof.
  induction l as [|a l IH]; [reflexivity|].
  cbn [rev existsb]. rewrite existsb_app, IH. cbn. rewrite orb_false_r.
  apply orb_comm.
Qed.

Lemma existsb_hw_steps_down (l : list action) :
  forallb hw_step l = true -> existsb is_up l = false.
Proof.
  induction l as [|a l IH]; cbn [forallb existsb]; [reflexivity|].
  intros H. apply andb_prop in H as [Ha Hl]. rewrite (IH Hl).
  now destruct a.
Qed.

Lemma swap_without_hvs_copy (c : commit_call) :
  has_private_obj (call_state c) hvs_channels = false ->
  existsb is_swap_state (calls_of c) = true ->
  existsb is_down (calls_of c) = true /\ existsb is_up (calls_of c) = false /\
  returned (calls_of c) = 0.
Proof.
  intros Hh. unfold calls_of, vc4_atomic_commit, vc4_atomic_complete_commit.
  rewrite Hh. cbn [negb].
  destruct (call_async_update c).
  { destruct (negb (down_interruptible_ret _ =? 0)); [discriminate|].
    destruct (negb (prepare_planes_ret _ =? 0)); discriminate. }
  destruct (negb (setup_commit_ret _ =? 0)); [discriminate|].
  destruct (negb (down_interruptible_ret _ =? 0)); [discriminate|].
  destruct (negb (prepare_planes_ret _ =? 0)); [discriminate|].
  destruct (call_nonblock c); cbn [negb andb]; [now cbn|].
  destruct (negb (wait_for_fences_ret _ =? 0)); [discriminate|]. now cbn.
Qed.

(** X12. A commit that publishes its transaction although the transaction
    holds no copy of the HVS state answers 0 and never gives the semaphore
    back: once it has made all its calls the semaphore counts 0 and, whatever
    the other commits do from then on, it stays at 0 and none of them is in
    its hardware application. *)
Theorem commit_without_hvs_state_keeps_gate (cs : list commit_call)
    (schedule more : list nat) (s s' : system) (t : nat) (c : commit_call)
    (th : commit_thread) :
  run (start (map calls_of cs)) schedule = Some s ->
  cs !! t = Some c ->
  has_private_obj (call_state c) hvs_channels = false ->
  existsb is_swap_state (calls_of c) = true ->
  threads s !! t = Some th ->
  pending th = [] ->
  run s more = Some s' ->
  returned (calls_of c) = 0 /\
  sem s' = 0%nat /\
  forall k x, threads s' !! k = Some x -> applying_hardware x = false.
Proof.
  intros Hrun Hc Hh Hswap Ht Hp Hmore.
  destruct (swap_without_hvs_copy c Hh Hswap) as (Hd & Hu & Hr).
  split; [assumption|].
  pose proof (run_ok schedule _ _ (start_ok cs) Hrun) as Hok.
  pose proof (run_ok more _ _ Hok Hmore) as [Hth' Hsem'].
  pose proof (run_done more s s' t th Hmore Ht Hp) as Ht'.
  assert (rev (made th) ++ pending th = calls_of c) as Hprog.
  { destruct (run_program schedule (map calls_of cs) _ s
                (start_program (map calls_of cs)) Hrun t (calls_of c))
      as (x & Hx & Hxp).
    - now rewrite list_lookup_fmap, Hc.
    - rewrite Ht in Hx. now injection Hx as <-. }
  rewrite Hp, app_nil_r in Hprog.
  assert (holds_gate th = true) as Hholds.
  { unfold holds_gate. rewrite <- (rev_involutive (made th)), Hprog.
    rewrite !existsb_rev', Hd, Hu. reflexivity. }
  assert (1 <= holders (threads s'))%nat as Hone.
  { clear -Ht' Hholds. revert t Ht'.
    induction (threads s') as [|y l IH]; intros [|t] H; try discriminate.
    - injection H as ->. cbn [holders]. rewrite Hholds. lia.
    - cbn [holders]. specialize (IH t H). lia. }
  split; [lia|].
  intros k x Hk. destruct (applying_hardware x) eqn:E; [|reflexivity].
  pose proof (applying_holds x (Hth' k x Hk) E) as Hx.
  assert (k = t) as ->
    by (apply (holders_only (threads s') t th Ht' Hholds) with (x := x);
        [lia|assumption|assumption]).
  rewrite Ht' in Hk. injection Hk as <-.
  unfold applying_hardware in E. rewrite Hp in E. cbn in E.
  now rewrite andb_false_r in E.
Qed.

(** ** Commits that fail *)

Lemma returned_hw_steps (l1 l2 : list action) :
  forallb hw_step l1 = true -> returned (l1 ++ l2) = returned l2.
Proof.
  induction l1 as [|a l1 IH]; cbn [app forallb]; [reflexivity|].
  intros H. apply andb_prop in H as [Ha Hl].
  destruct a; try discriminate; cbn [returned]; now apply IH.
Qed.

Lemma returned_complete_commit vc4 st (l : list action) :
  returned (vc4_atomic_complete_commit vc4 st ++ l) = returned l.
Proof.
  unfold vc4_atomic_complete_commit. destruct (negb _); [reflexivity|].
  rewrite <- app_assoc, returned_hw_steps by apply hardware_application_hw.
  reflexivity.
Qed.

Lemma swap_returns_0 vc4 st async nonblock env :
  existsb is_swap_state (vc4_atomic_commit vc4 st async nonblock env) = true ->
  returned (vc4_atomic_commit vc4 st async nonblock env) = 0.
Proof.
  unfold vc4_atomic_commit.
  destruct async.
  { destruct (negb (down_interruptible_ret _ =? 0)); [discriminate|].
    destruct (negb (prepare_planes_ret _ =? 0)); discriminate. }
  destruct (negb (setup_commit_ret _ =? 0)); [discriminate|].
  destruct (negb (down_interruptible_ret _ =? 0)); [discriminate|].
  destruct (negb (prepare_planes_ret _ =? 0)); [discriminate|].
  destruct nonblock; cbn [negb andb]; [intros _; reflexivity|].
  destruct (negb (wait_for_fences_ret _ =? 0)) eqn:E; [discriminate|].
  intros _. cbn -[vc4_atomic_complete_commit]. apply returned_complete_commit.
Qed.

Ltac failed_path :=
  intros _; repeat split; try reflexivity;
  let Hin := fresh "Hin" in
  intros Hin; first [ now (cbn; auto 10) | cbn in Hin; intuition discriminate ].

(** X13. A commit that answers an error has published nothing and holds
    nothing: its calls include neither [drm_atomic_helper_swap_state] nor
    [queue_work], every [down_interruptible] that went through is followed
    by an [up], and the planes it prepared before a failing wait for the
    fences are cleaned up. *)
Theorem failed_commit_publishes_nothing (vc4 : vc4_dev) (st : drm_atomic_state)
    (async_update nonblock : bool) (env : commit_env) :
  let l := vc4_atomic_commit vc4 st async_update nonblock env in
  returned l <> 0 ->
  existsb is_swap_state l = false /\
  existsb is_queue_work l = false /\
  gives_back 0 l = true /\
  length (filter is_down l) = length (filter is_up l) /\
  (In (wait_for_fences true) l -> In cleanup_planes l).
Proof.
  intros l H.
  destruct (existsb is_swap_state l) eqn:Hs;
    [now apply swap_returns_0 in Hs|].
  clear H. split; [reflexivity|]. revert Hs. subst l. unfold vc4_atomic_commit.
  destruct async_update.
  { destruct (negb (down_interruptible_ret _ =? 0)); [failed_path|].
    destruct (negb (prepare_planes_ret _ =? 0)); failed_path. }
  destruct (negb (setup_commit_ret _ =? 0)); [failed_path|].
  destruct (negb (down_interruptible_ret _ =? 0));
    [failed_path|].
  destruct (negb (prepare_planes_ret _ =? 0));
    [failed_path|].
  destruct (negb nonblock && negb (wait_for_fences_ret _ =? 0)) eqn:E;
    [failed_path|].
  intros Hs. exfalso. revert Hs.
  cbn [existsb app is_swap_state orb]. rewrite !existsb_app. cbn.
  rewrite orb_true_r. discriminate.
Qed.

(** X14. A request that answers an error leaves the device as it was, whether
    the check refused it or the commit failed at
    [drm_atomic_helper_setup_commit], [down_interruptible],
    [drm_atomic_helper_prepare_planes] or the wait for the fences. *)
Theorem failed_request_keeps_device (BITS_PER_LONG : Z)
    (helper : drm_atomic_state -> Z * drm_atomic_state)
    (dev : drm_device) (req : drm_mode_atomic) (r : Z) (dev' : drm_device) :
  drm_mode_atomic_ioctl BITS_PER_LONG helper dev req = Some (r, dev') ->
  r <> 0 ->
  dev' = dev.
Proof.
  unfold drm_mode_atomic_ioctl. intros H Hr.
  destruct (vc4_atomic_check _ _ _ _) as [[r0 m']|]; [|discriminate].
  destruct (negb (r0 =? 0)); [now injection H as _ <-|].
  destruct (existsb is_swap_state _) eqn:Hs; [|now injection H as _ <-].
  apply swap_returns_0 in Hs. injection H as <- _. contradiction.
Qed.

(** ** What [vc4_kms_load] answers *)

Lemma vc4_ctm_obj_init_run env vc4 m :
  vc4_ctm_obj_init env vc4 m
  = match slab m with
    | O => Some ((- ENOMEM, vc4), m)
    | S n =>
        Some ((drmm_add_action_or_reset_ret env ctm_manager,
               set_obj_state ctm_manager (length (mem m)) vc4),
              {| mem := mem m ++ [CtmState zero_ctm_state]; slab := n;
                 txn := txn m |})
    end.
Proof.
  unfold vc4_ctm_obj_init, bind, kmalloc. now destruct (slab m).
Qed.

Lemma vc4_load_tracker_obj_init_run env vc4 m :
  vc4_load_tracker_obj_init env vc4 m
  = match slab m with
    | O => Some ((- ENOMEM, vc4), m)
    | S n =>
        Some ((drmm_add_action_or_reset_ret env load_tracker,
               set_obj_state load_tracker (length (mem m)) vc4),
              {| mem := mem m ++ [LoadState zero_load_tracker_state]; slab := n;
                 txn := txn m |})
    end.
Proof.
  unfold vc4_load_tracker_obj_init, bind, kmalloc. now destruct (slab m).
Qed.

Lemma vc4_hvs_channels_obj_init_run env vc4 m :
  vc4_hvs_channels_obj_init env vc4 m
  = match slab m with
    | O => Some ((- ENOMEM, vc4), m)
    | S n =>
        Some ((drmm_add_action_or_reset_ret env hvs_channels,
               set_obj_state hvs_channels (length (mem m)) vc4),
              {| mem := mem m
                        ++ [HvsState (set_unassigned_channels
                                        (GENMASK (HVS_NUM_CHANNELS - 1) 0)
                                        zero_hvs_state)];
                 slab := n; txn := txn m |})
    end.
Proof.
  unfold vc4_hvs_channels_obj_init, bind at 1, kmalloc.
  destruct (slab m) as [|n]; [reflexivity|].
  erewrite bind_Some by (apply modify_hvs_ok; cbn [mem]; apply lookup_last).
  unfold ret, with_mem. cbn [mem slab txn]. now rewrite insert_last.
Qed.

(** X15. [vc4_kms_load] always returns.  It answers 0 exactly when
    [drm_vblank_init] answers no error, three allocations are granted and
    [drmm_add_action_or_reset] answers 0 for the three objects; the three
    published states are then three new cells, in the order CTM, load
    tracker, HVS: zeroed, but for the three free channels of the HVS state;
    the semaphore counts 1, and the load tracker is enabled unless the
    device is a VC5.  Any other answer is that of [drm_vblank_init],
    [-ENOMEM] or that of [drmm_add_action_or_reset]. *)
Theorem vc4_kms_load_result (is_vc5 : bool) (env : kms_load_env)
    (vc4_0 : vc4_dev) (m0 : machine) :
  exists r vc4 m1,
    vc4_kms_load is_vc5 env vc4_0 m0 = Some ((r, vc4), m1) /\
    (r = 0 <->
     0 <= drm_vblank_init_ret env /\ (3 <= slab m0)%nat /\
     forall obj, drmm_add_action_or_reset_ret env obj = 0) /\
    (r = 0 ->
     mem m1
     = mem m0 ++ [CtmState zero_ctm_state; LoadState zero_load_tracker_state;
                  HvsState {| unassigned_channels := 7; num_outputs := 0;
                              fifo_load := 0; core_clock_rate := 0 |}] /\
     (slab m1 + 3 = slab m0)%nat /\
     txn m1 = txn m0 /\
     ctm_manager_state vc4 = length (mem m0) /\
     load_tracker_state vc4 = S (length (mem m0)) /\
     hvs_channels_state vc4 = S (S (length (mem m0))) /\
     async_modeset vc4 = 1%nat /\
     firmware_kms vc4 = firmware_kms vc4_0 /\
     hvs5 vc4 = hvs5 vc4_0 /\
     load_tracker_enabled vc4 = negb is_vc5 || load_tracker_enabled vc4_0) /\
    (r <> 0 ->
     r = drm_vblank_init_ret env \/ r = - ENOMEM \/
     exists obj, r = drmm_add_action_or_reset_ret env obj).
Proof.
  unfold vc4_kms_load.
  destruct (Z.ltb_spec (drm_vblank_init_ret env) 0) as [Hneg|Hpos].
  { eexists _, _, _. split; [reflexivity|].
    split; [split; [lia|intros (H & _); lia]|].
    split; [intros H; lia|]. intros _. now left. }
  unfold bind at 1. rewrite vc4_ctm_obj_init_run.
  destruct (slab m0) as [|n1] eqn:Hs0.
  { eexists _, _, _. split; [reflexivity|]. cbn [fst snd].
    split; [split; [discriminate|intros (_ & H & _); lia]|].
    split; [discriminate|]. intros _. right. now left. }
  cbn [fst snd].
  destruct (Z.eqb_spec (drmm_add_action_or_reset_ret env ctm_manager) 0)
    as [E1|E1]; cbn [negb].
  2:{ eexists _, _, _. split; [reflexivity|].
      split; [split; [contradiction|intros (_ & _ & H); now specialize (H ctm_manager)]|].
      split; [contradiction|]. intros _. right. right. now exists ctm_manager. }
  unfold bind at 1. rewrite vc4_load_tracker_obj_init_run. cbn [slab mem txn].
  destruct n1 as [|n2].
  { eexists _, _, _. split; [reflexivity|]. cbn [fst snd].
    split; [split; [discriminate|intros (_ & H & _); lia]|].
    split; [discriminate|]. intros _. right. now left. }
  cbn [fst snd].
  destruct (Z.eqb_spec (drmm_add_action_or_reset_ret env load_tracker) 0)
    as [E2|E2]; cbn [negb].
  2:{ eexists _, _, _. split; [reflexivity|].
      split; [split; [contradiction|intros (_ & _ & H); now specialize (H load_tracker)]|].
      split; [contradiction|]. intros _. right. right. now exists load_tracker. }
  unfold bind at 1. rewrite vc4_hvs_channels_obj_init_run. cbn [slab mem txn].
  destruct n2 as [|n3].
  { eexists _, _, _. split; [reflexivity|]. cbn [fst snd].
    split; [split; [discriminate|intros (_ & H & _); lia]|].
    split; [discriminate|]. intros _. right. now left. }
  cbn [fst snd].
  destruct (Z.eqb_spec (drmm_add_action_or_reset_ret env hvs_channels) 0)
    as [E3|E3]; cbn [negb].
  2:{ eexists _, _, _. split; [reflexivity|].
      split; [split; [contradiction|intros (_ & _ & H); now specialize (H hvs_channels)]|].
      split; [contradiction|]. intros _. right. right. now exists hvs_channels. }
  eexists _, _, _. split; [reflexivity|].
  split; [split; [intros _|reflexivity]|].
  { split; [lia|]. split; [lia|]. now intros [| |]. }
  split; [|intros H; now contradiction H].
  intros _. cbn [mem slab txn]. rewrite !length_app, <- !app_assoc. cbn.
  repeat split; lia.
Qed.

(** ** The muxing check without the HVS state *)

Lemma hvs_state_not_obtained vc4 m :
  find_private_obj (txn m) hvs_channels = None ->
  acquire_ctx (txn m) <> 0 \/ slab m = 0%nat ->
  vc4_hvs_get_global_state vc4 m
  = Some (ERR_PTR (if acquire_ctx (txn m) =? 0 then - ENOMEM
                   else acquire_ctx (txn m)), m).
Proof.
  intros Hf Hwhy. unfold find_private_obj in Hf.
  unfold vc4_hvs_get_global_state, drm_atomic_get_private_obj_state.
  unfold bind at 1. unfold bind at 1. unfold get_state at 1. rewrite Hf.
  unfold bind at 1. unfold drm_modeset_lock, bind, get_state, ret.
  destruct (Z.eqb_spec (acquire_ctx (txn m)) 0) as [E|E]; cbn [negb].
  - destruct Hwhy as [Hne|Hs]; [contradiction|].
    cbn [atomic_duplicate_state].
    unfold vc4_hvs_channels_duplicate_state, bind, kmalloc.
    rewrite Hs. reflexivity.
  - reflexivity.
Qed.

Lemma pv_muxing_crtc_error_pointer vc4 err i e m :
  crtcs (txn m) !! i = Some (Some e) ->
  pv_muxing_crtc vc4 (ERR_PTR err) i e tt m
  = if firmware_kms vc4 || idle_slot (Some e) then Some (Continue tt, m)
    else None.
Proof.
  intros Hi. unfold pv_muxing_crtc. cbn [idle_slot].
  destruct (firmware_kms vc4); [reflexivity|]. cbn [orb].
  destruct (Bool.eqb _ _); [reflexivity|].
  rewrite (bind_Some _ _ _ _ _ (modify_new_crtc_state_ok m i e _ Hi)).
  destruct (negb (enable (new_state e))); reflexivity.
Qed.

Lemma pv_muxing_loop_error_pointer vc4 err (n : nat) : forall i m,
  for_index n i tt
    (fun i a =>
       st <- get_state ;;
       match crtcs st !! i with
       | Some (Some e) => pv_muxing_crtc vc4 (ERR_PTR err) i e a
       | _ => ret (Continue a)
       end) m
  = if firmware_kms vc4 || forallb idle_slot (take n (drop i (crtcs (txn m))))
    then Some (Continue tt, m) else None.
Proof.
  induction n as [|n IH]; intros i m.
  - cbn. now rewrite orb_true_r.
  - cbn [for_index]. unfold bind at 1. unfold bind at 1. unfold get_state at 1.
    destruct (crtcs (txn m) !! i) as [o|] eqn:Hi.
    + rewrite (drop_S _ _ _ Hi). cbn [take forallb].
      destruct o as [e|].
      * rewrite (pv_muxing_crtc_error_pointer vc4 err i e m Hi).
        destruct (firmware_kms vc4) eqn:Hfw; cbn [orb].
        -- rewrite IH. reflexivity.
        -- destruct (idle_slot (Some e)); cbn [andb]; [|reflexivity].
           rewrite IH. reflexivity.
      * unfold ret. cbn [idle_slot andb]. apply IH.
    + unfold ret. rewrite IH.
      apply lookup_ge_None in Hi.
      rewrite !drop_ge by lia. rewrite !take_nil. reflexivity.
Qed.

(** X16. When the muxing check cannot obtain the HVS state (the transaction
    has no copy of it yet, and the lock answers an error or no memory is
    granted), it does not answer the error: [vc4_hvs_get_global_state] hands
    back an error pointer, which the test for NULL lets through.  The check
    then answers 0 and has changed nothing when the firmware drives the
    display or no CRTC of the transaction is switched on or off, and
    otherwise does not return: it writes through the error pointer. *)
Theorem pv_muxing_check_without_hvs_state (vc4 : vc4_dev) (m : machine) :
  find_private_obj (txn m) hvs_channels = None ->
  acquire_ctx (txn m) <> 0 \/ slab m = 0%nat ->
  vc4_pv_muxing_atomic_check vc4 m
  = if firmware_kms vc4 || forallb idle_slot (crtcs (txn m))
    then Some (0, m) else None.
Proof.
  intros Hf Hwhy. unfold vc4_pv_muxing_atomic_check.
  rewrite (bind_Some _ _ _ _ _ (hvs_state_not_obtained vc4 m Hf Hwhy)).
  cbn [is_NULL]. unfold for_each_oldnew_crtc_in_state.
  unfold bind at 1. unfold bind at 1. unfold get_state at 1.
  rewrite pv_muxing_loop_error_pointer. rewrite drop_0, firstn_all.
  now destruct (_ || _).
Qed.

(** ** What the checks touch *)

(** X17. What [vc4_pv_muxing_atomic_check] touches, whatever it answers: of
    the transaction, [assigned_channel] and [update_muxing] of the new
    states of the CRTCs; of the private states, a copy of the HVS state
    that it may add to the transaction, and in the cells of HVS states the
    free channels only. *)
Theorem vc4_pv_muxing_atomic_check_footprint (vc4 : vc4_dev) (m : machine)
    (r : Z) (m' : machine) :
  published_cells vc4 m ->
  vc4_pv_muxing_atomic_check vc4 m = Some (r, m') ->
  touches vc4 pv_muxing_footprint m m'.
Proof. apply within_vc4_pv_muxing_atomic_check. Qed.

(** X18. What [vc4_ctm_atomic_check] touches, whatever it answers: nothing of
    the CRTCs and planes of the transaction; of the private states, a copy
    of the CTM state that it may add to the transaction, and the cells of
    CTM states, where a state that gives the matrix unit to a FIFO only
    with a matrix that passes the check is left such a state. *)
Theorem vc4_ctm_atomic_check_footprint (vc4 : vc4_dev) (m : machine)
    (r : Z) (m' : machine) :
  published_cells vc4 m ->
  vc4_ctm_atomic_check vc4 m = Some (r, m') ->
  touches vc4 ctm_footprint m m'.
Proof. apply within_vc4_ctm_atomic_check. Qed.

(** X19. What [vc4_load_tracker_atomic_check] touches, whatever it answers:
    nothing of the CRTCs and planes of the transaction; of the private
    states, a copy of the load tracker state that it may add to the
    transaction, and the cells of load tracker states. *)
Theorem vc4_load_tracker_atomic_check_footprint (vc4 : vc4_dev) (m : machine)
    (r : Z) (m' : machine) :
  published_cells vc4 m ->
  vc4_load_tracker_atomic_check vc4 m = Some (r, m') ->
  touches vc4 load_tracker_footprint m m'.
Proof. apply within_vc4_load_tracker_atomic_check. Qed.

(** X20. What [vc4_core_clock_atomic_check] touches, whatever it answers:
    nothing of the CRTCs and planes of the transaction; of the private
    states, copies of the load tracker and HVS states that it may add to
    the transaction, and the cells of HVS states, of which it leaves the
    free channels. *)
Theorem vc4_core_clock_atomic_check_footprint (BITS_PER_LONG : Z)
    (vc4 : vc4_dev) (m : machine) (r : Z) (m' : machine) :
  published_cells vc4 m ->
  vc4_core_clock_atomic_check BITS_PER_LONG vc4 m = Some (r, m') ->
  touches vc4 core_clock_footprint m m'.
Proof. apply within_vc4_core_clock_atomic_check. Qed.

(** * Examples *)

(** [vc4_kms_load] on the example device. *)
Example ex_kms_load :
  vc4_kms_load false ex_load_env ex_vc4_0 ex_boot
  = Some ((0, ex_vc4), ex_booted).
Proof. reflexivity. Qed.

(** Settles a statement about every slot of a concrete transaction. *)
Ltac ex_slots :=
  let j := fresh "j" in let o := fresh "o" in
  let Hj := fresh "Hj" in let Ho := fresh "Ho" in
  intros j o Hj Ho;
  repeat (destruct j as [|j];
          [try lia; try (vm_compute in Ho; injection Ho as <-; reflexivity)
          |try lia; try (vm_compute in Ho; discriminate)]).

(** Settles a bound on every scalar of a concrete matrix. *)
Ltac ex_scalars :=
  let c := fresh "c" in let Hc := fresh "Hc" in
  intros c Hc; apply list_elem_of_In in Hc; cbn in Hc;
  repeat (destruct Hc as [<-|Hc]; [lia|]); contradiction.

(** Discharges the first hypothesis of [H] by [tac]. *)
Ltac ex_given H tac :=
  match type of H with
  | ?P -> _ => let h := fresh "h" in assert P as h by tac; specialize (H h); clear h
  end.

(** Runs the code on a concrete input. *)
Ltac ex_run := vm_compute; reflexivity.

(** The second CRTC, on channel 1, is the only one to claim the matrix unit,
    with the identity matrix, while the slot is free: the check answers 0
    and the slot becomes 2. *)
Lemma ctm_claim_admission_witness :
  exists m',
    vc4_ctm_atomic_check (dev_private ex_dev1) (ex_machine ex_dev1 ex_claim1)
    = Some (0, m') /\
    mem m' !! 5%nat
    = Some (CtmState {| ctm := Some (data ex_identity); fifo := 2 |}).
Proof.
  pose proof (ctm_claim_admission (dev_private ex_dev1)
                (ex_machine ex_dev1 ex_claim1)
                (ex_after (vc4_get_ctm_state (dev_private ex_dev1))
                   (ex_machine ex_dev1 ex_claim1))
                5%nat zero_ctm_state 1%nat
                (ex_slot (ex_machine ex_dev1 ex_claim1) 1) ex_identity) as H.
  ex_given H ex_run. ex_given H ex_run. ex_given H ltac:(vm_compute; lia).
  ex_given H ex_run. ex_given H ex_run. ex_given H ex_run.
  ex_given H ex_slots.
  destruct H as (_ & H & _).
  ex_given H ex_slots. ex_given H ltac:(right; left; reflexivity).
  ex_given H ex_run. ex_given H ex_run. ex_given H ex_scalars.
  destruct H as (m' & Hrun & Hcell). exists m'. split; [exact Hrun|exact Hcell].
Defined.

(** The second CRTC claims the unit with a matrix that holds 2.0: the check
    answers [-EINVAL]. *)
Lemma ctm_scalar_admission_witness :
  (exists m',
     vc4_ctm_atomic_check (dev_private ex_dev1)
       (ex_machine ex_dev1 ex_claim1_double) = Some (- EINVAL, m')) /\
  scalar_refused (2 ^ 32) = false /\
  scalar_refused (2 ^ 33) = true.
Proof.
  pose proof (ctm_scalar_admission (dev_private ex_dev1)
                (ex_machine ex_dev1 ex_claim1_double)
                (ex_after (vc4_get_ctm_state (dev_private ex_dev1))
                   (ex_machine ex_dev1 ex_claim1_double))
                5%nat zero_ctm_state 1%nat
                (ex_slot (ex_machine ex_dev1 ex_claim1_double) 1) ex_double) as H.
  ex_given H ex_run. ex_given H ex_run. ex_given H ltac:(vm_compute; lia).
  ex_given H ex_run. ex_given H ex_run. ex_given H ex_run.
  ex_given H ex_slots. ex_given H ltac:(right; left; reflexivity).
  ex_given H ex_run. ex_given H ex_scalars.
  destruct H as (_ & (m' & Hrun) & H1 & _ & H2).
  split; [exists m'; exact Hrun|]. split; assumption.
Defined.

(** The second CRTC owns the unit and gives it up while the first, which
    comes before it in the transaction, claims it: the check answers 0 and
    the slot becomes 1. *)
Lemma ctm_release_then_claim_witness :
  exists m',
    vc4_ctm_atomic_check (dev_private ex_dev2) (ex_machine ex_dev2 ex_swap_ctm)
    = Some (0, m') /\
    mem m' !! 8%nat
    = Some (CtmState {| ctm := Some (data ex_identity); fifo := 1 |}).
Proof.
  pose proof (ctm_release_then_claim (dev_private ex_dev2)
                (ex_machine ex_dev2 ex_swap_ctm)
                (ex_after (vc4_get_ctm_state (dev_private ex_dev2))
                   (ex_machine ex_dev2 ex_swap_ctm))
                8%nat {| ctm := Some (data ex_identity); fifo := 2 |}
                1%nat 0%nat
                (ex_slot (ex_machine ex_dev2 ex_swap_ctm) 1)
                (ex_slot (ex_machine ex_dev2 ex_swap_ctm) 0) ex_identity) as H.
  ex_given H ex_run. ex_given H ex_run. ex_given H ltac:(vm_compute; lia).
  ex_given H ex_run. ex_given H ex_run. ex_given H ex_run.
  ex_given H ex_run. ex_given H ex_run. ex_given H ex_slots.
  ex_given H ex_run. ex_given H ex_run. ex_given H ex_scalars.
  destruct H as (_ & m' & Hrun & Hcell & _).
  exists m'. split; [exact Hrun|exact Hcell].
Defined.

(** A plane that brings a memory bus load of [2^31] is counted and, the
    tracker being enabled, refused with [-ENOSPC]. *)
Lemma vc4_load_tracker_atomic_check_spec_witness :
  exists m',
    vc4_load_tracker_atomic_check ex_vc4 ex_planes = Some (- ENOSPC, m') /\
    mem m' !! 3%nat
    = Some (LoadState {| hvs_load := 1000; membus_load := 2 ^ 31 |}).
Proof.
  pose proof (vc4_load_tracker_atomic_check_spec ex_vc4 ex_planes
                (ex_after (drm_atomic_get_private_obj_state ex_vc4 load_tracker)
                   ex_planes)
                3%nat zero_load_tracker_state) as H.
  ex_given H ex_run. ex_given H ex_run.
  ex_given H ltac:(cbn; lia). ex_given H ltac:(cbn; lia).
  destruct H as (_ & m' & Hrun & Hcell).
  exists m'. split; [exact Hrun|exact Hcell].
Defined.

(** Two CRTCs go active over an HVS load of 1000: the core clock is
    [1000 * 40 / 100]. *)
Lemma vc4_core_clock_atomic_check_spec_witness :
  exists m',
    vc4_core_clock_atomic_check 64 ex_vc4 (ex_machine ex_dev_loaded ex_on_both)
    = Some (0, m') /\
    mem m' !! 4%nat
    = Some (HvsState {| unassigned_channels := 7; num_outputs := 2;
                        fifo_load := 0; core_clock_rate := 400 |}).
Proof.
  pose proof (vc4_core_clock_atomic_check_spec 64 ex_vc4
                (ex_machine ex_dev_loaded ex_on_both)
                (ex_after (drm_atomic_get_private_obj_state ex_vc4 load_tracker)
                   (ex_machine ex_dev_loaded ex_on_both))
                (ex_after (vc4_hvs_get_global_state ex_vc4)
                   (ex_after (drm_atomic_get_private_obj_state ex_vc4 load_tracker)
                      (ex_machine ex_dev_loaded ex_on_both)))
                3%nat 4%nat
                {| hvs_load := 1000; membus_load := 0 |}
                {| unassigned_channels := 7; num_outputs := 0; fifo_load := 0;
                   core_clock_rate := 0 |}) as H.
  ex_given H ex_run. ex_given H ex_run. ex_given H ex_run. ex_given H ex_run.
  ex_given H ltac:(cbn; lia). ex_given H ltac:(cbn; lia).
  destruct H as (_ & m' & Hrun & Hcell).
  exists m'. split; [exact Hrun|exact Hcell].
Defined.

(** The first CRTC goes on: it is given a channel among the free channels it
    reaches, and its muxing is marked. *)
Lemma pv_muxing_crtc_spec_witness :
  exists m' e' channel,
    pv_muxing_crtc ex_vc4 (Addr 3) 0
      (ex_slot (ex_machine ex_dev0 ex_on_both) 0) tt
      (ex_after (vc4_hvs_get_global_state ex_vc4) (ex_machine ex_dev0 ex_on_both))
    = Some (Continue tt, m') /\
    Z.testbit (Z.land 7 1) channel = true /\
    crtcs (txn m') !! 0%nat = Some (Some e') /\
    assigned_channel (new_state e') = channel /\
    update_muxing (new_state e') = true.
Proof.
  pose proof (pv_muxing_crtc_spec ex_vc4 3 0
                (ex_slot (ex_machine ex_dev0 ex_on_both) 0)
                (ex_after (vc4_hvs_get_global_state ex_vc4)
                   (ex_machine ex_dev0 ex_on_both))
                {| unassigned_channels := 7; num_outputs := 0; fifo_load := 0;
                   core_clock_rate := 0 |}) as H.
  ex_given H ex_run. ex_given H ex_run. ex_given H ex_run.
  ex_given H ltac:(cbn; lia). ex_given H ltac:(cbn; discriminate).
  destruct H as (_ & H). ex_given H ex_run. destruct H as (_ & H).
  ex_given H ltac:(vm_compute; discriminate).
  destruct H as (m' & s' & e' & channel & Hrun & Hbit & _ & _ & _ & He' & Hch & Hmux).
  exists m', e', channel. repeat split; assumption.
Defined.

(** Two CRTCs that both reach channel 0 alone go on together: the request is
    refused with [-EINVAL] and the device is as it was. *)
Lemma rejected_check_keeps_published_state_witness :
  drm_mode_atomic_ioctl 64 ex_helper ex_dev_narrow ex_on_both
  = Some (- EINVAL, ex_dev_narrow).
Proof.
  pose proof (rejected_check_keeps_published_state 64 ex_helper) as H.
  ex_given H ltac:(intros st; reflexivity).
  destruct H as (_ & _ & H).
  specialize (H ex_dev_narrow ex_on_both (- EINVAL)
                (ex_after (vc4_atomic_check 64 ex_helper ex_vc4)
                   (ex_machine ex_dev_narrow ex_on_both))).
  ex_given H ex_run. ex_given H ltac:(discriminate).
  exact H.
Defined.

(** The channels of the device after both CRTCs went on and the second took
    the matrix unit. *)
Lemma hvs_channels_partition_witness :
  exists h,
    dev_mem ex_dev2 !! 5%nat = Some (HvsState h) /\
    (forall c i, channel_free h c -> ~ channel_of ex_dev2 i c) /\
    (forall c, 0 <= c < 3 <->
               (channel_free h c \/ exists i, channel_of ex_dev2 i c)) /\
    (forall c i j, channel_of ex_dev2 i c -> channel_of ex_dev2 j c -> i = j) /\
    (firmware_kms (dev_private ex_dev2) = false ->
     forall i crtc s, dev_crtcs ex_dev2 !! i = Some (crtc, s) -> enable s = true ->
                      0 <= assigned_channel s < 3).
Proof.
  pose proof (hvs_channels_partition 64 ex_helper false ex_load_env ex_vc4_0
                ex_vc4 ex_boot
                ex_booted [(ex_pv0, ex_off); (ex_pv1, ex_off)] []
                [ex_on_both; ex_claim1] ex_dev2) as H.
  ex_given H ltac:(intros st; repeat split).
  ex_given H ex_run. ex_given H ltac:(repeat constructor). ex_given H ex_run.
  exact H.
Defined.


(** The second CRTC owns the matrix unit since an earlier commit.  A request
    in which the first CRTC alone claims the unit, with the identity matrix,
    is refused with [-EINVAL]. *)
Lemma ctm_single_claim_refused :
  drm_mode_atomic_ioctls 64 ex_helper ex_dev0 [ex_on_both; ex_claim1]
  = Some ex_dev2 /\
  map slot_claims (crtcs (txn (ex_machine ex_dev2 ex_claim0))) = [true; false] /\
  existsb scalar_refused (matrix (data ex_identity)) = false /\
  (exists m',
     vc4_ctm_atomic_check (dev_private ex_dev2) (ex_machine ex_dev2 ex_claim0)
     = Some (- EINVAL, m')) /\
  drm_mode_atomic_ioctl 64 ex_helper ex_dev2 ex_claim0
  = Some (- EINVAL, ex_dev2).
Proof.
  split; [reflexivity|]. split; [reflexivity|]. split; [reflexivity|].
  split; [eexists; reflexivity|reflexivity].
Qed.

(** Both CRTCs claim the unit in one transaction, the second with a matrix
    that holds 2.0.  The loop over the scalars of the first matrix leaves
    the index of the loop over the CRTCs at 9: the second claim is not
    looked at and the check answers 0. *)
Lemma ctm_second_claim_unexamined :
  map slot_claims (crtcs (txn (ex_machine ex_dev1 ex_claim_both))) = [true; true] /\
  existsb scalar_refused (matrix (data ex_double)) = true /\
  exists m',
    vc4_ctm_atomic_check (dev_private ex_dev1) (ex_machine ex_dev1 ex_claim_both)
    = Some (0, m') /\
    mem m' !! 5%nat
    = Some (CtmState {| ctm := Some (data ex_identity); fifo := 1 |}).
Proof.
  split; [reflexivity|]. split; [reflexivity|].
  eexists. split; reflexivity.
Qed.


(** C5. Two CRTCs claim the matrix unit in one transaction, the second with
    a matrix that holds 2.0 ([2^33], above [2^32] with bit 63 cleared).
    Claimed alone, that matrix makes the check answer [-EINVAL].  Claimed
    after another claim of the same transaction it is not looked at: the
    loop over the scalars of the first matrix has left the index of the
    loop over the CRTCs at 9, the check answers 0 and the request is
    accepted. *)
Lemma ctm_later_scalar_accepted :
  existsb scalar_refused (matrix (data ex_double)) = true /\
  (exists m',
     vc4_ctm_atomic_check (dev_private ex_dev1)
       (ex_machine ex_dev1 ex_claim1_double) = Some (- EINVAL, m')) /\
  map slot_claims (crtcs (txn (ex_machine ex_dev1 ex_claim_both)))
  = [true; true] /\
  (exists m',
     vc4_ctm_atomic_check (dev_private ex_dev1)
       (ex_machine ex_dev1 ex_claim_both) = Some (0, m')) /\
  (exists dev',
     drm_mode_atomic_ioctl 64 ex_helper ex_dev1 ex_claim_both
     = Some (0, dev')).
Proof.
  split; [ex_run|]. split; [eexists; ex_run|].
  split; [ex_run|]. split; eexists; ex_run.
Qed.

(** C8. With a 32-bit [unsigned long], an HVS load of 100000000 and one
    output active after the transaction, the check answers 0 and stores
    17050327 as [core_clock_rate]: [pixel_rate * 60] is 6000000000, which
    wraps to 1705032704 before the division by 100.  60 % of the load is
    60000000, which is what the check stores with a 64-bit
    [unsigned long]. *)
Lemma core_clock_rate_wraps :
  (exists m',
     vc4_core_clock_atomic_check 32 ex_vc4 (ex_machine ex_dev_heavy ex_on_first)
     = Some (0, m') /\
     mem m' !! 4%nat
     = Some (HvsState {| unassigned_channels := 7; num_outputs := 1;
                         fifo_load := 0; core_clock_rate := 17050327 |})) /\
  (exists m',
     vc4_core_clock_atomic_check 64 ex_vc4 (ex_machine ex_dev_heavy ex_on_first)
     = Some (0, m') /\
     mem m' !! 4%nat
     = Some (HvsState {| unassigned_channels := 7; num_outputs := 1;
                         fifo_load := 0; core_clock_rate := 60000000 |})) /\
  Z.max 0 (100000000 * 60 / 100) = 60000000 /\
  ulong 32 (100000000 * 60) = 1705032704.
Proof.
  split; [eexists; split; ex_run|].
  split; [eexists; split; ex_run|].
  split; ex_run.
Qed.

(** ** Examples of the further properties *)

Lemma ex_VC4_SET_FIELD_mask val f k :
  Z.testbit (ex_field_MASK f) k = false ->
  Z.testbit (ex_VC4_SET_FIELD val f) k = false.
Proof.
  intros H. unfold ex_VC4_SET_FIELD. rewrite Z.land_spec, H.
  apply andb_false_r.
Qed.

Lemma ex_helper_keeps : helper_keeps ex_helper.
Proof. intros st. repeat split. Qed.

(** Settles a property of every element of a concrete list. *)
Ltac ex_elements tac :=
  let c := fresh "c" in let Hc := fresh "Hc" in
  intros c Hc; apply list_elem_of_In in Hc; cbn in Hc;
  repeat (destruct Hc as [<-|Hc]; [tac|]); contradiction.

(** The published cells of the example devices are cells. *)
Ltac ex_valid := intros [| |]; cbn; lia.

(** -0.25 and its nine fractional bits. *)
Lemma s0_9_round_trip_witness :
  vc4_ctm_s31_32_to_s0_9 (1 * 2 ^ 63 + 128 * 2 ^ 23) = 1 * 2 ^ 9 + 128.
Proof. apply (s0_9_round_trip 1 128); lia. Defined.

(** 0.3 and 0.7 in S31.32. *)
Lemma s0_9_truncates_witness :
  vc4_ctm_s31_32_to_s0_9 (0 * 2 ^ 63 + 1288490188)
  <= vc4_ctm_s31_32_to_s0_9 (0 * 2 ^ 63 + 3006477107) /\
  0 <= vc4_ctm_s31_32_to_s0_9 (0 * 2 ^ 63 + 1288490188) - 0 * 2 ^ 9 < 2 ^ 9 /\
  (vc4_ctm_s31_32_to_s0_9 (0 * 2 ^ 63 + 1288490188) - 0 * 2 ^ 9) * 2 ^ 23
  <= 1288490188 /\
  (1288490188 < 2 ^ 32 ->
   1288490188
   < (vc4_ctm_s31_32_to_s0_9 (0 * 2 ^ 63 + 1288490188) - 0 * 2 ^ 9 + 1) * 2 ^ 23).
Proof. apply (s0_9_truncates 0 1288490188 3006477107); lia. Defined.

(** The 1.0 of the identity matrix is written as [0x1ff]. *)
Lemma admitted_scalars_convert_closely_witness :
  0 <= vc4_ctm_s31_32_to_s0_9 (2 ^ 32) < 2 ^ 10 /\
  Z.testbit (vc4_ctm_s31_32_to_s0_9 (2 ^ 32)) 9 = Z.testbit (2 ^ 32) 63 /\
  0 <= Z.clearbit (2 ^ 32) 63
       - (vc4_ctm_s31_32_to_s0_9 (2 ^ 32) mod 2 ^ 9) * 2 ^ 23 <= 2 ^ 23.
Proof.
  apply (admitted_scalars_convert_closely (matrix (data ex_identity)) 9 (2 ^ 32)).
  - ex_elements ltac:(lia).
  - reflexivity.
  - reflexivity.
  - apply list_elem_of_In. left. reflexivity.
Defined.

(** A CRTC active on channel 2: [SCALER_DISPEOLN] is as before, and so is
    bit 0 of [SCALER_DISPCTRL]. *)
Lemma vc4_hvs_pv_muxing_commit_frame_witness :
  vc4_hvs_pv_muxing_commit ex_field_MASK ex_VC4_SET_FIELD ex_txn_channel_2
    ex_regs SCALER_DISPEOLN = ex_regs SCALER_DISPEOLN /\
  Z.testbit
    (vc4_hvs_pv_muxing_commit ex_field_MASK ex_VC4_SET_FIELD ex_txn_channel_2
       ex_regs SCALER_DISPCTRL) 0
  = Z.testbit (ex_regs SCALER_DISPCTRL) 0.
Proof.
  pose proof (vc4_hvs_pv_muxing_commit_frame ex_field_MASK ex_VC4_SET_FIELD
                ex_VC4_SET_FIELD_mask ex_txn_channel_2 ex_regs) as (H1 & H2 & _).
  split; [apply H1; discriminate|apply H2; [lia|reflexivity]].
Defined.

(** The same CRTC on a VC5, by its HVS output 3: [SCALER_OLEDOFFS] is as
    before, and so is bit 0 of [SCALER_DISPCTRL]. *)
Lemma vc5_hvs_pv_muxing_commit_frame_witness :
  vc5_hvs_pv_muxing_commit ex_field_MASK ex_VC4_SET_FIELD ex_txn_channel_2
    ex_regs SCALER_OLEDOFFS = ex_regs SCALER_OLEDOFFS /\
  Z.testbit
    (vc5_hvs_pv_muxing_commit ex_field_MASK ex_VC4_SET_FIELD ex_txn_channel_2
       ex_regs SCALER_DISPCTRL) 0
  = Z.testbit (ex_regs SCALER_DISPCTRL) 0.
Proof.
  pose proof (vc5_hvs_pv_muxing_commit_frame ex_field_MASK ex_VC4_SET_FIELD
                ex_VC4_SET_FIELD_mask ex_txn_channel_2 ex_regs) as (H1 & H2 & _).
  split; [apply H1; now left|].
  apply (H2 SCALER_DISPCTRL_DSP3_MUX 0); [now left|lia|reflexivity].
Defined.

(** A plane is shown: the load tracker holds its loads. *)
Lemma load_tracker_counts_active_planes_witness :
  exists l,
    dev_mem ex_dev_shown !! load_tracker_state (dev_private ex_dev_shown)
    = Some (LoadState l) /\
    hvs_load l = u64 (planes_load plane_hvs_load (dev_planes ex_dev_shown)) /\
    membus_load l
    = u64 (planes_load plane_membus_load (dev_planes ex_dev_shown)).
Proof.
  pose proof (load_tracker_counts_active_planes 64 ex_helper false ex_load_env
                ex_vc4_0 ex_vc4 ex_boot ex_booted
                [(ex_pv0, ex_off); (ex_pv1, ex_off)] [ex_plane_off]
                [ex_show_plane] ex_dev_shown) as H.
  ex_given H lia. ex_given H ltac:(exact ex_helper_keeps).
  ex_given H ex_run. ex_given H ltac:(repeat constructor). ex_given H ex_run.
  exact H.
Defined.

(** A plane is shown: its loads are within the limits. *)
Lemma published_load_within_limits_witness :
  u64 (planes_load plane_membus_load (dev_planes ex_dev_shown))
  <= SZ_1G + SZ_512M /\
  u64 (planes_load plane_hvs_load (dev_planes ex_dev_shown)) <= 240000000.
Proof.
  pose proof (published_load_within_limits 64 ex_helper ex_load_env
                ex_vc4_0 ex_vc4 ex_boot ex_booted
                [(ex_pv0, ex_off); (ex_pv1, ex_off)] [ex_plane_off]
                [ex_show_plane] ex_dev_shown) as H.
  ex_given H lia. ex_given H ltac:(exact ex_helper_keeps).
  ex_given H ex_run. ex_given H ltac:(repeat constructor). ex_given H ex_run.
  exact H.
Defined.

(** A plane of HVS load 1000 is shown while no CRTC is active: the clock
    rate is 600. *)
Lemma published_core_clock_rate_witness :
  exists l h,
    dev_mem ex_dev_shown !! load_tracker_state (dev_private ex_dev_shown)
    = Some (LoadState l) /\
    dev_mem ex_dev_shown !! hvs_channels_state (dev_private ex_dev_shown)
    = Some (HvsState h) /\
    core_clock_rate h
    = Z.max (fifo_load h)
        (if num_outputs h >? 1
         then ulong 64 (ulong 64 (hvs_load l) * 40) / 100
         else ulong 64 (ulong 64 (hvs_load l) * 60) / 100).
Proof.
  pose proof (published_core_clock_rate 64 ex_helper false ex_load_env
                ex_vc4_0 ex_vc4 ex_boot ex_booted
                [(ex_pv0, ex_off); (ex_pv1, ex_off)] [ex_plane_off]
                [ex_show_plane] ex_dev_shown) as H.
  ex_given H lia. ex_given H ltac:(exact ex_helper_keeps).
  ex_given H ex_run. ex_given H ex_run.
  exact H.
Defined.

(** Both CRTCs are on: the HVS state counts two outputs. *)
Lemma hvs_state_counts_active_crtcs_witness :
  exists h,
    dev_mem ex_dev1 !! hvs_channels_state (dev_private ex_dev1)
    = Some (HvsState h) /\
    num_outputs h = u32 (crtcs_active (dev_crtcs ex_dev1)) /\
    fifo_load h = ulong 64 (crtcs_load (dev_crtcs ex_dev1)).
Proof.
  pose proof (hvs_state_counts_active_crtcs 64 ex_helper false ex_load_env
                ex_vc4_0 ex_vc4 ex_boot ex_booted
                [(ex_pv0, ex_off); (ex_pv1, ex_off)] []
                [ex_on_both] ex_dev1) as H.
  ex_given H lia. ex_given H ltac:(exact ex_helper_keeps).
  ex_given H ex_run. ex_given H ltac:(repeat constructor). ex_given H ex_run.
  exact H.
Defined.

(** The second CRTC has taken the matrix unit with the identity matrix:
    [vc4_ctm_commit] returns. *)
Lemma vc4_ctm_commit_returns_witness :
  exists c regs',
    dev_mem ex_dev2 !! ctm_manager_state (dev_private ex_dev2)
    = Some (CtmState c) /\
    (fifo c <> 0 -> exists mx, ctm c = Some mx /\ admitted mx) /\
    vc4_ctm_commit ex_VC4_SET_FIELD (dev_private ex_dev2) (dev_mem ex_dev2)
      ex_regs = Some regs'.
Proof.
  pose proof (vc4_ctm_commit_returns 64 ex_helper false ex_load_env
                ex_vc4_0 ex_vc4 ex_boot ex_booted
                [(ex_pv0, ex_off); (ex_pv1, ex_off)] []
                [ex_on_both; ex_claim1] ex_dev2 ex_VC4_SET_FIELD ex_regs) as H.
  ex_given H lia. ex_given H ltac:(exact ex_helper_keeps).
  ex_given H ex_run. ex_given H ex_run.
  exact H.
Defined.

(** Two commits; the first holds the semaphore and the second waits for it:
    the first can go on. *)
Lemma commits_never_deadlock_witness :
  exists s,
    run (start (map calls_of [ex_commit false; ex_commit true])) [0; 0; 1]%nat
    = Some s /\
    sched s 1 = None /\
    (((forall t th, threads s !! t = Some th -> pending th = []) /\
      sem s = 1%nat)
     \/ (exists t s', sched s t = Some s')).
Proof.
  eexists. split; [ex_run|]. split; [ex_run|].
  apply (commits_never_deadlock [ex_commit false; ex_commit true]
           [0; 0; 1]%nat).
  - ex_elements ltac:(reflexivity).
  - ex_run.
Defined.

(** A commit without a copy of the HVS state has made its seven calls; a
    second commit makes its first call: the semaphore counts 0. *)
Lemma commit_without_hvs_state_keeps_gate_witness :
  returned (calls_of ex_commit_bare) = 0 /\
  sem ex_gate_kept_later = 0%nat /\
  forall k x, threads ex_gate_kept_later !! k = Some x ->
              applying_hardware x = false.
Proof.
  apply (commit_without_hvs_state_keeps_gate
           [ex_commit_bare; ex_commit false]
           [0; 0; 0; 0; 0; 0; 0]%nat [1%nat] ex_gate_kept ex_gate_kept_later
           0%nat ex_commit_bare ex_gate_kept_thread);
    ex_run.
Defined.

(** The wait for the fences is interrupted. *)
Lemma failed_commit_publishes_nothing_witness :
  existsb is_swap_state
    (vc4_atomic_commit ex_vc4 ex_txn_hvs false false ex_env_interrupted) = false /\
  existsb is_queue_work
    (vc4_atomic_commit ex_vc4 ex_txn_hvs false false ex_env_interrupted) = false /\
  gives_back 0
    (vc4_atomic_commit ex_vc4 ex_txn_hvs false false ex_env_interrupted) = true /\
  length (filter is_down
            (vc4_atomic_commit ex_vc4 ex_txn_hvs false false ex_env_interrupted))
  = length (filter is_up
              (vc4_atomic_commit ex_vc4 ex_txn_hvs false false ex_env_interrupted)) /\
  (In (wait_for_fences true)
     (vc4_atomic_commit ex_vc4 ex_txn_hvs false false ex_env_interrupted) ->
   In cleanup_planes
     (vc4_atomic_commit ex_vc4 ex_txn_hvs false false ex_env_interrupted)).
Proof.
  apply (failed_commit_publishes_nothing ex_vc4 ex_txn_hvs false false
           ex_env_interrupted).
  vm_compute. discriminate.
Defined.

(** Both CRTCs go on, the wait for the fences is interrupted: the request
    answers [-EINTR] and the device is as it was. *)
Lemma failed_request_keeps_device_witness :
  exists dev',
    drm_mode_atomic_ioctl 64 ex_helper ex_dev0 ex_on_both_interrupted
    = Some (- EINTR, dev') /\
    dev' = ex_dev0.
Proof.
  eexists. split; [ex_run|].
  apply (failed_request_keeps_device 64 ex_helper ex_dev0
           ex_on_both_interrupted (- EINTR)); [ex_run|vm_compute; discriminate].
Defined.

(** Both CRTCs go on and no memory is left: the muxing check does not
    return. *)
Lemma pv_muxing_check_without_hvs_state_witness :
  vc4_pv_muxing_atomic_check ex_vc4 ex_no_memory = None.
Proof.
  exact (pv_muxing_check_without_hvs_state ex_vc4 ex_no_memory eq_refl
           (or_intror eq_refl)).
Defined.

(** Both CRTCs go on. *)
Lemma vc4_pv_muxing_atomic_check_footprint_witness :
  touches ex_vc4 pv_muxing_footprint (ex_machine ex_dev0 ex_on_both)
    (ex_after (vc4_pv_muxing_atomic_check ex_vc4)
       (ex_machine ex_dev0 ex_on_both)).
Proof.
  apply (vc4_pv_muxing_atomic_check_footprint ex_vc4
           (ex_machine ex_dev0 ex_on_both) 0); [ex_valid|ex_run].
Defined.

(** The second CRTC claims the matrix unit. *)
Lemma vc4_ctm_atomic_check_footprint_witness :
  touches (dev_private ex_dev1) ctm_footprint (ex_machine ex_dev1 ex_claim1)
    (ex_after (vc4_ctm_atomic_check (dev_private ex_dev1))
       (ex_machine ex_dev1 ex_claim1)).
Proof.
  apply (vc4_ctm_atomic_check_footprint (dev_private ex_dev1)
           (ex_machine ex_dev1 ex_claim1) 0); [ex_valid|ex_run].
Defined.

(** A plane of too high a load is shown. *)
Lemma vc4_load_tracker_atomic_check_footprint_witness :
  touches ex_vc4 load_tracker_footprint ex_planes
    (ex_after (vc4_load_tracker_atomic_check ex_vc4) ex_planes).
Proof.
  apply (vc4_load_tracker_atomic_check_footprint ex_vc4 ex_planes (- ENOSPC));
    [ex_valid|ex_run].
Defined.

(** Both CRTCs go active. *)
Lemma vc4_core_clock_atomic_check_footprint_witness :
  touches ex_vc4 core_clock_footprint (ex_machine ex_dev_loaded ex_on_both)
    (ex_after (vc4_core_clock_atomic_check 64 ex_vc4)
       (ex_machine ex_dev_loaded ex_on_both)).
Proof.
  apply (vc4_core_clock_atomic_check_footprint 64 ex_vc4
           (ex_machine ex_dev_loaded ex_on_both) 0); [ex_valid|ex_run].
Defined.
